(** * J1939 / J1708 dashboard core: a shallow embedding and its properties

    The development follows the firmware sources:
    - [firmware/src/can/j1939_parser.cpp]   identifier decode, BAM transport, DM1
    - [firmware/src/j1708/j1708_parser.cpp] checksum, byte framer, message parse
    - [firmware/lib/data_manager/data_manager.cpp] parameter store
    - [watch_list_manager.cpp]              severity bands
    - [nvs_storage.cpp]                     fault history, boot/shutdown state

    C integers are [Z] with the wrap-around of their width written out;
    arrays are lists; [float] values are primitive floats, used only for
    storage and comparison. *)

From Stdlib Require Import ZArith Lia Bool.
From Stdlib Require Import Floats.PrimFloat.
From stdpp Require Import gmap strings list.

Local Open Scope Z_scope.

(** ** Fixed-width unsigned integers *)

Module UInt.

Definition u8 (x : Z) : Z := x mod 2 ^ 8.
Definition u16 (x : Z) : Z := x mod 2 ^ 16.
Definition u32 (x : Z) : Z := x mod 2 ^ 32.

Definition is_u8 (x : Z) : Prop := 0 <= x < 2 ^ 8.
Definition is_u16 (x : Z) : Prop := 0 <= x < 2 ^ 16.
Definition is_u32 (x : Z) : Prop := 0 <= x < 2 ^ 32.

End UInt.

Import UInt.

(** ** J1939 identifier decode ([j1939_parser.cpp], lines 43-86) *)

Module J1939.

(** [uint32_t j1939_extract_pgn(uint32_t can_id)] *)
Definition j1939_extract_pgn (can_id : Z) : Z :=
  let pdu_format := u8 (Z.land (Z.shiftr can_id 16) 0xFF) in
  let pdu_specific := u8 (Z.land (Z.shiftr can_id 8) 0xFF) in
  let data_page := u8 (Z.land (Z.shiftr can_id 24) 0x03) in
  if pdu_format <? 240 then
    Z.lor (u32 (Z.shiftl data_page 16)) (u32 (Z.shiftl pdu_format 8))
  else
    Z.lor (Z.lor (u32 (Z.shiftl data_page 16)) (u32 (Z.shiftl pdu_format 8)))
          pdu_specific.

(** [uint8_t j1939_extract_source_address(uint32_t can_id)] *)
Definition j1939_extract_source_address (can_id : Z) : Z :=
  u8 (Z.land can_id 0xFF).

(** [uint8_t j1939_extract_priority(uint32_t can_id)] *)
Definition j1939_extract_priority (can_id : Z) : Z :=
  u8 (Z.land (Z.shiftr can_id 26) 0x07).

(** [uint8_t j1939_extract_destination(uint32_t can_id)] *)
Definition j1939_extract_destination (can_id : Z) : Z :=
  let pdu_format := u8 (Z.land (Z.shiftr can_id 16) 0xFF) in
  if pdu_format <? 240 then u8 (Z.land (Z.shiftr can_id 8) 0xFF) else 0xFF.

(** [uint32_t j1939_build_can_id(uint32_t pgn, uint8_t source_address,
    uint8_t priority)]; the shifts are taken in 32 bits. *)
Definition j1939_build_can_id (pgn source_address priority : Z) : Z :=
  Z.lor (Z.lor (u32 (Z.shiftl (Z.land priority 0x07) 26)) (u32 (Z.shiftl pgn 8)))
        source_address.

(** The PDU-format byte of a PGN: bits 15..8. *)
Definition pgn_pdu_format (pgn : Z) : Z := (pgn / 2 ^ 8) mod 2 ^ 8.

(** ** J1939 transport protocol, BAM only ([j1939_parser.cpp], lines 278-391) *)

Definition J1939_MAX_DATA_LENGTH : Z := 8.
Definition J1939_TP_MAX_LENGTH : Z := 1785.
Definition J1939_TP_TIMEOUT_MS : Z := 750.
Definition J1939_MAX_ACTIVE_TP : Z := 4.
Definition PGN_TP_CM : Z := 60416.
Definition PGN_TP_DT : Z := 60160.
Definition TP_CM_BAM : Z := 32.

(** [j1939_message_t]; [msg_data] is the 8-byte array. *)
Record j1939_message_t : Type := {
  msg_pgn : Z;
  msg_source_address : Z;
  msg_destination : Z;
  msg_priority : Z;
  msg_data : list Z;
  msg_data_length : Z;
  msg_timestamp_ms : Z
}.

Inductive tp_state_t : Type :=
  | TP_STATE_IDLE
  | TP_STATE_RECEIVING
  | TP_STATE_COMPLETE
  | TP_STATE_ERROR.

#[global] Instance tp_state_t_eq_dec : EqDecision tp_state_t.
Proof. solve_decision. Defined.

(** [tp_session_t]; [tp_buffer] is [uint8_t buffer[J1939_TP_MAX_LENGTH]]. *)
Record tp_session_t : Type := {
  tp_state : tp_state_t;
  tp_target_pgn : Z;
  tp_source_address : Z;
  tp_total_size : Z;
  tp_total_packets : Z;
  tp_received_packets : Z;
  tp_buffer : list Z;
  tp_last_packet_time_ms : Z
}.

(** [j1939_parser_context_t] *)
Record j1939_parser_context_t : Type := {
  tp_sessions : list tp_session_t;
  messages_received : Z;
  messages_parsed : Z;
  parse_errors : Z;
  tp_complete_count : Z
}.

(** [data[i]] on a C byte array. *)
Definition byte_at (a : list Z) (i : Z) : Z := nth (Z.to_nat i) a 0.

Definition tp_idle_session : tp_session_t :=
  {| tp_state := TP_STATE_IDLE; tp_target_pgn := 0; tp_source_address := 0;
     tp_total_size := 0; tp_total_packets := 0; tp_received_packets := 0;
     tp_buffer := replicate (Z.to_nat J1939_TP_MAX_LENGTH) 0;
     tp_last_packet_time_ms := 0 |}.

(** [j1939_parser_init]: everything zeroed, all sessions idle. *)
Definition j1939_parser_init : j1939_parser_context_t :=
  {| tp_sessions := replicate (Z.to_nat J1939_MAX_ACTIVE_TP) tp_idle_session;
     messages_received := 0; messages_parsed := 0; parse_errors := 0;
     tp_complete_count := 0 |}.

(** [find_tp_session]: index of the first slot that is not idle and carries
    the source address; [None] is the C [NULL]. *)
Definition find_tp_session (ctx : j1939_parser_context_t) (source_address : Z)
  : option nat :=
  fst <$> list_find
    (fun s => tp_state s <> TP_STATE_IDLE /\ tp_source_address s = source_address)
    (tp_sessions ctx).

(** [allocate_tp_session]: index of the first idle slot. *)
Definition allocate_tp_session (ctx : j1939_parser_context_t) : option nat :=
  fst <$> list_find (fun s => tp_state s = TP_STATE_IDLE) (tp_sessions ctx).

Definition set_session (ctx : j1939_parser_context_t) (idx : nat)
  (s : tp_session_t) : j1939_parser_context_t :=
  {| tp_sessions := <[idx := s]> (tp_sessions ctx);
     messages_received := messages_received ctx;
     messages_parsed := messages_parsed ctx;
     parse_errors := parse_errors ctx;
     tp_complete_count := tp_complete_count ctx |}.

Definition with_state (s : tp_session_t) (st : tp_state_t) : tp_session_t :=
  {| tp_state := st; tp_target_pgn := tp_target_pgn s;
     tp_source_address := tp_source_address s;
     tp_total_size := tp_total_size s; tp_total_packets := tp_total_packets s;
     tp_received_packets := tp_received_packets s; tp_buffer := tp_buffer s;
     tp_last_packet_time_ms := tp_last_packet_time_ms s |}.

(** The copy loop of a data-transfer frame:
    [for (i = 0; i < 7 && (offset + i) < total_size; i++)
       buffer[offset + i] = data[1 + i];]
    started at [i] with [fuel] iterations left. *)
Fixpoint tp_copy_loop (fuel : nat) (i offset total_size : Z) (data buf : list Z)
  : list Z :=
  match fuel with
  | O => buf
  | S fuel' =>
      if (i <? 7) && (offset + i <? total_size) then
        tp_copy_loop fuel' (i + 1) offset total_size data
          (<[Z.to_nat (offset + i) := byte_at data (1 + i)]> buf)
      else buf
  end.

(** [bool j1939_tp_handle_frame(ctx, msg)]: the new context and the result. *)
Definition j1939_tp_handle_frame (ctx : j1939_parser_context_t)
  (msg : j1939_message_t) : j1939_parser_context_t * bool :=
  if msg_pgn msg =? PGN_TP_CM then
    let control_byte := byte_at (msg_data msg) 0 in
    if control_byte =? TP_CM_BAM then
      let session :=
        match find_tp_session ctx (msg_source_address msg) with
        | Some idx => Some idx
        | None => allocate_tp_session ctx
        end in
      match session with
      | None => (ctx, false)
      | Some idx =>
          let s :=
            {| tp_state := TP_STATE_RECEIVING;
               tp_target_pgn :=
                 u32 (Z.lor (Z.lor (byte_at (msg_data msg) 5)
                                   (Z.shiftl (byte_at (msg_data msg) 6) 8))
                            (Z.shiftl (byte_at (msg_data msg) 7) 16));
               tp_source_address := msg_source_address msg;
               tp_total_size :=
                 u16 (Z.lor (byte_at (msg_data msg) 1)
                            (Z.shiftl (byte_at (msg_data msg) 2) 8));
               tp_total_packets := byte_at (msg_data msg) 3;
               tp_received_packets := 0;
               tp_buffer := replicate (Z.to_nat J1939_TP_MAX_LENGTH) 0xFF;
               tp_last_packet_time_ms := msg_timestamp_ms msg |} in
          (set_session ctx idx s, false)
      end
    else (ctx, false)
  else if msg_pgn msg =? PGN_TP_DT then
    match find_tp_session ctx (msg_source_address msg) with
    | None => (ctx, false)
    | Some idx =>
        match tp_sessions ctx !! idx with
        | None => (ctx, false)
        | Some session =>
            if negb (bool_decide (tp_state session = TP_STATE_RECEIVING)) then
              (ctx, false)
            else if u32 (msg_timestamp_ms msg - tp_last_packet_time_ms session)
                    >? J1939_TP_TIMEOUT_MS then
              (set_session ctx idx (with_state session TP_STATE_ERROR), false)
            else
              let seq_num := byte_at (msg_data msg) 0 in
              if negb (seq_num =? tp_received_packets session + 1) then
                (set_session ctx idx (with_state session TP_STATE_ERROR), false)
              else
                let offset := u16 ((seq_num - 1) * 7) in
                let buf :=
                  tp_copy_loop 7 0 offset (tp_total_size session)
                               (msg_data msg) (tp_buffer session) in
                let received := u8 (tp_received_packets session + 1) in
                let s :=
                  {| tp_state := tp_state session;
                     tp_target_pgn := tp_target_pgn session;
                     tp_source_address := tp_source_address session;
                     tp_total_size := tp_total_size session;
                     tp_total_packets := tp_total_packets session;
                     tp_received_packets := received;
                     tp_buffer := buf;
                     tp_last_packet_time_ms := msg_timestamp_ms msg |} in
                if received >=? tp_total_packets session then
                  ({| tp_sessions :=
                        <[idx := with_state s TP_STATE_COMPLETE]> (tp_sessions ctx);
                      messages_received := messages_received ctx;
                      messages_parsed := messages_parsed ctx;
                      parse_errors := parse_errors ctx;
                      tp_complete_count := u32 (tp_complete_count ctx + 1) |},
                   true)
                else (set_session ctx idx s, false)
        end
    end
  else (ctx, false).

(** What [j1939_tp_get_data] leaves behind: the context, the returned length,
    the caller's [*pgn] and the caller's [data] buffer. *)
Record tp_get_result : Type := {
  get_ctx : j1939_parser_context_t;
  get_len : Z;
  get_pgn : option Z;
  get_data : list Z
}.

(** [uint16_t j1939_tp_get_data(ctx, source_address, pgn, data, max_len)].
    [pgn] is the pointee of the [pgn] argument ([None] for a null pointer),
    [data] the caller's buffer of at least [max_len] bytes; [memcpy]
    overwrites its first [copy_len] bytes. The model follows the C code
    while the announced size is at most the 1785 bytes of the session
    buffer (255 packets of 7 bytes); for a larger announced size the C
    code copies from behind the buffer, which [take] does not describe,
    and no theorem is stated there. *)
Definition j1939_tp_get_data (ctx : j1939_parser_context_t) (source_address : Z)
  (pgn : option Z) (data : list Z) (max_len : Z) : tp_get_result :=
  let unchanged :=
    {| get_ctx := ctx; get_len := 0; get_pgn := pgn; get_data := data |} in
  match find_tp_session ctx source_address with
  | None => unchanged
  | Some idx =>
      match tp_sessions ctx !! idx with
      | None => unchanged
      | Some session =>
          if negb (bool_decide (tp_state session = TP_STATE_COMPLETE)) then
            unchanged
          else
            let copy_len :=
              if tp_total_size session <? max_len
              then tp_total_size session else max_len in
            {| get_ctx := set_session ctx idx (with_state session TP_STATE_IDLE);
               get_len := copy_len;
               get_pgn := match pgn with
                          | Some _ => Some (tp_target_pgn session)
                          | None => None
                          end;
               get_data := take (Z.to_nat copy_len) (tp_buffer session)
                           ++ drop (Z.to_nat copy_len) data |}
      end
  end.

(** A frame handler run over a list of frames, keeping each result. *)
Fixpoint tp_feed (ctx : j1939_parser_context_t) (msgs : list j1939_message_t)
  : j1939_parser_context_t * list bool :=
  match msgs with
  | [] => (ctx, [])
  | m :: rest =>
      let '(ctx1, r) := j1939_tp_handle_frame ctx m in
      let '(ctx2, rs) := tp_feed ctx1 rest in
      (ctx2, r :: rs)
  end.

(** *** Frames as a sender lays them out

    A Broadcast Announce frame: control byte 32, total size little-endian,
    packet count, one ignored byte, target PGN in 24 bits little-endian. *)
Definition bam_frame (sa total_size packets reserved target ts : Z)
  : j1939_message_t :=
  {| msg_pgn := PGN_TP_CM; msg_source_address := sa; msg_destination := 0xFF;
     msg_priority := 7;
     msg_data := [TP_CM_BAM; total_size mod 2 ^ 8; total_size / 2 ^ 8; packets;
                  reserved; target mod 2 ^ 8; (target / 2 ^ 8) mod 2 ^ 8;
                  target / 2 ^ 16];
     msg_data_length := 8; msg_timestamp_ms := ts |}.

(** A Data Transfer frame: sequence number, then the payload bytes. *)
Definition dt_frame (sa seq_num : Z) (payload : list Z) (ts : Z)
  : j1939_message_t :=
  {| msg_pgn := PGN_TP_DT; msg_source_address := sa; msg_destination := 0xFF;
     msg_priority := 7; msg_data := seq_num :: payload;
     msg_data_length := 8; msg_timestamp_ms := ts |}.

(** Data Transfer frames numbered from [seq_num] on, one per
    (payload, timestamp) pair. *)
Fixpoint dt_frames (sa seq_num : Z) (ps : list (list Z * Z))
  : list j1939_message_t :=
  match ps with
  | [] => []
  | (payload, ts) :: rest =>
      dt_frame sa seq_num payload ts :: dt_frames sa (seq_num + 1) rest
  end.

(** Every frame arrives at most 750 ms (in 32-bit millisecond arithmetic)
    after the one before it, the first after [last]. *)
Fixpoint within_timeout (last : Z) (ps : list (list Z * Z)) : Prop :=
  match ps with
  | [] => True
  | (_, ts) :: rest =>
      u32 (ts - last) <= J1939_TP_TIMEOUT_MS /\ within_timeout ts rest
  end.

(** *** Session invariants

    [tp_match sa] is the test of [find_tp_session]. *)
Definition tp_match (sa : Z) (s : tp_session_t) : Prop :=
  tp_state s <> TP_STATE_IDLE /\ tp_source_address s = sa.

(** No slot before [idx] is a live session of [sa]. *)
Definition first_match (sa : Z) (ctx : j1939_parser_context_t) (idx : nat)
  : Prop :=
  forall j y, tp_sessions ctx !! j = Some y -> (j < idx)%nat -> ~ tp_match sa y.

(** Slot [idx] is the session of [sa], in state [st], announced with size
    [S], [packets] packets and PGN [target], with [k] packets taken, the
    bytes [done] assembled so far and the last frame stamped [last]. *)
Definition sess_inv (sa S packets target : Z) (ctx : j1939_parser_context_t)
  (idx : nat) (st : tp_state_t) (k : Z) (done : list Z) (last : Z) : Prop :=
  first_match sa ctx idx /\
  exists s, tp_sessions ctx !! idx = Some s /\
    tp_state s = st /\ tp_source_address s = sa /\
    tp_target_pgn s = target /\ tp_total_size s = S /\
    tp_total_packets s = packets /\ tp_received_packets s = k /\
    tp_last_packet_time_ms s = last /\
    length (tp_buffer s) = Z.to_nat J1939_TP_MAX_LENGTH /\
    forall j : nat, Z.of_nat j < Z.min (7 * k) S ->
                    tp_buffer s !! j = done !! j.

(** ** DM1 diagnostic parsing ([j1939_parser.cpp], lines 397-445) *)

(** [j1939_dtc_t] *)
Record j1939_dtc_t : Type := {
  dtc_spn : Z;
  dtc_fmi : Z;
  dtc_oc : Z;
  dtc_source_address : Z;
  dtc_is_active : bool
}.

(** [j1939_lamp_status_t] *)
Record j1939_lamp_status_t : Type := {
  protect_lamp : bool;
  amber_warning_lamp : bool;
  red_stop_lamp : bool;
  malfunction_lamp : bool
}.

(** The four field assignments to [dtcs[dtc_count]]; the source address of
    the caller's entry is not touched. *)
Definition dm1_store (spn fmi oc : Z) (d : j1939_dtc_t) : j1939_dtc_t :=
  {| dtc_spn := spn; dtc_fmi := fmi; dtc_oc := oc;
     dtc_source_address := dtc_source_address d; dtc_is_active := true |}.

(** The [while (offset + 4 <= len && dtc_count < max_dtcs)] loop, with
    [fuel] iterations left. [offset] is a [uint16_t], [dtc_count] a
    [uint8_t]; the comparison is done in [int]. *)
Fixpoint dm1_loop (fuel : nat) (data : list Z) (len max_dtcs : Z)
  (offset dtc_count : Z) (dtcs : list j1939_dtc_t) : Z * list j1939_dtc_t :=
  match fuel with
  | O => (dtc_count, dtcs)
  | S fuel' =>
      if (offset + 4 <=? len) && (dtc_count <? max_dtcs) then
        let spn :=
          u32 (Z.lor (Z.lor (byte_at data offset)
                            (Z.shiftl (byte_at data (offset + 1)) 8))
                     (Z.shiftl (Z.land (byte_at data (offset + 2)) 0xE0) 11)) in
        let fmi := u8 (Z.land (byte_at data (offset + 2)) 0x1F) in
        let oc := u8 (Z.land (byte_at data (offset + 3)) 0x7F) in
        if negb (spn =? 0) || negb (fmi =? 0) then
          dm1_loop fuel' data len max_dtcs (u16 (offset + 4))
                   (u8 (dtc_count + 1))
                   (alter (dm1_store spn fmi oc) (Z.to_nat dtc_count) dtcs)
        else
          dm1_loop fuel' data len max_dtcs (u16 (offset + 4)) dtc_count dtcs
      else (dtc_count, dtcs)
  end.

(** [uint8_t j1939_parse_dm1(data, len, lamps, dtcs, max_dtcs)]: the result,
    the caller's [*lamps] and the caller's [dtcs] array. [None] stands for
    a null pointer. Every pass of the loop advances [offset] by 4, so [len]
    passes are enough. *)
Definition j1939_parse_dm1 (data : option (list Z)) (len : Z)
  (lamps : option j1939_lamp_status_t) (dtcs : option (list j1939_dtc_t))
  (max_dtcs : Z) : Z * option j1939_lamp_status_t * option (list j1939_dtc_t) :=
  match data with
  | None => (0, lamps, dtcs)
  | Some d =>
      if len <? 2 then (0, lamps, dtcs)
      else
        let lamps' :=
          match lamps with
          | None => None
          | Some _ =>
              Some {| protect_lamp := negb (Z.land (byte_at d 0) 0x04 =? 0);
                      amber_warning_lamp := negb (Z.land (byte_at d 0) 0x10 =? 0);
                      red_stop_lamp := negb (Z.land (byte_at d 1) 0x04 =? 0);
                      malfunction_lamp := negb (Z.land (byte_at d 1) 0x10 =? 0) |}
          end in
        match dtcs with
        | None => (0, lamps', None)
        | Some arr =>
            if max_dtcs =? 0 then (0, lamps', Some arr)
            else
              let '(count, arr') :=
                dm1_loop (Z.to_nat len) d len max_dtcs 2 0 arr in
              (count, lamps', Some arr')
        end
  end.

(** *** The DM1 record layout in the words of the specification

    The payload after the two lamp bytes is cut into complete 4-byte
    records; each gives (spn, fmi, occurrence count); the "no fault"
    record spn = 0, fmi = 0 is dropped; at most [max_dtcs] are kept. *)
Fixpoint dm1_chunks (l : list Z) : list (Z * Z * Z * Z) :=
  match l with
  | b0 :: b1 :: b2 :: b3 :: rest => (b0, b1, b2, b3) :: dm1_chunks rest
  | _ => []
  end.

Definition dm1_fields (r : Z * Z * Z * Z) : Z * Z * Z :=
  let '(b0, b1, b2, b3) := r in
  (Z.lor (Z.lor b0 (Z.shiftl b1 8)) (Z.shiftl (Z.land b2 0xE0) 11),
   Z.land b2 0x1F,
   Z.land b3 0x7F).

Definition dm1_is_fault (f : Z * Z * Z) : bool :=
  let '(spn, fmi, _) := f in negb (spn =? 0) || negb (fmi =? 0).

Definition dm1_emitted (payload : list Z) (max_dtcs : Z) : list (Z * Z * Z) :=
  take (Z.to_nat max_dtcs)
       (List.filter dm1_is_fault (map dm1_fields (dm1_chunks (drop 2 payload)))).

(** The fault records still ahead of the loop at [offset]. *)
Definition dm1_ahead (data : list Z) (offset : Z) : list (Z * Z * Z) :=
  List.filter dm1_is_fault
    (map dm1_fields (dm1_chunks (drop (Z.to_nat offset) data))).

(** The emitted records written over the front of the caller's array:
    entry [k] takes the three fields of record [k] and is marked active;
    its source address is the only field it keeps. *)
Fixpoint dm1_write (rs : list (Z * Z * Z)) (arr : list j1939_dtc_t)
  : list j1939_dtc_t :=
  match rs, arr with
  | (spn, fmi, oc) :: rs', d :: arr' =>
      {| dtc_spn := spn; dtc_fmi := fmi; dtc_oc := oc;
         dtc_source_address := dtc_source_address d;
         dtc_is_active := true |} :: dm1_write rs' arr'
  | _, _ => arr
  end.

(** A zeroed entry of a caller's array. *)
Definition dtc_zero : j1939_dtc_t :=
  {| dtc_spn := 0; dtc_fmi := 0; dtc_oc := 0; dtc_source_address := 0;
     dtc_is_active := false |}.

(** The conversion-method bit of a record's fourth byte. *)
Definition dm1_conversion_method (b3 : Z) : Z := Z.land (Z.shiftr b3 7) 1.

(** ** J1939 frame parse, validity tests, gear decode
    ([j1939_parser.cpp], lines 92-108 and 198-209; [j1939_parser.h],
    lines 330-339) *)

Definition J1939_NOT_AVAILABLE_8 : Z := 0xFF.
Definition J1939_ERROR_8 : Z := 0xFE.
Definition J1939_ERROR_16_BASE : Z := 0xFE00.

(** [static inline bool j1939_is_valid_8(uint8_t value)] *)
Definition j1939_is_valid_8 (v : Z) : bool :=
  negb (v =? J1939_NOT_AVAILABLE_8) && negb (v =? J1939_ERROR_8).

(** [static inline bool j1939_is_valid_16(uint16_t value)] *)
Definition j1939_is_valid_16 (v : Z) : bool := v <? J1939_ERROR_16_BASE.

(** [bool j1939_parse_frame(can_id, data, data_len, timestamp_ms, msg)]:
    the result and the caller's [*msg]. [memcpy] overwrites the first
    [data_len] bytes of [msg->data] only. *)
Definition j1939_parse_frame (can_id : Z) (data : option (list Z))
  (data_len timestamp_ms : Z) (msg : j1939_message_t)
  : bool * j1939_message_t :=
  match data with
  | None => (false, msg)
  | Some d =>
      if (data_len =? 0) || (data_len >? 8) then (false, msg)
      else
        (true,
         {| msg_pgn := j1939_extract_pgn can_id;
            msg_source_address := j1939_extract_source_address can_id;
            msg_destination := j1939_extract_destination can_id;
            msg_priority := j1939_extract_priority can_id;
            msg_data := take (Z.to_nat data_len) d
                        ++ drop (Z.to_nat data_len) (msg_data msg);
            msg_data_length := data_len;
            msg_timestamp_ms := timestamp_ms |})
  end.

(** The conversion to [int8_t]. *)
Definition i8 (x : Z) : Z := (x + 2 ^ 7) mod 2 ^ 8 - 2 ^ 7.

(** [int8_t j1939_decode_current_gear(const uint8_t* data)] *)
Definition j1939_decode_current_gear (data : option (list Z)) : Z :=
  match data with
  | None => -126
  | Some d =>
      let raw := byte_at d 3 in
      if negb (j1939_is_valid_8 raw) then -126 else i8 (raw - 125)
  end.

(** *** Session table invariants *)

(** No two live sessions carry the same source address. *)
Definition unique_sessions (ctx : j1939_parser_context_t) : Prop :=
  forall (i j : nat) si sj,
    tp_sessions ctx !! i = Some si -> tp_sessions ctx !! j = Some sj ->
    tp_state si <> TP_STATE_IDLE -> tp_state sj <> TP_STATE_IDLE ->
    tp_source_address si = tp_source_address sj -> i = j.

(** The live session of [sa] sits in slot [idx], in state [st]. *)
Definition session_in (ctx : j1939_parser_context_t) (sa : Z) (idx : nat)
  (st : tp_state_t) : Prop :=
  find_tp_session ctx sa = Some idx /\
  exists s, tp_sessions ctx !! idx = Some s /\ tp_state s = st.


(** One call on the session table: a frame handed to
    [j1939_tp_handle_frame], or a drain by [j1939_tp_get_data]. *)
Inductive tp_call : Type :=
  | TpFrame (msg : j1939_message_t)
  | TpDrain (source_address : Z) (pgn : option Z) (data : list Z) (max_len : Z).

Definition tp_apply (ctx : j1939_parser_context_t) (c : tp_call)
  : j1939_parser_context_t :=
  match c with
  | TpFrame msg => fst (j1939_tp_handle_frame ctx msg)
  | TpDrain sa pgn data max_len =>
      get_ctx (j1939_tp_get_data ctx sa pgn data max_len)
  end.

(** The context after a sequence of calls, in order. *)
Definition tp_run (ctx : j1939_parser_context_t) (calls : list tp_call)
  : j1939_parser_context_t :=
  fold_left tp_apply calls ctx.

(** What [j1939_tp_get_data] returns when it has nothing to hand out. *)
Definition tp_nothing (ctx : j1939_parser_context_t) (pgn : option Z)
  (data : list Z) : tp_get_result :=
  {| get_ctx := ctx; get_len := 0; get_pgn := pgn; get_data := data |}.

End J1939.

(** ** J1708 checksum, framer and message parse ([j1708_parser.cpp]) *)

Module J1708.

Definition J1708_MAX_MESSAGE_LENGTH : Z := 21.
Definition J1708_MIN_MESSAGE_LENGTH : Z := 2.
Definition J1708_MAX_PIDS : Z := 10.
Definition J1708_INTER_BYTE_TIMEOUT_MS : Z := 10.

(** [data[i]] on a C byte array. *)
Definition byte_at (a : list Z) (i : Z) : Z := nth (Z.to_nat i) a 0.

(** The summing loop shared by both checksum functions:
    [for (uint8_t i = 0; i < len; i++) sum += data[i];]
    with [sum] a [uint8_t], continued from [i] with [fuel] passes left. *)
Fixpoint checksum_loop (fuel : nat) (data : list Z) (len i sum : Z) : Z :=
  match fuel with
  | O => sum
  | S fuel' =>
      if i <? len then
        checksum_loop fuel' data len (u8 (i + 1)) (u8 (sum + byte_at data i))
      else sum
  end.

(** [bool j1708_validate_checksum(const uint8_t* data, uint8_t len)];
    [None] is a null [data]. *)
Definition j1708_validate_checksum (data : option (list Z)) (len : Z) : bool :=
  match data with
  | None => false
  | Some d =>
      if len <? 2 then false
      else checksum_loop (Z.to_nat len) d len 0 0 =? 0
  end.

(** [uint8_t j1708_calculate_checksum(const uint8_t* data, uint8_t len)] *)
Definition j1708_calculate_checksum (data : option (list Z)) (len : Z) : Z :=
  match data with
  | None => 0
  | Some d =>
      if len =? 0 then 0
      else u8 (0x100 - checksum_loop (Z.to_nat len) d len 0 0)
  end.

(** The plain sum of a byte sequence. *)
Definition byte_sum (l : list Z) : Z := foldr Z.add 0 l.

(** The [pid_lengths] table up to its end marker. *)
Definition pid_lengths : list (Z * Z) :=
  [ (84, 1); (85, 1); (86, 1); (91, 1); (92, 1); (96, 1); (97, 1); (100, 1);
    (102, 1); (105, 1); (108, 1); (110, 1); (168, 1); (171, 1); (174, 1);
    (175, 1); (177, 2); (178, 1); (183, 2); (184, 2); (190, 2); (191, 2);
    (194, 0); (195, 0); (233, 0); (234, 0); (245, 4); (247, 4) ].

Fixpoint pid_lookup (table : list (Z * Z)) (pid : Z) : option Z :=
  match table with
  | [] => None
  | (p, n) :: rest => if p =? pid then Some n else pid_lookup rest pid
  end.

(** [uint8_t j1708_get_pid_length(uint8_t pid)]: the table entry, else 0
    (both fall-back branches return 0). *)
Definition j1708_get_pid_length (pid : Z) : Z :=
  match pid_lookup pid_lengths pid with
  | Some n => n
  | None => if (192 <=? pid) && (pid <=? 254) then 0 else 0
  end.

(** [j1587_parameter_t]; [param_data] is [uint8_t data[8]]. *)
Record j1587_parameter_t : Type := {
  pid : Z;
  param_data : list Z;
  data_length : Z;
  is_valid : bool
}.

(** [j1708_message_t] *)
Record j1708_message_t : Type := {
  mid : Z;
  raw_data : list Z;
  raw_length : Z;
  params : list j1587_parameter_t;
  param_count : Z;
  checksum_valid : bool;
  timestamp_ms : Z
}.

Definition param_zero : j1587_parameter_t :=
  {| pid := 0; param_data := replicate 8 0; data_length := 0;
     is_valid := false |}.

(** A message after [memset(msg, 0, sizeof(j1708_message_t))]. *)
Definition message_zero : j1708_message_t :=
  {| mid := 0; raw_data := replicate (Z.to_nat J1708_MAX_MESSAGE_LENGTH) 0;
     raw_length := 0; params := replicate (Z.to_nat J1708_MAX_PIDS) param_zero;
     param_count := 0; checksum_valid := false; timestamp_ms := 0 |}.

(** [memcpy(dst, src, n)] on arrays as lists: the first [n] bytes of [dst]
    become the first [n] bytes of [src]. *)
Definition memcpy (dst src : list Z) (n : Z) : list Z :=
  take (Z.to_nat n) src ++ drop (Z.to_nat n) dst.

Definition set_params (msg : j1708_message_t)
  (ps : list j1587_parameter_t) (count : Z) : j1708_message_t :=
  {| mid := mid msg; raw_data := raw_data msg; raw_length := raw_length msg;
     params := ps; param_count := count;
     checksum_valid := checksum_valid msg; timestamp_ms := timestamp_ms msg |}.

Definition set_pid (p : Z) (param : j1587_parameter_t) : j1587_parameter_t :=
  {| pid := p; param_data := param_data param;
     data_length := data_length param; is_valid := is_valid param |}.

(** [param->data_length = pid_len; if (pid_len > 0 && pid_len <= 8)
    { memcpy(param->data, &data[offset], pid_len); param->is_valid = true; }] *)
Definition set_payload (data : list Z) (offset pid_len : Z)
  (param : j1587_parameter_t) : j1587_parameter_t :=
  if (0 <? pid_len) && (pid_len <=? 8) then
    {| pid := pid param;
       param_data := memcpy (param_data param)
                            (drop (Z.to_nat offset) data) pid_len;
       data_length := pid_len; is_valid := true |}
  else
    {| pid := pid param; param_data := param_data param;
       data_length := pid_len; is_valid := is_valid param |}.

(** The parameter loop of [j1708_parse_message]:
    [while (offset < data_end && msg->param_count < J1708_MAX_PIDS)],
    [offset] and [data_end] being [uint8_t]; every [break] returns the
    message as it stands (the PID of the unfinished entry already stored). *)
Fixpoint parse_params (fuel : nat) (data : list Z) (data_end offset : Z)
  (msg : j1708_message_t) : j1708_message_t :=
  match fuel with
  | O => msg
  | S fuel' =>
      if (offset <? data_end) && (param_count msg <? J1708_MAX_PIDS) then
        let slot := Z.to_nat (param_count msg) in
        let p := byte_at data offset in
        let msg1 :=
          set_params msg (alter (set_pid p) slot (params msg)) (param_count msg) in
        let offset1 := u8 (offset + 1) in
        let len0 := j1708_get_pid_length p in
        let after_len :=
          if len0 =? 0 then
            if offset1 >=? data_end then None
            else Some (byte_at data offset1, u8 (offset1 + 1))
          else Some (len0, offset1) in
        match after_len with
        | None => msg1
        | Some (pid_len, offset2) =>
            if offset2 + pid_len >? data_end then msg1
            else
              parse_params fuel' data data_end (u8 (offset2 + pid_len))
                (set_params msg1
                   (alter (set_payload data offset2 pid_len) slot (params msg1))
                   (u8 (param_count msg1 + 1)))
        end
      else msg
  end.

(** [bool j1708_parse_message(const uint8_t* data, uint8_t len,
    j1708_message_t* msg)]: the result and the caller's [*msg]. The model
    follows the C code for [len] up to [J1708_MAX_MESSAGE_LENGTH] = 21,
    the size of [raw_data]: beyond it [memcpy(msg->raw_data, data, len)]
    writes past the array into the fields behind it. Every theorem about
    this function keeps [len] within 21. *)
Definition j1708_parse_message (data : option (list Z)) (len : Z)
  (msg : j1708_message_t) : bool * j1708_message_t :=
  match data with
  | None => (false, msg)
  | Some d =>
      if len <? J1708_MIN_MESSAGE_LENGTH then (false, msg)
      else
        let valid := j1708_validate_checksum data len in
        let msg1 :=
          {| mid := 0; raw_data := memcpy (raw_data message_zero) d len;
             raw_length := len; params := params message_zero;
             param_count := 0; checksum_valid := valid; timestamp_ms := 0 |} in
        if negb valid then (false, msg1)
        else
          let msg2 :=
            {| mid := byte_at d 0; raw_data := raw_data msg1;
               raw_length := raw_length msg1; params := params msg1;
               param_count := param_count msg1;
               checksum_valid := checksum_valid msg1;
               timestamp_ms := timestamp_ms msg1 |} in
          (true, parse_params (Z.to_nat len) d (u8 (len - 1)) 1 msg2)
  end.

Inductive j1708_rx_state_t : Type :=
  | J1708_RX_IDLE
  | J1708_RX_RECEIVING
  | J1708_RX_COMPLETE.

#[global] Instance j1708_rx_state_t_eq_dec : EqDecision j1708_rx_state_t.
Proof. solve_decision. Defined.

(** [j1708_parser_context_t]; [buffer] is
    [uint8_t buffer[J1708_MAX_MESSAGE_LENGTH]]. *)
Record j1708_parser_context_t : Type := {
  state : j1708_rx_state_t;
  buffer : list Z;
  buffer_index : Z;
  last_byte_time_ms : Z;
  messages_received : Z;
  checksum_errors : Z;
  parse_errors : Z
}.

(** [j1708_parser_init] *)
Definition j1708_parser_init : j1708_parser_context_t :=
  {| state := J1708_RX_IDLE;
     buffer := replicate (Z.to_nat J1708_MAX_MESSAGE_LENGTH) 0;
     buffer_index := 0; last_byte_time_ms := 0; messages_received := 0;
     checksum_errors := 0; parse_errors := 0 |}.

(** The first [if] of [j1708_receive_byte], the inter-message gap check:
    [inl] is the early [return true], [inr] the context the function goes
    on with. *)
Definition gap_check (ctx : j1708_parser_context_t) (timestamp_ms : Z)
  : j1708_parser_context_t + j1708_parser_context_t :=
  if bool_decide (state ctx = J1708_RX_RECEIVING) then
    if u32 (timestamp_ms - last_byte_time_ms ctx) >? J1708_INTER_BYTE_TIMEOUT_MS
    then
      let restart errs :=
        {| state := J1708_RX_IDLE; buffer := buffer ctx; buffer_index := 0;
           last_byte_time_ms := last_byte_time_ms ctx;
           messages_received := messages_received ctx;
           checksum_errors := errs; parse_errors := parse_errors ctx |} in
      if buffer_index ctx >=? J1708_MIN_MESSAGE_LENGTH then
        if j1708_validate_checksum (Some (buffer ctx)) (buffer_index ctx) then
          inl {| state := J1708_RX_COMPLETE; buffer := buffer ctx;
                 buffer_index := buffer_index ctx;
                 last_byte_time_ms := last_byte_time_ms ctx;
                 messages_received := u32 (messages_received ctx + 1);
                 checksum_errors := checksum_errors ctx;
                 parse_errors := parse_errors ctx |}
        else inr (restart (u32 (checksum_errors ctx + 1)))
      else inr (restart (checksum_errors ctx))
    else inr ctx
  else inr ctx.

(** [bool j1708_receive_byte(ctx, byte, timestamp_ms)] *)
Definition j1708_receive_byte (ctx : j1708_parser_context_t)
  (byte timestamp_ms : Z) : j1708_parser_context_t * bool :=
  match gap_check ctx timestamp_ms with
  | inl done => (done, true)
  | inr ctx1 =>
      if bool_decide (state ctx1 = J1708_RX_COMPLETE) then (ctx1, true)
      else if buffer_index ctx1 <? J1708_MAX_MESSAGE_LENGTH then
        ({| state := J1708_RX_RECEIVING;
            buffer := <[Z.to_nat (buffer_index ctx1) := byte]> (buffer ctx1);
            buffer_index := u8 (buffer_index ctx1 + 1);
            last_byte_time_ms := timestamp_ms;
            messages_received := messages_received ctx1;
            checksum_errors := checksum_errors ctx1;
            parse_errors := parse_errors ctx1 |}, false)
      else
        ({| state := J1708_RX_IDLE; buffer := buffer ctx1; buffer_index := 0;
            last_byte_time_ms := last_byte_time_ms ctx1;
            messages_received := messages_received ctx1;
            checksum_errors := checksum_errors ctx1;
            parse_errors := u32 (parse_errors ctx1 + 1) |}, false)
  end.

(** [bool j1708_get_message(ctx, msg)]: the context, the result and the
    caller's [*msg]. *)
Definition j1708_get_message (ctx : j1708_parser_context_t)
  (msg : j1708_message_t)
  : j1708_parser_context_t * bool * j1708_message_t :=
  if negb (bool_decide (state ctx = J1708_RX_COMPLETE)) then (ctx, false, msg)
  else
    let '(result, msg') :=
      j1708_parse_message (Some (buffer ctx)) (buffer_index ctx) msg in
    ({| state := J1708_RX_IDLE; buffer := buffer ctx; buffer_index := 0;
        last_byte_time_ms := last_byte_time_ms ctx;
        messages_received := messages_received ctx;
        checksum_errors := checksum_errors ctx;
        parse_errors := parse_errors ctx |}, result, msg').

(** *** A receiver that resubmits the deferred byte

    The caller the framer's comment asks for: when [j1708_receive_byte]
    reports a complete message, drain it with [j1708_get_message], then
    hand the same byte in again. The drained (result, message) pairs are
    collected in order. *)
Fixpoint j1708_feed (ctx : j1708_parser_context_t) (input : list (Z * Z))
  : j1708_parser_context_t * list (bool * j1708_message_t) :=
  match input with
  | [] => (ctx, [])
  | (byte, ts) :: rest =>
      let '(ctx1, ready) := j1708_receive_byte ctx byte ts in
      if ready then
        let '(ctx2, result, msg) := j1708_get_message ctx1 message_zero in
        let '(ctx3, _) := j1708_receive_byte ctx2 byte ts in
        let '(ctx4, out) := j1708_feed ctx3 rest in
        (ctx4, (result, msg) :: out)
      else j1708_feed ctx1 rest
  end.

(** Consecutive bytes of one message: each at most 10 ms (in 32-bit
    millisecond arithmetic) after the one before, the first after [last]. *)
Fixpoint contiguous (last : Z) (input : list (Z * Z)) : Prop :=
  match input with
  | [] => True
  | (_, ts) :: rest =>
      u32 (ts - last) <= J1708_INTER_BYTE_TIMEOUT_MS /\ contiguous ts rest
  end.

(** The bytes of one message arrive without a gap among them. *)
Definition steady (input : list (Z * Z)) : Prop :=
  match input with
  | [] => True
  | (_, ts) :: rest => contiguous ts rest
  end.

(** The timestamp of the last byte of a stream that starts after [t]. *)
Fixpoint last_time (t : Z) (input : list (Z * Z)) : Z :=
  match input with
  | [] => t
  | (_, ts) :: rest => last_time ts rest
  end.

(** A well-formed frame: 2 to 21 bytes whose sum is 0 modulo 256. *)
Definition valid_message (m : list Z) : Prop :=
  (2 <= length m <= 21)%nat /\
  j1708_validate_checksum (Some m) (Z.of_nat (length m)) = true.

(** What [j1708_parse_message] makes of the bytes [m] on their own. *)
Definition decoded (m : list Z) : bool * j1708_message_t :=
  j1708_parse_message (Some m) (Z.of_nat (length m)) message_zero.

(** *** Framer states used in the properties *)

(** The buffer holds exactly the bytes [m] so far. *)
Definition holds (ctx : j1708_parser_context_t) (m : list Z) : Prop :=
  length (buffer ctx) = Z.to_nat J1708_MAX_MESSAGE_LENGTH /\
  buffer_index ctx = Z.of_nat (length m) /\
  take (length m) (buffer ctx) = m.

(** The next byte, stamped [ts], continues the current buffer. *)
Definition continues (ctx : j1708_parser_context_t) (ts : Z) : Prop :=
  state ctx = J1708_RX_IDLE \/
  (state ctx = J1708_RX_RECEIVING /\
   u32 (ts - last_byte_time_ms ctx) <= J1708_INTER_BYTE_TIMEOUT_MS).

(** The context after the gap check has accepted the buffered message. *)
Definition completed (ctx : j1708_parser_context_t) : j1708_parser_context_t :=
  {| state := J1708_RX_COMPLETE; buffer := buffer ctx;
     buffer_index := buffer_index ctx;
     last_byte_time_ms := last_byte_time_ms ctx;
     messages_received := u32 (messages_received ctx + 1);
     checksum_errors := checksum_errors ctx;
     parse_errors := parse_errors ctx |}.

(** The context after [j1708_get_message] has drained it. *)
Definition drained (ctx : j1708_parser_context_t) : j1708_parser_context_t :=
  {| state := J1708_RX_IDLE; buffer := buffer ctx; buffer_index := 0;
     last_byte_time_ms := last_byte_time_ms ctx;
     messages_received := messages_received ctx;
     checksum_errors := checksum_errors ctx;
     parse_errors := parse_errors ctx |}.

(** ** J1587 fault codes ([j1708_parser.cpp], lines 322-363) *)

(** [j1587_fault_code_t] *)
Record j1587_fault_code_t : Type := {
  fc_mid : Z;
  fc_pid_or_sid : Z;
  fc_fmi : Z;
  fc_is_sid : bool;
  fc_occurrence_count : Z;
  fc_is_active : bool
}.

(** The six assignments to [faults[fault_count]] for the byte pair
    ([id_byte], [next]). *)
Definition fault_of (m id_byte next : Z) : j1587_fault_code_t :=
  {| fc_mid := m;
     fc_pid_or_sid := if negb (Z.land id_byte 0x80 =? 0)
                      then u8 (Z.land id_byte 0x7F) else id_byte;
     fc_fmi := u8 (Z.land next 0x0F);
     fc_is_sid := negb (Z.land id_byte 0x80 =? 0);
     fc_occurrence_count := 1;
     fc_is_active := true |}.

(** The [while (offset + 2 <= len && fault_count < max_faults)] loop with
    [fuel] passes left; [offset] and [fault_count] are [uint8_t], the
    comparison is done in [int]. *)
Fixpoint fault_loop (fuel : nat) (m : Z) (data : list Z) (len max_faults : Z)
  (offset fault_count : Z) (faults : list j1587_fault_code_t)
  : Z * list j1587_fault_code_t :=
  match fuel with
  | O => (fault_count, faults)
  | S fuel' =>
      if (offset + 2 <=? len) && (fault_count <? max_faults) then
        fault_loop fuel' m data len max_faults (u8 (offset + 2))
          (u8 (fault_count + 1))
          (<[Z.to_nat fault_count :=
               fault_of m (byte_at data offset) (byte_at data (offset + 1))]>
             faults)
      else (fault_count, faults)
  end.

(** [uint8_t j1708_parse_fault_codes(mid, data, len, faults, max_faults)]:
    the result and the caller's [faults] array; [None] is a null pointer.
    Every pass advances [offset] by 2, so [len] passes are enough. *)
Definition j1708_parse_fault_codes (m : Z) (data : option (list Z)) (len : Z)
  (faults : option (list j1587_fault_code_t)) (max_faults : Z)
  : Z * option (list j1587_fault_code_t) :=
  match data, faults with
  | Some d, Some fs =>
      if (len <? 2) || (max_faults =? 0) then (0, faults)
      else
        let '(n, fs') := fault_loop (Z.to_nat len) m d len max_faults 0 0 fs in
        (n, Some fs')
  | _, _ => (0, faults)
  end.

(** The byte pairs of a payload, in order; a trailing odd byte is left
    out. *)
Fixpoint byte_pairs (l : list Z) : list (Z * Z) :=
  match l with
  | a :: b :: rest => (a, b) :: byte_pairs rest
  | _ => []
  end.

(** ** The receive loop of [j1708_task] ([main.cpp], lines 482-530)

    One pass of the inner loop for the byte [byte] read when the clock
    shows [ts]: the context afterwards and, when [j1708_get_message]
    succeeds, the message handed to the parameter switch. The byte that
    made [j1708_receive_byte] report a complete message is not handed in
    again. *)
Definition j1708_task_step (ctx : j1708_parser_context_t) (byte ts : Z)
  : j1708_parser_context_t * option j1708_message_t :=
  let '(ctx1, ready) := j1708_receive_byte ctx byte ts in
  if ready then
    let '(ctx2, ok, msg) := j1708_get_message ctx1 message_zero in
    (ctx2, if ok then Some msg else None)
  else (ctx1, None).

(** The loop over a stream of (byte, clock) pairs; the messages handed to
    the parameter switch, in order. *)
Fixpoint j1708_task (ctx : j1708_parser_context_t) (input : list (Z * Z))
  : j1708_parser_context_t * list j1708_message_t :=
  match input with
  | [] => (ctx, [])
  | (byte, ts) :: rest =>
      let '(ctx1, out) := j1708_task_step ctx byte ts in
      let '(ctx2, outs) := j1708_task ctx1 rest in
      (ctx2, match out with Some msg => msg :: outs | None => outs end)
  end.

(** ** Framer call sequences and the framer invariant *)

(** One call on the framer: a byte handed to [j1708_receive_byte], or a
    [j1708_get_message]. *)
Inductive framer_call : Type :=
  | RxByte (byte timestamp : Z)
  | RxGet (msg : j1708_message_t).

Definition framer_apply (ctx : j1708_parser_context_t) (c : framer_call)
  : j1708_parser_context_t :=
  match c with
  | RxByte byte ts => fst (j1708_receive_byte ctx byte ts)
  | RxGet msg => fst (fst (j1708_get_message ctx msg))
  end.

Definition framer_run (ctx : j1708_parser_context_t) (calls : list framer_call)
  : j1708_parser_context_t :=
  fold_left framer_apply calls ctx.

(** The buffer is the full array, the index stays inside it, an idle framer
    is empty, and a complete framer holds at least two bytes that pass the
    checksum. *)
Definition framer_ok (ctx : j1708_parser_context_t) : Prop :=
  length (buffer ctx) = Z.to_nat J1708_MAX_MESSAGE_LENGTH /\
  0 <= buffer_index ctx <= J1708_MAX_MESSAGE_LENGTH /\
  (state ctx = J1708_RX_IDLE -> buffer_index ctx = 0) /\
  (state ctx = J1708_RX_RECEIVING -> 1 <= buffer_index ctx) /\
  (state ctx = J1708_RX_COMPLETE ->
   j1708_validate_checksum (Some (buffer ctx)) (buffer_index ctx) = true).

(** *** J1587 parameters as a sender lays them out

    A parameter is its PID and its data bytes. A PID with a table length
    is followed by the data; a PID without one by a length byte, then the
    data. A message is the MID, the parameters and the checksum byte. *)
Definition param_layout (p : Z * list Z) : list Z :=
  if j1708_get_pid_length (fst p) =? 0
  then fst p :: Z.of_nat (length (snd p)) :: snd p
  else fst p :: snd p.

Definition param_fits (p : Z * list Z) : Prop :=
  j1708_get_pid_length (fst p) = 0 \/
  j1708_get_pid_length (fst p) = Z.of_nat (length (snd p)).

Definition message_body (m : Z) (ps : list (Z * list Z)) : list Z :=
  m :: concat (param_layout <$> ps).

Definition message_bytes (m : Z) (ps : list (Z * list Z)) : list Z :=
  message_body m ps
  ++ [j1708_calculate_checksum (Some (message_body m ps))
        (Z.of_nat (length (message_body m ps)))].

(** The entry [j1708_parse_message] makes of a parameter, on a zeroed
    entry: data of 1 to 8 bytes are copied and the entry is valid; other
    lengths are recorded without data. *)
Definition param_entry (p : Z * list Z) : j1587_parameter_t :=
  let n := Z.of_nat (length (snd p)) in
  {| pid := fst p;
     param_data := if (0 <? n) && (n <=? 8)
                   then snd p ++ replicate (8 - length (snd p)) 0
                   else replicate 8 0;
     data_length := n;
     is_valid := (0 <? n) && (n <=? 8) |}.

End J1708.

(** ** Parameter store ([data_manager.cpp]) *)

Module DataManager.

Definition PARAM_NONE : Z := 0.
Definition PARAM_ENGINE_SPEED : Z := 1.
Definition PARAM_COOLANT_TEMP : Z := 4.
Definition PARAM_MAX : Z := 256.
Definition DATA_MAX_CALLBACKS : Z := 8.

(** [data_source_t] *)
Inductive data_source_t : Type :=
  | SOURCE_UNKNOWN
  | SOURCE_J1939
  | SOURCE_J1708
  | SOURCE_ANALOG
  | SOURCE_COMPUTED
  | SOURCE_STORED
  | SOURCE_SIMULATED.

(** [data_parameter_t] *)
Record data_parameter_t : Type := {
  value : float;
  prev_value : float;
  timestamp_ms : Z;
  update_count : Z;
  source : data_source_t;
  is_valid : bool
}.

(** A record as [data_manager_init] leaves it: all zero, invalid. *)
Definition parameter_zero : data_parameter_t :=
  {| value := 0%float; prev_value := 0%float; timestamp_ms := 0;
     update_count := 0; source := SOURCE_UNKNOWN; is_valid := false |}.

(** One call [callbacks[i](param_id, value, old_value)]. *)
Record notification : Type := {
  note_callback : nat;
  note_param_id : Z;
  note_value : float;
  note_old_value : float
}.

(** [data_manager_t]. [parameters] is the array of records indexed by
    identity; an identity without an entry in the map still has the zeroed
    record of [data_manager_init]. The source declares the array with
    [DATA_MAX_PARAMETERS] entries (64 in [data_manager.h], 128 with
    [config.h]), while its guards admit every identity below [PARAM_MAX]
    = 256. The map follows the C code for the identities inside the array
    only: for an identity from [DATA_MAX_PARAMETERS] up to 255 the C code
    indexes outside [parameters], which no map describes. Every theorem
    about the store is therefore stated for identities inside the array
    (or refused by the guard).
    [callbacks] holds the registered function pointers, named by numbers. *)
Record data_manager_t : Type := {
  parameters : gmap Z data_parameter_t;
  callbacks : list (option nat);
  callback_count : Z;
  total_updates : Z;
  initialized : bool
}.

(** [dm->parameters[param_id]], for [param_id] inside the array. *)
Definition parameter_at (dm : data_manager_t) (param_id : Z) : data_parameter_t :=
  default parameter_zero (parameters dm !! param_id).

(** [data_manager_init] *)
Definition data_manager_init : data_manager_t :=
  {| parameters := ∅;
     callbacks := replicate (Z.to_nat DATA_MAX_CALLBACKS) None;
     callback_count := 0; total_updates := 0; initialized := true |}.

Definition out_of_range (param_id : Z) : bool :=
  (param_id =? PARAM_NONE) || (param_id >=? PARAM_MAX).

Section Update.

(** [fabsf(value - old_value) > 0.001f], a test in single-precision
    arithmetic, left abstract. *)
Variable exceeds_epsilon : float -> float -> bool.

(** The calls made by the notification loop
    [for (i = 0; i < callback_count; i++) if (callbacks[i] != NULL) ...]. *)
Definition notify (dm : data_manager_t) (param_id : Z) (v old : float)
  : list notification :=
  omap (fun cb =>
          match cb with
          | Some c => Some {| note_callback := c; note_param_id := param_id;
                              note_value := v; note_old_value := old |}
          | None => None
          end)
       (take (Z.to_nat (callback_count dm)) (callbacks dm)).

(** [void data_manager_update(dm, param_id, value, source, timestamp_ms)]:
    the store afterwards and the callbacks fired. *)
Definition data_manager_update (dm : data_manager_t) (param_id : Z)
  (v : float) (src : data_source_t) (ts : Z)
  : data_manager_t * list notification :=
  if negb (initialized dm) then (dm, [])
  else if out_of_range param_id then (dm, [])
  else
    let param := parameter_at dm param_id in
    let old_value := value param in
    let was_valid := is_valid param in
    let param' :=
      {| value := v; prev_value := value param; timestamp_ms := ts;
         update_count := u32 (update_count param + 1); source := src;
         is_valid := true |} in
    let dm' :=
      {| parameters := <[param_id := param']> (parameters dm);
         callbacks := callbacks dm; callback_count := callback_count dm;
         total_updates := u32 (total_updates dm + 1);
         initialized := initialized dm |} in
    (dm',
     if negb was_valid || exceeds_epsilon v old_value
     then notify dm param_id v old_value else []).

End Update.

(** [bool data_manager_get(dm, param_id, float* value)]: [Some v] is
    [true] with [*value = v], [None] is [false]. *)
Definition data_manager_get (dm : data_manager_t) (param_id : Z) : option float :=
  if negb (initialized dm) then None
  else if out_of_range param_id then None
  else
    let param := parameter_at dm param_id in
    if negb (is_valid param) then None else Some (value param).

(** [bool data_manager_get_with_timestamp(dm, param_id, value, timestamp_ms)] *)
Definition data_manager_get_with_timestamp (dm : data_manager_t) (param_id : Z)
  : option (float * Z) :=
  if negb (initialized dm) then None
  else if out_of_range param_id then None
  else
    let param := parameter_at dm param_id in
    if negb (is_valid param) then None
    else Some (value param, timestamp_ms param).

(** [void data_manager_invalidate(dm, param_id)] *)
Definition data_manager_invalidate (dm : data_manager_t) (param_id : Z)
  : data_manager_t :=
  if negb (initialized dm) then dm
  else if out_of_range param_id then dm
  else
    let param := parameter_at dm param_id in
    {| parameters :=
         <[param_id := {| value := value param; prev_value := prev_value param;
                          timestamp_ms := timestamp_ms param;
                          update_count := update_count param;
                          source := source param; is_valid := false |}]>
           (parameters dm);
       callbacks := callbacks dm; callback_count := callback_count dm;
       total_updates := total_updates dm; initialized := initialized dm |}.

(** *** Freshness, callbacks ([data_manager.cpp], lines 99-142) *)

(** The number of entries of [parameters] as [data_manager.h] declares it
    by default. *)
Definition DATA_MAX_PARAMETERS : Z := 64.
Definition UINT32_MAX : Z := 2 ^ 32 - 1.

(** [bool data_manager_is_fresh(dm, param_id, current_time_ms, max_age_ms)] *)
Definition data_manager_is_fresh (dm : data_manager_t) (param_id : Z)
  (current_time_ms max_age_ms : Z) : bool :=
  if negb (initialized dm) then false
  else if out_of_range param_id then false
  else
    let param := parameter_at dm param_id in
    if negb (is_valid param) then false
    else u32 (current_time_ms - timestamp_ms param) <=? max_age_ms.

(** [uint32_t data_manager_get_age(dm, param_id, current_time_ms)] *)
Definition data_manager_get_age (dm : data_manager_t) (param_id : Z)
  (current_time_ms : Z) : Z :=
  if negb (initialized dm) then UINT32_MAX
  else if out_of_range param_id then UINT32_MAX
  else
    let param := parameter_at dm param_id in
    if negb (is_valid param) then UINT32_MAX
    else u32 (current_time_ms - timestamp_ms param).

(** [bool data_manager_register_callback(dm, callback)]; [None] is a null
    function pointer. *)
Definition data_manager_register_callback (dm : data_manager_t)
  (callback : option nat) : data_manager_t * bool :=
  if negb (initialized dm) then (dm, false)
  else
    match callback with
    | None => (dm, false)
    | Some c =>
        if callback_count dm >=? DATA_MAX_CALLBACKS then (dm, false)
        else
          ({| parameters := parameters dm;
              callbacks := <[Z.to_nat (callback_count dm) := Some c]>
                             (callbacks dm);
              callback_count := u8 (callback_count dm + 1);
              total_updates := total_updates dm;
              initialized := initialized dm |}, true)
    end.

(** A sequence of registrations, in order, with their results. *)
Fixpoint register_all (dm : data_manager_t) (cs : list nat)
  : data_manager_t * list bool :=
  match cs with
  | [] => (dm, [])
  | c :: rest =>
      let '(dm1, r) := data_manager_register_callback dm (Some c) in
      let '(dm2, rs) := register_all dm1 rest in
      (dm2, r :: rs)
  end.

(** One argument list of [data_manager_update]. *)
Record update_call : Type := {
  call_param_id : Z;
  call_value : float;
  call_source : data_source_t;
  call_timestamp_ms : Z
}.

Section UpdateAll.

Variable exceeds_epsilon : float -> float -> bool.

(** A sequence of [data_manager_update] calls, in order. *)
Definition update_all (dm : data_manager_t) (calls : list update_call)
  : data_manager_t :=
  fold_left
    (fun d c => fst (data_manager_update exceeds_epsilon d (call_param_id c)
                       (call_value c) (call_source c) (call_timestamp_ms c)))
    calls dm.

End UpdateAll.

(** The identities whose record lies inside the declared array. *)
Definition in_array (param_id : Z) : Prop :=
  0 < param_id < DATA_MAX_PARAMETERS.

End DataManager.

(** ** Watch list ([watch_list_manager.cpp]) *)

Module WatchList.
Import DataManager.

Definition WATCH_LIST_MAX_ITEMS : Z := 16.
Definition WATCH_LIST_MAX_PAGES : Z := 4.

(** [widget_type_t] *)
Inductive widget_type_t : Type :=
  | WIDGET_GAUGE_CIRCULAR
  | WIDGET_GAUGE_LINEAR
  | WIDGET_GAUGE_SEMICIRCLE
  | WIDGET_NUMERIC
  | WIDGET_INDICATOR
  | WIDGET_TEXT
  | WIDGET_GRAPH.

(** [alert_level_t] *)
Inductive alert_level_t : Type :=
  | ALERT_NONE
  | ALERT_INFO
  | ALERT_WARNING
  | ALERT_CRITICAL.

(** [watch_item_t] *)
Record watch_item_t : Type := {
  param_id : Z;
  widget_type : widget_type_t;
  page : Z;
  position : Z;
  decimal_places : Z;
  warn_low : float;
  warn_high : float;
  crit_low : float;
  crit_high : float;
  use_custom_label : bool;
  custom_label : list Z;
  custom_unit : list Z;
  gauge_min : float;
  gauge_max : float;
  enabled : bool;
  current_alert : alert_level_t
}.

(** [watch_list_manager_t]. [has_data_manager] says that the
    [data_manager] pointer is not null; the store it points to is owned
    elsewhere and is passed to the functions that read through it. *)
Record watch_list_manager_t : Type := {
  items : list watch_item_t;
  item_count : Z;
  current_page : Z;
  has_data_manager : bool;
  wl_initialized : bool
}.

(** The C comparisons [a <= b] and [a >= b] on [float]. *)
Definition fle (a b : float) : bool := PrimFloat.leb a b.
Definition fge (a b : float) : bool := PrimFloat.leb b a.

(** [static alert_level_t check_alert_level(watch_item_t* item, float value)] *)
Definition check_alert_level (item : watch_item_t) (v : float) : alert_level_t :=
  if fle v (crit_low item) || fge v (crit_high item) then ALERT_CRITICAL
  else if fle v (warn_low item) || fge v (warn_high item) then ALERT_WARNING
  else ALERT_NONE.

Definition set_alert (a : alert_level_t) (item : watch_item_t) : watch_item_t :=
  {| param_id := param_id item; widget_type := widget_type item;
     page := page item; position := position item;
     decimal_places := decimal_places item;
     warn_low := warn_low item; warn_high := warn_high item;
     crit_low := crit_low item; crit_high := crit_high item;
     use_custom_label := use_custom_label item;
     custom_label := custom_label item; custom_unit := custom_unit item;
     gauge_min := gauge_min item; gauge_max := gauge_max item;
     enabled := enabled item; current_alert := a |}.

(** The body of the loop of [watch_list_update] for one item. *)
Definition update_item (dm : data_manager_t) (item : watch_item_t) : watch_item_t :=
  if negb (enabled item) then item
  else
    match data_manager_get dm (param_id item) with
    | Some v => set_alert (check_alert_level item v) item
    | None => set_alert ALERT_NONE item
    end.

(** [for (uint8_t i = 0; i < wlm->item_count; i++)], continued from [i]
    with [fuel] passes left. *)
Fixpoint update_loop (fuel : nat) (dm : data_manager_t) (count i : Z)
  (its : list watch_item_t) : list watch_item_t :=
  match fuel with
  | O => its
  | S fuel' =>
      if i <? count then
        update_loop fuel' dm count (u8 (i + 1))
                    (alter (update_item dm) (Z.to_nat i) its)
      else its
  end.

(** [void watch_list_update(wlm, current_time_ms)], [dm] being the store
    behind [wlm->data_manager]. *)
Definition watch_list_update (wlm : watch_list_manager_t) (dm : data_manager_t)
  (current_time_ms : Z) : watch_list_manager_t :=
  if negb (wl_initialized wlm) || negb (has_data_manager wlm) then wlm
  else
    {| items := update_loop (Z.to_nat (item_count wlm)) dm (item_count wlm) 0
                            (items wlm);
       item_count := item_count wlm; current_page := current_page wlm;
       has_data_manager := has_data_manager wlm;
       wl_initialized := wl_initialized wlm |}.

(** *** A small dashboard for examples

    Coolant temperature, enabled, thresholds 70/100/50/110 as in
    [watch_list_setup_defaults], last severity CRITICAL; engine speed,
    disabled, last severity WARNING. *)
Definition demo_coolant : watch_item_t :=
  {| param_id := PARAM_COOLANT_TEMP; widget_type := WIDGET_GAUGE_LINEAR;
     page := 0; position := 1; decimal_places := 1;
     warn_low := 70%float; warn_high := 100%float;
     crit_low := 50%float; crit_high := 110%float;
     use_custom_label := false; custom_label := replicate 12 0;
     custom_unit := replicate 8 0;
     gauge_min := 40%float; gauge_max := 120%float;
     enabled := true; current_alert := ALERT_CRITICAL |}.

Definition demo_speed_disabled : watch_item_t :=
  {| param_id := PARAM_ENGINE_SPEED; widget_type := WIDGET_GAUGE_CIRCULAR;
     page := 0; position := 0; decimal_places := 1;
     warn_low := 400%float; warn_high := 2200%float;
     crit_low := 300%float; crit_high := 2500%float;
     use_custom_label := false; custom_label := replicate 12 0;
     custom_unit := replicate 8 0;
     gauge_min := 0%float; gauge_max := 3000%float;
     enabled := false; current_alert := ALERT_WARNING |}.

Definition demo_watch_list : watch_list_manager_t :=
  {| items := [demo_coolant; demo_speed_disabled]
              ++ replicate 14 (set_alert ALERT_NONE demo_speed_disabled);
     item_count := 2; current_page := 0; has_data_manager := true;
     wl_initialized := true |}.


(** *** Item management, alerts, pages ([watch_list_manager.cpp], lines
    373-461, 487-516, 567-610 and 709-715) *)

(** [FLT_MAX] of [<float.h>]: (2 - 2^-23) * 2^127. *)
Definition FLT_MAX : float := 0x1.fffffep+127%float.

(** A [watch_item_t] after [memset(item, 0, sizeof(watch_item_t))]. *)
Definition item_zero : watch_item_t :=
  {| param_id := PARAM_NONE; widget_type := WIDGET_GAUGE_CIRCULAR;
     page := 0; position := 0; decimal_places := 0;
     warn_low := 0%float; warn_high := 0%float;
     crit_low := 0%float; crit_high := 0%float;
     use_custom_label := false; custom_label := replicate 12 0;
     custom_unit := replicate 8 0;
     gauge_min := 0%float; gauge_max := 0%float;
     enabled := false; current_alert := ALERT_NONE |}.

(** [void watch_list_init(wlm, dm)]; [has_dm] says that [dm] is not null. *)
Definition watch_list_init (has_dm : bool) : watch_list_manager_t :=
  {| items := replicate (Z.to_nat WATCH_LIST_MAX_ITEMS) item_zero;
     item_count := 0; current_page := 0; has_data_manager := has_dm;
     wl_initialized := true |}.

(** The search loop
    [for (i = 0; i < item_count; i++) if (items[i].param_id == param_id)]:
    the first index found. *)
Definition find_item (wlm : watch_list_manager_t) (id : Z) : option nat :=
  fst <$> list_find (fun it => param_id it = id)
            (take (Z.to_nat (item_count wlm)) (items wlm)).

(** The entry [watch_list_add] writes. *)
Definition new_item (id : Z) (w : widget_type_t) (pg pos : Z) : watch_item_t :=
  {| param_id := id; widget_type := w; page := pg; position := pos;
     decimal_places := 1;
     warn_low := (- FLT_MAX)%float; warn_high := FLT_MAX;
     crit_low := (- FLT_MAX)%float; crit_high := FLT_MAX;
     use_custom_label := false; custom_label := replicate 12 0;
     custom_unit := replicate 8 0;
     gauge_min := 0%float; gauge_max := 100%float;
     enabled := true; current_alert := ALERT_NONE |}.

Definition set_items (wlm : watch_list_manager_t) (its : list watch_item_t)
  (count : Z) : watch_list_manager_t :=
  {| items := its; item_count := count; current_page := current_page wlm;
     has_data_manager := has_data_manager wlm;
     wl_initialized := wl_initialized wlm |}.

(** [int watch_list_add(wlm, param_id, widget_type, page, position)]: the
    list afterwards and the result, the new index or -1. *)
Definition watch_list_add (wlm : watch_list_manager_t) (id : Z)
  (w : widget_type_t) (pg pos : Z) : watch_list_manager_t * Z :=
  if negb (wl_initialized wlm) then (wlm, -1)
  else if item_count wlm >=? WATCH_LIST_MAX_ITEMS then (wlm, -1)
  else if pg >=? WATCH_LIST_MAX_PAGES then (wlm, -1)
  else
    match find_item wlm id with
    | Some _ => (wlm, -1)
    | None =>
        (set_items wlm
           (<[Z.to_nat (item_count wlm) := new_item id w pg pos]> (items wlm))
           (u8 (item_count wlm + 1)),
         item_count wlm)
    end.

(** The shift loop of [watch_list_remove]:
    [for (j = i; j < item_count - 1; j++) items[j] = items[j + 1];]
    continued from [j] with [fuel] passes left. *)
Fixpoint shift_loop (fuel : nat) (count j : Z) (its : list watch_item_t)
  : list watch_item_t :=
  match fuel with
  | O => its
  | S fuel' =>
      if j <? count - 1 then
        shift_loop fuel' count (u8 (j + 1))
          (match its !! Z.to_nat (j + 1) with
           | Some next => <[Z.to_nat j := next]> its
           | None => its
           end)
      else its
  end.

(** [bool watch_list_remove(wlm, param_id)] *)
Definition watch_list_remove (wlm : watch_list_manager_t) (id : Z)
  : watch_list_manager_t * bool :=
  if negb (wl_initialized wlm) then (wlm, false)
  else
    match find_item wlm id with
    | Some i =>
        (set_items wlm
           (shift_loop (Z.to_nat (item_count wlm)) (item_count wlm)
                       (Z.of_nat i) (items wlm))
           (u8 (item_count wlm - 1)),
         true)
    | None => (wlm, false)
    end.

(** [watch_item_t* watch_list_get_item(wlm, param_id)]: the index of the
    entry pointed to; [None] is [NULL]. *)
Definition watch_list_get_item (wlm : watch_list_manager_t) (id : Z)
  : option nat :=
  if negb (wl_initialized wlm) then None else find_item wlm id.

(** [watch_item_t* watch_list_get_by_index(wlm, index)] *)
Definition watch_list_get_by_index (wlm : watch_list_manager_t) (index : Z)
  : option nat :=
  if negb (wl_initialized wlm) then None
  else if index >=? item_count wlm then None
  else Some (Z.to_nat index).

Definition with_thresholds (wl wh cl ch : float) (item : watch_item_t)
  : watch_item_t :=
  {| param_id := param_id item; widget_type := widget_type item;
     page := page item; position := position item;
     decimal_places := decimal_places item;
     warn_low := wl; warn_high := wh; crit_low := cl; crit_high := ch;
     use_custom_label := use_custom_label item;
     custom_label := custom_label item; custom_unit := custom_unit item;
     gauge_min := gauge_min item; gauge_max := gauge_max item;
     enabled := enabled item; current_alert := current_alert item |}.

Definition with_gauge_range (lo hi : float) (item : watch_item_t)
  : watch_item_t :=
  {| param_id := param_id item; widget_type := widget_type item;
     page := page item; position := position item;
     decimal_places := decimal_places item;
     warn_low := warn_low item; warn_high := warn_high item;
     crit_low := crit_low item; crit_high := crit_high item;
     use_custom_label := use_custom_label item;
     custom_label := custom_label item; custom_unit := custom_unit item;
     gauge_min := lo; gauge_max := hi;
     enabled := enabled item; current_alert := current_alert item |}.

(** [bool watch_list_set_thresholds(wlm, param_id, warn_low, warn_high,
    crit_low, crit_high)] *)
Definition watch_list_set_thresholds (wlm : watch_list_manager_t) (id : Z)
  (wl wh cl ch : float) : watch_list_manager_t * bool :=
  match watch_list_get_item wlm id with
  | None => (wlm, false)
  | Some i =>
      (set_items wlm (alter (with_thresholds wl wh cl ch) i (items wlm))
                 (item_count wlm), true)
  end.

(** [bool watch_list_set_gauge_range(wlm, param_id, min, max)] *)
Definition watch_list_set_gauge_range (wlm : watch_list_manager_t) (id : Z)
  (lo hi : float) : watch_list_manager_t * bool :=
  match watch_list_get_item wlm id with
  | None => (wlm, false)
  | Some i =>
      (set_items wlm (alter (with_gauge_range lo hi) i (items wlm))
                 (item_count wlm), true)
  end.

(** The loop of [watch_list_get_page_items]:
    [for (i = 0; i < item_count && count < max_items; i++)], continued
    from [i] with the pointers [found] collected so far (as indices). *)
Fixpoint page_items_loop (fuel : nat) (its : list watch_item_t)
  (item_count pg max_items i : Z) (found : list nat) : list nat :=
  match fuel with
  | O => found
  | S fuel' =>
      if (i <? item_count) && (Z.of_nat (length found) <? max_items) then
        page_items_loop fuel' its item_count pg max_items (u8 (i + 1))
          (match its !! Z.to_nat i with
           | Some it =>
               if (page it =? pg) && enabled it
               then found ++ [Z.to_nat i] else found
           | None => found
           end)
      else found
  end.

(** [uint8_t watch_list_get_page_items(wlm, page, items, max_items)]: the
    pointers written to the caller's array, as indices; the returned
    count is their number. [out] says that the caller's array is not
    null. *)
Definition watch_list_get_page_items (wlm : watch_list_manager_t) (pg : Z)
  (out : bool) (max_items : Z) : list nat :=
  if negb (wl_initialized wlm) || negb out then []
  else page_items_loop (Z.to_nat (item_count wlm)) (items wlm)
                       (item_count wlm) pg max_items 0 [].

(** The enumerators of [alert_level_t] as integers. *)
Definition alert_rank (a : alert_level_t) : Z :=
  match a with
  | ALERT_NONE => 0
  | ALERT_INFO => 1
  | ALERT_WARNING => 2
  | ALERT_CRITICAL => 3
  end.

(** The loop of [watch_list_get_highest_alert] over the counted items. *)
Fixpoint highest_loop (its : list watch_item_t) (highest : alert_level_t)
  : alert_level_t :=
  match its with
  | [] => highest
  | it :: rest =>
      if enabled it && (alert_rank (current_alert it) >? alert_rank highest)
      then highest_loop rest (current_alert it)
      else highest_loop rest highest
  end.

(** [alert_level_t watch_list_get_highest_alert(wlm)] *)
Definition watch_list_get_highest_alert (wlm : watch_list_manager_t)
  : alert_level_t :=
  if negb (wl_initialized wlm) then ALERT_NONE
  else highest_loop (take (Z.to_nat (item_count wlm)) (items wlm)) ALERT_NONE.

(** The loop of [watch_list_get_alert_count]; [count] is a [uint8_t]. *)
Fixpoint alert_count_loop (its : list watch_item_t) (level : alert_level_t)
  (count : Z) : Z :=
  match its with
  | [] => count
  | it :: rest =>
      if enabled it && (alert_rank (current_alert it) >=? alert_rank level)
      then alert_count_loop rest level (u8 (count + 1))
      else alert_count_loop rest level count
  end.

(** [uint8_t watch_list_get_alert_count(wlm, level)] *)
Definition watch_list_get_alert_count (wlm : watch_list_manager_t)
  (level : alert_level_t) : Z :=
  if negb (wl_initialized wlm) then 0
  else alert_count_loop (take (Z.to_nat (item_count wlm)) (items wlm)) level 0.

Definition with_page (wlm : watch_list_manager_t) (pg : Z)
  : watch_list_manager_t :=
  {| items := items wlm; item_count := item_count wlm; current_page := pg;
     has_data_manager := has_data_manager wlm;
     wl_initialized := wl_initialized wlm |}.

(** [void watch_list_set_page(wlm, page)] *)
Definition watch_list_set_page (wlm : watch_list_manager_t) (pg : Z)
  : watch_list_manager_t :=
  with_page wlm (if pg >=? WATCH_LIST_MAX_PAGES then 0 else pg).

(** [uint8_t watch_list_get_page(wlm)] *)
Definition watch_list_get_page (wlm : watch_list_manager_t) : Z :=
  current_page wlm.

(** [uint8_t watch_list_next_page(wlm)]: the list afterwards; the result
    is its current page. *)
Definition watch_list_next_page (wlm : watch_list_manager_t)
  : watch_list_manager_t :=
  with_page wlm (u8 ((current_page wlm + 1) mod WATCH_LIST_MAX_PAGES)).

(** [void watch_list_clear(wlm)] *)
Definition watch_list_clear (wlm : watch_list_manager_t)
  : watch_list_manager_t :=
  {| items := replicate (Z.to_nat WATCH_LIST_MAX_ITEMS) item_zero;
     item_count := 0; current_page := 0;
     has_data_manager := has_data_manager wlm;
     wl_initialized := wl_initialized wlm |}.

(** One call on the watch list. *)
Inductive wl_call : Type :=
  | WlAdd (id : Z) (w : widget_type_t) (pg pos : Z)
  | WlRemove (id : Z)
  | WlSetThresholds (id : Z) (wl wh cl ch : float)
  | WlSetGaugeRange (id : Z) (lo hi : float)
  | WlSetPage (pg : Z)
  | WlNextPage
  | WlClear
  | WlUpdate (dm : data_manager_t) (now : Z).

Definition wl_apply (wlm : watch_list_manager_t) (c : wl_call)
  : watch_list_manager_t :=
  match c with
  | WlAdd id w pg pos => fst (watch_list_add wlm id w pg pos)
  | WlRemove id => fst (watch_list_remove wlm id)
  | WlSetThresholds id wl wh cl ch =>
      fst (watch_list_set_thresholds wlm id wl wh cl ch)
  | WlSetGaugeRange id lo hi => fst (watch_list_set_gauge_range wlm id lo hi)
  | WlSetPage pg => watch_list_set_page wlm pg
  | WlNextPage => watch_list_next_page wlm
  | WlClear => watch_list_clear wlm
  | WlUpdate dm now => watch_list_update wlm dm now
  end.

(** The list after a sequence of calls, in order. *)
Definition wl_run (wlm : watch_list_manager_t) (calls : list wl_call)
  : watch_list_manager_t :=
  fold_left wl_apply calls wlm.

(** The counted entries. *)
Definition counted (wlm : watch_list_manager_t) : list watch_item_t :=
  take (Z.to_nat (item_count wlm)) (items wlm).

(** The array is whole, the count within it, the current page below 4, and
    the counted entries watch different parameters on pages below 4. *)
Definition watch_list_ok (wlm : watch_list_manager_t) : Prop :=
  length (items wlm) = Z.to_nat WATCH_LIST_MAX_ITEMS /\
  0 <= item_count wlm <= WATCH_LIST_MAX_ITEMS /\
  current_page wlm < WATCH_LIST_MAX_PAGES /\
  NoDup (param_id <$> counted wlm) /\
  Forall (fun pg => pg < WATCH_LIST_MAX_PAGES) (page <$> counted wlm).

(** The entry at index [i] is on page [pg] and enabled. *)
Definition on_page (wlm : watch_list_manager_t) (pg : Z) (i : nat) : bool :=
  match items wlm !! i with
  | Some it => (page it =? pg) && enabled it
  | None => false
  end.

(** The entry is enabled and its last severity is [level] or above. *)
Definition alerting (level : alert_level_t) (it : watch_item_t) : Prop :=
  enabled it = true /\ alert_rank level <= alert_rank (current_alert it).

#[global] Instance alerting_dec level it : Decision (alerting level it).
Proof. unfold alerting. apply _. Defined.

End WatchList.

(** ** Persistent storage ([nvs_storage.cpp], the firmware build) *)

Module Nvs.

Definition NVS_MAX_DTC_HISTORY : Z := 20.
Definition UINT32_MAX : Z := 2 ^ 32 - 1.

(** [trip_data_t] *)
Record trip_data_t : Type := {
  distance_km : float;
  fuel_used_liters : float;
  start_time : Z;
  duration_seconds : Z;
  avg_speed_kmh : float;
  avg_fuel_economy : float;
  trip_is_active : bool
}.

(** [lifetime_stats_t] *)
Record lifetime_stats_t : Type := {
  total_distance_km : float;
  total_fuel_liters : float;
  engine_hours : float;
  lifetime_boot_count : Z;
  best_mpg : float;
  worst_mpg : float;
  first_boot_time : Z;
  total_runtime_seconds : Z
}.

(** [stored_dtc_t] *)
Record stored_dtc_t : Type := {
  spn : Z;
  fmi : Z;
  source_address : Z;
  first_seen : Z;
  last_seen : Z;
  occurrence_count : Z;
  is_active : bool
}.

(** [user_settings_t] *)
Record user_settings_t : Type := {
  units : Z;
  brightness : Z;
  default_page : Z;
  temp_unit : Z;
  pressure_unit : Z;
  fuel_unit : Z;
  fuel_tank_1_size : Z;
  fuel_tank_2_size : Z
}.

(** [system_state_t] *)
Record system_state_t : Type := {
  clean_shutdown : bool;
  last_timestamp : Z;
  boot_count : Z;
  crash_count : Z;
  pending_distance : float;
  pending_fuel : float
}.

(** [nvs_storage_t] *)
Record nvs_storage_t : Type := {
  initialized : bool;
  trip_a : trip_data_t;
  trip_b : trip_data_t;
  lifetime : lifetime_stats_t;
  dtc_history : list stored_dtc_t;
  dtc_count : Z;
  settings : user_settings_t;
  system : system_state_t;
  trip_a_dirty : bool;
  trip_b_dirty : bool;
  lifetime_dirty : bool;
  dtc_dirty : bool;
  settings_dirty : bool;
  distance_accumulator : float;
  fuel_accumulator : float;
  last_save_time_ms : Z
}.

(** *** The flash key-value store behind [Preferences]

    A namespace maps short keys to typed values; the flash maps namespace
    names to namespaces. As the ESP32 [Preferences] class has it: opening
    read-only succeeds only for a namespace that exists, opening
    read-write creates it, a getter returns its default when the key is
    absent or holds another type, a putter stores the value. *)
Inductive nvs_value : Type :=
  | NvsBool (b : bool)
  | NvsUChar (n : Z)
  | NvsUShort (n : Z)
  | NvsUInt (n : Z)
  | NvsFloat (f : float)
  | NvsBytes (entries : list stored_dtc_t).

Abbreviation namespace := (gmap string nvs_value).
Abbreviation flash := (gmap string (gmap string nvs_value)).

Definition getBool (ns : namespace) (key : string) (dflt : bool) : bool :=
  match ns !! key with Some (NvsBool b) => b | _ => dflt end.

Definition getUChar (ns : namespace) (key : string) (dflt : Z) : Z :=
  match ns !! key with Some (NvsUChar n) => n | _ => dflt end.

Definition getUShort (ns : namespace) (key : string) (dflt : Z) : Z :=
  match ns !! key with Some (NvsUShort n) => n | _ => dflt end.

Definition getUInt (ns : namespace) (key : string) (dflt : Z) : Z :=
  match ns !! key with Some (NvsUInt n) => n | _ => dflt end.

Definition getFloat (ns : namespace) (key : string) (dflt : float) : float :=
  match ns !! key with Some (NvsFloat f) => f | _ => dflt end.

(** [getBytes(key, buf, max)]: the stored entries copied over the front of
    [buf] when they fit into [max] entries. *)
Definition getBytes (ns : namespace) (key : string)
  (buf : list stored_dtc_t) (max : Z) : list stored_dtc_t :=
  match ns !! key with
  | Some (NvsBytes entries) =>
      if Z.of_nat (length entries) <=? max
      then entries ++ drop (length entries) buf else buf
  | _ => buf
  end.

(** [prefs.begin(name, false); prefs.putX(key, v); prefs.end();] *)
Definition put (fl : flash) (name key : string) (v : nvs_value) : flash :=
  <[name := <[key := v]> (default ∅ (fl !! name))]> fl.

(** *** Defaults *)

Definition default_settings : user_settings_t :=
  {| units := 1; brightness := 75; default_page := 0; temp_unit := 1;
     pressure_unit := 1; fuel_unit := 1; fuel_tank_1_size := 200;
     fuel_tank_2_size := 200 |}.

(** [init_trip_defaults] *)
Definition init_trip_defaults : trip_data_t :=
  {| distance_km := 0%float; fuel_used_liters := 0%float; start_time := 0;
     duration_seconds := 0; avg_speed_kmh := 0%float;
     avg_fuel_economy := 0%float; trip_is_active := false |}.

(** [init_lifetime_defaults] *)
Definition init_lifetime_defaults : lifetime_stats_t :=
  {| total_distance_km := 0%float; total_fuel_liters := 0%float;
     engine_hours := 0%float; lifetime_boot_count := 0;
     best_mpg := 0%float; worst_mpg := 999%float; first_boot_time := 0;
     total_runtime_seconds := 0 |}.

Definition dtc_zero : stored_dtc_t :=
  {| spn := 0; fmi := 0; source_address := 0; first_seen := 0; last_seen := 0;
     occurrence_count := 0; is_active := false |}.

(** The storage after [memset] and the default initialisers of
    [nvs_storage_init]. *)
Definition storage_defaults : nvs_storage_t :=
  {| initialized := false;
     trip_a := init_trip_defaults; trip_b := init_trip_defaults;
     lifetime := init_lifetime_defaults;
     dtc_history := replicate (Z.to_nat NVS_MAX_DTC_HISTORY) dtc_zero;
     dtc_count := 0; settings := default_settings;
     system := {| clean_shutdown := false; last_timestamp := 0;
                  boot_count := 0; crash_count := 0;
                  pending_distance := 0%float; pending_fuel := 0%float |};
     trip_a_dirty := false; trip_b_dirty := false; lifetime_dirty := false;
     dtc_dirty := false; settings_dirty := false;
     distance_accumulator := 0%float; fuel_accumulator := 0%float;
     last_save_time_ms := 0 |}.

(** *** Load *)

Definition load_trip (fl : flash) (name : string) (t : trip_data_t)
  : trip_data_t :=
  match fl !! name with
  | None => t
  | Some ns =>
      {| distance_km := getFloat ns "distance" 0%float;
         fuel_used_liters := getFloat ns "fuel" 0%float;
         start_time := getUInt ns "start_time" 0;
         duration_seconds := getUInt ns "duration" 0;
         avg_speed_kmh := getFloat ns "avg_speed" 0%float;
         avg_fuel_economy := avg_fuel_economy t;
         trip_is_active := getBool ns "active" false |}
  end.

Definition load_lifetime (fl : flash) (l : lifetime_stats_t) : lifetime_stats_t :=
  match fl !! "lifetime" with
  | None => l
  | Some ns =>
      {| total_distance_km := getFloat ns "total_dist" 0%float;
         total_fuel_liters := getFloat ns "total_fuel" 0%float;
         engine_hours := getFloat ns "eng_hours" 0%float;
         lifetime_boot_count := getUInt ns "boot_count" 0;
         best_mpg := getFloat ns "best_mpg" 0%float;
         worst_mpg := getFloat ns "worst_mpg" 999%float;
         first_boot_time := getUInt ns "first_boot" 0;
         total_runtime_seconds := getUInt ns "runtime" 0 |}
  end.

Definition load_settings (fl : flash) (s : user_settings_t) : user_settings_t :=
  match fl !! "settings" with
  | None => s
  | Some ns =>
      {| units := getUChar ns "units" (units default_settings);
         brightness := getUChar ns "brightness" (brightness default_settings);
         default_page := getUChar ns "def_page" (default_page default_settings);
         temp_unit := getUChar ns "temp_unit" (temp_unit default_settings);
         pressure_unit :=
           getUChar ns "press_unit" (pressure_unit default_settings);
         fuel_unit := getUChar ns "fuel_unit" (fuel_unit default_settings);
         fuel_tank_1_size :=
           getUShort ns "tank1_size" (fuel_tank_1_size default_settings);
         fuel_tank_2_size :=
           getUShort ns "tank2_size" (fuel_tank_2_size default_settings) |}
  end.

(** The "system" block of [nvs_storage_load_all]. *)
Definition load_system (fl : flash) (s : system_state_t) : system_state_t :=
  match fl !! "system" with
  | None => s
  | Some ns =>
      {| clean_shutdown := getBool ns "clean_shut" true;
         last_timestamp := getUInt ns "last_time" 0;
         boot_count := getUInt ns "boot_count" 0;
         crash_count := getUInt ns "crash_count" 0;
         pending_distance := getFloat ns "pend_dist" 0%float;
         pending_fuel := getFloat ns "pend_fuel" 0%float |}
  end.

Definition load_dtc (fl : flash) (hist : list stored_dtc_t) (count : Z)
  : list stored_dtc_t * Z :=
  match fl !! "fault_log" with
  | None => (hist, count)
  | Some ns =>
      let count' := getUChar ns "count" 0 in
      if (0 <? count') && (count' <=? NVS_MAX_DTC_HISTORY)
      then (getBytes ns "dtcs" hist count', count')
      else (hist, count')
  end.

(** [bool nvs_storage_load_all(nvs_storage_t* storage)]; it always
    returns [true]. *)
Definition nvs_storage_load_all (storage : nvs_storage_t) (fl : flash)
  : nvs_storage_t :=
  {| initialized := initialized storage;
     trip_a := load_trip fl "trip_a" (trip_a storage);
     trip_b := load_trip fl "trip_b" (trip_b storage);
     lifetime := load_lifetime fl (lifetime storage);
     dtc_history := fst (load_dtc fl (dtc_history storage) (dtc_count storage));
     dtc_count := snd (load_dtc fl (dtc_history storage) (dtc_count storage));
     settings := load_settings fl (settings storage);
     system := load_system fl (system storage);
     trip_a_dirty := trip_a_dirty storage; trip_b_dirty := trip_b_dirty storage;
     lifetime_dirty := lifetime_dirty storage; dtc_dirty := dtc_dirty storage;
     settings_dirty := settings_dirty storage;
     distance_accumulator := distance_accumulator storage;
     fuel_accumulator := fuel_accumulator storage;
     last_save_time_ms := last_save_time_ms storage |}.

Definition set_system (storage : nvs_storage_t) (sys : system_state_t)
  (init : bool) : nvs_storage_t :=
  {| initialized := init;
     trip_a := trip_a storage; trip_b := trip_b storage;
     lifetime := lifetime storage; dtc_history := dtc_history storage;
     dtc_count := dtc_count storage; settings := settings storage;
     system := sys;
     trip_a_dirty := trip_a_dirty storage; trip_b_dirty := trip_b_dirty storage;
     lifetime_dirty := lifetime_dirty storage; dtc_dirty := dtc_dirty storage;
     settings_dirty := settings_dirty storage;
     distance_accumulator := distance_accumulator storage;
     fuel_accumulator := fuel_accumulator storage;
     last_save_time_ms := last_save_time_ms storage |}.

(** The boot bookkeeping of [nvs_storage_init] on the loaded state:
    [boot_count++; if (!clean_shutdown) crash_count++;
     clean_shutdown = false;]. *)
Definition boot_update (sys : system_state_t) : system_state_t :=
  {| clean_shutdown := false;
     last_timestamp := last_timestamp sys;
     boot_count := u32 (boot_count sys + 1);
     crash_count := if negb (clean_shutdown sys)
                    then u32 (crash_count sys + 1) else crash_count sys;
     pending_distance := pending_distance sys;
     pending_fuel := pending_fuel sys |}.

(** [bool nvs_storage_init(nvs_storage_t* storage)] on the flash [fl]: the
    storage, the flash afterwards and the result. *)
Definition nvs_storage_init (fl : flash) : nvs_storage_t * flash * bool :=
  let loaded := nvs_storage_load_all storage_defaults fl in
  let sys := boot_update (system loaded) in
  let storage := set_system loaded sys true in
  let fl1 := put fl "system" "boot_count" (NvsUInt (boot_count sys)) in
  let fl2 := put fl1 "system" "crash_count" (NvsUInt (crash_count sys)) in
  let fl3 := put fl2 "system" "clean_shut" (NvsBool false) in
  (storage, fl3, true).

(** The flash and the storage a boot leaves behind. *)
Definition flash_after_init (fl : flash) : flash := snd (fst (nvs_storage_init fl)).
Definition storage_after_init (fl : flash) : nvs_storage_t :=
  fst (fst (nvs_storage_init fl)).

(** What a load finds in the "system" namespace. *)
Definition loaded_system (fl : flash) : system_state_t :=
  system (nvs_storage_load_all storage_defaults fl).

(** *** Save *)

Definition save_trip (fl : flash) (name : string) (t : trip_data_t) : flash :=
  let fl := put fl name "distance" (NvsFloat (distance_km t)) in
  let fl := put fl name "fuel" (NvsFloat (fuel_used_liters t)) in
  let fl := put fl name "start_time" (NvsUInt (start_time t)) in
  let fl := put fl name "duration" (NvsUInt (duration_seconds t)) in
  let fl := put fl name "avg_speed" (NvsFloat (avg_speed_kmh t)) in
  put fl name "active" (NvsBool (trip_is_active t)).

Definition save_lifetime (fl : flash) (l : lifetime_stats_t) : flash :=
  let fl := put fl "lifetime" "total_dist" (NvsFloat (total_distance_km l)) in
  let fl := put fl "lifetime" "total_fuel" (NvsFloat (total_fuel_liters l)) in
  let fl := put fl "lifetime" "eng_hours" (NvsFloat (engine_hours l)) in
  let fl := put fl "lifetime" "boot_count" (NvsUInt (lifetime_boot_count l)) in
  let fl := put fl "lifetime" "best_mpg" (NvsFloat (best_mpg l)) in
  let fl := put fl "lifetime" "worst_mpg" (NvsFloat (worst_mpg l)) in
  let fl := put fl "lifetime" "first_boot" (NvsUInt (first_boot_time l)) in
  put fl "lifetime" "runtime" (NvsUInt (total_runtime_seconds l)).

Definition save_settings (fl : flash) (s : user_settings_t) : flash :=
  let fl := put fl "settings" "units" (NvsUChar (units s)) in
  let fl := put fl "settings" "brightness" (NvsUChar (brightness s)) in
  let fl := put fl "settings" "def_page" (NvsUChar (default_page s)) in
  let fl := put fl "settings" "temp_unit" (NvsUChar (temp_unit s)) in
  let fl := put fl "settings" "press_unit" (NvsUChar (pressure_unit s)) in
  let fl := put fl "settings" "fuel_unit" (NvsUChar (fuel_unit s)) in
  let fl := put fl "settings" "tank1_size" (NvsUShort (fuel_tank_1_size s)) in
  put fl "settings" "tank2_size" (NvsUShort (fuel_tank_2_size s)).

Definition save_dtc (fl : flash) (hist : list stored_dtc_t) (count : Z) : flash :=
  let fl := put fl "fault_log" "count" (NvsUChar count) in
  if 0 <? count
  then put fl "fault_log" "dtcs" (NvsBytes (take (Z.to_nat count) hist))
  else fl.

(** [bool nvs_storage_save_all(nvs_storage_t* storage)]: every dirty
    section is written to its own namespace and its flag cleared. *)
Definition nvs_storage_save_all (storage : nvs_storage_t) (fl : flash)
  : nvs_storage_t * flash * bool :=
  if negb (initialized storage) then (storage, fl, false)
  else
    let fl := if trip_a_dirty storage
              then save_trip fl "trip_a" (trip_a storage) else fl in
    let fl := if trip_b_dirty storage
              then save_trip fl "trip_b" (trip_b storage) else fl in
    let fl := if lifetime_dirty storage
              then save_lifetime fl (lifetime storage) else fl in
    let fl := if settings_dirty storage
              then save_settings fl (settings storage) else fl in
    let fl := if dtc_dirty storage
              then save_dtc fl (dtc_history storage) (dtc_count storage)
              else fl in
    ({| initialized := initialized storage;
        trip_a := trip_a storage; trip_b := trip_b storage;
        lifetime := lifetime storage; dtc_history := dtc_history storage;
        dtc_count := dtc_count storage; settings := settings storage;
        system := system storage;
        trip_a_dirty := false; trip_b_dirty := false; lifetime_dirty := false;
        dtc_dirty := false; settings_dirty := false;
        distance_accumulator := distance_accumulator storage;
        fuel_accumulator := fuel_accumulator storage;
        last_save_time_ms := last_save_time_ms storage |}, fl, true).

Section Accumulate.

(** Single-precision [a + b], left abstract. *)
Variable fadd : float -> float -> float.

Definition add_to_trip (t : trip_data_t) (dist fuel : float) : trip_data_t :=
  {| distance_km := fadd (distance_km t) dist;
     fuel_used_liters := fadd (fuel_used_liters t) fuel;
     start_time := start_time t; duration_seconds := duration_seconds t;
     avg_speed_kmh := avg_speed_kmh t;
     avg_fuel_economy := avg_fuel_economy t;
     trip_is_active := trip_is_active t |}.

Definition add_to_lifetime (l : lifetime_stats_t) (dist fuel : float)
  : lifetime_stats_t :=
  {| total_distance_km := fadd (total_distance_km l) dist;
     total_fuel_liters := fadd (total_fuel_liters l) fuel;
     engine_hours := engine_hours l;
     lifetime_boot_count := lifetime_boot_count l;
     best_mpg := best_mpg l; worst_mpg := worst_mpg l;
     first_boot_time := first_boot_time l;
     total_runtime_seconds := total_runtime_seconds l |}.

(** [bool nvs_storage_emergency_save(nvs_storage_t* storage)] *)
Definition nvs_storage_emergency_save (storage : nvs_storage_t) (fl : flash)
  : nvs_storage_t * flash * bool :=
  let pending :=
    PrimFloat.ltb 0%float (distance_accumulator storage)
    || PrimFloat.ltb 0%float (fuel_accumulator storage) in
  let dist := distance_accumulator storage in
  let fuel := fuel_accumulator storage in
  let forced :=
    {| initialized := initialized storage;
       trip_a := if pending then add_to_trip (trip_a storage) dist fuel
                 else trip_a storage;
       trip_b := if pending then add_to_trip (trip_b storage) dist fuel
                 else trip_b storage;
       lifetime := if pending then add_to_lifetime (lifetime storage) dist fuel
                   else lifetime storage;
       dtc_history := dtc_history storage; dtc_count := dtc_count storage;
       settings := settings storage; system := system storage;
       trip_a_dirty := true; trip_b_dirty := true; lifetime_dirty := true;
       dtc_dirty := dtc_dirty storage; settings_dirty := settings_dirty storage;
       distance_accumulator := if pending then 0%float else dist;
       fuel_accumulator := if pending then 0%float else fuel;
       last_save_time_ms := last_save_time_ms storage |} in
  nvs_storage_save_all forced fl.

(** [void nvs_system_shutdown(nvs_storage_t* storage)] *)
Definition nvs_system_shutdown (storage : nvs_storage_t) (fl : flash)
  : nvs_storage_t * flash :=
  let sys := system storage in
  let marked :=
    set_system storage
      {| clean_shutdown := true; last_timestamp := last_timestamp sys;
         boot_count := boot_count sys; crash_count := crash_count sys;
         pending_distance := pending_distance sys;
         pending_fuel := pending_fuel sys |}
      (initialized storage) in
  let fl1 := put fl "system" "clean_shut" (NvsBool true) in
  fst (nvs_storage_emergency_save marked fl1).

End Accumulate.

(** *** Fault-code history *)

Definition set_history (storage : nvs_storage_t) (hist : list stored_dtc_t)
  (count : Z) : nvs_storage_t :=
  {| initialized := initialized storage;
     trip_a := trip_a storage; trip_b := trip_b storage;
     lifetime := lifetime storage; dtc_history := hist; dtc_count := count;
     settings := settings storage; system := system storage;
     trip_a_dirty := trip_a_dirty storage; trip_b_dirty := trip_b_dirty storage;
     lifetime_dirty := lifetime_dirty storage; dtc_dirty := true;
     settings_dirty := settings_dirty storage;
     distance_accumulator := distance_accumulator storage;
     fuel_accumulator := fuel_accumulator storage;
     last_save_time_ms := last_save_time_ms storage |}.

(** The test of the search loop:
    [dtc->spn == spn && dtc->fmi == fmi && dtc->source_address == sa]. *)
Definition same_fault (s f sa : Z) (d : stored_dtc_t) : Prop :=
  spn d = s /\ fmi d = f /\ source_address d = sa.

#[global] Instance same_fault_dec s f sa d : Decision (same_fault s f sa d).
Proof. unfold same_fault. apply _. Defined.

(** The assignments of the "update existing entry" branch. *)
Definition touch (ts : Z) (active : bool) (d : stored_dtc_t) : stored_dtc_t :=
  {| spn := spn d; fmi := fmi d; source_address := source_address d;
     first_seen := first_seen d; last_seen := ts;
     occurrence_count := u16 (occurrence_count d + 1); is_active := active |}.

(** The assignments of the two "new entry" branches. *)
Definition fresh (s f sa ts : Z) (active : bool) : stored_dtc_t :=
  {| spn := s; fmi := f; source_address := sa; first_seen := ts;
     last_seen := ts; occurrence_count := 1; is_active := active |}.

(** The "replace oldest entry" scan over the array, entry [i] next:
    [if (dtc_history[i].last_seen < oldest_time)
       { oldest_time = ...; oldest_idx = i; }]. *)
Fixpoint oldest_scan (l : list stored_dtc_t) (i : nat) (oldest_time : Z)
  (oldest_idx : nat) : nat :=
  match l with
  | [] => oldest_idx
  | d :: rest =>
      if last_seen d <? oldest_time
      then oldest_scan rest (S i) (last_seen d) i
      else oldest_scan rest (S i) oldest_time oldest_idx
  end.

Definition oldest_index (hist : list stored_dtc_t) : nat :=
  oldest_scan (take (Z.to_nat NVS_MAX_DTC_HISTORY) hist) 0 UINT32_MAX 0.

(** [void nvs_dtc_store(storage, spn, fmi, source_address, timestamp,
    is_active)]. The model follows the C code on tables whose count is at
    most the 20 entries of the array ([well_formed] below), as every table
    the program writes is; with a larger count, read from a foreign
    flash, the C loop indexes behind the array. Every theorem about this
    function assumes [well_formed]. *)
Definition nvs_dtc_store (storage : nvs_storage_t) (s f sa ts : Z)
  (active : bool) : nvs_storage_t :=
  match list_find (same_fault s f sa)
          (take (Z.to_nat (dtc_count storage)) (dtc_history storage)) with
  | Some (i, _) =>
      set_history storage (alter (touch ts active) i (dtc_history storage))
                  (dtc_count storage)
  | None =>
      if dtc_count storage <? NVS_MAX_DTC_HISTORY then
        set_history storage
          (<[Z.to_nat (dtc_count storage) := fresh s f sa ts active]>
             (dtc_history storage))
          (u8 (dtc_count storage + 1))
      else
        set_history storage
          (<[oldest_index (dtc_history storage) := fresh s f sa ts active]>
             (dtc_history storage))
          (dtc_count storage)
  end.

(** [void nvs_dtc_clear_all(nvs_storage_t* storage)] *)
Definition nvs_dtc_clear_all (storage : nvs_storage_t) : nvs_storage_t :=
  set_history storage (replicate (Z.to_nat NVS_MAX_DTC_HISTORY) dtc_zero) 0.

(** One argument list of [nvs_dtc_store]. *)
Record store_call : Type := {
  call_spn : Z;
  call_fmi : Z;
  call_source_address : Z;
  call_timestamp : Z;
  call_is_active : bool
}.

(** A sequence of [nvs_dtc_store] calls, in order. *)
Definition store_all (storage : nvs_storage_t) (calls : list store_call)
  : nvs_storage_t :=
  fold_left
    (fun st c => nvs_dtc_store st (call_spn c) (call_fmi c)
                               (call_source_address c) (call_timestamp c)
                               (call_is_active c))
    calls storage.

(** The table is the full array and the count is within it. *)
Definition well_formed (storage : nvs_storage_t) : Prop :=
  length (dtc_history storage) = Z.to_nat NVS_MAX_DTC_HISTORY /\
  0 <= dtc_count storage <= NVS_MAX_DTC_HISTORY.

(** *** A full table for examples

    Twenty distinct faults SPN 100..119 stored into an empty table, stamped
    500, 501, ... except SPN 107, stamped 5. *)
Definition demo_calls : list store_call :=
  (fun k : nat =>
     {| call_spn := 100 + Z.of_nat k; call_fmi := 1; call_source_address := 0;
        call_timestamp := if (k =? 7)%nat then 5 else 500 + Z.of_nat k;
        call_is_active := true |}) <$> seq 0 20.

Definition demo_full : nvs_storage_t := store_all storage_defaults demo_calls.

(** *** Trips, settings, fault summary ([nvs_storage.cpp], lines 330-344,
    463-470, 490-523 and 545-553) *)

Definition set_trip_a (storage : nvs_storage_t) (t : trip_data_t)
  : nvs_storage_t :=
  {| initialized := initialized storage;
     trip_a := t; trip_b := trip_b storage;
     lifetime := lifetime storage; dtc_history := dtc_history storage;
     dtc_count := dtc_count storage; settings := settings storage;
     system := system storage;
     trip_a_dirty := true; trip_b_dirty := trip_b_dirty storage;
     lifetime_dirty := lifetime_dirty storage; dtc_dirty := dtc_dirty storage;
     settings_dirty := settings_dirty storage;
     distance_accumulator := distance_accumulator storage;
     fuel_accumulator := fuel_accumulator storage;
     last_save_time_ms := last_save_time_ms storage |}.

Definition set_trip_b (storage : nvs_storage_t) (t : trip_data_t)
  : nvs_storage_t :=
  {| initialized := initialized storage;
     trip_a := trip_a storage; trip_b := t;
     lifetime := lifetime storage; dtc_history := dtc_history storage;
     dtc_count := dtc_count storage; settings := settings storage;
     system := system storage;
     trip_a_dirty := trip_a_dirty storage; trip_b_dirty := true;
     lifetime_dirty := lifetime_dirty storage; dtc_dirty := dtc_dirty storage;
     settings_dirty := settings_dirty storage;
     distance_accumulator := distance_accumulator storage;
     fuel_accumulator := fuel_accumulator storage;
     last_save_time_ms := last_save_time_ms storage |}.

(** The trip [nvs_trip_reset] leaves: the defaults, started now, active. *)
Definition reset_trip (current_time : Z) : trip_data_t :=
  {| distance_km := 0%float; fuel_used_liters := 0%float;
     start_time := current_time; duration_seconds := 0;
     avg_speed_kmh := 0%float; avg_fuel_economy := 0%float;
     trip_is_active := true |}.

(** [void nvs_trip_reset(storage, trip_id, current_time)] *)
Definition nvs_trip_reset (storage : nvs_storage_t) (trip_id current_time : Z)
  : nvs_storage_t :=
  if trip_id >? 1 then storage
  else if trip_id =? 0 then set_trip_a storage (reset_trip current_time)
  else set_trip_b storage (reset_trip current_time).

(** [const trip_data_t* nvs_trip_get(storage, trip_id)]; [None] is [NULL]. *)
Definition nvs_trip_get (storage : nvs_storage_t) (trip_id : Z)
  : option trip_data_t :=
  if trip_id >? 1 then None
  else Some (if trip_id =? 0 then trip_a storage else trip_b storage).

Definition set_settings (storage : nvs_storage_t) (s : user_settings_t)
  : nvs_storage_t :=
  {| initialized := initialized storage;
     trip_a := trip_a storage; trip_b := trip_b storage;
     lifetime := lifetime storage; dtc_history := dtc_history storage;
     dtc_count := dtc_count storage; settings := s;
     system := system storage;
     trip_a_dirty := trip_a_dirty storage; trip_b_dirty := trip_b_dirty storage;
     lifetime_dirty := lifetime_dirty storage; dtc_dirty := dtc_dirty storage;
     settings_dirty := true;
     distance_accumulator := distance_accumulator storage;
     fuel_accumulator := fuel_accumulator storage;
     last_save_time_ms := last_save_time_ms storage |}.

(** [void nvs_settings_set(storage, settings)]; [None] is a null
    [settings]. *)
Definition nvs_settings_set (storage : nvs_storage_t)
  (s : option user_settings_t) : nvs_storage_t :=
  match s with
  | None => storage
  | Some s => set_settings storage s
  end.

(** [const user_settings_t* nvs_settings_get(storage)] *)
Definition nvs_settings_get (storage : nvs_storage_t) : user_settings_t :=
  settings storage.

(** [void nvs_settings_reset_defaults(storage)] *)
Definition nvs_settings_reset_defaults (storage : nvs_storage_t)
  : nvs_storage_t :=
  set_settings storage default_settings.






(** [bool nvs_system_was_clean_shutdown(storage)]; [None] is a null
    [storage]. *)
Definition nvs_system_was_clean_shutdown (storage : option nvs_storage_t)
  : bool :=
  match storage with
  | None => true
  | Some st => clean_shutdown (system st)
  end.

(** [uint32_t nvs_system_get_boot_count(storage)] *)
Definition nvs_system_get_boot_count (storage : option nvs_storage_t) : Z :=
  match storage with
  | None => 0
  | Some st => boot_count (system st)
  end.

(** The counted fault entries. *)
Definition stored_faults (storage : nvs_storage_t) : list stored_dtc_t :=
  take (Z.to_nat (dtc_count storage)) (dtc_history storage).

(** A trip as [save_trip] writes it: every field but [avg_fuel_economy],
    for which there is no key. *)
Definition persisted (t : trip_data_t) : trip_data_t :=
  {| distance_km := distance_km t; fuel_used_liters := fuel_used_liters t;
     start_time := start_time t; duration_seconds := duration_seconds t;
     avg_speed_kmh := avg_speed_kmh t; avg_fuel_economy := 0%float;
     trip_is_active := trip_is_active t |}.


End Nvs.

(** ** Vehicle simulator: the frames it sends ([simulator.cpp]) *)

Module Simulator.
Import J1939.

(** The fault fields of [sim_vehicle_state_t]. *)
Record sim_fault_state_t : Type := {
  has_active_fault : bool;
  fault_spn : Z;
  fault_fmi : Z;
  fault_occurrence : Z
}.

(** [void sim_trigger_fault(uint32_t spn, uint8_t fmi)] *)
Definition sim_trigger_fault (st : sim_fault_state_t) (spn fmi : Z)
  : sim_fault_state_t :=
  {| has_active_fault := true; fault_spn := spn; fault_fmi := fmi;
     fault_occurrence := u8 (fault_occurrence st + 1) |}.

(** [void sim_clear_fault(void)] *)
Definition sim_clear_fault (st : sim_fault_state_t) : sim_fault_state_t :=
  {| has_active_fault := false; fault_spn := fault_spn st;
     fault_fmi := fault_fmi st; fault_occurrence := fault_occurrence st |}.

(** [static void build_pgn_65226_dm1(uint8_t* data)]: the eight bytes. *)
Definition build_pgn_65226_dm1 (st : sim_fault_state_t) : list Z :=
  if has_active_fault st then
    let spn := fault_spn st in
    [0x14; 0x00;
     u8 (Z.land spn 0xFF);
     u8 (Z.land (Z.shiftr spn 8) 0xFF);
     u8 (Z.lor (u8 (Z.land (Z.shiftr spn 16) 0x07))
               (Z.shiftl (Z.land (fault_fmi st) 0x1F) 3));
     fault_occurrence st; 0x00; 0x00]
  else [0x00; 0x00; 0xFF; 0xFF; 0xFF; 0xFF; 0x00; 0x00].

(** [static void send_can_frame(uint32_t pgn, uint8_t source_addr,
    const uint8_t* data)]: the arguments of the one call of the callback,
    [None] when no callback is registered. The source calls
    [j1939_build_can_id(6, pgn, source_addr)], whose parameters are
    [(uint32_t pgn, uint8_t source_address, uint8_t priority)]. *)
Definition send_can_frame (has_callback : bool) (pgn source_addr : Z)
  (data : list Z) : option (Z * list Z * Z) :=
  if negb has_callback then None
  else Some (j1939_build_can_id 6 (u8 pgn) source_addr, data, 8).

End Simulator.

(** * Properties *)

(** ** Bit-level arithmetic facts *)

Module UInt_props.

Lemma u8_id x : is_u8 x -> u8 x = x.
Proof. intros H. apply Z.mod_small. exact H. Qed.

Lemma u16_id x : is_u16 x -> u16 x = x.
Proof. intros H. apply Z.mod_small. exact H. Qed.

Lemma u32_id x : is_u32 x -> u32 x = x.
Proof. intros H. apply Z.mod_small. exact H. Qed.

Lemma u8_range x : is_u8 (u8 x).
Proof. apply Z.mod_pos_bound. lia. Qed.

Lemma u16_range x : is_u16 (u16 x).
Proof. apply Z.mod_pos_bound. lia. Qed.

Lemma u32_range x : is_u32 (u32 x).
Proof. apply Z.mod_pos_bound. lia. Qed.

(** [x & (2^n - 1)] keeps the low [n] bits. *)
Lemma land_mask x n : 0 <= n -> Z.land x (2 ^ n - 1) = x mod 2 ^ n.
Proof.
  intros Hn. rewrite <- Z.land_ones by exact Hn.
  f_equal. rewrite Z.ones_equiv. lia.
Qed.

(** A value below [2^n] has no bit in common with a multiple of [2^n]. *)
Lemma land_shiftl_low a b n :
  0 <= n -> 0 <= b < 2 ^ n -> Z.land (Z.shiftl a n) b = 0.
Proof.
  intros Hn Hb. apply Z.bits_inj'. intros i Hi.
  rewrite Z.land_spec, Z.bits_0.
  destruct (Z.lt_ge_cases i n) as [Hlt | Hge].
  - rewrite Z.shiftl_spec_low by exact Hlt. reflexivity.
  - rewrite <- (Z.mod_small b (2 ^ n)) by exact Hb.
    rewrite Z.mod_pow2_bits_high by lia. apply andb_false_r.
Qed.

(** [(a << n) | b] is a sum when [b] fits below bit [n]. *)
Lemma lor_shiftl_low a b n :
  0 <= n -> 0 <= b < 2 ^ n -> Z.lor (Z.shiftl a n) b = a * 2 ^ n + b.
Proof.
  intros Hn Hb.
  rewrite <- Z.lxor_lor by (apply land_shiftl_low; assumption).
  rewrite <- Z.add_nocarry_lxor by (apply land_shiftl_low; assumption).
  rewrite Z.shiftl_mul_pow2 by exact Hn. reflexivity.
Qed.

End UInt_props.

Import UInt_props.

(** ** Identifier round trip *)

Module J1939_id_props.
Import J1939.

(** The identifier built from in-range fields is the plain positional sum. *)
Lemma build_can_id_value pgn sa prio :
  0 <= pgn < 2 ^ 18 -> is_u8 sa -> 0 <= prio < 8 ->
  j1939_build_can_id pgn sa prio = prio * 2 ^ 26 + pgn * 2 ^ 8 + sa.
Proof.
  intros Hpgn Hsa Hprio. unfold j1939_build_can_id, is_u8 in *.
  change 0x07 with (2 ^ 3 - 1). rewrite land_mask by lia.
  rewrite (Z.mod_small prio) by lia.
  rewrite (Z.shiftl_mul_pow2 pgn) by lia.
  rewrite (u32_id (pgn * 2 ^ 8)) by (unfold is_u32; lia).
  rewrite (u32_id (Z.shiftl prio 26))
    by (unfold is_u32; rewrite Z.shiftl_mul_pow2; lia).
  rewrite (lor_shiftl_low prio (pgn * 2 ^ 8) 26) by lia.
  replace (prio * 2 ^ 26 + pgn * 2 ^ 8) with (Z.shiftl (prio * 2 ^ 18 + pgn) 8)
    by (rewrite Z.shiftl_mul_pow2 by lia; lia).
  rewrite lor_shiftl_low by lia.
  rewrite Z.shiftl_mul_pow2 by lia. lia.
Qed.

(** C2. For pgn < 2^18, an 8-bit source address and priority < 8, decoding
    the identifier made by [j1939_build_can_id] gives back the PGN when its
    PDU-format byte is at least 240 (PDU2), and gives back the source
    address and the priority for every PGN. *)
Theorem build_can_id_roundtrip pgn sa prio :
  0 <= pgn < 2 ^ 18 -> 0 <= sa < 2 ^ 8 -> 0 <= prio < 8 ->
  (240 <= pgn_pdu_format pgn ->
     j1939_extract_pgn (j1939_build_can_id pgn sa prio) = pgn) /\
  j1939_extract_source_address (j1939_build_can_id pgn sa prio) = sa /\
  j1939_extract_priority (j1939_build_can_id pgn sa prio) = prio.
Proof.
  intros Hpgn Hsa Hprio.
  rewrite (build_can_id_value pgn sa prio) by (unfold is_u8; lia).
  set (id := prio * 2 ^ 26 + pgn * 2 ^ 8 + sa).
  assert (Hpf : (id / 2 ^ 16) mod 2 ^ 8 = pgn_pdu_format pgn)
    by (unfold id, pgn_pdu_format; Z.div_mod_to_equations; lia).
  assert (Hps : (id / 2 ^ 8) mod 2 ^ 8 = pgn mod 2 ^ 8)
    by (unfold id; Z.div_mod_to_equations; lia).
  assert (Hdp : (id / 2 ^ 24) mod 2 ^ 2 = pgn / 2 ^ 16)
    by (unfold id; Z.div_mod_to_equations; lia).
  repeat split.
  - intros Hpdu2. unfold j1939_extract_pgn.
    change 0xFF with (2 ^ 8 - 1). change 0x03 with (2 ^ 2 - 1).
    rewrite !land_mask, !Z.shiftr_div_pow2 by lia.
    rewrite Hpf, Hps, Hdp.
    assert (Hpfr : 240 <= pgn_pdu_format pgn < 2 ^ 8)
      by (split; [exact Hpdu2 | apply Z.mod_pos_bound; lia]).
    rewrite !u8_id
      by (unfold is_u8; first [lia | Z.div_mod_to_equations; lia]).
    destruct (Z.ltb_spec (pgn_pdu_format pgn) 240) as [Hlt | _]; [lia |].
    rewrite (Z.shiftl_mul_pow2 (pgn_pdu_format pgn)) by lia.
    rewrite (u32_id (pgn_pdu_format pgn * 2 ^ 8)) by (unfold is_u32; lia).
    rewrite (u32_id (Z.shiftl (pgn / 2 ^ 16) 16))
      by (unfold is_u32; rewrite Z.shiftl_mul_pow2 by lia;
          Z.div_mod_to_equations; lia).
    rewrite (lor_shiftl_low (pgn / 2 ^ 16) (pgn_pdu_format pgn * 2 ^ 8) 16) by lia.
    replace (pgn / 2 ^ 16 * 2 ^ 16 + pgn_pdu_format pgn * 2 ^ 8)
      with (Z.shiftl (pgn / 2 ^ 16 * 2 ^ 8 + pgn_pdu_format pgn) 8)
      by (rewrite Z.shiftl_mul_pow2 by lia; lia).
    rewrite lor_shiftl_low by (try lia; apply Z.mod_pos_bound; lia).
    unfold pgn_pdu_format. Z.div_mod_to_equations. lia.
  - unfold j1939_extract_source_address.
    change 0xFF with (2 ^ 8 - 1). rewrite land_mask by lia.
    unfold u8. rewrite Z.mod_mod by lia.
    unfold id. Z.div_mod_to_equations. lia.
  - unfold j1939_extract_priority.
    change 0x07 with (2 ^ 3 - 1).
    rewrite land_mask, Z.shiftr_div_pow2 by lia.
    unfold u8, id. Z.div_mod_to_equations. lia.
Qed.

(** The round trip at PGN 65262 (ET1), source 0x00, priority 6. *)
Lemma build_can_id_roundtrip_witness :
  240 <= pgn_pdu_format 65262 /\
  j1939_extract_pgn (j1939_build_can_id 65262 0 6) = 65262 /\
  j1939_extract_source_address (j1939_build_can_id 65262 0 6) = 0 /\
  j1939_extract_priority (j1939_build_can_id 65262 0 6) = 6.
Proof.
  assert (Hpdu2 : 240 <= pgn_pdu_format 65262) by (vm_compute; discriminate).
  destruct (build_can_id_roundtrip 65262 0 6) as (Hpgn & Hsa & Hprio);
    [lia | lia | lia |].
  split; [exact Hpdu2 |]. split; [exact (Hpgn Hpdu2) |].
  split; [exact Hsa | exact Hprio].
Defined.

(** The identifiers of the unit tests: 0x18FEEE00 (PDU2) and 0x18EA00F9
    (PDU1, destination 0x00). *)
Example extract_pdu2_frame :
  j1939_extract_pgn 0x18FEEE00 = 65262 /\
  j1939_extract_source_address 0x18FEEE00 = 0 /\
  j1939_extract_priority 0x18FEEE00 = 6 /\
  j1939_extract_destination 0x18FEEE00 = 0xFF.
Proof. repeat split; reflexivity. Qed.

Example extract_pdu1_frame :
  j1939_extract_pgn 0x18EA00F9 = 59904 /\
  j1939_extract_source_address 0x18EA00F9 = 0xF9 /\
  j1939_extract_priority 0x18EA00F9 = 6 /\
  j1939_extract_destination 0x18EA00F9 = 0x00.
Proof. repeat split; reflexivity. Qed.

(** A PDU1 PGN with a destination placed in its low byte does not come
    back: the decoder clears that byte. *)
Example build_pdu1_loses_destination :
  j1939_extract_pgn (j1939_build_can_id 0xEA17 0xF9 6) = 0xEA00.
Proof. reflexivity. Qed.

End J1939_id_props.

(** ** Transport-protocol reassembly *)

Module J1939_tp_props.
Import J1939.

Lemma tp_copy_loop_length fuel i off S data buf :
  length (tp_copy_loop fuel i off S data buf) = length buf.
Proof.
  revert i buf. induction fuel as [| fuel IH]; intros i buf; simpl.
  - reflexivity.
  - destruct ((i <? 7) && (off + i <? S)); [| reflexivity].
    rewrite IH. apply length_insert.
Qed.

Lemma tp_copy_loop_miss fuel i off S data buf (j : nat) :
  0 <= i -> 0 <= off -> Z.of_nat fuel = 7 - i ->
  ~ (off + i <= Z.of_nat j < off + 7 /\ Z.of_nat j < S) ->
  tp_copy_loop fuel i off S data buf !! j = buf !! j.
Proof.
  revert i buf. induction fuel as [| fuel IH]; intros i buf Hi Hoff Hfuel Hout;
    simpl; [reflexivity |].
  destruct (Z.ltb_spec i 7) as [Hi7 | Hi7]; [| lia]. simpl.
  destruct (Z.ltb_spec (off + i) S) as [HS | HS]; [| reflexivity].
  rewrite IH by lia. apply list_lookup_insert_ne. lia.
Qed.

Lemma tp_copy_loop_hit fuel i off S data buf (j : nat) :
  0 <= i -> 0 <= off -> Z.of_nat fuel = 7 - i ->
  off + i <= Z.of_nat j < off + 7 -> Z.of_nat j < S -> (j < length buf)%nat ->
  tp_copy_loop fuel i off S data buf !! j
  = Some (byte_at data (1 + (Z.of_nat j - off))).
Proof.
  revert i buf. induction fuel as [| fuel IH];
    intros i buf Hi Hoff Hfuel Hwin HjS Hlen; simpl; [lia |].
  destruct (Z.ltb_spec i 7) as [Hi7 | Hi7]; [| lia]. simpl.
  destruct (Z.ltb_spec (off + i) S) as [HS | HS]; [| lia].
  destruct (decide (Z.of_nat j = off + i)) as [Heq | Hne].
  - rewrite tp_copy_loop_miss by lia.
    replace (Z.to_nat (off + i)) with j by lia.
    rewrite list_lookup_insert_eq by lia. do 2 f_equal. lia.
  - apply IH; rewrite ?length_insert; lia.
Qed.

Lemma lor_low_shiftl a b n :
  0 <= n -> 0 <= b < 2 ^ n -> Z.lor b (Z.shiftl a n) = a * 2 ^ n + b.
Proof. intros. rewrite Z.lor_comm. apply lor_shiftl_low; assumption. Qed.

Lemma le16_decode x :
  0 <= x < 2 ^ 16 ->
  u16 (Z.lor (x mod 2 ^ 8) (Z.shiftl (x / 2 ^ 8) 8)) = x.
Proof.
  intros Hx. rewrite lor_low_shiftl by (try lia; apply Z.mod_pos_bound; lia).
  unfold u16. Z.div_mod_to_equations. lia.
Qed.

Lemma le24_decode x :
  0 <= x < 2 ^ 24 ->
  u32 (Z.lor (Z.lor (x mod 2 ^ 8) (Z.shiftl ((x / 2 ^ 8) mod 2 ^ 8) 8))
             (Z.shiftl (x / 2 ^ 16) 16)) = x.
Proof.
  intros Hx.
  rewrite (lor_low_shiftl ((x / 2 ^ 8) mod 2 ^ 8) (x mod 2 ^ 8) 8)
    by (try lia; apply Z.mod_pos_bound; lia).
  rewrite lor_low_shiftl by (try lia; Z.div_mod_to_equations; lia).
  unfold u32. Z.div_mod_to_equations. lia.
Qed.

Section Reassembly.
Variables (sa S packets target : Z).
Hypothesis HS : 1 <= S.
Hypothesis Hpackets : packets = (S + 6) / 7.
Hypothesis Hpk : packets <= 255.
Hypothesis Htarget : 0 <= target < 2 ^ 24.

Local Abbreviation first_match := (J1939.first_match sa).
Local Abbreviation sess_inv := (J1939.sess_inv sa S packets target).

Lemma find_of_inv ctx idx st k done last :
  sess_inv ctx idx st k done last -> st <> TP_STATE_IDLE ->
  find_tp_session ctx sa = Some idx.
Proof.
  intros [Hfirst (s & Hs & Hst & Hsa & _)] Hlive.
  unfold find_tp_session.
  assert (list_find (fun s => tp_state s <> TP_STATE_IDLE
                              /\ tp_source_address s = sa) (tp_sessions ctx)
          = Some (idx, s)) as ->; [| reflexivity].
  apply list_find_Some. split; [exact Hs |].
  split; [split; congruence |].
  intros j y Hy Hlt. exact (Hfirst j y Hy Hlt).
Qed.

Lemma first_match_insert ctx idx s :
  first_match ctx idx -> first_match (set_session ctx idx s) idx.
Proof.
  intros Hfirst j y Hy Hlt. simpl in Hy.
  rewrite list_lookup_insert_ne in Hy by lia. exact (Hfirst j y Hy Hlt).
Qed.

(** The slot a Broadcast Announce takes: the live session of [sa] when
    there is one, the first idle slot otherwise. *)
Lemma bam_slot ctx :
  is_Some (find_tp_session ctx sa) \/ is_Some (allocate_tp_session ctx) ->
  exists idx,
    match find_tp_session ctx sa with
    | Some i => Some i
    | None => allocate_tp_session ctx
    end = Some idx /\
    (idx < length (tp_sessions ctx))%nat /\ first_match ctx idx.
Proof.
  intros Havail. unfold find_tp_session, allocate_tp_session in *.
  destruct (list_find _ (tp_sessions ctx)) as [[i x] |] eqn:Hfind; simpl in *.
  - exists i. apply list_find_Some in Hfind as (Hx & _ & Hbefore).
    split; [reflexivity |]. split; [eapply lookup_lt_Some; exact Hx |].
    intros j y Hy Hlt. exact (Hbefore j y Hy Hlt).
  - destruct Havail as [[? Hbad] | [i Hi]]; [discriminate Hbad |].
    apply fmap_Some in Hi as ([i' x] & Hall & ->). rewrite Hall. simpl.
    exists i'. apply list_find_Some in Hall as (Hx & _ & _).
    split; [reflexivity |]. split; [eapply lookup_lt_Some; exact Hx |].
    apply list_find_None in Hfind.
    intros j y Hy _. rewrite Forall_forall in Hfind.
    apply Hfind. eapply list_elem_of_lookup_2. exact Hy.
Qed.

Lemma sess_inv_insert ctx idx s k done last :
  first_match ctx idx -> (idx < length (tp_sessions ctx))%nat ->
  tp_source_address s = sa -> tp_target_pgn s = target ->
  tp_total_size s = S -> tp_total_packets s = packets ->
  tp_received_packets s = k -> tp_last_packet_time_ms s = last ->
  length (tp_buffer s) = Z.to_nat J1939_TP_MAX_LENGTH ->
  (forall j : nat, Z.of_nat j < Z.min (7 * k) S ->
                   tp_buffer s !! j = done !! j) ->
  sess_inv (set_session ctx idx s) idx (tp_state s) k done last.
Proof.
  intros Hfirst Hidx Hsa Htg Hsz Hpk' Hk Hlast Hlen Hbuf.
  split; [apply first_match_insert; exact Hfirst |].
  exists s. simpl. rewrite list_lookup_insert_eq by exact Hidx.
  repeat split; assumption.
Qed.

(** A Broadcast Announce opens the session in slot [idx]. *)
Lemma bam_step ctx reserved t0 :
  S < 2 ^ 16 ->
  is_Some (find_tp_session ctx sa) \/ is_Some (allocate_tp_session ctx) ->
  exists idx ctx',
    j1939_tp_handle_frame ctx (bam_frame sa S packets reserved target t0)
    = (ctx', false) /\
    sess_inv ctx' idx TP_STATE_RECEIVING 0 [] t0.
Proof.
  intros HS16 Havail.
  destruct (bam_slot ctx Havail) as (idx & Hslot & Hidx & Hfirst).
  exists idx. eexists. unfold j1939_tp_handle_frame.
  change (msg_pgn (bam_frame sa S packets reserved target t0)) with PGN_TP_CM.
  rewrite Z.eqb_refl.
  change (byte_at (msg_data (bam_frame sa S packets reserved target t0)) 0)
    with TP_CM_BAM.
  rewrite Z.eqb_refl.
  change (msg_source_address (bam_frame sa S packets reserved target t0))
    with sa.
  rewrite Hslot. split; [reflexivity |].
  match goal with
  | |- sess_inv (set_session ctx idx ?s) _ _ _ _ _ =>
      apply (sess_inv_insert ctx idx s 0 [] t0)
  end.
  - exact Hfirst.
  - exact Hidx.
  - reflexivity.
  - apply le24_decode. exact Htarget.
  - apply le16_decode. lia.
  - reflexivity.
  - reflexivity.
  - reflexivity.
  - apply length_replicate.
  - intros j Hj. lia.
Qed.

(** One in-order Data Transfer frame, in time, advances the session; the
    frame that brings the count to [packets] completes it. *)
Lemma dt_step ctx idx k done last payload ts :
  sess_inv ctx idx TP_STATE_RECEIVING k done last ->
  0 <= k < packets -> length payload = 7%nat ->
  length done = Z.to_nat (7 * k) ->
  u32 (ts - last) <= J1939_TP_TIMEOUT_MS ->
  exists ctx',
    j1939_tp_handle_frame ctx (dt_frame sa (k + 1) payload ts)
    = (ctx', k + 1 >=? packets) /\
    sess_inv ctx' idx
      (if k + 1 >=? packets then TP_STATE_COMPLETE else TP_STATE_RECEIVING)
      (k + 1) (done ++ payload) ts.
Proof.
  intros Hinv Hk Hpay Hdone Htime.
  pose proof (find_of_inv _ _ _ _ _ _ Hinv ltac:(discriminate)) as Hfind.
  destruct Hinv as [Hfirst (s & Hs & Hst & Hsa & Htg & Hsz & Hpk' & Hrecv
                            & Hlast & Hlen & Hbuf)].
  assert (Hidx : (idx < length (tp_sessions ctx))%nat)
    by (eapply lookup_lt_Some; exact Hs).
  unfold j1939_tp_handle_frame.
  change (msg_pgn (dt_frame sa (k + 1) payload ts)) with PGN_TP_DT.
  change (PGN_TP_DT =? PGN_TP_CM) with false. rewrite Z.eqb_refl.
  change (msg_source_address (dt_frame sa (k + 1) payload ts)) with sa.
  change (msg_timestamp_ms (dt_frame sa (k + 1) payload ts)) with ts.
  change (msg_data (dt_frame sa (k + 1) payload ts)) with ((k + 1) :: payload).
  change (byte_at ((k + 1) :: payload) 0) with (k + 1).
  cbv zeta. rewrite Hfind, Hs, Hst, Hlast, Hrecv, Hsz, Hpk'.
  rewrite bool_decide_eq_true_2 by reflexivity. cbn [negb].
  destruct (Z.gtb_spec (u32 (ts - last)) J1939_TP_TIMEOUT_MS) as [Hbad | _];
    [lia |].
  rewrite Z.eqb_refl. cbn [negb].
  replace (k + 1 - 1) with k by lia.
  rewrite (u16_id (k * 7)) by (unfold is_u16; lia).
  rewrite (u8_id (k + 1)) by (unfold is_u8; lia).
  set (buf := tp_copy_loop 7 0 (k * 7) S ((k + 1) :: payload) (tp_buffer s)).
  assert (Hbuflen : length buf = Z.to_nat J1939_TP_MAX_LENGTH)
    by (unfold buf; rewrite tp_copy_loop_length; exact Hlen).
  assert (Hbuf' : forall j : nat, Z.of_nat j < Z.min (7 * (k + 1)) S ->
                    buf !! j = (done ++ payload) !! j).
  { intros j Hj. unfold buf.
    destruct (Z.lt_ge_cases (Z.of_nat j) (7 * k)) as [Hold | Hnew].
    - rewrite tp_copy_loop_miss by lia.
      rewrite lookup_app_l by lia. apply Hbuf. lia.
    - rewrite tp_copy_loop_hit
        by (try lia; rewrite Hlen; unfold J1939_TP_MAX_LENGTH; lia).
      rewrite lookup_app_r by lia. rewrite Hdone.
      unfold byte_at.
      replace (Z.to_nat (1 + (Z.of_nat j - k * 7)))
        with (Datatypes.S (j - Z.to_nat (7 * k))) by lia.
      cbn [nth].
      destruct (lookup_lt_is_Some_2 payload (j - Z.to_nat (7 * k)))
        as [x Hx]; [lia |].
      rewrite Hx. f_equal. apply nth_lookup_Some. exact Hx. }
  destruct (k + 1 >=? packets) eqn:Hfin.
  - eexists. split; [reflexivity |].
    split; [intros j y Hy Hlt; simpl in Hy;
            rewrite list_lookup_insert_ne in Hy by lia;
            exact (Hfirst j y Hy Hlt) |].
    eexists. simpl. rewrite list_lookup_insert_eq by exact Hidx.
    split; [reflexivity |]. simpl. repeat split; assumption.
  - eexists. split; [reflexivity |].
    match goal with
    | |- sess_inv (set_session ctx idx ?s') _ _ _ _ _ =>
        apply (sess_inv_insert ctx idx s' (k + 1) (done ++ payload) ts)
    end; assumption || reflexivity.
Qed.

(** The remaining in-order frames, each in time, complete the session on
    the last one and on no earlier one. *)
Lemma dt_feed idx fs : forall ctx k done last,
  sess_inv ctx idx TP_STATE_RECEIVING k done last ->
  0 <= k -> k + Z.of_nat (length fs) = packets -> fs <> [] ->
  Forall (fun f => length (fst f) = 7%nat) fs ->
  length done = Z.to_nat (7 * k) ->
  within_timeout last fs ->
  exists ctx' last',
    tp_feed ctx (dt_frames sa (k + 1) fs)
    = (ctx', replicate (length fs - 1) false ++ [true]) /\
    sess_inv ctx' idx TP_STATE_COMPLETE packets
             (done ++ concat (fs.*1)) last'.
Proof.
  induction fs as [| [payload ts] fs IH];
    intros ctx k done last Hinv Hk Hcount Hne Hlen7 Hdone Htime;
    [congruence |].
  apply Forall_cons in Hlen7 as [Hpay Hlen7]. simpl in Hpay.
  destruct Htime as [Hts Htime].
  simpl in Hcount.
  destruct (dt_step ctx idx k done last payload ts Hinv ltac:(lia) Hpay Hdone Hts)
    as (ctx1 & Hstep & Hinv1).
  cbn [dt_frames tp_feed]. rewrite Hstep.
  destruct fs as [| f fs'].
  - destruct (Z.geb_spec (k + 1) packets) as [_ | Hlt]; [| simpl in Hcount; lia].
    exists ctx1, ts. simpl. split; [reflexivity |].
    assert (Hk1 : k + 1 = packets) by (simpl in Hcount; lia).
    rewrite Hk1 in Hinv1. rewrite app_nil_r. exact Hinv1.
  - destruct (Z.geb_spec (k + 1) packets) as [Hge | _];
      [simpl in Hcount; lia |].
    destruct (IH ctx1 (k + 1) (done ++ payload) ts Hinv1) as (ctx2 & last2 & Hfeed & Hinv2).
    + lia.
    + simpl in *. lia.
    + discriminate.
    + exact Hlen7.
    + rewrite length_app, Hdone, Hpay. lia.
    + exact Htime.
    + exists ctx2, last2. rewrite Hfeed. split.
      * simpl. rewrite Nat.sub_0_r. reflexivity.
      * rewrite fmap_cons, concat_cons, app_assoc. exact Hinv2.
Qed.

Lemma take_ext (l1 l2 : list Z) (n : nat) :
  (forall j, (j < n)%nat -> l1 !! j = l2 !! j) -> take n l1 = take n l2.
Proof.
  intros H. apply list_eq. intros j.
  destruct (decide (j < n)%nat) as [Hlt | Hge].
  - rewrite !lookup_take_lt by exact Hlt. apply H. exact Hlt.
  - rewrite !lookup_take_ge by lia. reflexivity.
Qed.

Lemma size_bound : S <= J1939_TP_MAX_LENGTH.
Proof. unfold J1939_TP_MAX_LENGTH. Z.div_mod_to_equations. lia. Qed.

(** Draining a complete session. *)
Lemma get_data_complete ctx idx done last pgn0 data max_len :
  sess_inv ctx idx TP_STATE_COMPLETE packets done last ->
  length done = Z.to_nat (7 * packets) -> 0 <= max_len ->
  let r := j1939_tp_get_data ctx sa (Some pgn0) data max_len in
  get_len r = Z.min S max_len /\
  get_pgn r = Some target /\
  take (Z.to_nat (Z.min S max_len)) (get_data r)
  = take (Z.to_nat (Z.min S max_len)) done /\
  tp_state <$> tp_sessions (get_ctx r) !! idx = Some TP_STATE_IDLE.
Proof.
  intros Hinv Hdone Hmax.
  pose proof (find_of_inv _ _ _ _ _ _ Hinv ltac:(discriminate)) as Hfind.
  pose proof size_bound as Hsize.
  destruct Hinv as [Hfirst (s & Hs & Hst & Hsa & Htg & Hsz & Hpk' & Hrecv
                            & Hlast & Hlen & Hbuf)].
  unfold j1939_tp_get_data. rewrite Hfind, Hs, Hst, Hsz, Htg.
  rewrite bool_decide_eq_true_2 by reflexivity. cbn [negb].
  assert (Hcopy : (if S <? max_len then S else max_len) = Z.min S max_len)
    by (destruct (Z.ltb_spec S max_len); lia).
  rewrite Hcopy. cbv zeta.
  cbn [get_len get_pgn get_data get_ctx set_session tp_sessions].
  split; [reflexivity |]. split; [reflexivity |]. split.
  - rewrite take_app_le by (rewrite length_take, Hlen; lia).
    rewrite take_idemp. apply take_ext. intros j Hj. apply Hbuf.
    rewrite Hpackets. Z.div_mod_to_equations. lia.
  - rewrite list_lookup_insert_eq by (eapply lookup_lt_Some; exact Hs).
    reflexivity.
Qed.

End Reassembly.

(** C1 (as amended). A Broadcast Announce with total size [1 <= S] and
    [ceil(S/7) <= 255] packets that finds a session slot (a live session
    of the same source address, or an idle slot), followed by the Data
    Transfer frames numbered [1..ceil(S/7)] in order, each at most 750 ms
    after the frame before it, completes exactly on the last frame.
    Draining then returns [min S max_len] bytes, the first bytes of the
    concatenated payloads truncated to [S], writes the announced target
    PGN, and leaves the slot idle. *)
Theorem tp_bam_reassembly ctx sa S target reserved t0
  (frames : list (list Z * Z)) pgn0 data max_len :
  1 <= S -> (S + 6) / 7 <= 255 -> 0 <= target < 2 ^ 24 ->
  is_Some (find_tp_session ctx sa) \/ is_Some (allocate_tp_session ctx) ->
  Z.of_nat (length frames) = (S + 6) / 7 ->
  Forall (fun f => length (fst f) = 7%nat) frames ->
  within_timeout t0 frames ->
  0 <= max_len ->
  exists ctx1 idx,
    tp_feed ctx (bam_frame sa S ((S + 6) / 7) reserved target t0
                 :: dt_frames sa 1 frames)
    = (ctx1, replicate (length frames) false ++ [true]) /\
    find_tp_session ctx1 sa = Some idx /\
    tp_state <$> tp_sessions ctx1 !! idx = Some TP_STATE_COMPLETE /\
    get_len (j1939_tp_get_data ctx1 sa (Some pgn0) data max_len)
    = Z.min S max_len /\
    get_pgn (j1939_tp_get_data ctx1 sa (Some pgn0) data max_len)
    = Some target /\
    take (Z.to_nat (Z.min S max_len))
         (get_data (j1939_tp_get_data ctx1 sa (Some pgn0) data max_len))
    = take (Z.to_nat (Z.min S max_len))
           (take (Z.to_nat S) (concat (frames.*1))) /\
    tp_state <$>
      tp_sessions (get_ctx (j1939_tp_get_data ctx1 sa (Some pgn0) data max_len))
      !! idx
    = Some TP_STATE_IDLE.
Proof.
  intros HS Hpk Htarget Havail Hcount Hlen7 Htime Hmax.
  set (packets := (S + 6) / 7) in *.
  assert (HS16 : S < 2 ^ 16) by (unfold packets in Hpk; Z.div_mod_to_equations; lia).
  assert (Hpos : 1 <= packets) by (unfold packets; Z.div_mod_to_equations; lia).
  destruct (bam_step sa S packets target HS Htarget ctx reserved t0 HS16 Havail)
    as (idx & ctx0 & Hbam & Hinv0).
  destruct (dt_feed sa S packets target HS Hpk idx frames ctx0 0 [] t0 Hinv0)
    as (ctx1 & last & Hfeed & Hinv1);
    try assumption; try lia.
  { intros ->. simpl in Hcount. lia. }
  { reflexivity. }
  change (0 + 1) with 1 in Hfeed. simpl app in Hinv1.
  assert (Hdone : length (concat (frames.*1)) = Z.to_nat (7 * packets)).
  { assert (Hnat : length (concat (frames.*1)) = (7 * length frames)%nat).
    { clear -Hlen7.
      induction Hlen7 as [| [p ts] fs Hp _ IH]; [reflexivity |].
      rewrite fmap_cons, concat_cons, length_app, IH, length_cons.
      cbn [fst] in *. lia. }
    lia. }
  exists ctx1, idx. cbn [tp_feed]. rewrite Hbam, Hfeed.
  split.
  { f_equal. destruct frames as [| f fs]; [simpl in Hcount; lia |].
    simpl. rewrite Nat.sub_0_r. reflexivity. }
  split; [exact (find_of_inv sa S packets target _ _ _ _ _ _ Hinv1
                   ltac:(discriminate)) |].
  split.
  { destruct Hinv1 as [_ (s & Hs & Hst & _)]. rewrite Hs. simpl. congruence. }
  destruct (get_data_complete sa S packets target HS eq_refl Hpk Htarget ctx1 idx _ last
              pgn0 data max_len Hinv1 Hdone Hmax) as (Hl & Hp & Hd & Hi).
  repeat split; try assumption.
  rewrite Hd, take_take. f_equal. lia.
Qed.

(** The reassembly theorem on two frames carrying A1..AE, announced as 14
    bytes for PGN 65226, into a 256-byte caller buffer. *)
Lemma tp_bam_reassembly_witness :
  exists ctx1 idx,
    tp_feed j1939_parser_init
      (bam_frame 0 14 ((14 + 6) / 7) 0xFF 65226 0
       :: dt_frames 0 1
            [([0xA1; 0xA2; 0xA3; 0xA4; 0xA5; 0xA6; 0xA7], 10);
             ([0xA8; 0xA9; 0xAA; 0xAB; 0xAC; 0xAD; 0xAE], 20)])
    = (ctx1, replicate 2 false ++ [true]) /\
    find_tp_session ctx1 0 = Some idx /\
    tp_state <$> tp_sessions ctx1 !! idx = Some TP_STATE_COMPLETE /\
    get_len (j1939_tp_get_data ctx1 0 (Some 0) (replicate 256 0) 256)
    = Z.min 14 256 /\
    get_pgn (j1939_tp_get_data ctx1 0 (Some 0) (replicate 256 0) 256)
    = Some 65226 /\
    take (Z.to_nat (Z.min 14 256))
         (get_data (j1939_tp_get_data ctx1 0 (Some 0) (replicate 256 0) 256))
    = take (Z.to_nat (Z.min 14 256))
           (take (Z.to_nat 14)
              [0xA1; 0xA2; 0xA3; 0xA4; 0xA5; 0xA6; 0xA7;
               0xA8; 0xA9; 0xAA; 0xAB; 0xAC; 0xAD; 0xAE]) /\
    tp_state <$>
      tp_sessions
        (get_ctx (j1939_tp_get_data ctx1 0 (Some 0) (replicate 256 0) 256))
      !! idx
    = Some TP_STATE_IDLE.
Proof.
  apply (tp_bam_reassembly j1939_parser_init 0 14 65226 0xFF 0
           [([0xA1; 0xA2; 0xA3; 0xA4; 0xA5; 0xA6; 0xA7], 10);
            ([0xA8; 0xA9; 0xAA; 0xAB; 0xAC; 0xAD; 0xAE], 20)]
           0 (replicate 256 0) 256).
  - lia.
  - vm_compute. discriminate.
  - lia.
  - right. exists 0%nat. vm_compute. reflexivity.
  - vm_compute. reflexivity.
  - repeat constructor.
  - vm_compute. repeat split; discriminate.
  - lia.
Defined.

(** C1 as stated fails in two ways. An announce of zero bytes in zero
    packets leaves its session in [TP_STATE_RECEIVING] (completion is only
    tested when a data frame arrives), so draining returns nothing, leaves
    the caller's PGN untouched and does not free the slot. And with all
    four slots held by other sources, the announce of a fifth source is
    dropped, so its in-order frames never complete. *)
Lemma tp_bam_not_always_complete :
  (snd (tp_feed j1939_parser_init (bam_frame 0 0 0 0xFF 65226 0
                                    :: dt_frames 0 1 [])) = [false] /\
   tp_state <$>
     tp_sessions (fst (tp_feed j1939_parser_init
                         (bam_frame 0 0 0 0xFF 65226 0 :: dt_frames 0 1 [])))
     !! 0%nat = Some TP_STATE_RECEIVING /\
   get_pgn (j1939_tp_get_data
              (fst (tp_feed j1939_parser_init
                      (bam_frame 0 0 0 0xFF 65226 0 :: dt_frames 0 1 [])))
              0 (Some 0) [0; 0; 0; 0] 4) = Some 0 /\
   tp_state <$>
     tp_sessions
       (get_ctx (j1939_tp_get_data
                   (fst (tp_feed j1939_parser_init
                           (bam_frame 0 0 0 0xFF 65226 0 :: dt_frames 0 1 [])))
                   0 (Some 0) [0; 0; 0; 0] 4))
     !! 0%nat = Some TP_STATE_RECEIVING) /\
  (snd (tp_feed
          (fst (tp_feed j1939_parser_init
                  [bam_frame 1 14 2 0xFF 65226 0; bam_frame 2 14 2 0xFF 65226 0;
                   bam_frame 3 14 2 0xFF 65226 0; bam_frame 4 14 2 0xFF 65226 0]))
          (bam_frame 5 7 1 0xFF 65226 0
           :: dt_frames 5 1 [([1; 2; 3; 4; 5; 6; 7], 10)]))
   = [false; false] /\
   find_tp_session
     (fst (tp_feed
             (fst (tp_feed j1939_parser_init
                     [bam_frame 1 14 2 0xFF 65226 0; bam_frame 2 14 2 0xFF 65226 0;
                      bam_frame 3 14 2 0xFF 65226 0; bam_frame 4 14 2 0xFF 65226 0]))
             (bam_frame 5 7 1 0xFF 65226 0
              :: dt_frames 5 1 [([1; 2; 3; 4; 5; 6; 7], 10)])))
     5 = None).
Proof. vm_compute. repeat split; reflexivity. Qed.

End J1939_tp_props.

(** ** DM1 record extraction *)

Module J1939_dm1_props.
Import J1939.

(** Masking with [m < 2^n] leaves a value below [2^n]. *)
Lemma land_bound a m n : 0 <= n -> 0 <= m < 2 ^ n -> 0 <= Z.land a m < 2 ^ n.
Proof.
  intros Hn Hm.
  assert (Heq : Z.land a m = Z.land a m mod 2 ^ n).
  { rewrite <- Z.land_ones by exact Hn. rewrite <- Z.land_assoc.
    rewrite (Z.land_ones m) by exact Hn. rewrite Z.mod_small by exact Hm.
    reflexivity. }
  rewrite Heq. apply Z.mod_pos_bound. lia.
Qed.

(** The bitwise or of two values below [2^n] is below [2^n]. *)
Lemma lor_bound a b n :
  0 <= n -> 0 <= a < 2 ^ n -> 0 <= b < 2 ^ n -> 0 <= Z.lor a b < 2 ^ n.
Proof.
  intros Hn Ha Hb.
  assert (Heq : Z.lor a b = Z.lor a b mod 2 ^ n).
  { rewrite <- Z.land_ones by exact Hn. rewrite Z.land_lor_distr_l.
    rewrite !Z.land_ones by exact Hn. rewrite !Z.mod_small by assumption.
    reflexivity. }
  rewrite Heq. apply Z.mod_pos_bound. lia.
Qed.

Lemma spn_in_range b0 b1 b2 :
  is_u8 b0 -> is_u8 b1 ->
  is_u32 (Z.lor (Z.lor b0 (Z.shiftl b1 8)) (Z.shiftl (Z.land b2 0xE0) 11)).
Proof.
  unfold is_u8, is_u32. intros H0 H1.
  pose proof (land_bound b2 0xE0 8 ltac:(lia) ltac:(lia)) as H2.
  assert (0 <= Z.lor (Z.lor b0 (Z.shiftl b1 8))
                     (Z.shiftl (Z.land b2 0xE0) 11) < 2 ^ 19); [| lia].
  apply lor_bound; [lia | apply lor_bound; [lia | lia |] |];
    rewrite Z.shiftl_mul_pow2 by lia; lia.
Qed.

Lemma byte_at_lookup (l : list Z) (n : nat) x :
  l !! n = Some x -> byte_at l (Z.of_nat n) = x.
Proof.
  intros H. unfold byte_at. rewrite Nat2Z.id. apply nth_lookup_Some. exact H.
Qed.

(** Four bytes are available at [n]: the suffix starts with them. *)
Lemma drop_record (l : list Z) (n : nat) :
  (n + 4 <= length l)%nat ->
  drop n l = byte_at l (Z.of_nat n) :: byte_at l (Z.of_nat n + 1)
             :: byte_at l (Z.of_nat n + 2) :: byte_at l (Z.of_nat n + 3)
             :: drop (n + 4) l.
Proof.
  intros Hlen.
  destruct (lookup_lt_is_Some_2 l n) as [x0 H0]; [lia |].
  destruct (lookup_lt_is_Some_2 l (n + 1)) as [x1 H1]; [lia |].
  destruct (lookup_lt_is_Some_2 l (n + 2)) as [x2 H2]; [lia |].
  destruct (lookup_lt_is_Some_2 l (n + 3)) as [x3 H3]; [lia |].
  rewrite (byte_at_lookup l n x0 H0).
  replace (Z.of_nat n + 1) with (Z.of_nat (n + 1)) by lia.
  replace (Z.of_nat n + 2) with (Z.of_nat (n + 2)) by lia.
  replace (Z.of_nat n + 3) with (Z.of_nat (n + 3)) by lia.
  rewrite (byte_at_lookup l _ x1 H1), (byte_at_lookup l _ x2 H2),
    (byte_at_lookup l _ x3 H3).
  rewrite (drop_S l x0 n H0).
  replace (S n) with (n + 1)%nat by lia. rewrite (drop_S l x1 _ H1).
  replace (S (n + 1)) with (n + 2)%nat by lia. rewrite (drop_S l x2 _ H2).
  replace (S (n + 2)) with (n + 3)%nat by lia. rewrite (drop_S l x3 _ H3).
  replace (S (n + 3)) with (n + 4)%nat by lia. reflexivity.
Qed.

Lemma dm1_chunks_short (l : list Z) : (length l < 4)%nat -> dm1_chunks l = [].
Proof.
  intros H. destruct l as [| ? [| ? [| ? [| ? ?]]]]; try reflexivity.
  simpl in H. lia.
Qed.

(** Storing at index [c] rewrites the head of the suffix at [c]. *)
Lemma alter_take_drop (f : j1939_dtc_t -> j1939_dtc_t)
  (arr : list j1939_dtc_t) (c : nat) d :
  arr !! c = Some d ->
  alter f c arr = take c arr ++ f d :: drop (S c) arr.
Proof.
  intros Hd. rewrite <- (take_drop_middle arr c d Hd) at 1.
  apply lookup_lt_Some in Hd as Hc.
  rewrite alter_app_r_alt by (rewrite length_take; lia).
  replace (c - length (take c arr))%nat with 0%nat
    by (rewrite length_take; lia).
  reflexivity.
Qed.

Lemma byte_at_u8 (l : list Z) (i : Z) :
  Forall is_u8 l -> 0 <= i < Z.of_nat (length l) -> is_u8 (byte_at l i).
Proof.
  intros Hall Hi.
  destruct (lookup_lt_is_Some_2 l (Z.to_nat i)) as [x Hx]; [lia |].
  unfold byte_at. rewrite (nth_lookup_Some _ _ _ _ Hx).
  rewrite Forall_lookup in Hall. exact (Hall _ _ Hx).
Qed.

Lemma dm1_ahead_end data offset :
  Z.of_nat (length data) < offset + 4 -> 0 <= offset ->
  dm1_ahead data offset = [].
Proof.
  intros H Hoff. unfold dm1_ahead.
  rewrite dm1_chunks_short by (rewrite length_drop; lia). reflexivity.
Qed.

Lemma dm1_ahead_step data offset :
  0 <= offset -> offset + 4 <= Z.of_nat (length data) ->
  dm1_ahead data offset =
    let f := dm1_fields (byte_at data offset, byte_at data (offset + 1),
                         byte_at data (offset + 2), byte_at data (offset + 3)) in
    if dm1_is_fault f then f :: dm1_ahead data (offset + 4)
    else dm1_ahead data (offset + 4).
Proof.
  intros Hoff Hlen. unfold dm1_ahead at 1.
  rewrite (drop_record data (Z.to_nat offset)) by lia.
  rewrite Z2Nat.id by lia.
  cbn [dm1_chunks map List.filter].
  replace (Z.to_nat offset + 4)%nat with (Z.to_nat (offset + 4)) by lia.
  reflexivity.
Qed.

(** The loop from [offset] with [c] records stored: it stores the faults
    still ahead, up to the cap, behind the [c] entries already written. *)
Lemma dm1_loop_spec fuel : forall data len max_dtcs offset c arr,
  len = Z.of_nat (length data) -> len < 2 ^ 16 -> Forall is_u8 data ->
  0 <= offset <= len -> len - offset <= Z.of_nat fuel ->
  0 <= c <= max_dtcs -> max_dtcs <= 255 ->
  max_dtcs <= Z.of_nat (length arr) ->
  dm1_loop fuel data len max_dtcs offset c arr =
    (c + Z.of_nat (length (take (Z.to_nat (max_dtcs - c))
                                (dm1_ahead data offset))),
     take (Z.to_nat c) arr
     ++ dm1_write (take (Z.to_nat (max_dtcs - c)) (dm1_ahead data offset))
                  (drop (Z.to_nat c) arr)).
Proof.
  induction fuel as [| fuel IH];
    intros data len max_dtcs offset c arr Hlen H16 Hbytes Hoff Hfuel Hc Hmax Harr.
  - rewrite dm1_ahead_end by lia. rewrite take_nil. cbn [dm1_loop length dm1_write].
    rewrite take_drop. f_equal. lia.
  - cbn [dm1_loop].
    destruct (Z.leb_spec (offset + 4) len) as [Hin | Hout]; cbn [andb].
    2: { rewrite dm1_ahead_end by lia. rewrite take_nil.
         cbn [length dm1_write]. rewrite take_drop. f_equal. lia. }
    destruct (Z.ltb_spec c max_dtcs) as [Hroom | Hfull].
    2: { replace (Z.to_nat (max_dtcs - c)) with 0%nat by lia.
         rewrite take_0. cbn [length dm1_write]. rewrite take_drop.
         f_equal. lia. }
    rewrite (dm1_ahead_step data offset) by lia. cbv zeta.
    rewrite (u32_id _ (spn_in_range _ _ (byte_at data (offset + 2))
                         (byte_at_u8 data offset Hbytes ltac:(lia))
                         (byte_at_u8 data (offset + 1) Hbytes ltac:(lia)))).
    rewrite (u8_id (Z.land (byte_at data (offset + 2)) 0x1F))
      by (apply land_bound; lia).
    rewrite (u8_id (Z.land (byte_at data (offset + 3)) 0x7F))
      by (apply land_bound; lia).
    rewrite (u16_id (offset + 4)) by (unfold is_u16; lia).
    unfold dm1_is_fault, dm1_fields.
    destruct (negb _ || negb _) eqn:Hfault.
    + rewrite (u8_id (c + 1)) by (unfold is_u8; lia).
      rewrite IH; try assumption; try lia.
      2: { rewrite length_alter. exact Harr. }
      destruct (lookup_lt_is_Some_2 arr (Z.to_nat c)) as [d Hd]; [lia |].
      rewrite (alter_take_drop _ arr (Z.to_nat c) d Hd).
      replace (Z.to_nat (max_dtcs - c))
        with (S (Z.to_nat (max_dtcs - (c + 1)))) by lia.
      rewrite firstn_cons. cbn [length].
      rewrite (drop_S arr d (Z.to_nat c) Hd). cbn [dm1_write].
      f_equal; [lia |].
      rewrite cons_middle, app_assoc.
      assert (Hpre : length (take (Z.to_nat c) arr
                             ++ [dm1_store
                                   (Z.lor (Z.lor (byte_at data offset)
                                                 (Z.shiftl (byte_at data (offset + 1)) 8))
                                          (Z.shiftl (Z.land (byte_at data (offset + 2)) 0xE0) 11))
                                   (Z.land (byte_at data (offset + 2)) 0x1F)
                                   (Z.land (byte_at data (offset + 3)) 0x7F) d])
                     = Z.to_nat (c + 1))
        by (rewrite length_app, length_take; cbn [length]; lia).
      rewrite take_app_length' by (symmetry; exact Hpre).
      rewrite drop_app_length' by (symmetry; exact Hpre).
      rewrite <- app_assoc. reflexivity.
    + rewrite IH; try assumption; try lia. reflexivity.
Qed.

(** Entry by entry, what [dm1_write] leaves in the array. *)
Lemma dm1_write_lookup (rs : list (Z * Z * Z)) : forall (arr : list j1939_dtc_t),
  length (dm1_write rs arr) = length arr /\
  (forall (k : nat) spn fmi oc d,
     rs !! k = Some (spn, fmi, oc) -> arr !! k = Some d ->
     dm1_write rs arr !! k
     = Some {| dtc_spn := spn; dtc_fmi := fmi; dtc_oc := oc;
               dtc_source_address := dtc_source_address d;
               dtc_is_active := true |}) /\
  (forall k : nat, (length rs <= k)%nat -> dm1_write rs arr !! k = arr !! k).
Proof.
  induction rs as [| [[spn0 fmi0] oc0] rs IH]; intros arr.
  - split; [destruct arr; reflexivity |]. split.
    + intros k spn fmi oc d Hr. discriminate.
    + intros k _. destruct arr; reflexivity.
  - destruct arr as [| d0 arr]; cbn [dm1_write].
    + split; [reflexivity |]. split; [intros k spn fmi oc d _ Hd; discriminate |].
      reflexivity.
    + destruct (IH arr) as (Hlen & Hst & Htail). split; [cbn [length]; lia |].
      split.
      * intros [| k] spn fmi oc d Hr Hd.
        -- cbn in Hr, Hd. injection Hr as -> -> ->. injection Hd as ->.
           reflexivity.
        -- cbn in Hr, Hd. cbn. exact (Hst k spn fmi oc d Hr Hd).
      * intros [| k] Hk; cbn [length] in Hk; [lia |].
        cbn. apply Htail. lia.
Qed.

(** C4 (as amended). For a DM1 payload of length at least 2, the parser
    stores, for the 4-byte records at offsets 2, 6, 10, ... in order, the
    fields spn = b0 | (b1<<8) | ((b2 & 0xE0) << 11), fmi = b2 & 0x1F and
    occurrence count = b3 & 0x7F, marked active, skipping records with
    spn = 0 and fmi = 0 and stopping at the caller's maximum; the returned
    count is the number of stored records. Entry [k] of the caller's
    array carries exactly the fields of the [k]-th kept record and the
    active flag; nothing else is stored: the entry keeps its source
    address, the entries behind the count stay as they were, and bit 7
    of b3 goes nowhere. *)
Theorem parse_dm1_emits (data : list Z) lamps (arr : list j1939_dtc_t) max_dtcs :
  2 <= Z.of_nat (length data) < 2 ^ 16 -> Forall is_u8 data ->
  1 <= max_dtcs <= 255 -> max_dtcs <= Z.of_nat (length arr) ->
  fst (fst (j1939_parse_dm1 (Some data) (Z.of_nat (length data)) lamps
                            (Some arr) max_dtcs))
  = Z.of_nat (length (dm1_emitted data max_dtcs)) /\
  snd (j1939_parse_dm1 (Some data) (Z.of_nat (length data)) lamps
                       (Some arr) max_dtcs)
  = Some (dm1_write (dm1_emitted data max_dtcs) arr) /\
  Z.of_nat (length (dm1_emitted data max_dtcs)) <= max_dtcs /\
  exists arr',
    snd (j1939_parse_dm1 (Some data) (Z.of_nat (length data)) lamps
                         (Some arr) max_dtcs) = Some arr' /\
    length arr' = length arr /\
    (forall (k : nat) spn fmi oc d,
       dm1_emitted data max_dtcs !! k = Some (spn, fmi, oc) ->
       arr !! k = Some d ->
       arr' !! k
       = Some {| dtc_spn := spn; dtc_fmi := fmi; dtc_oc := oc;
                 dtc_source_address := dtc_source_address d;
                 dtc_is_active := true |}) /\
    (forall k : nat,
       (length (dm1_emitted data max_dtcs) <= k)%nat ->
       arr' !! k = arr !! k).
Proof.
  intros Hlen Hbytes Hmax Harr. unfold j1939_parse_dm1.
  destruct (Z.ltb_spec (Z.of_nat (length data)) 2) as [Hshort | _]; [lia |].
  destruct (Z.eqb_spec max_dtcs 0) as [Hzero | _]; [lia |].
  rewrite (dm1_loop_spec (Z.to_nat (Z.of_nat (length data))) data
             (Z.of_nat (length data)) max_dtcs 2 0 arr)
    by (try reflexivity; try assumption; lia).
  cbn [fst snd]. rewrite Z.sub_0_r. change (Z.to_nat 0) with 0%nat.
  rewrite take_0, drop_0. cbn [app].
  change (Z.to_nat 2) with 2%nat in *.
  fold (dm1_ahead data 2). change (Z.to_nat 2) with 2%nat.
  assert (Hem : take (Z.to_nat max_dtcs) (dm1_ahead data 2)
                = dm1_emitted data max_dtcs) by reflexivity.
  rewrite ?Hem.
  split; [reflexivity |]. split; [reflexivity |].
  split; [unfold dm1_emitted; rewrite length_take; lia |].
  exists (dm1_write (dm1_emitted data max_dtcs) arr).
  split; [reflexivity |].
  exact (dm1_write_lookup (dm1_emitted data max_dtcs) arr).
Qed.

(** The extraction on the single-fault frame 00 10 6E 00 00 01 FF FF:
    one entry, spn 110, fmi 0, count 1, active. *)
Lemma parse_dm1_emits_witness :
  fst (fst (j1939_parse_dm1 (Some [0x00; 0x10; 0x6E; 0x00; 0x00; 0x01; 0xFF; 0xFF])
                            8 None (Some (replicate 8 dtc_zero)) 8))
  = Z.of_nat (length (dm1_emitted [0x00; 0x10; 0x6E; 0x00; 0x00; 0x01; 0xFF; 0xFF] 8)) /\
  exists arr',
    snd (j1939_parse_dm1 (Some [0x00; 0x10; 0x6E; 0x00; 0x00; 0x01; 0xFF; 0xFF])
                         8 None (Some (replicate 8 dtc_zero)) 8) = Some arr' /\
    arr' !! 0%nat
    = Some {| dtc_spn := 110; dtc_fmi := 0; dtc_oc := 1;
              dtc_source_address := 0; dtc_is_active := true |} /\
    arr' !! 1%nat = Some dtc_zero.
Proof.
  destruct (parse_dm1_emits [0x00; 0x10; 0x6E; 0x00; 0x00; 0x01; 0xFF; 0xFF]
              None (replicate 8 dtc_zero) 8)
    as (Hcount & _ & _ & arr' & Harr & _ & Hstored & Htail).
  - simpl. lia.
  - repeat constructor; unfold is_u8; lia.
  - lia.
  - simpl. lia.
  - split; [exact Hcount |]. exists arr'. split; [exact Harr |]. split.
    + exact (Hstored 0%nat 110 0 1 dtc_zero eq_refl eq_refl).
    + exact (Htail 1%nat (le_n 1)).
Defined.

(** What that frame stores: one entry, spn 110, fmi 0, count 1. *)
Example parse_dm1_single_fault :
  dm1_emitted [0x00; 0x10; 0x6E; 0x00; 0x00; 0x01; 0xFF; 0xFF] 8 = [(110, 0, 1)].
Proof. reflexivity. Qed.

(** C4 as stated fails on the conversion method: two payloads that differ
    only in bit 7 of the record's fourth byte, so in conversion method,
    give the same count and the same stored entries. *)
Lemma parse_dm1_drops_conversion_method :
  j1939_parse_dm1 (Some [0x00; 0x10; 0x6E; 0x00; 0x00; 0x81; 0xFF; 0xFF])
                  8 None (Some (replicate 8 dtc_zero)) 8
  = j1939_parse_dm1 (Some [0x00; 0x10; 0x6E; 0x00; 0x00; 0x01; 0xFF; 0xFF])
                    8 None (Some (replicate 8 dtc_zero)) 8 /\
  dm1_conversion_method 0x81 = 1 /\
  dm1_conversion_method 0x01 = 0.
Proof. vm_compute. repeat split; reflexivity. Qed.

End J1939_dm1_props.

(** ** J1708 checksum round trip *)

Module J1708_checksum_props.
Import J1708.

Lemma byte_sum_app l1 l2 : byte_sum (l1 ++ l2) = byte_sum l1 + byte_sum l2.
Proof.
  induction l1 as [| x l1 IH]; simpl; [reflexivity |].
  unfold byte_sum in *. simpl. rewrite IH. lia.
Qed.

Lemma drop_byte (l : list Z) (i : Z) :
  0 <= i < Z.of_nat (length l) ->
  drop (Z.to_nat i) l = byte_at l i :: drop (Z.to_nat (i + 1)) l.
Proof.
  intros Hi.
  destruct (lookup_lt_is_Some_2 l (Z.to_nat i)) as [x Hx]; [lia |].
  unfold byte_at. rewrite (nth_lookup_Some _ _ _ _ Hx).
  replace (Z.to_nat (i + 1)) with (S (Z.to_nat i)) by lia.
  apply drop_S. exact Hx.
Qed.

(** The summing loop computes the sum of the bytes it still has to read,
    modulo 256, on top of the running sum. *)
Lemma checksum_loop_spec fuel : forall data len i sum,
  0 <= i <= len -> len <= 255 -> len <= Z.of_nat (length data) ->
  len - i <= Z.of_nat fuel -> is_u8 sum ->
  checksum_loop fuel data len i sum
  = u8 (sum + byte_sum (take (Z.to_nat (len - i)) (drop (Z.to_nat i) data))).
Proof.
  induction fuel as [| fuel IH];
    intros data len i sum Hi Hlen Hdata Hfuel Hsum; cbn [checksum_loop].
  - replace (Z.to_nat (len - i)) with 0%nat by lia. rewrite take_0.
    cbn. rewrite Z.add_0_r. symmetry. apply u8_id. exact Hsum.
  - destruct (Z.ltb_spec i len) as [Hlt | Hge].
    + rewrite (u8_id (i + 1)) by (unfold is_u8; lia).
      rewrite IH; try lia; [| apply u8_range].
      rewrite (drop_byte data i) by lia.
      replace (Z.to_nat (len - i)) with (S (Z.to_nat (len - (i + 1)))) by lia.
      rewrite firstn_cons. unfold byte_sum at 2. cbn [foldr].
      fold (byte_sum (take (Z.to_nat (len - (i + 1)))
                           (drop (Z.to_nat (i + 1)) data))).
      unfold u8. rewrite Zplus_mod_idemp_l. f_equal. lia.
    + replace (Z.to_nat (len - i)) with 0%nat by lia. rewrite take_0.
      cbn. rewrite Z.add_0_r. symmetry. apply u8_id. exact Hsum.
Qed.

Lemma checksum_loop_whole (data : list Z) :
  Z.of_nat (length data) <= 255 ->
  checksum_loop (length data) data (Z.of_nat (length data)) 0 0
  = u8 (byte_sum data).
Proof.
  intros Hlen.
  rewrite checksum_loop_spec by (unfold is_u8; lia).
  rewrite Z.sub_0_r, Nat2Z.id. change (Z.to_nat 0) with 0%nat.
  rewrite drop_0, take_ge by lia. reflexivity.
Qed.

(** C5 (as amended). For a sequence of 1 to 254 bytes, the sequence with
    the byte from [j1708_calculate_checksum] appended passes
    [j1708_validate_checksum]. *)
Theorem checksum_roundtrip (data : list Z) :
  (1 <= length data <= 254)%nat ->
  j1708_validate_checksum
    (Some (data ++ [j1708_calculate_checksum (Some data) (Z.of_nat (length data))]))
    (Z.of_nat (length data) + 1)
  = true.
Proof.
  intros Hlen. unfold j1708_validate_checksum, j1708_calculate_checksum.
  destruct (Z.eqb_spec (Z.of_nat (length data)) 0) as [Hzero | _]; [lia |].
  destruct (Z.ltb_spec (Z.of_nat (length data) + 1) 2) as [Hshort | _]; [lia |].
  rewrite Nat2Z.id, checksum_loop_whole by lia.
  set (c := u8 (0x100 - u8 (byte_sum data))).
  replace (Z.of_nat (length data) + 1) with (Z.of_nat (length (data ++ [c])))
    by (rewrite length_app; simpl; lia).
  rewrite Nat2Z.id, checksum_loop_whole by (rewrite length_app; simpl; lia).
  rewrite byte_sum_app. unfold byte_sum at 2. cbn [foldr].
  apply Z.eqb_eq. unfold c, u8. Z.div_mod_to_equations. lia.
Qed.

(** The round trip on MID 128, PID 190, data 0x50 0x14 (checksum 0x5E). *)
Lemma checksum_roundtrip_witness :
  j1708_validate_checksum
    (Some ([128; 190; 0x50; 0x14]
           ++ [j1708_calculate_checksum (Some [128; 190; 0x50; 0x14])
                 (Z.of_nat (length [128; 190; 0x50; 0x14]))]))
    (Z.of_nat (length [128; 190; 0x50; 0x14]) + 1)
  = true.
Proof. apply (checksum_roundtrip [128; 190; 0x50; 0x14]). simpl. lia. Defined.

(** C5 as stated fails on the empty sequence: its checksum is 0, and the
    one-byte sequence [0] is refused for being shorter than two bytes. *)
Lemma checksum_roundtrip_fails_on_empty :
  j1708_calculate_checksum (Some []) 0 = 0 /\
  j1708_validate_checksum (Some ([] ++ [0])) (0 + 1) = false.
Proof. split; reflexivity. Qed.

End J1708_checksum_props.

(** ** J1708 framing by inter-byte silence *)

Module J1708_framer_props.
Import J1708 J1708_checksum_props.

(** *** Parsing reads only the first [len] bytes of its buffer *)

Lemma byte_at_take (d1 d2 : list Z) (n : nat) (i : Z) :
  take n d1 = take n d2 -> 0 <= i < Z.of_nat n -> byte_at d1 i = byte_at d2 i.
Proof.
  intros Heq Hi. unfold byte_at. rewrite !nth_lookup.
  rewrite <- (lookup_take_lt d1 n) by lia.
  rewrite <- (lookup_take_lt d2 n) by lia.
  rewrite Heq. reflexivity.
Qed.

Lemma take_drop_take (d1 d2 : list Z) (n o k : nat) :
  take n d1 = take n d2 -> (o + k <= n)%nat ->
  take k (drop o d1) = take k (drop o d2).
Proof.
  intros Heq Hle. rewrite !take_drop_commute.
  replace (take (o + k) d1) with (take (o + k) (take n d1))
    by (rewrite take_take; f_equal; lia).
  replace (take (o + k) d2) with (take (o + k) (take n d2))
    by (rewrite take_take; f_equal; lia).
  rewrite Heq. reflexivity.
Qed.

Lemma set_payload_local d1 d2 (n : nat) offset pid_len p :
  take n d1 = take n d2 -> 0 <= offset -> offset + pid_len <= Z.of_nat n ->
  set_payload d1 offset pid_len p = set_payload d2 offset pid_len p.
Proof.
  intros Heq Hoff Hle. unfold set_payload, memcpy.
  destruct (Z.ltb_spec 0 pid_len) as [Hpos | _]; [| reflexivity].
  destruct (pid_len <=? 8); [| reflexivity]. cbn [andb].
  rewrite (take_drop_take d1 d2 n) by (assumption || lia). reflexivity.
Qed.

Lemma parse_params_local fuel : forall d1 d2 (n : nat) data_end offset msg,
  take n d1 = take n d2 -> data_end <= Z.of_nat n -> 0 <= offset ->
  parse_params fuel d1 data_end offset msg
  = parse_params fuel d2 data_end offset msg.
Proof.
  induction fuel as [| fuel IH]; intros d1 d2 n data_end offset msg Heq Hend Hoff;
    cbn [parse_params]; [reflexivity |].
  destruct (Z.ltb_spec offset data_end) as [Hlt | _]; [| reflexivity].
  destruct (param_count msg <? J1708_MAX_PIDS); [| reflexivity]. cbn [andb].
  cbv zeta.
  rewrite (byte_at_take d1 d2 n offset Heq) by lia.
  pose proof (u8_range (offset + 1)) as H1. unfold is_u8 in H1.
  destruct (j1708_get_pid_length (byte_at d2 offset) =? 0).
  - destruct (Z.geb_spec (u8 (offset + 1)) data_end) as [_ | Hlt1];
      [reflexivity |].
    rewrite (byte_at_take d1 d2 n (u8 (offset + 1)) Heq) by lia.
    pose proof (u8_range (u8 (offset + 1) + 1)) as H2. unfold is_u8 in H2.
    destruct (Z.gtb_spec (u8 (u8 (offset + 1) + 1)
                          + byte_at d2 (u8 (offset + 1))) data_end)
      as [_ | Hfit]; [reflexivity |].
    match goal with
    | |- context [alter (set_payload d1 ?o ?k) ?i ?l] =>
        rewrite (list_alter_ext (set_payload d1 o k) (set_payload d2 o k) l l i)
          by (try reflexivity; intros;
              apply (set_payload_local d1 d2 n); assumption || lia)
    end.
    apply (IH d1 d2 n); [assumption | assumption | apply u8_range].
  - destruct (Z.gtb_spec (u8 (offset + 1)
                          + j1708_get_pid_length (byte_at d2 offset)) data_end)
      as [_ | Hfit]; [reflexivity |].
    match goal with
    | |- context [alter (set_payload d1 ?o ?k) ?i ?l] =>
        rewrite (list_alter_ext (set_payload d1 o k) (set_payload d2 o k) l l i)
          by (try reflexivity; intros;
              apply (set_payload_local d1 d2 n); assumption || lia)
    end.
    apply (IH d1 d2 n); [assumption | assumption | apply u8_range].
Qed.

Lemma validate_local (d : list Z) (m : list Z) :
  take (length m) d = m -> (length m <= 255)%nat ->
  j1708_validate_checksum (Some d) (Z.of_nat (length m))
  = j1708_validate_checksum (Some m) (Z.of_nat (length m)).
Proof.
  intros Heq Hlen. unfold j1708_validate_checksum.
  destruct (Z.of_nat (length m) <? 2); [reflexivity |].
  assert (Hd : (length m <= length d)%nat).
  { rewrite <- Heq at 1. rewrite length_take. lia. }
  rewrite !checksum_loop_spec by (unfold is_u8; lia).
  rewrite !Z.sub_0_r, Nat2Z.id. change (Z.to_nat 0) with 0%nat.
  rewrite !drop_0, Heq, take_ge by lia. reflexivity.
Qed.

(** The message parsed out of a buffer whose first bytes are [m] is the
    message parsed from [m] alone. *)
Lemma parse_message_local (d m : list Z) msg :
  take (length m) d = m -> (length m <= 255)%nat ->
  j1708_parse_message (Some d) (Z.of_nat (length m)) msg
  = j1708_parse_message (Some m) (Z.of_nat (length m)) msg.
Proof.
  intros Heq Hlen. unfold j1708_parse_message.
  destruct (Z.ltb_spec (Z.of_nat (length m)) J1708_MIN_MESSAGE_LENGTH)
    as [| Hmin]; [reflexivity |].
  unfold J1708_MIN_MESSAGE_LENGTH in Hmin.
  rewrite (validate_local d m Heq Hlen). cbv zeta.
  assert (Hraw : memcpy (raw_data message_zero) d (Z.of_nat (length m))
                 = memcpy (raw_data message_zero) m (Z.of_nat (length m))).
  { unfold memcpy. rewrite Nat2Z.id, Heq, take_ge by lia. reflexivity. }
  rewrite Hraw.
  destruct (j1708_validate_checksum (Some m) (Z.of_nat (length m)));
    [| reflexivity].
  cbn [negb].
  rewrite (byte_at_take d m (length m) 0)
    by first [lia | rewrite Heq, take_ge by lia; reflexivity].
  f_equal.
  apply (parse_params_local _ d m (length m)).
  - rewrite Heq, take_ge by lia. reflexivity.
  - unfold u8. Z.div_mod_to_equations. lia.
  - lia.
Qed.

(** *** The receive state machine *)

Lemma gap_check_continues ctx ts : continues ctx ts -> gap_check ctx ts = inr ctx.
Proof.
  intros [Hidle | [Hrecv Hgap]]; unfold gap_check.
  - rewrite bool_decide_eq_false_2 by congruence. reflexivity.
  - rewrite bool_decide_eq_true_2 by exact Hrecv.
    destruct (Z.gtb_spec (u32 (ts - last_byte_time_ms ctx))
                         J1708_INTER_BYTE_TIMEOUT_MS); [lia | reflexivity].
Qed.

(** A continuing byte is appended. *)
Lemma receive_append ctx m byte ts :
  holds ctx m -> (length m < 21)%nat -> continues ctx ts ->
  exists ctx',
    j1708_receive_byte ctx byte ts = (ctx', false) /\
    state ctx' = J1708_RX_RECEIVING /\ last_byte_time_ms ctx' = ts /\
    messages_received ctx' = messages_received ctx /\
    holds ctx' (m ++ [byte]).
Proof.
  intros (Hbuf & Hidx & Htake) Hroom Hcont.
  unfold j1708_receive_byte. rewrite (gap_check_continues ctx ts Hcont).
  rewrite bool_decide_eq_false_2
    by (destruct Hcont as [H | [H _]]; rewrite H; discriminate).
  rewrite Hidx.
  destruct (Z.ltb_spec (Z.of_nat (length m)) J1708_MAX_MESSAGE_LENGTH)
    as [_ | Hfull]; [| unfold J1708_MAX_MESSAGE_LENGTH in Hfull; lia].
  eexists. split; [reflexivity |]. unfold holds.
  cbn [state buffer buffer_index last_byte_time_ms messages_received].
  repeat split.
  - rewrite length_insert. exact Hbuf.
  - rewrite u8_id by (unfold is_u8; lia). rewrite length_app. simpl. lia.
  - rewrite Nat2Z.id, length_app. simpl.
    replace (length m + 1)%nat with (S (length m)) by lia.
    rewrite (take_S_r _ _ byte)
      by (apply list_lookup_insert_eq; rewrite Hbuf;
          unfold J1708_MAX_MESSAGE_LENGTH; lia).
    rewrite take_insert_ge by lia. rewrite Htake. reflexivity.
Qed.

(** The bytes of one message, fed in without a gap, pile up in the buffer
    and nothing is reported. *)
Lemma feed_quiet input : forall ctx m,
  holds ctx m -> (length m + length input <= 21)%nat ->
  match input with
  | [] => True
  | (_, ts) :: rest => continues ctx ts /\ contiguous ts rest
  end ->
  exists ctx',
    j1708_feed ctx input = (ctx', []) /\
    holds ctx' (m ++ input.*1) /\
    messages_received ctx' = messages_received ctx /\
    (input <> [] ->
     state ctx' = J1708_RX_RECEIVING /\
     last_byte_time_ms ctx' = last_time 0 input).
Proof.
  induction input as [| [byte ts] rest IH]; intros ctx m Hholds Hlen Htime.
  - exists ctx. rewrite app_nil_r. split; [reflexivity |].
    split; [exact Hholds |]. split; [reflexivity |]. intros H. congruence.
  - destruct Htime as [Hcont Hrest]. simpl in Hlen.
    destruct (receive_append ctx m byte ts Hholds ltac:(lia) Hcont)
      as (ctx1 & Hstep & Hst & Hlast & Hcount & Hholds1).
    cbn [j1708_feed]. rewrite Hstep.
    destruct (IH ctx1 (m ++ [byte]) Hholds1) as (ctx2 & Hfeed & Hholds2 & Hcount2 & Hfinal).
    + rewrite length_app. simpl. lia.
    + destruct rest as [| [byte' ts'] rest']; [exact I |].
      destruct Hrest as [Hgap Hrest]. split; [| exact Hrest].
      right. rewrite Hst, Hlast. split; [reflexivity | exact Hgap].
    + exists ctx2. rewrite Hfeed. split; [reflexivity |].
      rewrite fmap_cons. cbn [fst].
      rewrite <- app_assoc in Hholds2. cbn [app] in Hholds2.
      split; [exact Hholds2 |]. split; [congruence |].
      intros _. destruct rest as [| p rest'].
      * cbn [j1708_feed] in Hfeed. injection Hfeed as <-.
        split; [exact Hst | exact Hlast].
      * cbn [last_time]. apply Hfinal. discriminate.
Qed.

(** A byte arriving after more than 10 ms of silence terminates a valid
    buffered message and is itself not stored. *)
Lemma receive_gap ctx m byte ts :
  state ctx = J1708_RX_RECEIVING -> holds ctx m -> valid_message m ->
  u32 (ts - last_byte_time_ms ctx) > J1708_INTER_BYTE_TIMEOUT_MS ->
  j1708_receive_byte ctx byte ts = (completed ctx, true).
Proof.
  intros Hst (Hbuf & Hidx & Htake) (Hlen & Hsum) Hgap.
  unfold j1708_receive_byte, gap_check.
  rewrite bool_decide_eq_true_2 by exact Hst.
  destruct (Z.gtb_spec (u32 (ts - last_byte_time_ms ctx))
                       J1708_INTER_BYTE_TIMEOUT_MS) as [_ | Hno]; [| lia].
  rewrite Hidx.
  destruct (Z.geb_spec (Z.of_nat (length m)) J1708_MIN_MESSAGE_LENGTH)
    as [_ | Hshort]; [| unfold J1708_MIN_MESSAGE_LENGTH in Hshort; lia].
  rewrite (validate_local (buffer ctx) m Htake) by lia.
  rewrite Hsum. unfold completed. rewrite Hidx. reflexivity.
Qed.

(** While a message waits to be drained, every byte is turned away and
    nothing changes. *)
Lemma receive_blocked ctx byte ts :
  state ctx = J1708_RX_COMPLETE -> j1708_receive_byte ctx byte ts = (ctx, true).
Proof.
  intros Hst. unfold j1708_receive_byte, gap_check.
  rewrite bool_decide_eq_false_2 by (rewrite Hst; discriminate).
  rewrite bool_decide_eq_true_2 by exact Hst. reflexivity.
Qed.

Lemma decoded_ok m : valid_message m -> fst (decoded m) = true.
Proof.
  intros (Hlen & Hsum). unfold decoded, j1708_parse_message.
  destruct (Z.ltb_spec (Z.of_nat (length m)) J1708_MIN_MESSAGE_LENGTH)
    as [Hshort | _]; [unfold J1708_MIN_MESSAGE_LENGTH in Hshort; lia |].
  rewrite Hsum. reflexivity.
Qed.

(** Draining hands out the buffered message, parsed on its own bytes. *)
Lemma get_message_complete ctx m :
  state ctx = J1708_RX_COMPLETE -> holds ctx m -> valid_message m ->
  j1708_get_message ctx message_zero = (drained ctx, true, snd (decoded m)).
Proof.
  intros Hst (Hbuf & Hidx & Htake) Hvalid.
  pose proof (decoded_ok m Hvalid) as Hok.
  destruct Hvalid as (Hlen & Hsum).
  unfold j1708_get_message.
  rewrite bool_decide_eq_true_2 by exact Hst. cbn [negb].
  rewrite Hidx, (parse_message_local (buffer ctx) m message_zero Htake)
    by lia.
  fold (decoded m). destruct (decoded m) as [r msg]. cbn [fst snd] in *.
  rewrite Hok. reflexivity.
Qed.

Lemma feed_app a : forall ctx b,
  j1708_feed ctx (a ++ b)
  = (fst (j1708_feed (fst (j1708_feed ctx a)) b),
     snd (j1708_feed ctx a) ++ snd (j1708_feed (fst (j1708_feed ctx a)) b)).
Proof.
  induction a as [| [byte ts] a IH]; intros ctx b.
  - cbn. destruct (j1708_feed ctx b). reflexivity.
  - cbn [app j1708_feed].
    destruct (j1708_receive_byte ctx byte ts) as [ctx1 [|]].
    + destruct (j1708_get_message ctx1 message_zero) as [[ctx2 result] msg].
      destruct (j1708_receive_byte ctx2 byte ts) as [ctx3 r3].
      rewrite IH.
      destruct (j1708_feed ctx3 a) as [ctx4 out].
      destruct (j1708_feed ctx4 b) as [ctx5 out']. reflexivity.
    + rewrite IH. reflexivity.
Qed.

(** A message following a gap: its first byte releases the message before
    it, is handed in again, and the rest of its bytes pile up behind. *)
Lemma feed_after_gap ctx m byte ts rest :
  state ctx = J1708_RX_RECEIVING -> holds ctx m -> valid_message m ->
  u32 (ts - last_byte_time_ms ctx) > J1708_INTER_BYTE_TIMEOUT_MS ->
  contiguous ts rest -> (length rest + 1 <= 21)%nat ->
  exists ctx',
    j1708_feed ctx ((byte, ts) :: rest) = (ctx', [(true, snd (decoded m))]) /\
    state ctx' = J1708_RX_RECEIVING /\
    holds ctx' (byte :: rest.*1) /\
    last_byte_time_ms ctx' = last_time ts rest.
Proof.
  intros Hst Hholds Hvalid Hgap Hrest Hlen.
  cbn [j1708_feed].
  rewrite (receive_gap ctx m byte ts Hst Hholds Hvalid Hgap).
  rewrite (get_message_complete (completed ctx) m eq_refl Hholds Hvalid).
  assert (Hempty : holds (drained (completed ctx)) []).
  { destruct Hholds as (Hbuf & _ & _). repeat split. exact Hbuf. }
  destruct (receive_append (drained (completed ctx)) [] byte ts Hempty
              ltac:(simpl; lia) ltac:(left; reflexivity))
    as (ctx3 & Hstep & Hst3 & Hlast3 & _ & Hholds3).
  rewrite Hstep.
  destruct (feed_quiet rest ctx3 [byte] Hholds3) as (ctx4 & Hfeed & Hholds4 & _ & Hfinal).
  - simpl. lia.
  - destruct rest as [| [byte' ts'] rest']; [exact I |].
    destruct Hrest as [Hgap' Hrest]. split; [| exact Hrest].
    right. rewrite Hst3, Hlast3. split; [reflexivity | exact Hgap'].
  - exists ctx4. rewrite Hfeed. split; [reflexivity |].
    destruct rest as [| p rest'].
    + cbn [j1708_feed] in Hfeed. injection Hfeed as <-.
      split; [exact Hst3 |]. split; [exact Hholds3 | exact Hlast3].
    + destruct (Hfinal ltac:(discriminate)) as [Hst4 Hlast4].
      split; [exact Hst4 |]. split; [exact Hholds4 |].
      rewrite Hlast4. destruct p. reflexivity.
Qed.

(** C6 (as amended). Start from an idle, empty framer. Feed the bytes of a
    valid message (2 to 21 bytes, correct checksum, no gap among them),
    then those of a second valid message whose first byte comes more than
    10 ms after the last byte of the first, then one further byte more
    than 10 ms after the last byte of the second. The gap-crossing byte
    moves the framer to the complete state with buffer and index untouched
    (the byte is not stored); in that state every byte is turned away
    unchanged; draining gives the first message. With the caller handing
    the deferred byte in again after each drain, both messages come out,
    each as [j1708_parse_message] makes it from its own bytes; the second
    comes out on the further byte. *)
Theorem framer_two_messages ctx (s1 : list (Z * Z)) b2 t2 (rest2 : list (Z * Z))
  b3 t3 :
  state ctx = J1708_RX_IDLE ->
  length (buffer ctx) = Z.to_nat J1708_MAX_MESSAGE_LENGTH ->
  buffer_index ctx = 0 ->
  valid_message (s1.*1) -> valid_message (b2 :: rest2.*1) ->
  steady s1 -> contiguous t2 rest2 ->
  u32 (t2 - last_time 0 s1) > J1708_INTER_BYTE_TIMEOUT_MS ->
  u32 (t3 - last_time t2 rest2) > J1708_INTER_BYTE_TIMEOUT_MS ->
  exists ctxA,
    j1708_feed ctx s1 = (ctxA, []) /\
    state ctxA = J1708_RX_RECEIVING /\
    j1708_receive_byte ctxA b2 t2 = (completed ctxA, true) /\
    (forall byte ts,
       j1708_receive_byte (completed ctxA) byte ts = (completed ctxA, true)) /\
    j1708_get_message (completed ctxA) message_zero
    = (drained (completed ctxA), true, snd (decoded (s1.*1))) /\
    snd (j1708_feed ctx (s1 ++ ((b2, t2) :: rest2) ++ [(b3, t3)]))
    = [(true, snd (decoded (s1.*1))); (true, snd (decoded (b2 :: rest2.*1)))].
Proof.
  intros Hidle Hbuf Hidx Hv1 Hv2 Hsteady Hcont2 Hgap12 Hgap23.
  assert (Hempty : holds ctx []) by (repeat split; assumption).
  assert (Hlen1 : (2 <= length s1 <= 21)%nat)
    by (destruct Hv1 as [H _]; rewrite length_fmap in H; exact H).
  assert (Hlen2 : (length rest2 + 1 <= 21)%nat)
    by (destruct Hv2 as [H _]; simpl in H; rewrite length_fmap in H; lia).
  destruct (feed_quiet s1 ctx [] Hempty ltac:(simpl; lia))
    as (ctxA & HfeedA & HholdsA & _ & HfinalA).
  { destruct s1 as [| [byte ts] rest1]; [exact I |].
    split; [left; exact Hidle | exact Hsteady]. }
  destruct HfinalA as [HstA HlastA]; [intros ->; simpl in Hlen1; lia |].
  cbn [app] in HholdsA.
  exists ctxA. split; [exact HfeedA |]. split; [exact HstA |].
  assert (HgapA : u32 (t2 - last_byte_time_ms ctxA) > J1708_INTER_BYTE_TIMEOUT_MS)
    by (rewrite HlastA; exact Hgap12).
  split; [exact (receive_gap ctxA _ b2 t2 HstA HholdsA Hv1 HgapA) |].
  split; [intros byte ts; apply receive_blocked; reflexivity |].
  split; [exact (get_message_complete (completed ctxA) _ eq_refl HholdsA Hv1) |].
  destruct (feed_after_gap ctxA _ b2 t2 rest2 HstA HholdsA Hv1 HgapA Hcont2 Hlen2)
    as (ctxB & HfeedB & HstB & HholdsB & HlastB).
  assert (HgapB : u32 (t3 - last_byte_time_ms ctxB) > J1708_INTER_BYTE_TIMEOUT_MS)
    by (rewrite HlastB; exact Hgap23).
  destruct (feed_after_gap ctxB _ b3 t3 [] HstB HholdsB Hv2 HgapB I ltac:(simpl; lia))
    as (ctxC & HfeedC & _).
  rewrite feed_app, HfeedA. cbn [fst snd]. rewrite app_nil_l.
  rewrite feed_app, HfeedB. cbn [fst snd]. rewrite HfeedC. reflexivity.
Qed.

(** Two frames from MID 128, 16 ms apart, and the first byte of a third. *)
Lemma framer_two_messages_witness :
  exists ctxA,
    j1708_feed j1708_parser_init
      [(128, 0); (190, 1); (0x50, 2); (0x14, 3); (0x5E, 4)] = (ctxA, []) /\
    state ctxA = J1708_RX_RECEIVING /\
    j1708_receive_byte ctxA 128 20 = (completed ctxA, true) /\
    (forall byte ts,
       j1708_receive_byte (completed ctxA) byte ts = (completed ctxA, true)) /\
    j1708_get_message (completed ctxA) message_zero
    = (drained (completed ctxA), true,
       snd (decoded ([(128, 0); (190, 1); (0x50, 2); (0x14, 3); (0x5E, 4)].*1))) /\
    snd (j1708_feed j1708_parser_init
           ([(128, 0); (190, 1); (0x50, 2); (0x14, 3); (0x5E, 4)]
            ++ ((128, 20) :: [(110, 21); (212, 22); (62, 23)])
            ++ [(128, 40)]))
    = [(true, snd (decoded ([(128, 0); (190, 1); (0x50, 2); (0x14, 3);
                             (0x5E, 4)].*1)));
       (true, snd (decoded (128 :: [(110, 21); (212, 22); (62, 23)].*1)))].
Proof.
  apply (framer_two_messages j1708_parser_init
           [(128, 0); (190, 1); (0x50, 2); (0x14, 3); (0x5E, 4)]
           128 20 [(110, 21); (212, 22); (62, 23)] 128 40).
  - reflexivity.
  - reflexivity.
  - reflexivity.
  - split; [simpl; lia | reflexivity].
  - split; [simpl; lia | reflexivity].
  - vm_compute. repeat split; discriminate.
  - vm_compute. repeat split; discriminate.
  - vm_compute. reflexivity.
  - vm_compute. reflexivity.
Defined.

(** What the second of those frames decodes to: one parameter, PID 110
    with the data byte 212. *)
Example framer_second_frame_decoded :
  let msg := snd (decoded [128; 110; 212; 62]) in
  mid msg = 128 /\ param_count msg = 1 /\
  (pid <$> params msg !! 0%nat) = Some 110 /\
  (take 1 <$> (param_data <$> params msg !! 0%nat)) = Some [212].
Proof. vm_compute. repeat split; reflexivity. Qed.

(** C6 as stated fails: after exactly the bytes of two valid messages,
    only the first has been handed out; the second sits in the buffer, the
    framer still receiving, until some later byte arrives. *)
Lemma framer_second_message_waits :
  valid_message [128; 128] /\ valid_message [130; 126] /\
  u32 (20 - 1) > J1708_INTER_BYTE_TIMEOUT_MS /\
  snd (j1708_feed j1708_parser_init [(128, 0); (128, 1); (130, 20); (126, 21)])
  = [(true, snd (decoded [128; 128]))] /\
  state (fst (j1708_feed j1708_parser_init
                [(128, 0); (128, 1); (130, 20); (126, 21)]))
  = J1708_RX_RECEIVING /\
  take 2 (buffer (fst (j1708_feed j1708_parser_init
                         [(128, 0); (128, 1); (130, 20); (126, 21)])))
  = [130; 126].
Proof.
  split; [split; [simpl; lia | reflexivity] |].
  split; [split; [simpl; lia | reflexivity] |].
  vm_compute. repeat split; reflexivity.
Qed.

End J1708_framer_props.

(** ** Parameter store: which update is kept *)

Module DataManager_props.
Import DataManager.

(** An identity inside the array passes the guard of every function of
    the store. *)
Lemma in_array_range id : in_array id -> out_of_range id = false.
Proof.
  unfold in_array, out_of_range, DATA_MAX_PARAMETERS, PARAM_NONE, PARAM_MAX.
  intros H. destruct (Z.eqb_spec id 0); [lia |].
  destruct (Z.geb_spec id 256); [lia | reflexivity].
Qed.

(** An accepted update installs its own value, time stamp and source. *)
Lemma update_installs eps dm id v src ts :
  initialized dm = true -> out_of_range id = false ->
  parameter_at (fst (data_manager_update eps dm id v src ts)) id
  = {| value := v; prev_value := value (parameter_at dm id); timestamp_ms := ts;
       update_count := u32 (update_count (parameter_at dm id) + 1);
       source := src; is_valid := true |}
  /\ initialized (fst (data_manager_update eps dm id v src ts)) = true.
Proof.
  intros Hinit Hrange. unfold data_manager_update.
  rewrite Hinit, Hrange. cbv zeta. cbn [negb fst initialized].
  unfold parameter_at at 1. cbn [parameters].
  rewrite lookup_insert_eq. split; reflexivity.
Qed.

(** C3 (as amended). For an identity inside the parameter array, of two
    updates of that identity applied in arrival order, the second to
    arrive is the one kept, whatever the two time stamps are: the record
    then holds the second value, time stamp and source, and the first
    value as its previous value, and [data_manager_get_with_timestamp]
    reads the second value with the second time stamp. (For an identity
    from the array size up to 255 the guard lets the update through and
    the C code writes outside the array; nothing is claimed there.) *)
Theorem update_last_arrival_wins eps dm id v1 src1 ts1 v2 src2 ts2 :
  initialized dm = true -> in_array id ->
  parameter_at
    (fst (data_manager_update eps
            (fst (data_manager_update eps dm id v1 src1 ts1)) id v2 src2 ts2))
    id
  = {| value := v2; prev_value := v1; timestamp_ms := ts2;
       update_count := u32 (u32 (update_count (parameter_at dm id) + 1) + 1);
       source := src2; is_valid := true |} /\
  data_manager_get_with_timestamp
    (fst (data_manager_update eps
            (fst (data_manager_update eps dm id v1 src1 ts1)) id v2 src2 ts2))
    id
  = Some (v2, ts2).
Proof.
  intros Hinit Hin. pose proof (in_array_range id Hin) as Hrange.
  destruct (update_installs eps dm id v1 src1 ts1 Hinit Hrange) as [H1 Hinit1].
  destruct (update_installs eps _ id v2 src2 ts2 Hinit1 Hrange) as [H2 Hinit2].
  split; [rewrite H2, H1; reflexivity |].
  unfold data_manager_get_with_timestamp.
  rewrite Hinit2, Hrange, H2. reflexivity.
Qed.

(** Engine speed 2000 rpm stamped 1000 ms from J1939, then 650 rpm stamped
    500 ms from J1708. *)
Lemma update_last_arrival_wins_witness :
  parameter_at
    (fst (data_manager_update (fun _ _ => true)
            (fst (data_manager_update (fun _ _ => true) data_manager_init
                    PARAM_ENGINE_SPEED 2000%float SOURCE_J1939 1000))
            PARAM_ENGINE_SPEED 650%float SOURCE_J1708 500))
    PARAM_ENGINE_SPEED
  = {| value := 650%float; prev_value := 2000%float; timestamp_ms := 500;
       update_count :=
         u32 (u32 (update_count (parameter_at data_manager_init
                                   PARAM_ENGINE_SPEED) + 1) + 1);
       source := SOURCE_J1708; is_valid := true |} /\
  data_manager_get_with_timestamp
    (fst (data_manager_update (fun _ _ => true)
            (fst (data_manager_update (fun _ _ => true) data_manager_init
                    PARAM_ENGINE_SPEED 2000%float SOURCE_J1939 1000))
            PARAM_ENGINE_SPEED 650%float SOURCE_J1708 500))
    PARAM_ENGINE_SPEED
  = Some (650%float, 500).
Proof.
  apply (update_last_arrival_wins (fun _ _ => true) data_manager_init
           PARAM_ENGINE_SPEED 2000%float SOURCE_J1939 1000
           650%float SOURCE_J1708 500).
  - reflexivity.
  - unfold in_array, PARAM_ENGINE_SPEED, DATA_MAX_PARAMETERS. lia.
Defined.

(** C3 as stated fails: the update stamped 500 ms, arriving after the one
    stamped 1000 ms, is not discarded; the store ends with the older
    stamp and its value. *)
Lemma update_older_stamp_not_discarded :
  data_manager_get_with_timestamp
    (fst (data_manager_update (fun _ _ => true) data_manager_init
            PARAM_ENGINE_SPEED 2000%float SOURCE_J1939 1000))
    PARAM_ENGINE_SPEED
  = Some (2000%float, 1000) /\
  data_manager_get_with_timestamp
    (fst (data_manager_update (fun _ _ => true)
            (fst (data_manager_update (fun _ _ => true) data_manager_init
                    PARAM_ENGINE_SPEED 2000%float SOURCE_J1939 1000))
            PARAM_ENGINE_SPEED 650%float SOURCE_J1708 500))
    PARAM_ENGINE_SPEED
  = Some (650%float, 500) /\
  500 < 1000.
Proof. vm_compute. repeat split; reflexivity. Qed.

End DataManager_props.

(** ** Watch-list severity *)

Module WatchList_props.
Import DataManager WatchList.

(** C7. The severity of a value is CRITICAL when v <= crit_low or
    v >= crit_high, otherwise WARNING when v <= warn_low or v >= warn_high,
    otherwise NONE; it depends on the item only through its four
    thresholds, so equal inputs give equal severities. *)
Theorem check_alert_level_rules item v :
  (fle v (crit_low item) = true \/ fge v (crit_high item) = true ->
   check_alert_level item v = ALERT_CRITICAL) /\
  (fle v (crit_low item) = false -> fge v (crit_high item) = false ->
   fle v (warn_low item) = true \/ fge v (warn_high item) = true ->
   check_alert_level item v = ALERT_WARNING) /\
  (fle v (crit_low item) = false -> fge v (crit_high item) = false ->
   fle v (warn_low item) = false -> fge v (warn_high item) = false ->
   check_alert_level item v = ALERT_NONE) /\
  (forall item',
     warn_low item' = warn_low item -> warn_high item' = warn_high item ->
     crit_low item' = crit_low item -> crit_high item' = crit_high item ->
     check_alert_level item' v = check_alert_level item v).
Proof.
  unfold check_alert_level. split; [| split; [| split]].
  - intros [Hlow | Hhigh].
    + rewrite Hlow. reflexivity.
    + rewrite Hhigh, orb_true_r. reflexivity.
  - intros Hcl Hch [Hlow | Hhigh]; rewrite Hcl, Hch; cbn [orb].
    + rewrite Hlow. reflexivity.
    + rewrite Hhigh, orb_true_r. reflexivity.
  - intros Hcl Hch Hwl Hwh. rewrite Hcl, Hch, Hwl, Hwh. reflexivity.
  - intros item' Hwl Hwh Hcl Hch. rewrite Hwl, Hwh, Hcl, Hch. reflexivity.
Qed.

(** The coolant item (70/100/50/110) at 115, 105, 85 and 45 degrees, and
    at a value that is not a number. *)
Example check_alert_level_coolant :
  check_alert_level demo_coolant 115%float = ALERT_CRITICAL /\
  check_alert_level demo_coolant 105%float = ALERT_WARNING /\
  check_alert_level demo_coolant 85%float = ALERT_NONE /\
  check_alert_level demo_coolant 45%float = ALERT_CRITICAL /\
  check_alert_level demo_coolant nan = ALERT_NONE.
Proof. vm_compute. repeat split; reflexivity. Qed.





End WatchList_props.

(** ** Boot and shutdown bookkeeping *)

Module Nvs_boot_props.
Import Nvs.

Lemma put_other fl name key v other :
  name <> other -> put fl name key v !! other = fl !! other.
Proof. intros Hne. unfold put. apply lookup_insert_ne. exact Hne. Qed.

Lemma put_same fl name key v :
  put fl name key v !! name = Some (<[key := v]> (default ∅ (fl !! name))).
Proof. unfold put. apply lookup_insert_eq. Qed.

Lemma save_trip_system fl name t :
  name <> "system" -> save_trip fl name t !! "system" = fl !! "system".
Proof.
  intros Hne. unfold save_trip. cbv zeta.
  rewrite !put_other by exact Hne. reflexivity.
Qed.

(** Saving never writes the "system" namespace. *)
Lemma save_all_system storage fl :
  snd (fst (nvs_storage_save_all storage fl)) !! "system" = fl !! "system".
Proof.
  unfold nvs_storage_save_all.
  destruct (initialized storage); cbn [negb fst snd]; [| reflexivity].
  cbv zeta.
  destruct (dtc_dirty storage).
  - unfold save_dtc. cbv zeta.
    destruct (0 <? dtc_count storage); rewrite ?put_other by discriminate.
    all: destruct (settings_dirty storage);
      [unfold save_settings; cbv zeta; rewrite !put_other by discriminate |];
      (destruct (lifetime_dirty storage);
       [unfold save_lifetime; cbv zeta; rewrite !put_other by discriminate |]);
      (destruct (trip_b_dirty storage);
       [rewrite save_trip_system by discriminate |]);
      (destruct (trip_a_dirty storage);
       [rewrite save_trip_system by discriminate |]); reflexivity.
  - destruct (settings_dirty storage);
      [unfold save_settings; cbv zeta; rewrite !put_other by discriminate |];
      (destruct (lifetime_dirty storage);
       [unfold save_lifetime; cbv zeta; rewrite !put_other by discriminate |]);
      (destruct (trip_b_dirty storage);
       [rewrite save_trip_system by discriminate |]);
      (destruct (trip_a_dirty storage);
       [rewrite save_trip_system by discriminate |]); reflexivity.
Qed.

Lemma emergency_save_system fadd storage fl :
  snd (fst (nvs_storage_emergency_save fadd storage fl)) !! "system"
  = fl !! "system".
Proof. unfold nvs_storage_emergency_save. cbv zeta. apply save_all_system. Qed.

Ltac ns_lookup :=
  unfold getBool, getUInt, getFloat;
  repeat first [rewrite lookup_insert_eq
               | rewrite lookup_insert_ne by discriminate].

(** The "system" namespace a boot writes: the three keys on top of what
    was there. *)
Lemma init_system_namespace fl :
  flash_after_init fl !! "system"
  = Some (<["clean_shut" := NvsBool false]>
            (<["crash_count" :=
                 NvsUInt (crash_count (system (storage_after_init fl)))]>
               (<["boot_count" :=
                    NvsUInt (boot_count (system (storage_after_init fl)))]>
                  (default ∅ (fl !! "system"))))).
Proof.
  unfold flash_after_init, storage_after_init, nvs_storage_init.
  cbv zeta. cbn [fst snd].
  rewrite put_same. f_equal. f_equal.
  rewrite put_same. cbn [default from_option id]. f_equal.
  rewrite put_same. reflexivity.
Qed.

(** What a boot makes of the system state it loads. *)
Lemma init_system fl :
  system (storage_after_init fl) = boot_update (loaded_system fl).
Proof. reflexivity. Qed.

Lemma loaded_system_some fl (ns : namespace) :
  fl !! "system" = Some ns ->
  loaded_system fl
  = {| clean_shutdown := getBool ns "clean_shut" true;
       last_timestamp := getUInt ns "last_time" 0;
       boot_count := getUInt ns "boot_count" 0;
       crash_count := getUInt ns "crash_count" 0;
       pending_distance := getFloat ns "pend_dist" 0%float;
       pending_fuel := getFloat ns "pend_fuel" 0%float |}.
Proof.
  intros Hns. unfold loaded_system, nvs_storage_load_all. cbn [system].
  unfold load_system. rewrite Hns. reflexivity.
Qed.

(** A boot always leaves the flag cleared on flash. *)
Lemma init_rearms fl : clean_shutdown (loaded_system (flash_after_init fl)) = false.
Proof.
  rewrite (loaded_system_some _ _ (init_system_namespace fl)).
  cbn [clean_shutdown]. ns_lookup. reflexivity.
Qed.

(** The flash after [nvs_system_shutdown]: "clean_shut" set, the rest of
    the "system" namespace as before. *)
Lemma shutdown_system_namespace fadd storage fl :
  snd (nvs_system_shutdown fadd storage fl) !! "system"
  = Some (<["clean_shut" := NvsBool true]> (default ∅ (fl !! "system"))).
Proof.
  unfold nvs_system_shutdown. cbv zeta.
  rewrite emergency_save_system. apply put_same.
Qed.

(** C9. Let a boot have run [nvs_storage_init], and let the "system"
    namespace be as that boot left it (saving never writes it). If
    [nvs_system_shutdown] is then called, the next boot loads
    clean_shutdown = true and keeps crash_count; if the power goes without
    it, the next boot loads clean_shutdown = false and counts one more
    crash. Either way the next boot counts one more boot (in 32 bits),
    holds clean_shutdown = false in memory and has cleared it on flash. *)
Theorem boot_shutdown_protocol fadd fl0 storage (fl : flash) :
  fl !! "system" = flash_after_init fl0 !! "system" ->
  (clean_shutdown (loaded_system (snd (nvs_system_shutdown fadd storage fl)))
   = true /\
   crash_count (system (storage_after_init
                          (snd (nvs_system_shutdown fadd storage fl))))
   = crash_count (system (storage_after_init fl0)) /\
   boot_count (system (storage_after_init
                         (snd (nvs_system_shutdown fadd storage fl))))
   = u32 (boot_count (system (storage_after_init fl0)) + 1) /\
   clean_shutdown (system (storage_after_init
                             (snd (nvs_system_shutdown fadd storage fl))))
   = false /\
   clean_shutdown (loaded_system
                     (flash_after_init
                        (snd (nvs_system_shutdown fadd storage fl))))
   = false) /\
  (clean_shutdown (loaded_system fl) = false /\
   crash_count (system (storage_after_init fl))
   = u32 (crash_count (system (storage_after_init fl0)) + 1) /\
   boot_count (system (storage_after_init fl))
   = u32 (boot_count (system (storage_after_init fl0)) + 1) /\
   clean_shutdown (system (storage_after_init fl)) = false /\
   clean_shutdown (loaded_system (flash_after_init fl)) = false).
Proof.
  intros Hsys. rewrite init_system_namespace in Hsys.
  pose proof (shutdown_system_namespace fadd storage fl) as Hshut.
  rewrite Hsys in Hshut. cbn [default from_option id] in Hshut.
  set (prev := system (storage_after_init fl0)) in *.
  split.
  - rewrite !init_system, (loaded_system_some _ _ Hshut).
    repeat split; try apply init_rearms.
    + cbn [clean_shutdown]. ns_lookup. reflexivity.
    + cbn [boot_update crash_count clean_shutdown]. ns_lookup. reflexivity.
    + cbn [boot_update boot_count]. ns_lookup. reflexivity.
  - rewrite !init_system, (loaded_system_some _ _ Hsys).
    repeat split; try apply init_rearms.
    + cbn [clean_shutdown]. ns_lookup. reflexivity.
    + cbn [boot_update crash_count clean_shutdown]. ns_lookup. reflexivity.
    + cbn [boot_update boot_count]. ns_lookup. reflexivity.
Qed.

(** The protocol from a blank flash: the first boot counts boot 1 (and,
    finding no flag, crash 1); after a shutdown the second boot counts
    boot 2 and still crash 1; without it, boot 2 and crash 2. *)
Lemma boot_shutdown_protocol_witness :
  (clean_shutdown
     (loaded_system
        (snd (nvs_system_shutdown PrimFloat.add (storage_after_init ∅)
                                  (flash_after_init ∅))))
   = true /\
   crash_count
     (system (storage_after_init
                (snd (nvs_system_shutdown PrimFloat.add (storage_after_init ∅)
                                          (flash_after_init ∅)))))
   = crash_count (system (storage_after_init ∅)) /\
   boot_count
     (system (storage_after_init
                (snd (nvs_system_shutdown PrimFloat.add (storage_after_init ∅)
                                          (flash_after_init ∅)))))
   = u32 (boot_count (system (storage_after_init ∅)) + 1) /\
   clean_shutdown
     (system (storage_after_init
                (snd (nvs_system_shutdown PrimFloat.add (storage_after_init ∅)
                                          (flash_after_init ∅)))))
   = false /\
   clean_shutdown
     (loaded_system
        (flash_after_init
           (snd (nvs_system_shutdown PrimFloat.add (storage_after_init ∅)
                                     (flash_after_init ∅)))))
   = false) /\
  (clean_shutdown (loaded_system (flash_after_init ∅)) = false /\
   crash_count (system (storage_after_init (flash_after_init ∅)))
   = u32 (crash_count (system (storage_after_init ∅)) + 1) /\
   boot_count (system (storage_after_init (flash_after_init ∅)))
   = u32 (boot_count (system (storage_after_init ∅)) + 1) /\
   clean_shutdown (system (storage_after_init (flash_after_init ∅))) = false /\
   clean_shutdown (loaded_system (flash_after_init (flash_after_init ∅)))
   = false).
Proof.
  apply (boot_shutdown_protocol PrimFloat.add ∅ (storage_after_init ∅)
           (flash_after_init ∅)).
  reflexivity.
Defined.

(** The counters in that run. *)
Example boot_counters_from_blank_flash :
  boot_count (system (storage_after_init ∅)) = 1 /\
  crash_count (system (storage_after_init ∅)) = 1 /\
  boot_count (system (storage_after_init (flash_after_init ∅))) = 2 /\
  crash_count (system (storage_after_init (flash_after_init ∅))) = 2 /\
  crash_count
    (system (storage_after_init
               (snd (nvs_system_shutdown PrimFloat.add (storage_after_init ∅)
                                         (flash_after_init ∅))))) = 1.
Proof. vm_compute. repeat split; reflexivity. Qed.

End Nvs_boot_props.

(** ** Fault-code history *)

Module Nvs_dtc_props.
Import Nvs.

Lemma store_well_formed storage s f sa ts active :
  well_formed storage -> well_formed (nvs_dtc_store storage s f sa ts active).
Proof.
  intros [Hlen Hcount]. unfold nvs_dtc_store, well_formed, NVS_MAX_DTC_HISTORY in *.
  destruct (list_find _ _) as [[i d] |].
  - cbn [set_history dtc_history dtc_count]. rewrite length_alter. split; assumption.
  - destruct (Z.ltb_spec (dtc_count storage) 20) as [Hroom | Hfull];
      cbn [set_history dtc_history dtc_count]; rewrite length_insert.
    + rewrite u8_id by (unfold is_u8; lia). split; [assumption | lia].
    + split; assumption.
Qed.

(** Stored stamps stay within 32 bits when the call's stamp is. *)
Lemma store_stamps storage s f sa ts active :
  ts <= UINT32_MAX ->
  Forall (fun d => last_seen d <= UINT32_MAX) (dtc_history storage) ->
  Forall (fun d => last_seen d <= UINT32_MAX)
         (dtc_history (nvs_dtc_store storage s f sa ts active)).
Proof.
  intros Hts Hall. unfold nvs_dtc_store.
  destruct (list_find _ _) as [[i d] |].
  - cbn [set_history dtc_history]. apply Forall_alter; [exact Hall |].
    intros x _ _. exact Hts.
  - destruct (dtc_count storage <? NVS_MAX_DTC_HISTORY);
      cbn [set_history dtc_history]; apply Forall_insert; assumption.
Qed.

Lemma store_all_invariant calls : forall storage,
  Forall (fun c => call_timestamp c <= UINT32_MAX) calls ->
  well_formed storage ->
  Forall (fun d => last_seen d <= UINT32_MAX) (dtc_history storage) ->
  well_formed (store_all storage calls) /\
  Forall (fun d => last_seen d <= UINT32_MAX)
         (dtc_history (store_all storage calls)).
Proof.
  induction calls as [| c calls IH]; intros storage Hts Hwf Hall;
    [split; assumption |].
  apply Forall_cons in Hts as [Hc Hts].
  unfold store_all. cbn [fold_left]. apply IH.
  - exact Hts.
  - apply store_well_formed. exact Hwf.
  - apply store_stamps; assumption.
Qed.

(** The scan returns the position of an entry no younger than any other:
    either a position it has seen, holding [oldest_time], or a later one
    with a strictly smaller stamp. *)
Lemma oldest_scan_min l : forall i oldest_time oldest_idx,
  (oldest_scan l i oldest_time oldest_idx = oldest_idx /\
   forall d, d ∈ l -> oldest_time <= last_seen d) \/
  (exists j d, l !! j = Some d /\
     oldest_scan l i oldest_time oldest_idx = (i + j)%nat /\
     last_seen d < oldest_time /\
     forall d', d' ∈ l -> last_seen d <= last_seen d').
Proof.
  induction l as [| x l IH]; intros i t idx; cbn [oldest_scan].
  - left. split; [reflexivity |]. intros d Hd. inversion Hd.
  - destruct (Z.ltb_spec (last_seen x) t) as [Hlt | Hge].
    + right. destruct (IH (S i) (last_seen x) i) as [[Heq Hall] | (j & d & Hj & Heq & Hlt' & Hall)].
      * exists 0%nat, x. split; [reflexivity |]. split; [rewrite Heq; lia |].
        split; [exact Hlt |]. intros d' Hd'.
        apply elem_of_cons in Hd' as [-> | Hin]; [lia | apply Hall; exact Hin].
      * exists (S j), d. split; [exact Hj |]. split; [rewrite Heq; lia |].
        split; [lia |]. intros d' Hd'.
        apply elem_of_cons in Hd' as [-> | Hin]; [lia | apply Hall; exact Hin].
    + destruct (IH (S i) t idx) as [[Heq Hall] | (j & d & Hj & Heq & Hlt' & Hall)].
      * left. split; [exact Heq |]. intros d Hd.
        apply elem_of_cons in Hd as [-> | Hin]; [lia | apply Hall; exact Hin].
      * right. exists (S j), d. split; [exact Hj |]. split; [rewrite Heq; lia |].
        split; [exact Hlt' |]. intros d' Hd'.
        apply elem_of_cons in Hd' as [-> | Hin]; [lia | apply Hall; exact Hin].
Qed.

(** In a full table of 32-bit stamps, the index chosen for eviction holds
    an entry whose [last_seen] is the smallest. *)
Lemma oldest_index_min (hist : list stored_dtc_t) :
  length hist = Z.to_nat NVS_MAX_DTC_HISTORY ->
  Forall (fun d => last_seen d <= UINT32_MAX) hist ->
  exists victim,
    hist !! oldest_index hist = Some victim /\
    forall j d, hist !! j = Some d -> last_seen victim <= last_seen d.
Proof.
  intros Hlen Hu32. unfold oldest_index. rewrite take_ge by lia.
  destruct (oldest_scan_min hist 0 UINT32_MAX 0)
    as [[Heq Hall] | (j & d & Hj & Heq & _ & Hall)].
  - rewrite Heq.
    destruct (lookup_lt_is_Some_2 hist 0) as [victim Hv];
      [rewrite Hlen; unfold NVS_MAX_DTC_HISTORY; lia |].
    exists victim. split; [exact Hv |]. intros j d Hd.
    rewrite Forall_forall in Hu32.
    pose proof (Hu32 victim (list_elem_of_lookup_2 _ _ _ Hv)).
    pose proof (Hall d (list_elem_of_lookup_2 _ _ _ Hd)). lia.
  - rewrite Heq. cbn [Nat.add]. exists d. split; [exact Hj |].
    intros j' d' Hd'. apply Hall. eapply list_elem_of_lookup_2. exact Hd'.
Qed.

(** C8. On a well-formed table (the full array, a count of at most 20,
    32-bit stamps), whatever calls of [nvs_dtc_store] follow, the count
    stays at most 20 and the table stays well formed, so that the rest
    applies after every call again. A call whose (spn, fmi, source address) is
    first found at entry [i] among the counted entries sets that entry's
    [last_seen] to the call's stamp, raises its occurrence count by one
    (in 16 bits), sets its active flag as given, keeps its identity and
    [first_seen], and appends nothing. A call that finds no match in a
    full table replaces exactly one entry, one whose [last_seen] is the
    smallest in the table, by the new fault with both stamps at the
    call's stamp and an occurrence count of 1; with room left it appends
    that entry instead. *)
Theorem dtc_history_policy storage :
  well_formed storage ->
  Forall (fun d => last_seen d <= UINT32_MAX) (dtc_history storage) ->
  (forall calls,
     Forall (fun c => call_timestamp c <= UINT32_MAX) calls ->
     0 <= dtc_count (store_all storage calls) <= NVS_MAX_DTC_HISTORY /\
     well_formed (store_all storage calls) /\
     Forall (fun d => last_seen d <= UINT32_MAX)
            (dtc_history (store_all storage calls))) /\
  (forall s f sa ts active (i : nat) d,
     Z.of_nat i < dtc_count storage ->
     dtc_history storage !! i = Some d -> same_fault s f sa d ->
     (forall (j : nat) d', (j < i)%nat -> dtc_history storage !! j = Some d' ->
                           ~ same_fault s f sa d') ->
     dtc_count (nvs_dtc_store storage s f sa ts active) = dtc_count storage /\
     dtc_history (nvs_dtc_store storage s f sa ts active)
     = <[i := {| spn := spn d; fmi := fmi d;
               source_address := source_address d;
               first_seen := first_seen d; last_seen := ts;
               occurrence_count := u16 (occurrence_count d + 1);
               is_active := active |}]> (dtc_history storage)) /\
  (forall s f sa ts active,
     (forall (j : nat) d, Z.of_nat j < dtc_count storage ->
                          dtc_history storage !! j = Some d ->
                          ~ same_fault s f sa d) ->
     (dtc_count storage = NVS_MAX_DTC_HISTORY ->
      exists victim,
        dtc_history storage !! oldest_index (dtc_history storage) = Some victim /\
        (forall j d, dtc_history storage !! j = Some d ->
                     last_seen victim <= last_seen d) /\
        dtc_history (nvs_dtc_store storage s f sa ts active)
        = <[oldest_index (dtc_history storage) := {| spn := s; fmi := f; source_address := sa;
                first_seen := ts; last_seen := ts;
                occurrence_count := 1; is_active := active |}]>
            (dtc_history storage) /\
        dtc_count (nvs_dtc_store storage s f sa ts active)
        = NVS_MAX_DTC_HISTORY) /\
     (dtc_count storage < NVS_MAX_DTC_HISTORY ->
      dtc_history (nvs_dtc_store storage s f sa ts active)
      = <[Z.to_nat (dtc_count storage) := {| spn := s; fmi := f; source_address := sa;
                first_seen := ts; last_seen := ts;
                occurrence_count := 1; is_active := active |}]>
          (dtc_history storage) /\
      dtc_count (nvs_dtc_store storage s f sa ts active)
      = dtc_count storage + 1)).
Proof.
  intros Hwf Hu32. split; [| split].
  - intros calls Hts.
    destruct (store_all_invariant calls storage Hts Hwf Hu32) as [Hwf' Hu32'].
    split; [exact (proj2 Hwf') |]. split; assumption.
  - intros s f sa ts active i d Hi Hd Hsame Hfirst.
    assert (Hfind : list_find (same_fault s f sa)
                      (take (Z.to_nat (dtc_count storage)) (dtc_history storage))
                    = Some (i, d)).
    { apply list_find_Some. split; [rewrite lookup_take_lt by lia; exact Hd |].
      split; [exact Hsame |]. intros j d' Hj Hlt.
      apply lookup_take_Some in Hj as [Hj _]. exact (Hfirst j d' Hlt Hj). }
    unfold nvs_dtc_store. rewrite Hfind.
    cbn [set_history dtc_count dtc_history]. split; [reflexivity |].
    apply list_eq. intros j. destruct (decide (j = i)) as [-> | Hne].
    + rewrite list_lookup_alter_eq, Hd.
      rewrite list_lookup_insert_eq by (eapply lookup_lt_Some; exact Hd).
      reflexivity.
    + rewrite list_lookup_alter_ne, list_lookup_insert_ne by congruence.
      reflexivity.
  - intros s f sa ts active Hnone.
    assert (Hfind : list_find (same_fault s f sa)
                      (take (Z.to_nat (dtc_count storage)) (dtc_history storage))
                    = None).
    { apply list_find_None. apply Forall_forall. intros d Hd.
      apply list_elem_of_lookup in Hd as [j Hj].
      apply lookup_take_Some in Hj as [Hj Hlt]. apply (Hnone j d); [lia | exact Hj]. }
    destruct Hwf as [Hlen Hcount]. unfold nvs_dtc_store. rewrite Hfind.
    split.
    + intros Hfull.
      destruct (Z.ltb_spec (dtc_count storage) NVS_MAX_DTC_HISTORY); [lia |].
      destruct (oldest_index_min (dtc_history storage) Hlen Hu32)
        as (victim & Hv & Hmin).
      exists victim. cbn [set_history dtc_count dtc_history].
      repeat split; assumption.
    + intros Hroom.
      destruct (Z.ltb_spec (dtc_count storage) NVS_MAX_DTC_HISTORY); [| lia].
      cbn [set_history dtc_count dtc_history]. split; [reflexivity |].
      apply u8_id. unfold is_u8, NVS_MAX_DTC_HISTORY in *. lia.
Qed.

(** The policy on the full demo table. *)
Lemma dtc_history_policy_witness :
  (forall calls,
     Forall (fun c => call_timestamp c <= UINT32_MAX) calls ->
     0 <= dtc_count (store_all demo_full calls) <= NVS_MAX_DTC_HISTORY /\
     well_formed (store_all demo_full calls) /\
     Forall (fun d => last_seen d <= UINT32_MAX)
            (dtc_history (store_all demo_full calls))) /\
  (forall s f sa ts active (i : nat) d,
     Z.of_nat i < dtc_count demo_full ->
     dtc_history demo_full !! i = Some d -> same_fault s f sa d ->
     (forall (j : nat) d', (j < i)%nat -> dtc_history demo_full !! j = Some d' ->
                           ~ same_fault s f sa d') ->
     dtc_count (nvs_dtc_store demo_full s f sa ts active) = dtc_count demo_full /\
     dtc_history (nvs_dtc_store demo_full s f sa ts active)
     = <[i := {| spn := spn d; fmi := fmi d;
               source_address := source_address d;
               first_seen := first_seen d; last_seen := ts;
               occurrence_count := u16 (occurrence_count d + 1);
               is_active := active |}]> (dtc_history demo_full)) /\
  (forall s f sa ts active,
     (forall (j : nat) d, Z.of_nat j < dtc_count demo_full ->
                          dtc_history demo_full !! j = Some d ->
                          ~ same_fault s f sa d) ->
     (dtc_count demo_full = NVS_MAX_DTC_HISTORY ->
      exists victim,
        dtc_history demo_full !! oldest_index (dtc_history demo_full)
        = Some victim /\
        (forall j d, dtc_history demo_full !! j = Some d ->
                     last_seen victim <= last_seen d) /\
        dtc_history (nvs_dtc_store demo_full s f sa ts active)
        = <[oldest_index (dtc_history demo_full) := {| spn := s; fmi := f; source_address := sa;
                first_seen := ts; last_seen := ts;
                occurrence_count := 1; is_active := active |}]>
            (dtc_history demo_full) /\
        dtc_count (nvs_dtc_store demo_full s f sa ts active)
        = NVS_MAX_DTC_HISTORY) /\
     (dtc_count demo_full < NVS_MAX_DTC_HISTORY ->
      dtc_history (nvs_dtc_store demo_full s f sa ts active)
      = <[Z.to_nat (dtc_count demo_full) := {| spn := s; fmi := f; source_address := sa;
                first_seen := ts; last_seen := ts;
                occurrence_count := 1; is_active := active |}]>
          (dtc_history demo_full) /\
      dtc_count (nvs_dtc_store demo_full s f sa ts active)
      = dtc_count demo_full + 1)).
Proof.
  apply (dtc_history_policy demo_full).
  - split; [reflexivity | vm_compute; split; discriminate].
  - apply (bool_decide_unpack _). vm_compute. exact I.
Defined.

(** On the demo table: a new fault evicts entry 7 (SPN 107, stamped 5); a
    repeat of SPN 103 updates entry 3 in place. *)
Example demo_full_eviction :
  dtc_count demo_full = 20 /\
  oldest_index (dtc_history demo_full) = 7%nat /\
  (spn <$> dtc_history demo_full !! 7%nat) = Some 107 /\
  dtc_history (nvs_dtc_store demo_full 999 2 3 9000 true) !! 7%nat
  = Some (fresh 999 2 3 9000 true) /\
  dtc_count (nvs_dtc_store demo_full 999 2 3 9000 true) = 20 /\
  dtc_history (nvs_dtc_store demo_full 103 1 0 9000 false) !! 3%nat
  = Some {| spn := 103; fmi := 1; source_address := 0; first_seen := 503;
            last_seen := 9000; occurrence_count := 2; is_active := false |} /\
  dtc_count (nvs_dtc_store demo_full 103 1 0 9000 false) = 20.
Proof. vm_compute. repeat split; reflexivity. Qed.

End Nvs_dtc_props.

(** ** Identifier fields, PDU1 destination, gear decode *)

Module J1939_frame_props.
Import J1939.

(** The three fields [j1939_extract_pgn] reads, as quotients. *)
Lemma extract_pgn_value id :
  0 <= id < 2 ^ 29 ->
  j1939_extract_pgn id
  = (id / 2 ^ 24) mod 2 ^ 2 * 2 ^ 16 + (id / 2 ^ 16) mod 2 ^ 8 * 2 ^ 8
    + (if (id / 2 ^ 16) mod 2 ^ 8 <? 240 then 0 else (id / 2 ^ 8) mod 2 ^ 8).
Proof.
  intros Hid. unfold j1939_extract_pgn.
  change 0xFF with (2 ^ 8 - 1). change 0x03 with (2 ^ 2 - 1).
  rewrite !land_mask, !Z.shiftr_div_pow2 by lia.
  set (pf := (id / 2 ^ 16) mod 2 ^ 8).
  set (ps := (id / 2 ^ 8) mod 2 ^ 8).
  set (dp := (id / 2 ^ 24) mod 2 ^ 2).
  assert (Hpf : 0 <= pf < 2 ^ 8) by (apply Z.mod_pos_bound; lia).
  assert (Hps : 0 <= ps < 2 ^ 8) by (apply Z.mod_pos_bound; lia).
  assert (Hdp : 0 <= dp < 2 ^ 2) by (apply Z.mod_pos_bound; lia).
  rewrite !u8_id by (unfold is_u8; lia).
  rewrite (Z.shiftl_mul_pow2 pf) by lia.
  rewrite (u32_id (pf * 2 ^ 8)) by (unfold is_u32; lia).
  rewrite (u32_id (Z.shiftl dp 16))
    by (unfold is_u32; rewrite Z.shiftl_mul_pow2 by lia; lia).
  rewrite (lor_shiftl_low dp (pf * 2 ^ 8) 16) by lia.
  clearbody pf ps dp. destruct (pf <? 240); [lia |].
  replace (dp * 2 ^ 16 + pf * 2 ^ 8) with (Z.shiftl (dp * 2 ^ 8 + pf) 8)
    by (rewrite Z.shiftl_mul_pow2 by lia; lia).
  rewrite lor_shiftl_low by lia. rewrite Z.shiftl_mul_pow2 by lia. lia.
Qed.

Lemma extract_destination_value id :
  j1939_extract_destination id
  = if (id / 2 ^ 16) mod 2 ^ 8 <? 240 then (id / 2 ^ 8) mod 2 ^ 8 else 0xFF.
Proof.
  unfold j1939_extract_destination.
  change 0xFF with (2 ^ 8 - 1) at 1 2.
  rewrite !land_mask, !Z.shiftr_div_pow2 by lia.
  rewrite !u8_id by (unfold is_u8; apply Z.mod_pos_bound; lia).
  reflexivity.
Qed.

Lemma extract_source_address_value id :
  j1939_extract_source_address id = id mod 2 ^ 8.
Proof.
  unfold j1939_extract_source_address. change 0xFF with (2 ^ 8 - 1).
  rewrite land_mask by lia. apply u8_id, Z.mod_pos_bound. lia.
Qed.

Lemma extract_priority_value id :
  j1939_extract_priority id = (id / 2 ^ 26) mod 2 ^ 3.
Proof.
  unfold j1939_extract_priority. change 0x07 with (2 ^ 3 - 1).
  rewrite land_mask, Z.shiftr_div_pow2 by lia.
  apply u8_id. unfold is_u8.
  pose proof (Z.mod_pos_bound (id / 2 ^ 26) (2 ^ 3)). lia.
Qed.

(** A 29-bit identifier is the positional sum of its five fields. *)
Lemma can_id_fields id :
  0 <= id < 2 ^ 29 ->
  id = (id / 2 ^ 26) mod 2 ^ 3 * 2 ^ 26 + (id / 2 ^ 24) mod 2 ^ 2 * 2 ^ 24
       + (id / 2 ^ 16) mod 2 ^ 8 * 2 ^ 16 + (id / 2 ^ 8) mod 2 ^ 8 * 2 ^ 8
       + id mod 2 ^ 8.
Proof. intros Hid. Z.div_mod_to_equations. lia. Qed.

(** The decoders lose nothing of a 29-bit identifier: two identifiers with
    the same PGN, destination, source address and priority are the same
    identifier. *)
Theorem can_id_decode_injective a b :
  0 <= a < 2 ^ 29 -> 0 <= b < 2 ^ 29 ->
  j1939_extract_pgn a = j1939_extract_pgn b ->
  j1939_extract_destination a = j1939_extract_destination b ->
  j1939_extract_source_address a = j1939_extract_source_address b ->
  j1939_extract_priority a = j1939_extract_priority b ->
  a = b.
Proof.
  intros Ha Hb Hpgn Hda Hsa Hprio.
  rewrite !extract_pgn_value in Hpgn by assumption.
  rewrite !extract_destination_value in Hda.
  rewrite !extract_source_address_value in Hsa.
  rewrite !extract_priority_value in Hprio.
  rewrite (can_id_fields a Ha), (can_id_fields b Hb), Hsa, Hprio.
  pose proof (Z.mod_pos_bound (a / 2 ^ 24) (2 ^ 2)).
  pose proof (Z.mod_pos_bound (a / 2 ^ 16) (2 ^ 8)).
  pose proof (Z.mod_pos_bound (a / 2 ^ 8) (2 ^ 8)).
  pose proof (Z.mod_pos_bound (b / 2 ^ 24) (2 ^ 2)).
  pose proof (Z.mod_pos_bound (b / 2 ^ 16) (2 ^ 8)).
  pose proof (Z.mod_pos_bound (b / 2 ^ 8) (2 ^ 8)).
  clear Hsa Hprio.
  generalize dependent ((a / 2 ^ 24) mod 2 ^ 2).
  generalize dependent ((a / 2 ^ 16) mod 2 ^ 8).
  generalize dependent ((a / 2 ^ 8) mod 2 ^ 8).
  generalize dependent ((b / 2 ^ 24) mod 2 ^ 2).
  generalize dependent ((b / 2 ^ 16) mod 2 ^ 8).
  generalize dependent ((b / 2 ^ 8) mod 2 ^ 8).
  intros psb Hpsb pfb Hpfb dpb Hdpb psa Hpsa pfa Hpfa dpa Hdpa Hpgn Hda.
  destruct (Z.ltb_spec pfa 240), (Z.ltb_spec pfb 240); lia.
Qed.

(** The injectivity at the identifier 0x18FEEE00 and the one built for
    PGN 65262 from source 0 at priority 6. *)
Lemma can_id_decode_injective_witness :
  j1939_build_can_id 65262 0 6 = 0x18FEEE00.
Proof.
  apply can_id_decode_injective; [vm_compute; split; [discriminate | reflexivity]
                                 | lia | reflexivity ..].
Defined.

(** For pgn < 2^18 whose PDU-format byte is below 240 (PDU1), the low byte
    handed to [j1939_build_can_id] comes back as the destination address
    and is cleared from the decoded PGN; for a PDU2 PGN the destination is
    the broadcast address 0xFF. *)
Theorem build_can_id_destination pgn sa prio :
  0 <= pgn < 2 ^ 18 -> 0 <= sa < 2 ^ 8 -> 0 <= prio < 8 ->
  (pgn_pdu_format pgn < 240 ->
   j1939_extract_pgn (j1939_build_can_id pgn sa prio) = pgn - pgn mod 2 ^ 8 /\
   j1939_extract_destination (j1939_build_can_id pgn sa prio) = pgn mod 2 ^ 8) /\
  (240 <= pgn_pdu_format pgn ->
   j1939_extract_destination (j1939_build_can_id pgn sa prio) = 0xFF).
Proof.
  intros Hpgn Hsa Hprio.
  rewrite (J1939_id_props.build_can_id_value pgn sa prio) by (unfold is_u8; lia).
  set (id := prio * 2 ^ 26 + pgn * 2 ^ 8 + sa).
  assert (Hid : 0 <= id < 2 ^ 29) by (unfold id; lia).
  assert (Hpf : (id / 2 ^ 16) mod 2 ^ 8 = pgn_pdu_format pgn)
    by (unfold id, pgn_pdu_format; Z.div_mod_to_equations; lia).
  assert (Hps : (id / 2 ^ 8) mod 2 ^ 8 = pgn mod 2 ^ 8)
    by (unfold id; Z.div_mod_to_equations; lia).
  assert (Hdp : (id / 2 ^ 24) mod 2 ^ 2 = pgn / 2 ^ 16)
    by (unfold id; Z.div_mod_to_equations; lia).
  rewrite extract_pgn_value, extract_destination_value by exact Hid.
  rewrite Hpf, Hps, Hdp. clearbody id. unfold pgn_pdu_format in *.
  split.
  - intros Hpdu1.
    destruct (Z.ltb_spec ((pgn / 2 ^ 8) mod 2 ^ 8) 240) as [_ | Hge]; [| lia].
    split; [| reflexivity]. Z.div_mod_to_equations. lia.
  - intros Hpdu2.
    destruct (Z.ltb_spec ((pgn / 2 ^ 8) mod 2 ^ 8) 240) as [Hlt | _]; [lia |].
    reflexivity.
Qed.

(** The request PGN 59904 (0xEA00) sent to address 0x17 from 0xF9. *)
Lemma build_can_id_destination_witness :
  j1939_extract_pgn (j1939_build_can_id 0xEA17 0xF9 6) = 0xEA00 /\
  j1939_extract_destination (j1939_build_can_id 0xEA17 0xF9 6) = 0x17.
Proof.
  apply (build_can_id_destination 0xEA17 0xF9 6); [lia | lia | lia |].
  vm_compute. reflexivity.
Defined.

(** [j1939_decode_current_gear] returns its marker -126 exactly for the raw
    bytes 0xFE and 0xFF. Raw bytes up to 252 give raw - 125; the raw byte
    253 gives 128 wrapped into [int8_t], which is -128. So a caller that
    keeps results above -126 keeps exactly the raw bytes up to 252. *)
Theorem decode_current_gear_marker (d : list Z) :
  is_u8 (byte_at d 3) ->
  (j1939_decode_current_gear (Some d) = -126
   <-> byte_at d 3 = 0xFE \/ byte_at d 3 = 0xFF) /\
  (byte_at d 3 <= 252 ->
   j1939_decode_current_gear (Some d) = byte_at d 3 - 125) /\
  (byte_at d 3 = 253 -> j1939_decode_current_gear (Some d) = -128) /\
  (-126 < j1939_decode_current_gear (Some d) <-> byte_at d 3 <= 252).
Proof.
  intros Hraw. unfold j1939_decode_current_gear, j1939_is_valid_8,
    J1939_NOT_AVAILABLE_8, J1939_ERROR_8, i8, is_u8 in *.
  generalize dependent (byte_at d 3). intros raw Hraw.
  match goal with |- context [if ?c then _ else ?e] => set (r := if c then -126 else e) end.
  assert (Hr : (raw = 0xFE \/ raw = 0xFF) /\ r = -126
               \/ raw <= 252 /\ r = raw - 125 \/ raw = 253 /\ r = -128).
  { subst r. destruct (Z.eqb_spec raw 0xFF) as [Hff | Hff];
      destruct (Z.eqb_spec raw 0xFE) as [Hfe | Hfe]; cbn [negb andb];
      try (left; split; [lia | reflexivity]).
    destruct (Z.le_gt_cases raw 252) as [Hlow | Hhigh].
    - right. left. split; [exact Hlow |]. rewrite Z.mod_small by lia. lia.
    - right. right. assert (Heq : raw = 253) by lia. subst raw.
      split; reflexivity. }
  clearbody r. lia.
Qed.

(** The frame 7D 7D 7D 83 FF FF FF FF: raw byte 131, sixth gear. *)
Lemma decode_current_gear_marker_witness :
  j1939_decode_current_gear (Some [0x7D; 0x7D; 0x7D; 0x83; 0xFF; 0xFF; 0xFF; 0xFF])
  = 6.
Proof.
  destruct (decode_current_gear_marker
              [0x7D; 0x7D; 0x7D; 0x83; 0xFF; 0xFF; 0xFF; 0xFF])
    as (_ & Hlow & _); [vm_compute; split; [discriminate | reflexivity] |].
  apply Hlow. vm_compute. discriminate.
Defined.

End J1939_frame_props.
(** ** Transport sessions: table invariants, dead transfers *)

Module J1939_session_props.
Import J1939.

Lemma find_tp_session_Some ctx sa idx :
  find_tp_session ctx sa = Some idx <->
  exists s, tp_sessions ctx !! idx = Some s /\ tp_match sa s /\
            first_match sa ctx idx.
Proof.
  unfold find_tp_session. rewrite fmap_Some. split.
  - intros ([i s] & Hfind & ->).
    apply list_find_Some in Hfind as (Hs & Hm & Hfirst).
    exists s. split; [exact Hs |]. split; [exact Hm | exact Hfirst].
  - intros (s & Hs & Hm & Hfirst). exists (idx, s). split; [| reflexivity].
    apply list_find_Some. split; [exact Hs |]. split; [exact Hm | exact Hfirst].
Qed.

Lemma find_tp_session_None ctx sa :
  find_tp_session ctx sa = None <->
  forall j y, tp_sessions ctx !! j = Some y -> ~ tp_match sa y.
Proof.
  unfold find_tp_session. rewrite fmap_None, list_find_None, Forall_lookup.
  reflexivity.
Qed.

Lemma allocate_tp_session_Some ctx idx :
  allocate_tp_session ctx = Some idx ->
  exists s, tp_sessions ctx !! idx = Some s /\ tp_state s = TP_STATE_IDLE.
Proof.
  unfold allocate_tp_session. rewrite fmap_Some.
  intros ([i s] & Hfind & ->).
  apply list_find_Some in Hfind as (Hs & Hidle & _). exists s. auto.
Qed.

Lemma allocate_tp_session_None ctx :
  allocate_tp_session ctx = None <->
  forall j y, tp_sessions ctx !! j = Some y -> tp_state y <> TP_STATE_IDLE.
Proof.
  unfold allocate_tp_session. rewrite fmap_None, list_find_None, Forall_lookup.
  reflexivity.
Qed.

(** What a frame can do to the table: nothing, or rewrite one slot into a
    live session, either of the slot's old (live) owner or of the
    frame's sender when the sender had no live session. *)
Lemma handle_frame_sessions ctx msg :
  tp_sessions (fst (j1939_tp_handle_frame ctx msg)) = tp_sessions ctx \/
  exists idx old s',
    tp_sessions ctx !! idx = Some old /\
    tp_sessions (fst (j1939_tp_handle_frame ctx msg))
    = <[idx := s']> (tp_sessions ctx) /\
    tp_state s' <> TP_STATE_IDLE /\
    ((tp_state old <> TP_STATE_IDLE /\
      tp_source_address s' = tp_source_address old) \/
     (tp_source_address s' = msg_source_address msg /\
      find_tp_session ctx (msg_source_address msg) = None)).
Proof.
  unfold j1939_tp_handle_frame.
  destruct (msg_pgn msg =? PGN_TP_CM).
  - destruct (byte_at (msg_data msg) 0 =? TP_CM_BAM); [| left; reflexivity].
    destruct (find_tp_session ctx (msg_source_address msg)) as [idx |] eqn:Hfind.
    + apply find_tp_session_Some in Hfind as (old & Hold & [Hlive Hsa] & _).
      right. eexists idx, old, _. split; [exact Hold |].
      split; [reflexivity |]. split; [discriminate |].
      left. split; [exact Hlive |]. cbn [tp_source_address]. congruence.
    + destruct (allocate_tp_session ctx) as [idx |] eqn:Halloc;
        [| left; reflexivity].
      apply allocate_tp_session_Some in Halloc as (old & Hold & _).
      right. eexists idx, old, _. split; [exact Hold |].
      split; [reflexivity |]. split; [discriminate |].
      right. split; reflexivity.
  - destruct (msg_pgn msg =? PGN_TP_DT); [| left; reflexivity].
    destruct (find_tp_session ctx (msg_source_address msg)) as [idx |] eqn:Hfind;
      [| left; reflexivity].
    apply find_tp_session_Some in Hfind as (old & Hold & [Hlive Hsa] & _).
    rewrite Hold.
    destruct (bool_decide (tp_state old = TP_STATE_RECEIVING)) eqn:Hrecv;
      cbn [negb]; [| left; reflexivity].
    apply bool_decide_eq_true_1 in Hrecv.
    destruct (_ >? J1939_TP_TIMEOUT_MS).
    { right. eexists idx, old, _. split; [exact Hold |].
      split; [reflexivity |]. split; [discriminate |].
      left. split; [exact Hlive | reflexivity]. }
    destruct (negb _).
    { right. eexists idx, old, _. split; [exact Hold |].
      split; [reflexivity |]. split; [discriminate |].
      left. split; [exact Hlive | reflexivity]. }
    cbv zeta. destruct (_ >=? tp_total_packets old).
    + right. eexists idx, old, _. split; [exact Hold |].
      split; [reflexivity |]. split; [discriminate |].
      left. split; [exact Hlive | reflexivity].
    + right. eexists idx, old, _. split; [exact Hold |].
      split; [reflexivity |]. split; [cbn [tp_state]; congruence |].
      left. split; [exact Hlive | reflexivity].
Qed.

Lemma unique_sessions_insert ctx ctx' idx old s' :
  unique_sessions ctx -> tp_sessions ctx !! idx = Some old ->
  tp_sessions ctx' = <[idx := s']> (tp_sessions ctx) ->
  (tp_state old <> TP_STATE_IDLE /\
   tp_source_address s' = tp_source_address old) \/
  (forall j y, tp_sessions ctx !! j = Some y ->
               ~ tp_match (tp_source_address s') y) ->
  unique_sessions ctx'.
Proof.
  intros Hu Hold Heq Hcase i j si sj. rewrite Heq.
  rewrite !list_lookup_insert_Some.
  intros [(<- & <- & _) | [Hni Hi]] [(Hj & <- & _) | [Hnj Hj]] Hli Hlj Hsa;
    try congruence.
  - destruct Hcase as [[Hlive Hsame] | Hnone].
    + apply (Hu idx j old sj); congruence.
    + exfalso. apply (Hnone j sj Hj). split; congruence.
  - subst j. destruct Hcase as [[Hlive Hsame] | Hnone].
    + apply (Hu i idx si old); congruence.
    + exfalso. apply (Hnone i si Hi). split; congruence.
  - apply (Hu i j si sj); assumption.
Qed.

Lemma handle_frame_unique ctx msg :
  unique_sessions ctx -> unique_sessions (fst (j1939_tp_handle_frame ctx msg)).
Proof.
  intros Hu.
  destruct (handle_frame_sessions ctx msg)
    as [Hsame | (idx & old & s' & Hold & Heq & Hlive & Hcase)].
  - intros i j si sj. rewrite Hsame. apply Hu.
  - apply (unique_sessions_insert ctx _ idx old s' Hu Hold Heq).
    destruct Hcase as [Hkeep | [Hsa Hnone]]; [left; exact Hkeep | right].
    rewrite Hsa. apply find_tp_session_None. exact Hnone.
Qed.

Lemma get_data_unique ctx sa pgn data max_len :
  unique_sessions ctx ->
  unique_sessions (get_ctx (j1939_tp_get_data ctx sa pgn data max_len)).
Proof.
  intros Hu. unfold j1939_tp_get_data.
  destruct (find_tp_session ctx sa) as [idx |] eqn:Hfind; [| exact Hu].
  destruct (tp_sessions ctx !! idx) as [s |] eqn:Hs; [| exact Hu].
  destruct (negb _); [exact Hu |]. cbn [get_ctx].
  intros i j si sj. cbn [set_session tp_sessions].
  rewrite !list_lookup_insert_Some.
  intros [(<- & <- & _) | [Hni Hi]] [(Hj & <- & _) | [Hnj Hj]] Hli Hlj Hsa;
    cbn [with_state tp_state] in *; try congruence.
  apply (Hu i j si sj); assumption.
Qed.

Lemma init_unique : unique_sessions j1939_parser_init.
Proof.
  intros i j si sj Hi Hj Hli. exfalso. apply Hli.
  cbn [j1939_parser_init tp_sessions] in Hi.
  apply lookup_replicate in Hi as [-> _]. reflexivity.
Qed.

Lemma tp_run_unique calls : forall ctx,
  unique_sessions ctx -> unique_sessions (tp_run ctx calls).
Proof.
  induction calls as [| c calls IH]; intros ctx Hu; [exact Hu |].
  unfold tp_run. cbn [fold_left]. apply IH.
  destruct c as [msg | sa pgn data max_len]; cbn [tp_apply].
  - apply handle_frame_unique. exact Hu.
  - apply get_data_unique. exact Hu.
Qed.

(** Whatever frames are handled and whatever drains are made after
    [j1939_parser_init], no two live sessions of the table carry the same
    source address. *)
Theorem tp_sessions_unique_always calls :
  unique_sessions (tp_run j1939_parser_init calls).
Proof. apply tp_run_unique, init_unique. Qed.

(** A completed transfer is handed out once: after [j1939_tp_get_data] has
    drained the complete session of a source address, a second call for
    that address returns 0 and touches neither the context nor the
    caller's outputs. *)
Theorem tp_drain_once ctx sa idx pgn data max_len pgn' data' max_len' :
  unique_sessions ctx -> session_in ctx sa idx TP_STATE_COMPLETE ->
  j1939_tp_get_data
    (get_ctx (j1939_tp_get_data ctx sa pgn data max_len)) sa pgn' data' max_len'
  = tp_nothing (get_ctx (j1939_tp_get_data ctx sa pgn data max_len)) pgn' data'.
Proof.
  intros Hu [Hfind (s & Hs & Hst)].
  pose proof Hfind as Hfind'.
  apply find_tp_session_Some in Hfind' as (s0 & Hs0 & [Hlive Hsa] & _).
  assert (s0 = s) by congruence. subst s0.
  unfold j1939_tp_get_data at 2 3. rewrite Hfind, Hs, Hst.
  rewrite bool_decide_eq_true_2 by reflexivity. cbn [negb get_ctx].
  assert (Hnone : find_tp_session
                    (set_session ctx idx (with_state s TP_STATE_IDLE)) sa = None).
  { apply find_tp_session_None. intros j y. cbn [set_session tp_sessions].
    rewrite list_lookup_insert_Some.
    intros [(_ & <- & _) | [Hne Hj]] [Hly Hsay].
    - apply Hly. reflexivity.
    - apply Hne. apply (Hu idx j s y); congruence. }
  unfold j1939_tp_get_data. rewrite Hnone. reflexivity.
Qed.

(** A two-frame transfer from source 0x21, drained twice. *)
Lemma tp_drain_once_witness :
  get_len
    (j1939_tp_get_data
       (get_ctx
          (j1939_tp_get_data
             (tp_run j1939_parser_init
                [TpFrame (bam_frame 0x21 9 2 0xFF 65226 100);
                 TpFrame (dt_frame 0x21 1 [1; 2; 3; 4; 5; 6; 7] 150);
                 TpFrame (dt_frame 0x21 2 [8; 9; 0xFF; 0xFF; 0xFF; 0xFF; 0xFF] 200)])
             0x21 (Some 0) (replicate 16 0) 16))
       0x21 (Some 0) (replicate 16 0) 16)
  = 0.
Proof.
  rewrite (tp_drain_once _ 0x21 0%nat).
  - reflexivity.
  - apply tp_run_unique, init_unique.
  - split; [vm_compute; reflexivity |].
    eexists. split; [vm_compute; reflexivity | reflexivity].
Defined.





(** [j1939_tp_handle_frame] never frees a slot: a live session stays live
    (only [j1939_tp_get_data] returns a slot to idle), and the table keeps
    its size. So when every slot is live and none belongs to the sender of
    a frame, the frame changes nothing. *)
Theorem tp_handle_frame_keeps_live ctx msg :
  length (tp_sessions (fst (j1939_tp_handle_frame ctx msg)))
  = length (tp_sessions ctx) /\
  (forall (i : nat) s, tp_sessions ctx !! i = Some s ->
     tp_state s <> TP_STATE_IDLE ->
     exists s', tp_sessions (fst (j1939_tp_handle_frame ctx msg)) !! i = Some s' /\
                tp_state s' <> TP_STATE_IDLE) /\
  (Forall (fun s => tp_state s <> TP_STATE_IDLE /\
                    tp_source_address s <> msg_source_address msg)
          (tp_sessions ctx) ->
   j1939_tp_handle_frame ctx msg = (ctx, false)).
Proof.
  split; [| split].
  - destruct (handle_frame_sessions ctx msg)
      as [-> | (idx & old & s' & _ & -> & _)]; [reflexivity |].
    apply length_insert.
  - intros i s Hs Hlive.
    destruct (handle_frame_sessions ctx msg)
      as [-> | (idx & old & s' & Hold & -> & Hlive' & _)]; [eauto |].
    destruct (decide (i = idx)) as [-> | Hne].
    + exists s'. split; [| exact Hlive'].
      apply list_lookup_insert_eq. eapply lookup_lt_Some. exact Hold.
    + exists s. rewrite list_lookup_insert_ne by congruence. auto.
  - intros Hfull. rewrite Forall_lookup in Hfull.
    assert (Hnone : find_tp_session ctx (msg_source_address msg) = None).
    { apply find_tp_session_None. intros j y Hj [_ Hsa].
      destruct (Hfull j y Hj) as [_ Hother]. contradiction. }
    assert (Hnoalloc : allocate_tp_session ctx = None).
    { apply allocate_tp_session_None. intros j y Hj.
      destruct (Hfull j y Hj) as [Hlive _]. exact Hlive. }
    unfold j1939_tp_handle_frame. rewrite Hnone, Hnoalloc.
    destruct (msg_pgn msg =? PGN_TP_CM);
      [destruct (byte_at (msg_data msg) 0 =? TP_CM_BAM); reflexivity |].
    destruct (msg_pgn msg =? PGN_TP_DT); reflexivity.
Qed.

End J1939_session_props.
(** ** Checksum: the sum modulo 256, uniqueness, single-byte errors *)

Module J1708_checksum_more_props.
Import J1708 J1708_checksum_props.

(** On 2 to 255 bytes, [j1708_validate_checksum] tests the byte sum modulo
    256. *)
Lemma validate_sum (m : list Z) :
  (2 <= length m <= 255)%nat ->
  j1708_validate_checksum (Some m) (Z.of_nat (length m))
  = (u8 (byte_sum m) =? 0).
Proof.
  intros Hlen. unfold j1708_validate_checksum.
  destruct (Z.ltb_spec (Z.of_nat (length m)) 2) as [Hshort | _]; [lia |].
  rewrite Nat2Z.id, checksum_loop_whole by lia. reflexivity.
Qed.

Lemma calculate_sum (data : list Z) :
  (1 <= length data <= 255)%nat ->
  j1708_calculate_checksum (Some data) (Z.of_nat (length data))
  = u8 (0x100 - u8 (byte_sum data)).
Proof.
  intros Hlen. unfold j1708_calculate_checksum.
  destruct (Z.eqb_spec (Z.of_nat (length data)) 0) as [Hzero | _]; [lia |].
  rewrite Nat2Z.id, checksum_loop_whole by lia. reflexivity.
Qed.

Lemma byte_sum_insert (m : list Z) (i : nat) (old b : Z) :
  m !! i = Some old -> byte_sum (<[i := b]> m) = byte_sum m - old + b.
Proof.
  intros Hi.
  rewrite <- (take_drop_middle m i old Hi) at 2.
  rewrite insert_take_drop by (eapply lookup_lt_Some; exact Hi).
  rewrite !byte_sum_app.
  change (byte_sum (b :: drop (S i) m)) with (b + byte_sum (drop (S i) m)).
  change (byte_sum (old :: drop (S i) m)) with (old + byte_sum (drop (S i) m)).
  lia.
Qed.

(** The checksum byte is the only byte that completes a sequence of 1 to
    254 bytes to a frame [j1708_validate_checksum] accepts. *)
Theorem checksum_unique (data : list Z) (c : Z) :
  (1 <= length data <= 254)%nat -> is_u8 c ->
  j1708_validate_checksum (Some (data ++ [c])) (Z.of_nat (length data) + 1)
  = true ->
  c = j1708_calculate_checksum (Some data) (Z.of_nat (length data)).
Proof.
  intros Hlen Hc Hvalid.
  replace (Z.of_nat (length data) + 1) with (Z.of_nat (length (data ++ [c])))
    in Hvalid by (rewrite length_app; cbn [length]; lia).
  rewrite validate_sum in Hvalid by (rewrite length_app; cbn [length]; lia).
  rewrite calculate_sum by lia.
  rewrite byte_sum_app in Hvalid. unfold byte_sum at 2 in Hvalid.
  cbn [foldr] in Hvalid. apply Z.eqb_eq in Hvalid.
  unfold u8, is_u8 in *. generalize dependent (byte_sum data). intros sum Hsum.
  Z.div_mod_to_equations. lia.
Qed.

(** The frame 128, 190, 0x50, 0x14 and its checksum byte 0x5E. *)
Lemma checksum_unique_witness :
  0x5E = j1708_calculate_checksum (Some [128; 190; 0x50; 0x14]) 4.
Proof.
  apply (checksum_unique [128; 190; 0x50; 0x14] 0x5E).
  - cbn [length]. lia.
  - unfold is_u8. lia.
  - vm_compute. reflexivity.
Defined.

(** Changing any one byte of an accepted frame to another byte value makes
    [j1708_validate_checksum] reject it. *)
Theorem checksum_detects_byte_error (m : list Z) (i : nat) (old b : Z) :
  (2 <= length m <= 255)%nat ->
  j1708_validate_checksum (Some m) (Z.of_nat (length m)) = true ->
  m !! i = Some old -> is_u8 old -> is_u8 b -> b <> old ->
  j1708_validate_checksum (Some (<[i := b]> m)) (Z.of_nat (length m)) = false.
Proof.
  intros Hlen Hvalid Hi Hold Hb Hne.
  rewrite validate_sum in Hvalid by exact Hlen. apply Z.eqb_eq in Hvalid.
  rewrite <- (length_insert m i b) at 1.
  rewrite validate_sum by (rewrite length_insert; exact Hlen).
  rewrite (byte_sum_insert m i old b Hi). apply Z.eqb_neq.
  unfold u8, is_u8 in *. generalize dependent (byte_sum m). intros sum Hsum.
  Z.div_mod_to_equations. lia.
Qed.

(** The frame 128, 190, 0x50, 0x14, 0x5E with its third byte turned into
    0x51. *)
Lemma checksum_detects_byte_error_witness :
  j1708_validate_checksum (Some [128; 190; 0x51; 0x14; 0x5E]) 5 = false.
Proof.
  apply (checksum_detects_byte_error [128; 190; 0x50; 0x14; 0x5E] 2 0x50 0x51).
  - cbn [length]. lia.
  - vm_compute. reflexivity.
  - reflexivity.
  - unfold is_u8. lia.
  - unfold is_u8. lia.
  - discriminate.
Defined.

End J1708_checksum_more_props.
(** ** Framer: invariant, overflow, frames that fail the checksum *)

Module J1708_framer_more_props.
Import J1708 J1708_checksum_props J1708_framer_props.

Local Ltac framer_ok_split :=
  unfold framer_ok, J1708_MAX_MESSAGE_LENGTH in *;
  cbn [state buffer buffer_index];
  rewrite ?length_insert.

Lemma store_ok ctx byte ts :
  length (buffer ctx) = Z.to_nat J1708_MAX_MESSAGE_LENGTH ->
  0 <= buffer_index ctx < J1708_MAX_MESSAGE_LENGTH ->
  framer_ok
    {| state := J1708_RX_RECEIVING;
       buffer := <[Z.to_nat (buffer_index ctx) := byte]> (buffer ctx);
       buffer_index := u8 (buffer_index ctx + 1);
       last_byte_time_ms := ts;
       messages_received := messages_received ctx;
       checksum_errors := checksum_errors ctx;
       parse_errors := parse_errors ctx |}.
Proof.
  intros Hlen Hidx. framer_ok_split.
  rewrite u8_id by (unfold is_u8; lia).
  split; [exact Hlen |]. split; [lia |].
  split; [discriminate |]. split; [lia | discriminate].
Qed.

(** The context the gap check restarts from, with [errs] checksum errors. *)
Lemma gap_check_cases ctx ts :
  gap_check ctx ts = inr ctx \/
  (state ctx = J1708_RX_RECEIVING /\
   u32 (ts - last_byte_time_ms ctx) > J1708_INTER_BYTE_TIMEOUT_MS /\
   ((2 <= buffer_index ctx /\
     j1708_validate_checksum (Some (buffer ctx)) (buffer_index ctx) = true /\
     gap_check ctx ts = inl (completed ctx)) \/
    exists errs,
      (errs = checksum_errors ctx \/ errs = u32 (checksum_errors ctx + 1)) /\
      gap_check ctx ts
      = inr {| state := J1708_RX_IDLE; buffer := buffer ctx; buffer_index := 0;
               last_byte_time_ms := last_byte_time_ms ctx;
               messages_received := messages_received ctx;
               checksum_errors := errs; parse_errors := parse_errors ctx |})).
Proof.
  unfold gap_check.
  destruct (bool_decide (state ctx = J1708_RX_RECEIVING)) eqn:Hst;
    [| left; reflexivity].
  apply bool_decide_eq_true_1 in Hst.
  destruct (Z.gtb_spec (u32 (ts - last_byte_time_ms ctx))
                       J1708_INTER_BYTE_TIMEOUT_MS) as [Hgap | _];
    [| left; reflexivity].
  right. split; [exact Hst |]. split; [lia |]. cbv zeta.
  destruct (Z.geb_spec (buffer_index ctx) J1708_MIN_MESSAGE_LENGTH)
    as [Hlong | Hshort].
  - destruct (j1708_validate_checksum _ _) eqn:Hval.
    + left. unfold J1708_MIN_MESSAGE_LENGTH in Hlong.
      split; [lia |]. split; reflexivity.
    + right. eexists. split; [right; reflexivity | reflexivity].
  - right. eexists. split; [left; reflexivity | reflexivity].
Qed.

Lemma receive_from_idle ctx ctx1 byte ts :
  gap_check ctx ts = inr ctx1 -> state ctx1 = J1708_RX_IDLE ->
  j1708_receive_byte ctx byte ts = j1708_receive_byte ctx1 byte ts.
Proof.
  intros Hgap Hidle. unfold j1708_receive_byte. rewrite Hgap.
  unfold gap_check. rewrite Hidle.
  rewrite !bool_decide_eq_false_2 by discriminate. cbv beta iota.
  rewrite Hidle. reflexivity.
Qed.

Lemma receive_byte_plain ctx byte ts :
  gap_check ctx ts = inr ctx -> framer_ok ctx ->
  framer_ok (fst (j1708_receive_byte ctx byte ts)).
Proof.
  intros Hgap Hok. pose proof Hok as (Hlen & Hidx & _).
  unfold j1708_receive_byte. rewrite Hgap.
  destruct (bool_decide (state ctx = J1708_RX_COMPLETE)); [exact Hok |].
  destruct (Z.ltb_spec (buffer_index ctx) J1708_MAX_MESSAGE_LENGTH)
    as [Hroom | Hfull]; cbn [fst].
  - apply store_ok; [exact Hlen | lia].
  - framer_ok_split. split; [exact Hlen |]. split; [lia |].
    split; [reflexivity |]. split; discriminate.
Qed.

Lemma receive_byte_ok ctx byte ts :
  framer_ok ctx -> framer_ok (fst (j1708_receive_byte ctx byte ts)).
Proof.
  intros Hok. pose proof Hok as (Hlen & Hidx & _).
  destruct (gap_check_cases ctx ts)
    as [Hplain | (Hst & _ & [(Hlong & Hval & Hgap) | (errs & _ & Hgap)])].
  - apply receive_byte_plain; assumption.
  - unfold j1708_receive_byte. rewrite Hgap. cbn [fst].
    unfold completed. framer_ok_split.
    split; [exact Hlen |]. split; [exact Hidx |].
    split; [discriminate |]. split; [discriminate |]. intros _. exact Hval.
  - rewrite (receive_from_idle _ _ byte ts Hgap eq_refl).
    apply receive_byte_plain.
    + unfold gap_check. cbn [state].
      rewrite bool_decide_eq_false_2 by discriminate. reflexivity.
    + framer_ok_split. split; [exact Hlen |]. split; [lia |].
      split; [reflexivity |]. split; discriminate.
Qed.

Lemma get_message_ok ctx msg :
  framer_ok ctx -> framer_ok (fst (fst (j1708_get_message ctx msg))).
Proof.
  intros Hok. pose proof Hok as (Hlen & Hidx & _).
  unfold j1708_get_message.
  destruct (negb _); [exact Hok |].
  destruct (j1708_parse_message _ _ _) as [result msg']. cbn [fst].
  framer_ok_split. split; [exact Hlen |]. split; [lia |].
  split; [reflexivity |]. split; discriminate.
Qed.

Lemma init_ok : framer_ok j1708_parser_init.
Proof.
  framer_ok_split. unfold j1708_parser_init. cbn [state buffer buffer_index].
  rewrite length_replicate. split; [reflexivity |]. split; [lia |].
  split; [reflexivity |]. split; discriminate.
Qed.

Lemma framer_run_ok calls : forall ctx,
  framer_ok ctx -> framer_ok (framer_run ctx calls).
Proof.
  induction calls as [| c calls IH]; intros ctx Hok; [exact Hok |].
  unfold framer_run. cbn [fold_left]. apply IH.
  destruct c as [byte ts | msg]; cbn [framer_apply].
  - apply receive_byte_ok. exact Hok.
  - apply get_message_ok. exact Hok.
Qed.

(** Whatever bytes are received and whatever reads are made after
    [j1708_parser_init], the write index stays within the 21-byte buffer,
    an idle framer is empty, and a framer in the complete state holds a
    frame that passes the checksum. So [j1708_get_message] returns true
    exactly when the framer is in the complete state, and it always
    leaves the framer idle and empty then. *)
Theorem framer_invariant calls msg :
  framer_ok (framer_run j1708_parser_init calls) /\
  (snd (fst (j1708_get_message (framer_run j1708_parser_init calls) msg)) = true
   <-> state (framer_run j1708_parser_init calls) = J1708_RX_COMPLETE).
Proof.
  pose proof (framer_run_ok calls j1708_parser_init init_ok) as Hok.
  split; [exact Hok |].
  set (ctx := framer_run j1708_parser_init calls) in *.
  destruct Hok as (Hlen & Hidx & _ & _ & Hcomp).
  unfold j1708_get_message.
  destruct (decide (state ctx = J1708_RX_COMPLETE)) as [Hst | Hst].
  - rewrite bool_decide_eq_true_2 by exact Hst. cbn [negb].
    specialize (Hcomp Hst).
    destruct (j1708_parse_message _ _ _) as [result msg'] eqn:Hparse.
    cbn [fst snd]. split; [intros _; exact Hst |]. intros _.
    unfold j1708_parse_message in Hparse.
    assert (Hlong : (buffer_index ctx <? J1708_MIN_MESSAGE_LENGTH) = false).
    { unfold j1708_validate_checksum in Hcomp.
      destruct (buffer_index ctx <? 2) eqn:Hlt; [discriminate |]. exact Hlt. }
    rewrite Hlong, Hcomp in Hparse. cbn [negb] in Hparse. congruence.
  - rewrite bool_decide_eq_false_2 by exact Hst. cbn [negb fst snd].
    split; [discriminate | contradiction].
Qed.

(** A 22nd byte without a gap does not fit: the framer throws the 21
    buffered bytes and the new byte away, goes back to idle and counts a
    parse error. A frame longer than 21 bytes is therefore never
    delivered, whatever its checksum. *)
Theorem framer_overflow_resets ctx (input : list (Z * Z)) byte ts :
  state ctx = J1708_RX_IDLE ->
  length (buffer ctx) = Z.to_nat J1708_MAX_MESSAGE_LENGTH ->
  buffer_index ctx = 0 ->
  length input = 21%nat -> steady input ->
  u32 (ts - last_time 0 input) <= J1708_INTER_BYTE_TIMEOUT_MS ->
  exists ctx',
    j1708_feed ctx input = (ctx', []) /\
    holds ctx' (input.*1) /\
    j1708_receive_byte ctx' byte ts
    = ({| state := J1708_RX_IDLE; buffer := buffer ctx'; buffer_index := 0;
          last_byte_time_ms := last_byte_time_ms ctx';
          messages_received := messages_received ctx';
          checksum_errors := checksum_errors ctx';
          parse_errors := u32 (parse_errors ctx' + 1) |}, false).
Proof.
  intros Hst Hlen Hidx Hn Hsteady Hnear.
  destruct (feed_quiet input ctx []) as (ctx' & Hfeed & Hholds & _ & Hlast).
  - split; [exact Hlen |]. split; [exact Hidx | reflexivity].
  - cbn [length]. lia.
  - destruct input as [| [b t] rest]; [exact I |].
    split; [left; exact Hst | exact Hsteady].
  - destruct Hlast as [Hst' Htime]; [intros ->; discriminate |].
    exists ctx'. split; [exact Hfeed |]. split; [exact Hholds |].
    destruct Hholds as (Hlen' & Hidx' & _).
    rewrite app_nil_l, length_fmap, Hn in Hidx'.
    unfold j1708_receive_byte.
    rewrite gap_check_continues by (right; split; [exact Hst' | rewrite Htime; exact Hnear]).
    rewrite Hst', bool_decide_eq_false_2 by discriminate.
    rewrite Hidx'. reflexivity.
Qed.

(** Twenty-one bytes 1 ms apart, then a 22nd one 1 ms later. *)
Lemma framer_overflow_resets_witness :
  exists ctx',
    j1708_feed j1708_parser_init ((fun k => (Z.of_nat k, Z.of_nat k)) <$> seq 0 21)
    = (ctx', []) /\
    holds ctx' (((fun k => (Z.of_nat k, Z.of_nat k)) <$> seq 0 21).*1) /\
    j1708_receive_byte ctx' 0x55 21
    = ({| state := J1708_RX_IDLE; buffer := buffer ctx'; buffer_index := 0;
          last_byte_time_ms := last_byte_time_ms ctx';
          messages_received := messages_received ctx';
          checksum_errors := checksum_errors ctx';
          parse_errors := u32 (parse_errors ctx' + 1) |}, false).
Proof.
  apply framer_overflow_resets.
  - reflexivity.
  - reflexivity.
  - reflexivity.
  - reflexivity.
  - vm_compute. repeat split; discriminate.
  - vm_compute. discriminate.
Defined.

(** The step of [j1708_receive_byte] on a byte that follows a gap, when
    the buffered bytes are no frame. *)
Lemma gap_after_bad_bytes ctx (m : list Z) byte ts :
  state ctx = J1708_RX_RECEIVING -> holds ctx m ->
  (1 <= length m <= 21)%nat ->
  j1708_validate_checksum (Some m) (Z.of_nat (length m)) = false ->
  u32 (ts - last_byte_time_ms ctx) > J1708_INTER_BYTE_TIMEOUT_MS ->
  j1708_receive_byte ctx byte ts
  = ({| state := J1708_RX_RECEIVING;
        buffer := <[0%nat := byte]> (buffer ctx);
        buffer_index := 1;
        last_byte_time_ms := ts;
        messages_received := messages_received ctx;
        checksum_errors := if (2 <=? length m)%nat
                           then u32 (checksum_errors ctx + 1)
                           else checksum_errors ctx;
        parse_errors := parse_errors ctx |}, false).
Proof.
  intros Hst (Hlen & Hidx & Htake) Hm Hbad Hgap.
  rewrite <- (validate_local (buffer ctx) m Htake) in Hbad by lia.
  unfold j1708_receive_byte, gap_check.
  rewrite Hst, bool_decide_eq_true_2 by reflexivity.
  destruct (Z.gtb_spec (u32 (ts - last_byte_time_ms ctx))
                       J1708_INTER_BYTE_TIMEOUT_MS) as [_ | Hno]; [| lia].
  cbv zeta. rewrite Hidx, Hbad.
  destruct (Nat.leb_spec 2 (length m)) as [Hlong | Hshort].
  - destruct (Z.geb_spec (Z.of_nat (length m)) J1708_MIN_MESSAGE_LENGTH)
      as [_ | Hlt]; [| unfold J1708_MIN_MESSAGE_LENGTH in Hlt; lia].
    cbn [state]. rewrite bool_decide_eq_false_2 by discriminate.
    reflexivity.
  - destruct (Z.geb_spec (Z.of_nat (length m)) J1708_MIN_MESSAGE_LENGTH)
      as [Hge | _]; [unfold J1708_MIN_MESSAGE_LENGTH in Hge; lia |].
    cbn [state]. rewrite bool_decide_eq_false_2 by discriminate.
    reflexivity.
Qed.

(** A gap after bytes that are no frame (a single byte, or bytes that fail
    the checksum): the buffered bytes are dropped, a checksum error is
    counted when there were at least two of them, and the byte that
    follows the gap is taken as the first byte of the next frame. *)
Theorem framer_gap_discards_bad_frame ctx (m : list Z) byte ts :
  state ctx = J1708_RX_RECEIVING -> holds ctx m ->
  (1 <= length m <= 21)%nat ->
  j1708_validate_checksum (Some m) (Z.of_nat (length m)) = false ->
  u32 (ts - last_byte_time_ms ctx) > J1708_INTER_BYTE_TIMEOUT_MS ->
  j1708_receive_byte ctx byte ts
  = ({| state := J1708_RX_RECEIVING;
        buffer := <[0%nat := byte]> (buffer ctx);
        buffer_index := 1;
        last_byte_time_ms := ts;
        messages_received := messages_received ctx;
        checksum_errors := if (2 <=? length m)%nat
                           then u32 (checksum_errors ctx + 1)
                           else checksum_errors ctx;
        parse_errors := parse_errors ctx |}, false).
Proof.
  exact (gap_after_bad_bytes ctx m byte ts).
Qed.

(** The bytes 128, 190, 0x50 (no checksum byte), then 130 after 20 ms. *)
Lemma framer_gap_discards_bad_frame_witness :
  j1708_receive_byte
    (fst (j1708_feed j1708_parser_init [(128, 0); (190, 1); (0x50, 2)])) 130 22
  = ({| state := J1708_RX_RECEIVING;
        buffer := <[0%nat := 130]>
                    (buffer (fst (j1708_feed j1708_parser_init
                                    [(128, 0); (190, 1); (0x50, 2)])));
        buffer_index := 1;
        last_byte_time_ms := 22;
        messages_received := 0;
        checksum_errors := 1;
        parse_errors := 0 |}, false).
Proof.
  apply (framer_gap_discards_bad_frame
           (fst (j1708_feed j1708_parser_init [(128, 0); (190, 1); (0x50, 2)]))
           [128; 190; 0x50] 130 22).
  - reflexivity.
  - repeat split; reflexivity.
  - cbn [length]. lia.
  - vm_compute. reflexivity.
  - vm_compute. reflexivity.
Defined.

End J1708_framer_more_props.
(** ** The receive loop of [j1708_task] *)

Module J1708_task_props.
Import J1708 J1708_checksum_props J1708_framer_props.
Import J1708_checksum_more_props J1708_framer_more_props.

(** While no message completes, the loop does what the resubmitting
    receiver does. *)
Lemma task_quiet input : forall ctx ctx',
  j1708_feed ctx input = (ctx', []) -> j1708_task ctx input = (ctx', []).
Proof.
  induction input as [| [byte ts] rest IH]; intros ctx ctx' Hfeed.
  - cbn [j1708_feed] in Hfeed. cbn [j1708_task]. congruence.
  - cbn [j1708_feed] in Hfeed. cbn [j1708_task]. unfold j1708_task_step.
    destruct (j1708_receive_byte ctx byte ts) as [ctx1 ready].
    destruct ready.
    + destruct (j1708_get_message ctx1 message_zero) as [[ctx2 result] msg].
      destruct (j1708_receive_byte ctx2 byte ts) as [ctx3 r3].
      destruct (j1708_feed ctx3 rest) as [ctx4 out]. discriminate.
    + rewrite (IH ctx1 ctx' Hfeed). reflexivity.
Qed.

Lemma task_app a : forall ctx b,
  j1708_task ctx (a ++ b)
  = (fst (j1708_task (fst (j1708_task ctx a)) b),
     snd (j1708_task ctx a) ++ snd (j1708_task (fst (j1708_task ctx a)) b)).
Proof.
  induction a as [| [byte ts] a IH]; intros ctx b.
  - cbn [app j1708_task fst snd]. destruct (j1708_task ctx b). reflexivity.
  - cbn [app j1708_task].
    destruct (j1708_task_step ctx byte ts) as [ctx1 out].
    rewrite IH. destruct (j1708_task ctx1 a) as [ctx2 outs]. cbn [fst snd].
    destruct (j1708_task ctx2 b) as [ctx3 outs']. cbn [fst snd].
    destruct out; reflexivity.
Qed.

(** Without its first byte, an accepted frame whose first byte is not 0 is
    no accepted frame. *)
Lemma tail_not_valid (b : Z) (rest : list Z) :
  (length rest <= 20)%nat -> b mod 2 ^ 8 <> 0 ->
  j1708_validate_checksum (Some (b :: rest)) (Z.of_nat (length (b :: rest)))
  = true ->
  j1708_validate_checksum (Some rest) (Z.of_nat (length rest)) = false.
Proof.
  intros Hlen Hb Hvalid.
  destruct (Nat.le_gt_cases 2 (length rest)) as [Hlong | Hshort].
  - rewrite validate_sum in Hvalid by (cbn [length]; lia).
    rewrite validate_sum by lia.
    change (byte_sum (b :: rest)) with (b + byte_sum rest) in Hvalid.
    apply Z.eqb_eq in Hvalid. apply Z.eqb_neq.
    unfold u8 in *. generalize dependent (byte_sum rest). intros sum Hsum.
    Z.div_mod_to_equations. lia.
  - unfold j1708_validate_checksum.
    destruct (Z.ltb_spec (Z.of_nat (length rest)) 2); [reflexivity | lia].
Qed.

(** The loop of [j1708_task] on two valid frames back to back, followed by
    one more byte after a gap. The first frame is handed on when the first
    byte of the second arrives; that byte is not handed to the framer
    again, so the framer collects the second frame without its first byte
    (the MID). Unless that byte is 0, what it collects fails the checksum
    and the second frame is never handed on. *)
Theorem j1708_task_loses_second_frame ctx (s1 : list (Z * Z)) b2 t2
  (rest2 : list (Z * Z)) b3 t3 :
  state ctx = J1708_RX_IDLE ->
  length (buffer ctx) = Z.to_nat J1708_MAX_MESSAGE_LENGTH ->
  buffer_index ctx = 0 ->
  valid_message (s1.*1) -> valid_message (b2 :: rest2.*1) ->
  b2 mod 2 ^ 8 <> 0 ->
  steady s1 -> contiguous t2 rest2 ->
  u32 (t2 - last_time 0 s1) > J1708_INTER_BYTE_TIMEOUT_MS ->
  u32 (t3 - last_time t2 rest2) > J1708_INTER_BYTE_TIMEOUT_MS ->
  snd (j1708_task ctx (s1 ++ ((b2, t2) :: rest2) ++ [(b3, t3)]))
  = [snd (decoded (s1.*1))] /\
  take (length rest2)
       (buffer (fst (j1708_task ctx (s1 ++ (b2, t2) :: rest2))))
  = rest2.*1 /\
  buffer_index (fst (j1708_task ctx (s1 ++ (b2, t2) :: rest2)))
  = Z.of_nat (length rest2).
Proof.
  intros Hst Hlen Hidx Hv1 Hv2 Hb2 Hsteady Hcont Hgap2 Hgap3.
  pose proof Hv1 as [Hlen1 _]. pose proof Hv2 as [Hlen2 Hsum2].
  rewrite length_fmap in Hlen1. cbn [length] in Hlen2.
  rewrite length_fmap in Hlen2.
  (* the first frame fills the buffer *)
  destruct (feed_quiet s1 ctx []) as (ctxA & HfeedA & HholdsA & _ & HlastA).
  { split; [exact Hlen |]. split; [exact Hidx | reflexivity]. }
  { cbn [length]. lia. }
  { destruct s1 as [| [b t] rest]; [exact I |].
    split; [left; exact Hst | exact Hsteady]. }
  destruct HlastA as [HstA HtimeA]; [intros ->; cbn [length] in Hlen1; lia |].
  rewrite app_nil_l in HholdsA.
  apply task_quiet in HfeedA.
  (* the first byte of the second frame completes it and is dropped *)
  assert (Hstep2 : j1708_task_step ctxA b2 t2
                   = (drained (completed ctxA), Some (snd (decoded (s1.*1))))).
  { unfold j1708_task_step.
    rewrite (receive_gap ctxA (s1.*1) b2 t2 HstA HholdsA Hv1)
      by (rewrite HtimeA; exact Hgap2).
    rewrite (get_message_complete (completed ctxA) (s1.*1)); [reflexivity | ..].
    - reflexivity.
    - exact HholdsA.
    - exact Hv1. }
  (* the rest of the second frame is collected from an empty buffer *)
  destruct (feed_quiet rest2 (drained (completed ctxA)) [])
    as (ctxB & HfeedB & HholdsB & _ & HlastB).
  { destruct HholdsA as (HlenA & _). split; [exact HlenA |].
    split; reflexivity. }
  { cbn [length]. lia. }
  { destruct rest2 as [| [b t] rest]; [exact I |].
    split; [left; reflexivity |]. destruct Hcont as [_ Hrest]. exact Hrest. }
  destruct HlastB as [HstB HtimeB]; [intros ->; cbn [length] in Hlen2; lia |].
  rewrite app_nil_l in HholdsB.
  apply task_quiet in HfeedB.
  assert (Htime : last_time 0 rest2 = last_time t2 rest2)
    by (destruct rest2 as [| [b t] rest]; [cbn [length] in Hlen2; lia | reflexivity]).
  (* the byte after the second gap finds no frame *)
  assert (Hbad : j1708_validate_checksum (Some (rest2.*1))
                   (Z.of_nat (length (rest2.*1))) = false).
  { apply (tail_not_valid b2); [rewrite length_fmap; lia | exact Hb2 | exact Hsum2]. }
  assert (Hstep3 : snd (j1708_task_step ctxB b3 t3) = None).
  { unfold j1708_task_step.
    assert (Hn : (1 <= length (rest2.*1) <= 21)%nat)
      by (rewrite length_fmap; lia).
    assert (Hgap : u32 (t3 - last_byte_time_ms ctxB) > J1708_INTER_BYTE_TIMEOUT_MS)
      by (rewrite HtimeB, Htime; exact Hgap3).
    rewrite (gap_after_bad_bytes ctxB (rest2.*1) b3 t3
               HstB HholdsB Hn Hbad Hgap).
    reflexivity. }
  assert (Hmid : j1708_task ctx (s1 ++ (b2, t2) :: rest2)
                 = (ctxB, [snd (decoded (s1.*1))])).
  { rewrite task_app, HfeedA. cbn [fst snd app j1708_task].
    rewrite Hstep2, HfeedB. reflexivity. }
  split; [| split].
  - rewrite app_assoc, task_app.
    change (s1 ++ ((b2, t2) :: rest2)) with (s1 ++ (b2, t2) :: rest2).
    rewrite Hmid. cbn [fst snd j1708_task].
    destruct (j1708_task_step ctxB b3 t3) as [ctxC out]. cbn [snd] in Hstep3.
    subst out. reflexivity.
  - rewrite Hmid. cbn [fst]. destruct HholdsB as (_ & _ & Htake).
    rewrite length_fmap in Htake. exact Htake.
  - rewrite Hmid. cbn [fst]. destruct HholdsB as (_ & Hidx' & _).
    rewrite length_fmap in Hidx'. exact Hidx'.
Qed.

(** The frames 128 190 0x50 0x14 0x5E and 128 110 212 62, 16 ms apart,
    then a byte 17 ms later: only the first frame is handed on. *)
Lemma j1708_task_loses_second_frame_witness :
  snd (j1708_task j1708_parser_init
         ([(128, 0); (190, 1); (0x50, 2); (0x14, 3); (0x5E, 4)]
          ++ ((128, 20) :: [(110, 21); (212, 22); (62, 23)]) ++ [(128, 40)]))
  = [snd (decoded ([(128, 0); (190, 1); (0x50, 2); (0x14, 3); (0x5E, 4)].*1))] /\
  take (length [(110, 21); (212, 22); (62, 23)])
       (buffer (fst (j1708_task j1708_parser_init
                       ([(128, 0); (190, 1); (0x50, 2); (0x14, 3); (0x5E, 4)]
                        ++ (128, 20) :: [(110, 21); (212, 22); (62, 23)]))))
  = [(110, 21); (212, 22); (62, 23)].*1 /\
  buffer_index (fst (j1708_task j1708_parser_init
                       ([(128, 0); (190, 1); (0x50, 2); (0x14, 3); (0x5E, 4)]
                        ++ (128, 20) :: [(110, 21); (212, 22); (62, 23)])))
  = Z.of_nat (length [(110, 21); (212, 22); (62, 23)]).
Proof.
  apply (j1708_task_loses_second_frame j1708_parser_init
           [(128, 0); (190, 1); (0x50, 2); (0x14, 3); (0x5E, 4)] 128 20
           [(110, 21); (212, 22); (62, 23)] 128 40).
  - reflexivity.
  - reflexivity.
  - reflexivity.
  - split; [cbn; lia | vm_compute; reflexivity].
  - split; [cbn; lia | vm_compute; reflexivity].
  - vm_compute. discriminate.
  - vm_compute. repeat split; discriminate.
  - vm_compute. repeat split; discriminate.
  - vm_compute. reflexivity.
  - vm_compute. reflexivity.
Defined.

End J1708_task_props.
(** ** Fault codes and parameters of a J1587 message *)

Module J1708_parse_props.
Import J1708 J1708_checksum_props J1708_checksum_more_props.

Lemma byte_pairs_short (l : list Z) : (length l < 2)%nat -> byte_pairs l = [].
Proof.
  intros H. destruct l as [| ? [| ? ?]]; try reflexivity. simpl in H. lia.
Qed.

Lemma byte_pairs_length (l : list Z) :
  Z.of_nat (length (byte_pairs l)) = Z.of_nat (length l) / 2.
Proof.
  induction l as [l IH] using (induction_ltof1 _ (@length Z)).
  unfold ltof in IH.
  destruct l as [| a [| b rest]]; [reflexivity | reflexivity |].
  cbn [byte_pairs length]. rewrite Nat2Z.inj_succ, IH by (cbn [length]; lia).
  rewrite !Nat2Z.inj_succ. Z.div_mod_to_equations. lia.
Qed.

Lemma byte_at_nat (l : list Z) (n : nat) x :
  l !! n = Some x -> byte_at l (Z.of_nat n) = x.
Proof.
  intros H. unfold byte_at. rewrite Nat2Z.id. apply nth_lookup_Some. exact H.
Qed.

(** Two bytes are available at [offset]: the pairs from there on start
    with them. *)
Lemma byte_pairs_step (data : list Z) (offset : Z) :
  0 <= offset -> offset + 2 <= Z.of_nat (length data) ->
  byte_pairs (drop (Z.to_nat offset) data)
  = (byte_at data offset, byte_at data (offset + 1))
    :: byte_pairs (drop (Z.to_nat (offset + 2)) data).
Proof.
  intros Hoff Hlen.
  assert (Hn : offset = Z.of_nat (Z.to_nat offset)) by lia.
  generalize dependent (Z.to_nat offset). intros n Hn. subst offset.
  destruct (lookup_lt_is_Some_2 data n) as [x0 H0]; [lia |].
  destruct (lookup_lt_is_Some_2 data (S n)) as [x1 H1]; [lia |].
  replace (Z.of_nat n + 1) with (Z.of_nat (S n)) by lia.
  rewrite (byte_at_nat _ _ _ H0), (byte_at_nat _ _ _ H1).
  rewrite (drop_S data x0 n H0), (drop_S data x1 (S n) H1).
  replace (Z.to_nat (Z.of_nat n + 2)) with (S (S n)) by lia. reflexivity.
Qed.

(** The loop from [offset] with [c] faults stored: it stores the pairs
    still ahead, up to the cap, behind the [c] entries already written. *)
Lemma fault_loop_spec fuel : forall m data len max_faults offset c faults,
  len = Z.of_nat (length data) -> len <= 255 ->
  0 <= offset <= len -> len - offset <= Z.of_nat fuel ->
  0 <= c <= max_faults -> max_faults <= 255 ->
  max_faults <= Z.of_nat (length faults) ->
  fault_loop fuel m data len max_faults offset c faults
  = (c + Z.of_nat (length (take (Z.to_nat (max_faults - c))
                                (byte_pairs (drop (Z.to_nat offset) data)))),
     take (Z.to_nat c) faults
     ++ ((fun p => fault_of m (fst p) (snd p))
           <$> take (Z.to_nat (max_faults - c))
                    (byte_pairs (drop (Z.to_nat offset) data)))
     ++ drop (Z.to_nat c
              + length (take (Z.to_nat (max_faults - c))
                             (byte_pairs (drop (Z.to_nat offset) data))))
             faults).
Proof.
  induction fuel as [| fuel IH];
    intros m data len max_faults offset c faults Hlen H255 Hoff Hfuel Hc Hmax Harr.
  - cbn [fault_loop].
    rewrite byte_pairs_short by (rewrite length_drop; lia).
    rewrite take_nil. cbn [length fmap list_fmap app].
    rewrite Nat.add_0_r, take_drop. f_equal. lia.
  - cbn [fault_loop].
    destruct (Z.leb_spec (offset + 2) len) as [Hroom | Hend]; cbn [andb].
    + destruct (Z.ltb_spec c max_faults) as [Hcap | Hfull].
      * rewrite (u8_id (offset + 2)), (u8_id (c + 1)) by (unfold is_u8; lia).
        rewrite IH; try assumption; try lia;
          [| rewrite length_insert; exact Harr].
        rewrite (byte_pairs_step data offset) by lia.
        replace (Z.to_nat (max_faults - c))
          with (S (Z.to_nat (max_faults - (c + 1)))) by lia.
        cbn [take length fmap list_fmap fst snd].
        set (rs := take (Z.to_nat (max_faults - (c + 1)))
                        (byte_pairs (drop (Z.to_nat (offset + 2)) data))).
        f_equal; [lia |].
        replace (Z.to_nat (c + 1)) with (S (Z.to_nat c)) by lia.
        rewrite (take_S_r _ _ (fault_of m (byte_at data offset)
                                          (byte_at data (offset + 1))))
          by (apply list_lookup_insert_eq; lia).
        rewrite take_insert_ge by lia.
        rewrite drop_insert_lt by lia.
        rewrite <- app_assoc. cbn [app].
        replace (Z.to_nat c + S (length rs))%nat
          with (S (Z.to_nat c) + length rs)%nat by lia.
        reflexivity.
      * replace (Z.to_nat (max_faults - c)) with 0%nat by lia.
        rewrite take_0. cbn [length fmap list_fmap app].
        rewrite Nat.add_0_r, take_drop. f_equal. lia.
    + rewrite byte_pairs_short by (rewrite length_drop; lia).
      rewrite take_nil. cbn [length fmap list_fmap app].
      rewrite Nat.add_0_r, take_drop. f_equal. lia.
Qed.

(** [j1708_parse_fault_codes] on a payload of 2 to 255 bytes turns the
    byte pairs of the payload, in order and up to [max_faults] of them,
    into the first entries of the caller's array: the count is
    min(len / 2, max_faults), a trailing odd byte is ignored, the entries
    behind stay as they were. In each entry bit 7 of the first byte is the
    SID flag and the low 7 bits the PID or SID (the whole byte when the
    flag is clear), the FMI is the low 4 bits of the second byte, the
    occurrence count is 1 and the fault is active. *)
Theorem parse_fault_codes_pairs m (data : list Z)
  (faults : list j1587_fault_code_t) max_faults :
  (2 <= length data <= 255)%nat -> 1 <= max_faults <= 255 ->
  max_faults <= Z.of_nat (length faults) ->
  j1708_parse_fault_codes m (Some data) (Z.of_nat (length data))
                          (Some faults) max_faults
  = (Z.min (Z.of_nat (length data) / 2) max_faults,
     Some (((fun p => fault_of m (fst p) (snd p))
              <$> take (Z.to_nat max_faults) (byte_pairs data))
           ++ drop (Z.to_nat (Z.min (Z.of_nat (length data) / 2) max_faults))
                   faults)) /\
  (forall id next, is_u8 id -> is_u8 next ->
     fc_is_sid (fault_of m id next) = (128 <=? id) /\
     fc_pid_or_sid (fault_of m id next) = id mod 2 ^ 7 /\
     fc_fmi (fault_of m id next) = next mod 2 ^ 4 /\
     fc_occurrence_count (fault_of m id next) = 1 /\
     fc_is_active (fault_of m id next) = true /\
     fc_mid (fault_of m id next) = m).
Proof.
  intros Hlen Hmax Harr. split.
  - unfold j1708_parse_fault_codes.
    destruct (Z.ltb_spec (Z.of_nat (length data)) 2) as [Hshort | _]; [lia |].
    destruct (Z.eqb_spec max_faults 0) as [Hzero | _]; [lia |]. cbn [orb].
    rewrite (fault_loop_spec (Z.to_nat (Z.of_nat (length data))) m data
               (Z.of_nat (length data)) max_faults 0 0 faults) by lia.
    change (Z.to_nat 0) with 0%nat. rewrite drop_0, take_0, Z.sub_0_r.
    cbn [app Nat.add].
    assert (Hn : Z.of_nat (length (take (Z.to_nat max_faults) (byte_pairs data)))
                 = Z.min (Z.of_nat (length data) / 2) max_faults).
    { rewrite length_take. pose proof (byte_pairs_length data). lia. }
    rewrite Z.add_0_l, Hn. f_equal. f_equal. f_equal. f_equal. lia.
  - intros id next Hid Hnext. unfold fault_of, is_u8 in *.
    cbn [fc_is_sid fc_pid_or_sid fc_fmi fc_occurrence_count fc_is_active fc_mid].
    change 0x7F with (2 ^ 7 - 1). change 0x0F with (2 ^ 4 - 1).
    rewrite !land_mask by lia.
    assert (Hbit : Z.land id 0x80 = if 128 <=? id then 128 else 0).
    { assert (Hsplit : id = Z.lor (Z.shiftl (id / 2 ^ 7) 7) (id mod 2 ^ 7)).
      { rewrite lor_shiftl_low by (try apply Z.mod_pos_bound; lia).
        Z.div_mod_to_equations. lia. }
      assert (Hland : Z.land id (Z.shiftl 1 7)
                      = Z.shiftl (Z.land (id / 2 ^ 7) 1) 7).
      { rewrite Hsplit at 1. rewrite Z.land_lor_distr_l, <- Z.shiftl_land.
        rewrite (Z.land_comm (id mod 2 ^ 7)),
          (land_shiftl_low 1 (id mod 2 ^ 7) 7)
          by (try apply Z.mod_pos_bound; lia).
        apply Z.lor_0_r. }
      change (Z.land id 0x80) with (Z.land id (Z.shiftl 1 7)). rewrite Hland.
      destruct (Z.leb_spec 128 id) as [Hhigh | Hlow].
      - replace (id / 2 ^ 7) with 1 by (Z.div_mod_to_equations; lia).
        reflexivity.
      - replace (id / 2 ^ 7) with 0 by (Z.div_mod_to_equations; lia).
        reflexivity. }
    rewrite Hbit.
    destruct (Z.leb_spec 128 id) as [Hhigh | Hlow]; cbn [Z.eqb negb].
    + rewrite !u8_id
        by (unfold is_u8; first [lia | Z.div_mod_to_equations; lia]).
      repeat split; reflexivity.
    + rewrite !u8_id
        by (unfold is_u8; first [lia | Z.div_mod_to_equations; lia]).
      repeat split; try reflexivity. rewrite Z.mod_small by lia. reflexivity.
Qed.

(** The payload 0x6E 0x03 0x81 0x25 0x40 from MID 128, room for four
    faults. *)
Lemma parse_fault_codes_pairs_witness :
  j1708_parse_fault_codes 128 (Some [0x6E; 0x03; 0x81; 0x25; 0x40]) 5
    (Some (replicate 4 (fault_of 0 0 0))) 4
  = (2, Some [fault_of 128 0x6E 0x03; fault_of 128 0x81 0x25;
              fault_of 0 0 0; fault_of 0 0 0]).
Proof.
  apply (parse_fault_codes_pairs 128 [0x6E; 0x03; 0x81; 0x25; 0x40]
           (replicate 4 (fault_of 0 0 0)) 4).
  - cbn [length]. lia.
  - lia.
  - cbn [length replicate]. lia.
Defined.

(** *** Parameters *)

Lemma get_pid_length_range pid : 0 <= j1708_get_pid_length pid <= 4.
Proof.
  unfold j1708_get_pid_length, pid_lengths. cbn [pid_lookup].
  repeat (destruct (_ =? pid); [lia |]).
  destruct ((192 <=? pid) && (pid <=? 254)); lia.
Qed.

Lemma byte_at_app (pre l : list Z) (i : Z) :
  0 <= i -> byte_at (pre ++ l) (Z.of_nat (length pre) + i) = byte_at l i.
Proof.
  intros Hi. unfold byte_at.
  replace (Z.to_nat (Z.of_nat (length pre) + i))
    with (length pre + Z.to_nat i)%nat by lia.
  rewrite app_nth2_plus. reflexivity.
Qed.

Lemma set_params_same msg :
  set_params msg (params msg) (param_count msg) = msg.
Proof. destruct msg. reflexivity. Qed.

Lemma set_params_twice msg ps c ps' c' :
  set_params (set_params msg ps c) ps' c' = set_params msg ps' c'.
Proof. reflexivity. Qed.

(** One pass of the loop over a well laid-out parameter. *)
Lemma parse_params_step fuel (pre rest : list Z) (p : Z * list Z)
  (entries : list j1587_parameter_t) (k : nat) data_end msg :
  param_fits p -> (length (snd p) <= 255)%nat ->
  Z.of_nat (length pre) + Z.of_nat (length (param_layout p)) <= data_end ->
  data_end <= 254 ->
  params msg = entries ++ replicate (S k) param_zero ->
  param_count msg = Z.of_nat (length entries) ->
  (length entries < 10)%nat ->
  parse_params (S fuel) (pre ++ param_layout p ++ rest) data_end
               (Z.of_nat (length pre)) msg
  = parse_params fuel (pre ++ param_layout p ++ rest) data_end
      (Z.of_nat (length pre) + Z.of_nat (length (param_layout p)))
      (set_params msg
         (entries ++ param_entry p :: replicate k param_zero)
         (Z.of_nat (length entries) + 1)).
Proof.
  intros Hfits Hd Hend H254 Hparams Hcount Hroom.
  destruct p as [pid0 d]. unfold param_fits in Hfits. cbn [fst snd] in *.
  assert (Hlay : (1 <= length (param_layout (pid0, d)))%nat)
    by (unfold param_layout; cbn [fst snd];
        destruct (_ =? 0); cbn [length]; lia).
  cbn [parse_params].
  destruct (Z.ltb_spec (Z.of_nat (length pre)) data_end) as [_ | Hno]; [| lia].
  rewrite Hcount.
  destruct (Z.ltb_spec (Z.of_nat (length entries)) J1708_MAX_PIDS) as [_ | Hno];
    [| unfold J1708_MAX_PIDS in Hno; lia].
  cbn [andb]. rewrite Nat2Z.id.
  assert (Hpid : byte_at (pre ++ param_layout (pid0, d) ++ rest)
                         (Z.of_nat (length pre)) = pid0).
  { rewrite <- (Z.add_0_r (Z.of_nat (length pre))), byte_at_app by lia.
    unfold param_layout. cbn [fst snd]. destruct (_ =? 0); reflexivity. }
  rewrite Hpid. cbv zeta.
  rewrite (u8_id (Z.of_nat (length pre) + 1)) by (unfold is_u8; lia).
  assert (Hslot : alter (set_pid pid0) (length entries) (params msg)
                  = entries ++ set_pid pid0 param_zero :: replicate k param_zero).
  { rewrite Hparams. rewrite alter_app_r_alt by lia.
    rewrite Nat.sub_diag. reflexivity. }
  rewrite Hslot. cbn [set_params params param_count].
  assert (Hslot2 : forall o n,
            alter (set_payload (pre ++ param_layout (pid0, d) ++ rest) o n)
                  (length entries)
                  (entries ++ set_pid pid0 param_zero :: replicate k param_zero)
            = entries
              ++ set_payload (pre ++ param_layout (pid0, d) ++ rest) o n
                             (set_pid pid0 param_zero)
              :: replicate k param_zero).
  { intros o n. rewrite alter_app_r_alt by lia.
    rewrite Nat.sub_diag. reflexivity. }
  assert (Hentry : forall o,
            drop (Z.to_nat o) (pre ++ param_layout (pid0, d) ++ rest)
            = d ++ rest ->
            set_payload (pre ++ param_layout (pid0, d) ++ rest) o
                        (Z.of_nat (length d)) (set_pid pid0 param_zero)
            = param_entry (pid0, d)).
  { intros o Hdrop. unfold set_payload, param_entry. cbn [fst snd].
    destruct ((0 <? Z.of_nat (length d)) && (Z.of_nat (length d) <=? 8)) eqn:Hcopy;
      [| reflexivity].
    cbn [set_pid pid param_data param_zero]. f_equal.
    unfold memcpy. rewrite Hdrop, Nat2Z.id.
    rewrite take_app_length. f_equal.
    apply andb_true_iff in Hcopy as [_ Hle]. apply Z.leb_le in Hle.
    rewrite drop_replicate. reflexivity. }
  unfold param_layout in *. cbn [fst snd] in *.
  destruct (Z.eqb_spec (j1708_get_pid_length pid0) 0) as [Hvar | Hfix].
  - cbn [length] in Hend.
    destruct (Z.geb_spec (Z.of_nat (length pre) + 1) data_end) as [Hno | _];
      [lia |].
    assert (Hn : byte_at (pre ++ (pid0 :: Z.of_nat (length d) :: d) ++ rest)
                         (Z.of_nat (length pre) + 1) = Z.of_nat (length d))
      by (rewrite byte_at_app by lia; reflexivity).
    rewrite Hn.
    rewrite (u8_id (Z.of_nat (length pre) + 1 + 1)) by (unfold is_u8; lia).
    destruct (Z.gtb_spec (Z.of_nat (length pre) + 1 + 1 + Z.of_nat (length d))
                         data_end) as [Hno | _]; [lia |].
    rewrite Hslot2, Hentry.
    + rewrite !u8_id by (unfold is_u8; lia).
      cbn [length]. f_equal. lia.
    + replace (Z.to_nat (Z.of_nat (length pre) + 1 + 1))
        with (length pre + 2)%nat by lia.
      rewrite drop_app_add'. reflexivity. reflexivity.
  - destruct Hfits as [Hzero | Hlen]; [contradiction |].
    cbn [length] in Hend. rewrite Hlen.
    destruct (Z.gtb_spec (Z.of_nat (length pre) + 1 + Z.of_nat (length d))
                         data_end) as [Hno | _]; [lia |].
    rewrite Hslot2, Hentry.
    + rewrite !u8_id by (unfold is_u8; lia).
      cbn [length]. f_equal. lia.
    + replace (Z.to_nat (Z.of_nat (length pre) + 1))
        with (length pre + 1)%nat by lia.
      rewrite drop_app_add'. reflexivity. reflexivity.
Qed.

Lemma param_layout_length p :
  param_fits p -> (2 <= length (param_layout p))%nat.
Proof.
  intros Hfits. unfold param_layout, param_fits in *.
  destruct (Z.eqb_spec (j1708_get_pid_length (fst p)) 0) as [Hvar | Hfix];
    cbn [length]; [lia |].
  destruct Hfits as [Hzero | Hlen]; [contradiction | lia].
Qed.

Lemma layouts_length (ps : list (Z * list Z)) :
  Forall param_fits ps ->
  (2 * length ps <= length (concat (param_layout <$> ps)))%nat.
Proof.
  induction 1 as [| p ps Hp _ IH]; [cbn; lia |].
  rewrite fmap_cons, concat_cons, length_app, length_cons.
  pose proof (param_layout_length p Hp). lia.
Qed.

(** The loop over well laid-out parameters, [entries] already stored. *)
Lemma parse_params_layout todo : forall fuel pre post entries k msg,
  (length todo <= fuel)%nat -> Forall param_fits todo ->
  Z.of_nat (length pre) + Z.of_nat (length (concat (param_layout <$> todo)))
  <= 254 ->
  params msg = entries ++ replicate (length todo + k) param_zero ->
  param_count msg = Z.of_nat (length entries) ->
  (length entries + length todo <= 10)%nat ->
  parse_params fuel (pre ++ concat (param_layout <$> todo) ++ post)
    (Z.of_nat (length pre) + Z.of_nat (length (concat (param_layout <$> todo))))
    (Z.of_nat (length pre)) msg
  = set_params msg
      (entries ++ (param_entry <$> todo) ++ replicate k param_zero)
      (Z.of_nat (length entries) + Z.of_nat (length todo)).
Proof.
  induction todo as [| p todo IH];
    intros fuel pre post entries k msg Hfuel Hfits Hend Hparams Hcount Hroom.
  - cbn [fmap list_fmap concat length app Nat.add] in *.
    rewrite !Z.add_0_r, <- Hparams, <- Hcount, set_params_same.
    destruct fuel as [| fuel]; [reflexivity |]. cbn [parse_params].
    destruct (Z.ltb_spec (Z.of_nat (length pre)) (Z.of_nat (length pre)));
      [lia | reflexivity].
  - destruct fuel as [| fuel]; [cbn [length] in Hfuel; lia |].
    apply Forall_cons in Hfits as [Hp Hfits].
    rewrite fmap_cons, concat_cons in *. rewrite length_app in *.
    cbn [length] in Hfuel, Hparams, Hroom.
    assert (Hd : (length (snd p) <= 255)%nat).
    { unfold param_layout in Hend. destruct (_ =? 0); cbn [length] in Hend; lia. }
    rewrite <- (app_assoc (param_layout p)).
    rewrite (parse_params_step fuel pre _ p entries (length todo + k));
      try assumption; try lia.
    rewrite (app_assoc pre).
    replace (Z.of_nat (length pre)
             + Z.of_nat (length (param_layout p)
                         + length (concat (param_layout <$> todo))))
      with (Z.of_nat (length (pre ++ param_layout p))
            + Z.of_nat (length (concat (param_layout <$> todo))))
      by (rewrite length_app; lia).
    replace (Z.of_nat (length pre) + Z.of_nat (length (param_layout p)))
      with (Z.of_nat (length (pre ++ param_layout p)))
      by (rewrite length_app; lia).
    rewrite (IH fuel (pre ++ param_layout p) post (entries ++ [param_entry p]) k).
    + rewrite set_params_twice, <- !app_assoc, length_app. cbn [app length].
      f_equal. lia.
    + lia.
    + exact Hfits.
    + rewrite length_app. lia.
    + cbn [set_params params]. rewrite <- app_assoc. reflexivity.
    + cbn [set_params param_count]. rewrite length_app. cbn [length]. lia.
    + rewrite length_app. cbn [length]. lia.
Qed.

Lemma message_bytes_valid m ps :
  (length (message_bytes m ps) <= 255)%nat ->
  j1708_validate_checksum (Some (message_bytes m ps))
                          (Z.of_nat (length (message_bytes m ps))) = true.
Proof.
  unfold message_bytes. rewrite length_app. cbn [length]. intros Hlen.
  assert (Hbody : (1 <= length (message_body m ps))%nat)
    by (unfold message_body; cbn [length]; lia).
  replace (Z.of_nat (length (message_body m ps) + 1))
    with (Z.of_nat (length (message_body m ps
                            ++ [j1708_calculate_checksum
                                  (Some (message_body m ps))
                                  (Z.of_nat (length (message_body m ps)))])))
    by (rewrite length_app; reflexivity).
  rewrite validate_sum by (rewrite length_app; cbn [length]; lia).
  rewrite calculate_sum by lia. rewrite byte_sum_app.
  apply Z.eqb_eq. unfold byte_sum at 2. cbn [foldr].
  unfold u8. generalize (byte_sum (message_body m ps)). intros sum.
  Z.div_mod_to_equations. lia.
Qed.

(** A message of at most 21 bytes laid out as MID, parameters, checksum
    is decoded into exactly its parameters: [j1708_parse_message] returns
    true, the MID is the first byte, the entries are the parameters in
    order (data of 1 to 8 bytes copied and marked valid), the entries
    behind stay zeroed, and the timestamp is left at 0. *)
Theorem parse_message_params m (ps : list (Z * list Z)) msg0 :
  Forall param_fits ps ->
  (length (message_bytes m ps) <= 21)%nat ->
  j1708_parse_message (Some (message_bytes m ps))
                      (Z.of_nat (length (message_bytes m ps))) msg0
  = (true,
     {| mid := m;
        raw_data := message_bytes m ps
                    ++ replicate (21 - length (message_bytes m ps)) 0;
        raw_length := Z.of_nat (length (message_bytes m ps));
        params := (param_entry <$> ps) ++ replicate (10 - length ps) param_zero;
        param_count := Z.of_nat (length ps);
        checksum_valid := true;
        timestamp_ms := 0 |}).
Proof.
  intros Hfits Hlen.
  pose proof (layouts_length ps Hfits) as Hps.
  assert (Hbytes : length (message_bytes m ps)
                   = (2 + length (concat (param_layout <$> ps)))%nat)
    by (unfold message_bytes, message_body; rewrite length_app;
        cbn [length]; lia).
  unfold j1708_parse_message.
  destruct (Z.ltb_spec (Z.of_nat (length (message_bytes m ps)))
                       J1708_MIN_MESSAGE_LENGTH) as [Hshort | _];
    [unfold J1708_MIN_MESSAGE_LENGTH in Hshort; lia |].
  rewrite message_bytes_valid by lia. cbn [negb]. cbv zeta.
  cbn [raw_data raw_length params param_count checksum_valid timestamp_ms
       message_zero].
  assert (Hmid : byte_at (message_bytes m ps) 0 = m) by reflexivity.
  rewrite Hmid.
  assert (Hend : u8 (Z.of_nat (length (message_bytes m ps)) - 1)
                 = Z.of_nat (length [m])
                   + Z.of_nat (length (concat (param_layout <$> ps)))).
  { rewrite u8_id by (unfold is_u8; lia). rewrite Hbytes. cbn [length]. lia. }
  rewrite Hend.
  f_equal.
  etransitivity.
  { apply (parse_params_layout ps _ [m]
             [j1708_calculate_checksum (Some (message_body m ps))
                (Z.of_nat (length (message_body m ps)))]
             [] (10 - length ps)).
    - lia.
    - exact Hfits.
    - cbn [length]. lia.
    - cbn [params app]. f_equal. unfold J1708_MAX_PIDS. lia.
    - reflexivity.
    - cbn [length]. lia. }
  cbn [set_params app length mid raw_data raw_length checksum_valid
       timestamp_ms]. rewrite Z.add_0_l.
  f_equal. unfold memcpy. rewrite Nat2Z.id.
  rewrite firstn_all, drop_replicate. reflexivity.
Qed.

(** The message MID 128, PID 190 (two bytes 0x50 0x14), PID 194 (variable,
    three bytes), PID 84 (one byte). *)
Lemma parse_message_params_witness :
  j1708_parse_message
    (Some (message_bytes 128 [(190, [0x50; 0x14]); (194, [1; 2; 3]); (84, [0x70])]))
    (Z.of_nat (length (message_bytes 128
                         [(190, [0x50; 0x14]); (194, [1; 2; 3]); (84, [0x70])])))
    message_zero
  = (true,
     {| mid := 128;
        raw_data := message_bytes 128
                      [(190, [0x50; 0x14]); (194, [1; 2; 3]); (84, [0x70])]
                    ++ replicate
                         (21 - length (message_bytes 128
                                         [(190, [0x50; 0x14]); (194, [1; 2; 3]);
                                          (84, [0x70])])) 0;
        raw_length := Z.of_nat (length (message_bytes 128
                                          [(190, [0x50; 0x14]); (194, [1; 2; 3]);
                                           (84, [0x70])]));
        params := (param_entry
                     <$> [(190, [0x50; 0x14]); (194, [1; 2; 3]); (84, [0x70])])
                  ++ replicate
                       (10 - length [(190, [0x50; 0x14]); (194, [1; 2; 3]);
                                     (84, [0x70])]) param_zero;
        param_count := Z.of_nat (length [(190, [0x50; 0x14]); (194, [1; 2; 3]);
                                         (84, [0x70])]);
        checksum_valid := true;
        timestamp_ms := 0 |}).
Proof.
  apply parse_message_params.
  - apply Forall_cons. split; [right; reflexivity |].
    apply Forall_cons. split; [left; reflexivity |].
    apply Forall_cons. split; [right; reflexivity | apply Forall_nil_2].
  - vm_compute. repeat constructor.
Defined.

(** The parameter loop touches only the parameter array and its count, and
    keeps the count within the array. *)
Lemma parse_params_bounds fuel : forall data data_end offset msg,
  0 <= param_count msg <= J1708_MAX_PIDS ->
  length (params msg) = Z.to_nat J1708_MAX_PIDS ->
  0 <= param_count (parse_params fuel data data_end offset msg)
  <= J1708_MAX_PIDS /\
  length (params (parse_params fuel data data_end offset msg))
  = Z.to_nat J1708_MAX_PIDS /\
  mid (parse_params fuel data data_end offset msg) = mid msg /\
  raw_data (parse_params fuel data data_end offset msg) = raw_data msg /\
  raw_length (parse_params fuel data data_end offset msg) = raw_length msg /\
  checksum_valid (parse_params fuel data data_end offset msg)
  = checksum_valid msg /\
  timestamp_ms (parse_params fuel data data_end offset msg) = timestamp_ms msg.
Proof.
  induction fuel as [| fuel IH]; intros data data_end offset msg Hcount Hlen;
    [repeat split; solve [assumption | apply Hcount] |].
  cbn [parse_params].
  destruct (offset <? data_end); cbn [andb];
    [| repeat split; solve [assumption | apply Hcount]].
  destruct (Z.ltb_spec (param_count msg) J1708_MAX_PIDS) as [Hroom | _];
    [| repeat split; solve [assumption | apply Hcount]].
  cbv zeta.
  assert (Hbreak :
            let msg1 := set_params msg
                          (alter (set_pid (byte_at data offset))
                                 (Z.to_nat (param_count msg)) (params msg))
                          (param_count msg) in
            0 <= param_count msg1 <= J1708_MAX_PIDS /\
            length (params msg1) = Z.to_nat J1708_MAX_PIDS /\
            mid msg1 = mid msg /\ raw_data msg1 = raw_data msg /\
            raw_length msg1 = raw_length msg /\
            checksum_valid msg1 = checksum_valid msg /\
            timestamp_ms msg1 = timestamp_ms msg).
  { cbn [set_params param_count params mid raw_data raw_length checksum_valid
         timestamp_ms]. rewrite length_alter. repeat split; solve [assumption | apply Hcount]. }
  cbv zeta in Hbreak.
  assert (Hnext : forall pid_len offset2,
            let msg2 := set_params
                          (set_params msg
                             (alter (set_pid (byte_at data offset))
                                    (Z.to_nat (param_count msg)) (params msg))
                             (param_count msg))
                          (alter (set_payload data offset2 pid_len)
                                 (Z.to_nat (param_count msg))
                                 (alter (set_pid (byte_at data offset))
                                        (Z.to_nat (param_count msg)) (params msg)))
                          (u8 (param_count msg + 1)) in
            0 <= param_count msg2 <= J1708_MAX_PIDS /\
            length (params msg2) = Z.to_nat J1708_MAX_PIDS).
  { intros pid_len offset2.
    cbn [set_params param_count params]. rewrite !length_alter.
    unfold J1708_MAX_PIDS in *. rewrite u8_id by (unfold is_u8; lia).
    split; [lia | exact Hlen]. }
  destruct (j1708_get_pid_length (byte_at data offset) =? 0).
  - destruct (u8 (offset + 1) >=? data_end); cbv beta iota; [exact Hbreak |].
    destruct (_ >? data_end); [exact Hbreak |].
    destruct (Hnext (byte_at data (u8 (offset + 1))) (u8 (u8 (offset + 1) + 1)))
      as [Hc Hl].
    destruct (IH data data_end
                (u8 (u8 (u8 (offset + 1) + 1) + byte_at data (u8 (offset + 1))))
                _ Hc Hl) as (H1 & H2 & H3 & H4 & H5 & H6 & H7).
    cbn [set_params mid raw_data raw_length checksum_valid timestamp_ms]
      in H3, H4, H5, H6, H7.
    repeat split; solve [assumption | apply H1].
  - cbv beta iota. destruct (_ >? data_end); [exact Hbreak |].
    destruct (Hnext (j1708_get_pid_length (byte_at data offset)) (u8 (offset + 1)))
      as [Hc Hl].
    destruct (IH data data_end
                (u8 (u8 (offset + 1) + j1708_get_pid_length (byte_at data offset)))
                _ Hc Hl) as (H1 & H2 & H3 & H4 & H5 & H6 & H7).
    cbn [set_params mid raw_data raw_length checksum_valid timestamp_ms]
      in H3, H4, H5, H6, H7.
    repeat split; solve [assumption | apply H1].
Qed.

(** On a buffer of [len] bytes, [len] at most the 21 bytes of
    [raw_data], whatever the bytes are: [j1708_parse_message] returns
    true exactly when the checksum test passes (which needs at least 2
    bytes); it then reports at most 10 parameters, all inside the
    parameter array, and the first byte as MID. On fewer than 2 bytes it
    leaves the caller's message untouched; on a failed checksum it leaves
    a zeroed message with the raw bytes. From 2 bytes on, [raw_data]
    holds the [len] bytes, and the timestamp is 0. *)
Theorem parse_message_bounds (d : list Z) len msg :
  len <= J1708_MAX_MESSAGE_LENGTH -> len <= Z.of_nat (length d) ->
  (fst (j1708_parse_message (Some d) len msg) = true
   <-> j1708_validate_checksum (Some d) len = true) /\
  (fst (j1708_parse_message (Some d) len msg) = true ->
   0 <= param_count (snd (j1708_parse_message (Some d) len msg))
   <= J1708_MAX_PIDS /\
   length (params (snd (j1708_parse_message (Some d) len msg)))
   = Z.to_nat J1708_MAX_PIDS /\
   mid (snd (j1708_parse_message (Some d) len msg)) = byte_at d 0 /\
   checksum_valid (snd (j1708_parse_message (Some d) len msg)) = true) /\
  (len < 2 -> snd (j1708_parse_message (Some d) len msg) = msg) /\
  (2 <= len -> fst (j1708_parse_message (Some d) len msg) = false ->
   param_count (snd (j1708_parse_message (Some d) len msg)) = 0 /\
   params (snd (j1708_parse_message (Some d) len msg))
   = replicate (Z.to_nat J1708_MAX_PIDS) param_zero /\
   mid (snd (j1708_parse_message (Some d) len msg)) = 0) /\
  (2 <= len ->
   timestamp_ms (snd (j1708_parse_message (Some d) len msg)) = 0 /\
   raw_length (snd (j1708_parse_message (Some d) len msg)) = len /\
   length (raw_data (snd (j1708_parse_message (Some d) len msg)))
   = Z.to_nat J1708_MAX_MESSAGE_LENGTH /\
   take (Z.to_nat len) (raw_data (snd (j1708_parse_message (Some d) len msg)))
   = take (Z.to_nat len) d).
Proof.
  intros Hfits Hbuf.
  assert (Hraw : 2 <= len ->
            length (memcpy (raw_data message_zero) d len)
            = Z.to_nat J1708_MAX_MESSAGE_LENGTH /\
            take (Z.to_nat len) (memcpy (raw_data message_zero) d len)
            = take (Z.to_nat len) d).
  { intros Hlen2. unfold memcpy. cbn [raw_data message_zero].
    unfold J1708_MAX_MESSAGE_LENGTH in *.
    assert (Hn : length (take (Z.to_nat len) d) = Z.to_nat len)
      by (rewrite length_take; lia).
    split.
    - rewrite length_app, Hn, length_drop, length_replicate. lia.
    - apply take_app_length'. symmetry. exact Hn. }
  unfold j1708_parse_message, J1708_MIN_MESSAGE_LENGTH.
  destruct (Z.ltb_spec len 2) as [Hshort | Hlong].
  - cbn [fst snd].
    assert (Hval : j1708_validate_checksum (Some d) len = false).
    { unfold j1708_validate_checksum.
      destruct (Z.ltb_spec len 2); [reflexivity | lia]. }
    rewrite Hval.
    split; [split; discriminate |]. split; [discriminate |].
    split; [reflexivity |]. split; intros; lia.
  - destruct (j1708_validate_checksum (Some d) len) eqn:Hval; cbn [negb fst snd].
    + match goal with
      | |- context [parse_params ?f ?dd ?e ?o ?m0] =>
          destruct (parse_params_bounds f dd e o m0)
            as (H1 & H2 & H3 & H4 & H5 & H6 & H7)
      end.
      { cbn [param_count]. unfold J1708_MAX_PIDS. lia. }
      { cbn [params message_zero]. apply length_replicate. }
      cbn [mid raw_data raw_length checksum_valid timestamp_ms]
        in H3, H4, H5, H6, H7.
      split; [split; reflexivity |].
      split; [intros _; repeat split; solve [assumption | apply H1] |].
      split; [intros; lia |]. split; [discriminate |].
      intros _. split; [exact H7 |]. split; [exact H5 |].
      destruct (Hraw Hlong) as [Hl Ht]. split.
      * etransitivity; [exact (f_equal length H4) | exact Hl].
      * etransitivity;
          [exact (f_equal (take (Z.to_nat len)) H4) | exact Ht].
    + split; [split; discriminate |]. split; [discriminate |].
      split; [intros; lia |].
      split; [intros _ _; repeat split; reflexivity |].
      intros _. split; [reflexivity |]. split; [reflexivity |].
      exact (Hraw Hlong).
Qed.

(** The two bytes 0x80 0x80: MID 128 and its checksum, no parameter. *)
Lemma parse_message_bounds_witness :
  fst (j1708_parse_message (Some [0x80; 0x80]) 2 message_zero) = true /\
  param_count (snd (j1708_parse_message (Some [0x80; 0x80]) 2 message_zero))
  = 0 /\
  mid (snd (j1708_parse_message (Some [0x80; 0x80]) 2 message_zero)) = 0x80.
Proof.
  destruct (parse_message_bounds [0x80; 0x80] 2 message_zero)
    as ([_ Htrue] & Hparsed & _).
  - unfold J1708_MAX_MESSAGE_LENGTH. lia.
  - simpl. lia.
  - split; [apply Htrue; reflexivity |]. split; [reflexivity |].
    apply Hparsed, Htrue. reflexivity.
Defined.

End J1708_parse_props.
(** ** Parameter store: lookups, freshness, callbacks, counters *)

Module DataManager_more_props.
Import DataManager.

Lemma update_other eps dm id v src ts id' :
  id' <> id ->
  parameter_at (fst (data_manager_update eps dm id v src ts)) id'
  = parameter_at dm id'.
Proof.
  intros Hne. unfold data_manager_update.
  destruct (negb (initialized dm)); [reflexivity |].
  destruct (out_of_range id); [reflexivity |].
  cbn [fst]. unfold parameter_at. cbn [parameters].
  rewrite lookup_insert_ne by congruence. reflexivity.
Qed.

Lemma update_record eps dm id v src ts :
  initialized dm = true -> out_of_range id = false ->
  parameter_at (fst (data_manager_update eps dm id v src ts)) id
  = {| value := v; prev_value := value (parameter_at dm id); timestamp_ms := ts;
       update_count := u32 (update_count (parameter_at dm id) + 1);
       source := src; is_valid := true |} /\
  initialized (fst (data_manager_update eps dm id v src ts)) = true /\
  total_updates (fst (data_manager_update eps dm id v src ts))
  = u32 (total_updates dm + 1) /\
  callbacks (fst (data_manager_update eps dm id v src ts)) = callbacks dm /\
  callback_count (fst (data_manager_update eps dm id v src ts))
  = callback_count dm.
Proof.
  intros Hinit Hrange. unfold data_manager_update.
  rewrite Hinit, Hrange. cbn [negb fst].
  unfold parameter_at at 1. cbn [parameters]. rewrite lookup_insert_eq.
  cbn [default from_option Datatypes.id initialized total_updates callbacks callback_count].
  repeat split; assumption.
Qed.

Lemma invalidate_record dm id :
  initialized dm = true -> out_of_range id = false ->
  parameter_at (data_manager_invalidate dm id) id
  = {| value := value (parameter_at dm id);
       prev_value := prev_value (parameter_at dm id);
       timestamp_ms := timestamp_ms (parameter_at dm id);
       update_count := update_count (parameter_at dm id);
       source := source (parameter_at dm id); is_valid := false |} /\
  initialized (data_manager_invalidate dm id) = true /\
  callbacks (data_manager_invalidate dm id) = callbacks dm /\
  callback_count (data_manager_invalidate dm id) = callback_count dm.
Proof.
  intros Hinit Hrange. unfold data_manager_invalidate.
  rewrite Hinit, Hrange. cbn [negb initialized callbacks callback_count].
  unfold parameter_at at 1. cbn [parameters]. rewrite lookup_insert_eq.
  repeat split; try reflexivity; exact Hinit.
Qed.

(** A value written for an identity inside the array is the value read
    back, with its timestamp, and it is fresh at that instant; what is
    read for any other identity inside the array (or refused by the
    guard) is as before. *)
Theorem update_then_get eps dm id v src ts max_age id' :
  initialized dm = true -> in_array id ->
  data_manager_get (fst (data_manager_update eps dm id v src ts)) id = Some v /\
  data_manager_get_with_timestamp
    (fst (data_manager_update eps dm id v src ts)) id = Some (v, ts) /\
  data_manager_get_age (fst (data_manager_update eps dm id v src ts)) id ts = 0 /\
  data_manager_is_fresh (fst (data_manager_update eps dm id v src ts)) id ts max_age
  = (0 <=? max_age) /\
  (id' <> id -> in_array id' \/ out_of_range id' = true ->
   data_manager_get (fst (data_manager_update eps dm id v src ts)) id'
   = data_manager_get dm id' /\
   data_manager_get_with_timestamp
     (fst (data_manager_update eps dm id v src ts)) id'
   = data_manager_get_with_timestamp dm id').
Proof.
  intros Hinit Hin. pose proof (DataManager_props.in_array_range id Hin) as Hrange.
  destruct (update_record eps dm id v src ts Hinit Hrange)
    as (Hrec & Hinit' & _).
  unfold data_manager_get, data_manager_get_with_timestamp,
    data_manager_get_age, data_manager_is_fresh.
  rewrite Hinit', Hrange, Hrec. cbn [negb is_valid value timestamp_ms].
  rewrite Z.sub_diag. change (u32 0) with 0.
  split; [reflexivity |]. split; [reflexivity |]. split; [reflexivity |].
  split; [reflexivity |].
  intros Hne _. rewrite Hinit, (update_other eps dm id v src ts id' Hne).
  split; reflexivity.
Qed.

(** Engine speed written at 1000 ms, coolant temperature left alone. *)
Lemma update_then_get_witness :
  data_manager_get
    (fst (data_manager_update (fun _ _ => true) data_manager_init
            PARAM_ENGINE_SPEED 1850%float SOURCE_J1939 1000))
    PARAM_ENGINE_SPEED
  = Some 1850%float.
Proof.
  destruct (update_then_get (fun _ _ => true) data_manager_init PARAM_ENGINE_SPEED
              1850%float SOURCE_J1939 1000 500 PARAM_COOLANT_TEMP)
    as (Hget & _).
  - reflexivity.
  - unfold in_array, PARAM_ENGINE_SPEED, DATA_MAX_PARAMETERS. lia.
  - exact Hget.
Defined.

(** [data_manager_is_fresh] says yes exactly when the parameter can be
    read and its age, as [data_manager_get_age] reports it, is at most
    the bound. The age is the 32-bit difference of the clock and the
    stamp, and 2^32 - 1 when there is nothing to read. *)
Lemma is_fresh_by_age dm id now max_age :
  (data_manager_is_fresh dm id now max_age = true
   <-> is_Some (data_manager_get dm id) /\
       data_manager_get_age dm id now <= max_age) /\
  (data_manager_get dm id = None ->
   data_manager_get_age dm id now = UINT32_MAX) /\
  0 <= data_manager_get_age dm id now <= UINT32_MAX.
Proof.
  unfold data_manager_is_fresh, data_manager_get, data_manager_get_age,
    UINT32_MAX.
  destruct (negb (initialized dm));
    [split; [split; [discriminate | intros [[x Hx] _]; discriminate] |];
     split; [reflexivity | lia] |].
  destruct (out_of_range id);
    [split; [split; [discriminate | intros [[x Hx] _]; discriminate] |];
     split; [reflexivity | lia] |].
  destruct (negb (is_valid (parameter_at dm id)));
    [split; [split; [discriminate | intros [[x Hx] _]; discriminate] |];
     split; [reflexivity | lia] |].
  pose proof (u32_range (now - timestamp_ms (parameter_at dm id))) as Hage.
  unfold is_u32 in Hage.
  split; [| split; [discriminate | lia]].
  rewrite Z.leb_le. split; [intros H; split; [eexists; reflexivity | exact H] |].
  intros [_ H]. exact H.
Qed.

(** Without a value change, an update of a valid parameter notifies
    nobody; after [data_manager_invalidate] the next update notifies
    every registered callback, whatever the value, and hands over the
    value the record held before it was invalidated. *)
Theorem invalidate_renotifies eps dm id v src ts :
  initialized dm = true -> in_array id ->
  (is_valid (parameter_at dm id) = true ->
   eps v (value (parameter_at dm id)) = false ->
   snd (data_manager_update eps dm id v src ts) = []) /\
  snd (data_manager_update eps (data_manager_invalidate dm id) id v src ts)
  = notify dm id v (value (parameter_at dm id)).
Proof.
  intros Hinit Hin. pose proof (DataManager_props.in_array_range id Hin) as Hrange. split.
  - intros Hvalid Hsame. unfold data_manager_update.
    rewrite Hinit, Hrange, Hvalid, Hsame. reflexivity.
  - destruct (invalidate_record dm id Hinit Hrange) as (Hrec & Hinit' & Hcb & Hcount).
    unfold data_manager_update. rewrite Hinit', Hrange, Hrec.
    cbn [negb is_valid value orb snd]. unfold notify. rewrite Hcb, Hcount.
    reflexivity.
Qed.

(** One callback registered, coolant temperature written twice with the
    same value, then invalidated and written once more. *)
Lemma invalidate_renotifies_witness :
  snd (data_manager_update (fun _ _ => false)
         (data_manager_invalidate
            (fst (data_manager_update (fun _ _ => false)
                    (fst (register_all data_manager_init [7%nat]))
                    PARAM_COOLANT_TEMP 85%float SOURCE_J1939 100))
            PARAM_COOLANT_TEMP)
         PARAM_COOLANT_TEMP 85%float SOURCE_J1939 200)
  = [{| note_callback := 7; note_param_id := PARAM_COOLANT_TEMP;
        note_value := 85%float; note_old_value := 85%float |}].
Proof.
  destruct (invalidate_renotifies (fun _ _ => false)
              (fst (data_manager_update (fun _ _ => false)
                      (fst (register_all data_manager_init [7%nat]))
                      PARAM_COOLANT_TEMP 85%float SOURCE_J1939 100))
              PARAM_COOLANT_TEMP 85%float SOURCE_J1939 200) as [_ Hnotify].
  - reflexivity.
  - unfold in_array, PARAM_COOLANT_TEMP, DATA_MAX_PARAMETERS. lia.
  - rewrite Hnotify. reflexivity.
Defined.

(** *** Callbacks *)

Lemma omap_some_notes (f : nat -> notification) (l : list nat) :
  omap (fun cb : option nat =>
          match cb with Some c => Some (f c) | None => None end)
       (Some <$> l)
  = f <$> l.
Proof.
  induction l as [| c l IH]; [reflexivity |].
  cbn [fmap list_fmap omap list_omap]. rewrite <- IH. reflexivity.
Qed.

(** Registrations on a store that holds the callbacks [done]. *)
Lemma register_all_spec cs : forall dm done,
  initialized dm = true ->
  callbacks dm = (Some <$> done) ++ replicate (8 - length done) None ->
  callback_count dm = Z.of_nat (length done) -> (length done <= 8)%nat ->
  callbacks (fst (register_all dm cs))
  = (Some <$> take 8 (done ++ cs))
    ++ replicate (8 - length (take 8 (done ++ cs))) None /\
  callback_count (fst (register_all dm cs))
  = Z.of_nat (length (take 8 (done ++ cs))) /\
  initialized (fst (register_all dm cs)) = true /\
  parameters (fst (register_all dm cs)) = parameters dm /\
  snd (register_all dm cs)
  = replicate (Nat.min (length cs) (8 - length done)) true
    ++ replicate (length cs - (8 - length done)) false.
Proof.
  induction cs as [| c cs IH]; intros dm done Hinit Hcb Hcount Hdone.
  - cbn [register_all fst snd length]. rewrite app_nil_r, take_ge by lia.
    repeat split; assumption.
  - cbn [register_all]. unfold data_manager_register_callback.
    rewrite Hinit, Hcount. cbn [negb].
    destruct (Z.geb_spec (Z.of_nat (length done)) DATA_MAX_CALLBACKS)
      as [Hfull | Hroom]; unfold DATA_MAX_CALLBACKS in *.
    + destruct (IH dm done Hinit Hcb Hcount Hdone) as (H1 & H2 & H3 & H4 & H5).
      destruct (register_all dm cs) as [dm2 rs]. cbn [fst snd] in *.
      assert (Htake : take 8 (done ++ c :: cs) = take 8 (done ++ cs))
        by (rewrite !take_app_le by lia; reflexivity).
      rewrite Htake. repeat split; try assumption.
      rewrite H5. cbn [length].
      replace (8 - length done)%nat with 0%nat by lia.
      rewrite !Nat.min_0_r, !Nat.sub_0_r. reflexivity.
    + set (dm1 := {| parameters := parameters dm;
                     callbacks := <[Z.to_nat (Z.of_nat (length done)) := Some c]>
                                    (callbacks dm);
                     callback_count := u8 (Z.of_nat (length done) + 1);
                     total_updates := total_updates dm;
                     initialized := true |}).
      destruct (IH dm1 (done ++ [c])) as (H1 & H2 & H3 & H4 & H5).
      * reflexivity.
      * subst dm1. cbn [callbacks]. rewrite Hcb, Nat2Z.id.
        rewrite insert_app_r_alt by (rewrite length_fmap; lia).
        rewrite length_fmap, Nat.sub_diag.
        replace (8 - length done)%nat with (S (8 - length (done ++ [c])))
          by (rewrite length_app; cbn [length]; lia).
        cbn [replicate insert list_insert].
        rewrite fmap_app, <- app_assoc. reflexivity.
      * subst dm1. cbn [callback_count]. rewrite u8_id by (unfold is_u8; lia).
        rewrite length_app. cbn [length]. lia.
      * rewrite length_app. cbn [length]. lia.
      * rewrite <- app_assoc in H1, H2. cbn [app] in H1, H2.
        destruct (register_all dm1 cs) as [dm2 rs]. cbn [fst snd] in *.
        repeat split; try assumption.
        rewrite H5, length_app. cbn [length].
        replace (Nat.min (S (length cs)) (8 - length done))
          with (S (Nat.min (length cs) (8 - (length done + 1)))) by lia.
        replace (S (length cs) - (8 - length done))%nat
          with (length cs - (8 - (length done + 1)))%nat by lia.
        reflexivity.
Qed.

(** Of the callbacks registered after [data_manager_init] the first eight
    are accepted and every later one is refused; the first update of a
    parameter then calls the accepted ones in the order of registration,
    with the new value and 0 as old value. *)
Theorem callbacks_in_order eps (cs : list nat) id v src ts :
  in_array id ->
  snd (register_all data_manager_init cs)
  = replicate (Nat.min (length cs) 8) true ++ replicate (length cs - 8) false /\
  snd (data_manager_update eps (fst (register_all data_manager_init cs))
         id v src ts)
  = (fun c => {| note_callback := c; note_param_id := id; note_value := v;
                 note_old_value := 0%float |}) <$> take 8 cs.
Proof.
  intros Hin. pose proof (DataManager_props.in_array_range id Hin) as Hrange.
  destruct (register_all_spec cs data_manager_init [])
    as (Hcb & Hcount & Hinit & Hparams & Hres); try reflexivity; [cbn; lia |].
  cbn [app length] in *. rewrite Nat.sub_0_r in Hres.
  split; [exact Hres |].
  unfold data_manager_update. rewrite Hinit, Hrange. cbn [negb snd].
  unfold parameter_at. rewrite Hparams. cbn [data_manager_init parameters].
  rewrite lookup_empty.
  cbn [default from_option Datatypes.id is_valid value parameter_zero negb orb].
  unfold notify. rewrite Hcb, Hcount, Nat2Z.id.
  rewrite take_app_length' by (rewrite length_fmap; reflexivity).
  apply omap_some_notes.
Qed.

(** Ten callbacks 0..9 registered after [data_manager_init]. *)
Lemma callbacks_in_order_witness :
  snd (register_all data_manager_init (seq 0 10))
  = replicate 8 true ++ replicate 2 false.
Proof.
  destruct (callbacks_in_order (fun _ _ => true) (seq 0 10) 6 420%float
              SOURCE_J1939 100) as [Hres _].
  - unfold in_array, DATA_MAX_PARAMETERS. lia.
  - exact Hres.
Defined.

(** *** Counters *)

Lemma u32_succ_add a n : u32 (u32 (a + 1) + n) = u32 (a + (1 + n)).
Proof. unfold u32. rewrite Z.add_mod_idemp_l by lia. f_equal. lia. Qed.

Lemma update_all_counts eps calls : forall dm,
  initialized dm = true ->
  initialized (update_all eps dm calls) = true /\
  u32 (total_updates (update_all eps dm calls))
  = u32 (total_updates dm
         + Z.of_nat (length (List.filter
                               (fun c => negb (out_of_range (call_param_id c)))
                               calls))) /\
  forall id, out_of_range id = false ->
    u32 (update_count (parameter_at (update_all eps dm calls) id))
    = u32 (update_count (parameter_at dm id)
           + Z.of_nat (length (List.filter
                                 (fun c => call_param_id c =? id) calls))).
Proof.
  induction calls as [| c calls IH]; intros dm Hinit.
  - cbn [update_all fold_left List.filter length]. rewrite !Z.add_0_r.
    split; [exact Hinit |]. split; [reflexivity |]. intros id _.
    rewrite Z.add_0_r. reflexivity.
  - unfold update_all. cbn [fold_left List.filter].
    fold (update_all eps
            (fst (data_manager_update eps dm (call_param_id c) (call_value c)
                    (call_source c) (call_timestamp_ms c))) calls).
    destruct (out_of_range (call_param_id c)) eqn:Hrange; cbn [negb].
    + assert (Hsame : fst (data_manager_update eps dm (call_param_id c)
                             (call_value c) (call_source c) (call_timestamp_ms c))
                      = dm)
        by (unfold data_manager_update; rewrite Hinit, Hrange; reflexivity).
      rewrite Hsame. destruct (IH dm Hinit) as (H1 & H2 & H3).
      split; [exact H1 |]. split; [exact H2 |]. intros id Hid.
      destruct (Z.eqb_spec (call_param_id c) id) as [Heq | _];
        [congruence | apply H3; exact Hid].
    + destruct (update_record eps dm (call_param_id c) (call_value c)
                  (call_source c) (call_timestamp_ms c) Hinit Hrange)
        as (Hrec & Hinit' & Htotal & _).
      destruct (IH _ Hinit') as (H1 & H2 & H3).
      split; [exact H1 |]. split.
      * rewrite H2, Htotal. cbn [length]. rewrite u32_succ_add.
        f_equal. lia.
      * intros id Hid. rewrite (H3 id Hid).
        destruct (Z.eqb_spec (call_param_id c) id) as [Heq | Hne].
        -- subst id. rewrite Hrec. cbn [update_count length].
           rewrite u32_succ_add. f_equal. lia.
        -- rewrite update_other by congruence. reflexivity.
Qed.

(** After any sequence of updates, [total_updates] has grown by the number
    of updates that passed the identity guard, and the [update_count] of a
    parameter by the number of updates made to it, both in 32 bits;
    updates refused by the guard (identity 0, or 256 and above) count
    nowhere. The updates that pass the guard are taken to address records
    inside the declared array. *)
Theorem update_counters eps (calls : list update_call) dm id :
  initialized dm = true -> is_u32 (total_updates dm) ->
  is_u32 (update_count (parameter_at dm id)) ->
  Forall (fun c => in_array (call_param_id c)
                   \/ out_of_range (call_param_id c) = true) calls ->
  in_array id ->
  total_updates (update_all eps dm calls)
  = u32 (total_updates dm
         + Z.of_nat (length (List.filter
                               (fun c => negb (out_of_range (call_param_id c)))
                               calls))) /\
  update_count (parameter_at (update_all eps dm calls) id)
  = u32 (update_count (parameter_at dm id)
         + Z.of_nat (length (List.filter
                               (fun c => call_param_id c =? id) calls))).
Proof.
  intros Hinit Htotal Hcount _ Hin.
  destruct (update_all_counts eps calls dm Hinit) as (_ & H2 & H3).
  specialize (H3 id (DataManager_props.in_array_range id Hin)).
  assert (Hkeep : forall calls' dm',
            is_u32 (total_updates dm') ->
            is_u32 (update_count (parameter_at dm' id)) ->
            is_u32 (total_updates (update_all eps dm' calls')) /\
            is_u32 (update_count (parameter_at (update_all eps dm' calls') id))).
  { induction calls' as [| c calls' IH']; intros dm' Ht Hc; [split; assumption |].
    unfold update_all. cbn [fold_left]. apply IH'.
    - unfold data_manager_update.
      destruct (negb (initialized dm')); [exact Ht |].
      destruct (out_of_range (call_param_id c)); [exact Ht |].
      cbn [fst total_updates]. apply u32_range.
    - destruct (decide (call_param_id c = id)) as [<- | Hne].
      + unfold data_manager_update.
        destruct (negb (initialized dm')); [exact Hc |].
        destruct (out_of_range (call_param_id c)); [exact Hc |].
        cbn [fst]. unfold parameter_at at 1. cbn [parameters].
        rewrite lookup_insert_eq. cbn [default from_option Datatypes.id update_count].
        apply u32_range.
      + rewrite update_other by congruence. exact Hc. }
  destruct (Hkeep calls dm Htotal Hcount) as [Ht Hc].
  rewrite <- H2, <- H3. rewrite !u32_id by assumption. split; reflexivity.
Qed.

(** Three updates after [data_manager_init]: two of engine speed, one with
    the identity 0 that the guard refuses. *)
Lemma update_counters_witness :
  total_updates
    (update_all (fun _ _ => true) data_manager_init
       [{| call_param_id := 1; call_value := 700%float;
           call_source := SOURCE_J1939; call_timestamp_ms := 10 |};
        {| call_param_id := 0; call_value := 1%float;
           call_source := SOURCE_J1939; call_timestamp_ms := 20 |};
        {| call_param_id := 1; call_value := 710%float;
           call_source := SOURCE_J1939; call_timestamp_ms := 30 |}])
  = 2.
Proof.
  destruct (update_counters (fun _ _ => true)
              [{| call_param_id := 1; call_value := 700%float;
                  call_source := SOURCE_J1939; call_timestamp_ms := 10 |};
               {| call_param_id := 0; call_value := 1%float;
                  call_source := SOURCE_J1939; call_timestamp_ms := 20 |};
               {| call_param_id := 1; call_value := 710%float;
                  call_source := SOURCE_J1939; call_timestamp_ms := 30 |}]
              data_manager_init 1) as [Htotal _].
  - reflexivity.
  - vm_compute. split; [discriminate | reflexivity].
  - vm_compute. split; [discriminate | reflexivity].
  - apply Forall_cons. split; [left; cbn; unfold in_array, DATA_MAX_PARAMETERS; lia |].
    apply Forall_cons. split; [right; reflexivity |].
    apply Forall_cons. split; [left; cbn; unfold in_array, DATA_MAX_PARAMETERS; lia |].
    apply Forall_nil_2.
  - unfold in_array, DATA_MAX_PARAMETERS. lia.
  - rewrite Htotal. reflexivity.
Defined.

End DataManager_more_props.
(** ** Watch list: invariant, add, remove, alert summary, pages *)

Module WatchList_more_props.
Import DataManager WatchList.

Lemma find_item_Some wlm id i :
  find_item wlm id = Some i <->
  exists it, counted wlm !! i = Some it /\ param_id it = id /\
             forall j y, counted wlm !! j = Some y -> (j < i)%nat ->
                         param_id y <> id.
Proof.
  unfold find_item, counted. rewrite fmap_Some. split.
  - intros ([k it] & Hfind & ->).
    apply list_find_Some in Hfind as (Hit & Hid & Hfirst).
    exists it. split; [exact Hit |]. split; [exact Hid | exact Hfirst].
  - intros (it & Hit & Hid & Hfirst). exists (i, it). split; [| reflexivity].
    apply list_find_Some. split; [exact Hit |]. split; [exact Hid | exact Hfirst].
Qed.

Lemma find_item_None wlm id :
  find_item wlm id = None <-> id ∉ (param_id <$> counted wlm).
Proof.
  unfold find_item, counted. rewrite fmap_None, list_find_None.
  rewrite list_elem_of_fmap, Forall_forall. split.
  - intros Hall (it & -> & Hin). exact (Hall it Hin eq_refl).
  - intros Hnot it Hin Hid. apply Hnot. exists it. split; [congruence | exact Hin].
Qed.

(** Rewriting entries by a function that keeps identity and page keeps
    the two projections of the list. *)
Lemma alter_keeps (f : watch_item_t -> watch_item_t) i (l : list watch_item_t) :
  (forall it, param_id (f it) = param_id it) ->
  (forall it, page (f it) = page it) ->
  param_id <$> alter f i l = param_id <$> l /\
  page <$> alter f i l = page <$> l.
Proof.
  intros Hid Hpg. split.
  - rewrite (list_fmap_alter param_id f Datatypes.id)
      by (apply Forall_forall; intros; apply Hid).
    apply list_alter_id. reflexivity.
  - rewrite (list_fmap_alter page f Datatypes.id)
      by (apply Forall_forall; intros; apply Hpg).
    apply list_alter_id. reflexivity.
Qed.

Lemma update_item_keeps dm it :
  param_id (update_item dm it) = param_id it /\
  page (update_item dm it) = page it.
Proof.
  unfold update_item. destruct (negb (enabled it)); [split; reflexivity |].
  destruct (data_manager_get dm (param_id it)); split; reflexivity.
Qed.

Lemma update_loop_keeps dm count fuel : forall i its,
  length (update_loop fuel dm count i its) = length its /\
  param_id <$> update_loop fuel dm count i its = param_id <$> its /\
  page <$> update_loop fuel dm count i its = page <$> its.
Proof.
  induction fuel as [| fuel IH]; intros i its; [repeat split; reflexivity |].
  cbn [update_loop]. destruct (i <? count); [| repeat split; reflexivity].
  destruct (IH (u8 (i + 1)) (alter (update_item dm) (Z.to_nat i) its))
    as (Hlen & Hid & Hpg).
  destruct (alter_keeps (update_item dm) (Z.to_nat i) its) as [Hid' Hpg'];
    [intros; apply update_item_keeps | intros; apply update_item_keeps |].
  rewrite Hlen, Hid, Hpg, Hid', Hpg', length_alter. repeat split; reflexivity.
Qed.

(** An invariant that only looks at the array length, the count, the page
    and the two projections. *)
Lemma ok_by_projections wlm wlm' :
  watch_list_ok wlm ->
  length (items wlm') = length (items wlm) ->
  item_count wlm' = item_count wlm ->
  current_page wlm' = current_page wlm ->
  param_id <$> items wlm' = param_id <$> items wlm ->
  page <$> items wlm' = page <$> items wlm ->
  watch_list_ok wlm'.
Proof.
  intros (Hlen & Hcount & Hpage & Hnodup & Hpages) Hl Hc Hp Hids Hpgs.
  unfold watch_list_ok, counted in *.
  rewrite !fmap_take in *. rewrite Hl, Hc, Hp, Hids, Hpgs.
  split; [exact Hlen |]. split; [exact Hcount |]. split; [exact Hpage |].
  split; assumption.
Qed.

(** *** Adding *)

(** What [watch_list_add] does on a well-formed list: it refuses, or it
    appends the new entry behind the counted ones. *)
Lemma add_cases wlm id w pg pos :
  watch_list_ok wlm ->
  (watch_list_add wlm id w pg pos = (wlm, -1) /\
   (wl_initialized wlm = false \/ item_count wlm = WATCH_LIST_MAX_ITEMS \/
    WATCH_LIST_MAX_PAGES <= pg \/ id ∈ (param_id <$> counted wlm))) \/
  (wl_initialized wlm = true /\ item_count wlm < WATCH_LIST_MAX_ITEMS /\
   pg < WATCH_LIST_MAX_PAGES /\ (id ∉ (param_id <$> counted wlm)) /\
   watch_list_add wlm id w pg pos
   = (set_items wlm
        (<[Z.to_nat (item_count wlm) := new_item id w pg pos]> (items wlm))
        (item_count wlm + 1),
      item_count wlm) /\
   counted (fst (watch_list_add wlm id w pg pos))
   = counted wlm ++ [new_item id w pg pos]).
Proof.
  intros (Hlen & Hcount & _). unfold watch_list_add.
  destruct (wl_initialized wlm) eqn:Hinit; cbn [negb];
    [| left; split; [reflexivity | left; reflexivity]].
  unfold WATCH_LIST_MAX_ITEMS, WATCH_LIST_MAX_PAGES in *.
  destruct (Z.geb_spec (item_count wlm) 16) as [Hfull | Hroom];
    [left; split; [reflexivity | right; left; lia] |].
  destruct (Z.geb_spec pg 4) as [Hpg | Hpg];
    [left; split; [reflexivity | right; right; left; lia] |].
  destruct (find_item wlm id) as [i |] eqn:Hfind.
  - left. split; [reflexivity |]. right. right. right.
    apply find_item_Some in Hfind as (it & Hit & Hid & _).
    apply list_elem_of_fmap. exists it. split; [congruence |].
    eapply list_elem_of_lookup_2. exact Hit.
  - right. apply find_item_None in Hfind.
    rewrite u8_id by (unfold is_u8; lia).
    split; [reflexivity |]. split; [lia |]. split; [lia |].
    split; [exact Hfind |]. split; [reflexivity |].
    cbn [fst]. unfold counted. cbn [set_items items item_count].
    replace (Z.to_nat (item_count wlm + 1)) with (S (Z.to_nat (item_count wlm)))
      by lia.
    rewrite (take_S_r _ _ (new_item id w pg pos))
      by (apply list_lookup_insert_eq; lia).
    rewrite take_insert_ge by lia. reflexivity.
Qed.

Lemma wl_add_ok wlm id w pg pos :
  watch_list_ok wlm -> watch_list_ok (fst (watch_list_add wlm id w pg pos)).
Proof.
  intros Hok.
  destruct (add_cases wlm id w pg pos Hok)
    as [[-> _] | (_ & Hroom & Hpg & Hnew & Hadd & Hcounted)]; [exact Hok |].
  destruct Hok as (Hlen & Hcount & Hpage & Hnodup & Hpages).
  unfold watch_list_ok. rewrite Hcounted. rewrite Hadd. cbn [fst].
  cbn [set_items items item_count current_page]. rewrite length_insert.
  split; [exact Hlen |]. split; [lia |]. split; [exact Hpage |].
  rewrite !fmap_app. cbn [fmap list_fmap new_item param_id page]. split.
  - apply NoDup_app. split; [exact Hnodup |].
    split; [| apply NoDup_singleton].
    intros x Hx Hin. apply list_elem_of_singleton in Hin. subst x.
    exact (Hnew Hx).
  - apply Forall_app. split; [exact Hpages |].
    apply Forall_singleton. exact Hpg.
Qed.

(** *** Removing *)

Lemma shift_loop_spec fuel : forall count j (its : list watch_item_t),
  0 <= j <= count - 1 -> count <= 255 -> count <= Z.of_nat (length its) ->
  count - 1 - j <= Z.of_nat fuel ->
  shift_loop fuel count j its
  = take (Z.to_nat j) its
    ++ take (Z.to_nat (count - 1 - j)) (drop (Z.to_nat (j + 1)) its)
    ++ drop (Z.to_nat (count - 1)) its.
Proof.
  assert (Hstop : forall count j (its : list watch_item_t),
            0 <= j -> j = count - 1 ->
            its = take (Z.to_nat j) its
                  ++ take (Z.to_nat (count - 1 - j)) (drop (Z.to_nat (j + 1)) its)
                  ++ drop (Z.to_nat (count - 1)) its).
  { intros count j its Hj ->. rewrite Z.sub_diag. change (Z.to_nat 0) with 0%nat.
    rewrite take_0. cbn [app]. rewrite take_drop. reflexivity. }
  induction fuel as [| fuel IH]; intros count j its Hj H255 Hlen Hfuel.
  - cbn [shift_loop]. apply Hstop; lia.
  - cbn [shift_loop].
    destruct (Z.ltb_spec j (count - 1)) as [Hmore | Hlast];
      [| apply Hstop; lia].
    destruct (lookup_lt_is_Some_2 its (Z.to_nat (j + 1))) as [next Hnext];
      [lia |].
    rewrite Hnext, (u8_id (j + 1)) by (unfold is_u8; lia).
    rewrite IH by (rewrite ?length_insert; lia).
    replace (Z.to_nat (j + 1)) with (S (Z.to_nat j)) in * by lia.
    rewrite (take_S_r _ _ next) by (apply list_lookup_insert_eq; lia).
    rewrite take_insert_ge by lia.
    rewrite !drop_insert_lt by lia.
    rewrite (drop_S its next _ Hnext).
    replace (Z.to_nat (count - 1 - j)) with (S (Z.to_nat (count - 1 - (j + 1))))
      by lia.
    replace (Z.to_nat (j + 1 + 1)) with (S (S (Z.to_nat j))) by lia.
    cbn [take]. rewrite <- app_assoc. reflexivity.
Qed.

(** What [watch_list_remove] does on a well-formed list. *)
Lemma remove_cases wlm id :
  watch_list_ok wlm ->
  (watch_list_remove wlm id = (wlm, false) /\
   (wl_initialized wlm = false \/ id ∉ (param_id <$> counted wlm))) \/
  (exists i,
     wl_initialized wlm = true /\ find_item wlm id = Some i /\
     snd (watch_list_remove wlm id) = true /\
     item_count (fst (watch_list_remove wlm id)) = item_count wlm - 1 /\
     length (items (fst (watch_list_remove wlm id))) = length (items wlm) /\
     current_page (fst (watch_list_remove wlm id)) = current_page wlm /\
     wl_initialized (fst (watch_list_remove wlm id)) = true /\
     counted (fst (watch_list_remove wlm id)) = delete i (counted wlm)).
Proof.
  intros (Hlen & Hcount & _). unfold watch_list_remove.
  destruct (wl_initialized wlm) eqn:Hinit; cbn [negb];
    [| left; split; [reflexivity | left; reflexivity]].
  destruct (find_item wlm id) as [i |] eqn:Hfind.
  - right. exists i. pose proof Hfind as Hfound.
    apply find_item_Some in Hfound as (it & Hit & _).
    apply lookup_lt_Some in Hit. unfold counted in Hit.
    rewrite length_take in Hit.
    unfold WATCH_LIST_MAX_ITEMS in *.
    cbn [fst snd set_items items item_count current_page wl_initialized].
    rewrite u8_id by (unfold is_u8; lia).
    rewrite shift_loop_spec by lia.
    split; [reflexivity |]. split; [reflexivity |]. split; [reflexivity |].
    split; [reflexivity |]. split.
    { rewrite !length_app, !length_take, !length_drop. lia. }
    split; [reflexivity |]. split; [exact Hinit |].
    unfold counted, set_items. cbn [items item_count].
    rewrite Nat2Z.id.
    rewrite app_assoc, take_app_length'
      by (rewrite length_app, !length_take, length_drop; lia).
    rewrite delete_take_drop, take_take, skipn_firstn_comm.
    replace (Nat.min i (Z.to_nat (item_count wlm))) with i by lia.
    f_equal. f_equal; [lia |]. f_equal. lia.
  - left. split; [reflexivity |]. right. apply find_item_None. exact Hfind.
Qed.

Lemma wl_remove_ok wlm id :
  watch_list_ok wlm -> watch_list_ok (fst (watch_list_remove wlm id)).
Proof.
  intros Hok.
  destruct (remove_cases wlm id Hok)
    as [[-> _] | (i & _ & Hfind & _ & Hcount' & Hlen' & Hpage' & _ & Hcounted)];
    [exact Hok |].
  apply find_item_Some in Hfind as (it & Hit & _).
  apply lookup_lt_Some in Hit.
  destruct Hok as (Hlen & Hcount & Hpage & Hnodup & Hpages).
  unfold watch_list_ok. rewrite Hcounted, Hcount', Hlen', Hpage'.
  unfold counted in Hit. rewrite length_take in Hit.
  split; [exact Hlen |]. split; [lia |]. split; [exact Hpage |].
  rewrite !list_fmap_delete. split.
  - eapply sublist_NoDup; [exact Hnodup | apply sublist_delete].
  - apply Forall_delete. exact Hpages.
Qed.

(** *** The other operations *)

Lemma alter_item_ok (f : watch_item_t -> watch_item_t) wlm i :
  (forall it, param_id (f it) = param_id it) ->
  (forall it, page (f it) = page it) ->
  watch_list_ok wlm ->
  watch_list_ok (set_items wlm (alter f i (items wlm)) (item_count wlm)).
Proof.
  intros Hid Hpg Hok.
  destruct (alter_keeps f i (items wlm) Hid Hpg) as [Hids Hpgs].
  apply (ok_by_projections wlm); cbn [set_items items item_count current_page];
    [exact Hok | apply length_alter | reflexivity | reflexivity
     | exact Hids | exact Hpgs].
Qed.

Lemma set_thresholds_ok wlm id wl wh cl ch :
  watch_list_ok wlm ->
  watch_list_ok (fst (watch_list_set_thresholds wlm id wl wh cl ch)).
Proof.
  intros Hok. unfold watch_list_set_thresholds.
  destruct (watch_list_get_item wlm id); [| exact Hok].
  apply alter_item_ok; [reflexivity | reflexivity | exact Hok].
Qed.

Lemma set_gauge_range_ok wlm id lo hi :
  watch_list_ok wlm ->
  watch_list_ok (fst (watch_list_set_gauge_range wlm id lo hi)).
Proof.
  intros Hok. unfold watch_list_set_gauge_range.
  destruct (watch_list_get_item wlm id); [| exact Hok].
  apply alter_item_ok; [reflexivity | reflexivity | exact Hok].
Qed.

Lemma with_page_ok wlm pg :
  pg < WATCH_LIST_MAX_PAGES -> watch_list_ok wlm ->
  watch_list_ok (with_page wlm pg).
Proof.
  intros Hpg (Hlen & Hcount & _ & Hnodup & Hpages).
  split; [exact Hlen |]. split; [exact Hcount |]. split; [exact Hpg |].
  split; assumption.
Qed.

Lemma set_page_ok wlm pg :
  watch_list_ok wlm -> watch_list_ok (watch_list_set_page wlm pg).
Proof.
  intros Hok. unfold watch_list_set_page. apply with_page_ok; [| exact Hok].
  unfold WATCH_LIST_MAX_PAGES. destruct (Z.geb_spec pg 4); lia.
Qed.

Lemma next_page_ok wlm :
  watch_list_ok wlm -> watch_list_ok (watch_list_next_page wlm).
Proof.
  intros Hok. unfold watch_list_next_page. apply with_page_ok; [| exact Hok].
  unfold WATCH_LIST_MAX_PAGES.
  pose proof (Z.mod_pos_bound (current_page wlm + 1) 4 ltac:(lia)).
  rewrite u8_id by (unfold is_u8; lia). lia.
Qed.

Lemma empty_ok its cp dm init :
  length its = Z.to_nat WATCH_LIST_MAX_ITEMS -> cp < WATCH_LIST_MAX_PAGES ->
  watch_list_ok {| items := its; item_count := 0; current_page := cp;
                   has_data_manager := dm; wl_initialized := init |}.
Proof.
  intros Hlen Hcp. unfold watch_list_ok, counted. cbn [items item_count current_page].
  change (Z.to_nat 0) with 0%nat. rewrite take_0.
  split; [exact Hlen |]. split; [unfold WATCH_LIST_MAX_ITEMS; lia |].
  split; [exact Hcp |]. split; [apply NoDup_nil_2 | apply Forall_nil_2].
Qed.

Lemma wl_init_ok has_dm : watch_list_ok (watch_list_init has_dm).
Proof.
  apply empty_ok; [apply length_replicate | reflexivity].
Qed.

Lemma wl_clear_ok wlm : watch_list_ok (watch_list_clear wlm).
Proof.
  apply empty_ok; [apply length_replicate | reflexivity].
Qed.

Lemma wl_update_ok wlm dm now :
  watch_list_ok wlm -> watch_list_ok (watch_list_update wlm dm now).
Proof.
  intros Hok. unfold watch_list_update.
  destruct (negb (wl_initialized wlm) || negb (has_data_manager wlm));
    [exact Hok |].
  destruct (update_loop_keeps dm (item_count wlm) (Z.to_nat (item_count wlm))
              0 (items wlm)) as (Hlen & Hids & Hpgs).
  apply (ok_by_projections wlm); cbn [items item_count current_page];
    [exact Hok | exact Hlen | reflexivity | reflexivity | exact Hids | exact Hpgs].
Qed.

Lemma wl_apply_ok wlm c : watch_list_ok wlm -> watch_list_ok (wl_apply wlm c).
Proof.
  intros Hok. destruct c; cbn [wl_apply].
  - apply wl_add_ok, Hok.
  - apply wl_remove_ok, Hok.
  - apply set_thresholds_ok, Hok.
  - apply set_gauge_range_ok, Hok.
  - apply set_page_ok, Hok.
  - apply next_page_ok, Hok.
  - apply wl_clear_ok.
  - apply wl_update_ok, Hok.
Qed.

Lemma wl_run_ok calls : forall wlm,
  watch_list_ok wlm -> watch_list_ok (wl_run wlm calls).
Proof.
  induction calls as [| c calls IH]; intros wlm Hok; [exact Hok |].
  apply IH, wl_apply_ok, Hok.
Qed.

(** Whatever is added, removed, configured, paged, cleared or refreshed
    after [watch_list_init], in any order and with any arguments: the
    array keeps its 16 entries, the count stays within 0..16, the current
    page stays below 4, and the counted entries watch pairwise different
    parameters, each on a page below 4. *)
Theorem watch_list_invariant (has_dm : bool) (calls : list wl_call) :
  watch_list_ok (wl_run (watch_list_init has_dm) calls).
Proof.
  apply wl_run_ok, wl_init_ok.
Qed.

(** *** Lookup after adding and removing *)

Lemma find_item_by_counted wlm wlm' id :
  counted wlm' = counted wlm -> find_item wlm' id = find_item wlm id.
Proof.
  unfold find_item, counted. intros ->. reflexivity.
Qed.

Lemma find_item_app wlm wlm' new id :
  counted wlm' = counted wlm ++ [new] -> param_id new <> id ->
  find_item wlm' id = find_item wlm id.
Proof.
  intros Hcounted Hnew.
  destruct (find_item wlm id) as [i |] eqn:Hfind.
  - apply find_item_Some in Hfind as (it & Hit & Hid & Hfirst).
    apply find_item_Some. exists it. rewrite Hcounted.
    split; [apply lookup_app_l_Some, Hit |]. split; [exact Hid |].
    intros j y Hy Hlt. apply lookup_lt_Some in Hit.
    rewrite lookup_app_l in Hy by lia. exact (Hfirst j y Hy Hlt).
  - apply find_item_None in Hfind. apply find_item_None.
    rewrite Hcounted, fmap_app. intros Hin.
    apply elem_of_app in Hin as [Hin | Hin]; [exact (Hfind Hin) |].
    apply list_elem_of_singleton in Hin. congruence.
Qed.

Lemma NoDup_delete_lookup (l : list Z) i x :
  NoDup l -> l !! i = Some x -> x ∉ delete i l.
Proof.
  intros Hnodup Hx. rewrite delete_take_drop.
  rewrite <- (take_drop_middle l i x Hx) in Hnodup.
  apply NoDup_app in Hnodup as (_ & Hleft & Hright).
  apply NoDup_cons in Hright as [Hright _].
  intros Hin. apply elem_of_app in Hin as [Hin | Hin].
  - apply (Hleft x Hin). left.
  - exact (Hright Hin).
Qed.

(** On a well-formed list, a call of [watch_list_add] that does not
    return -1 returns the old count as the index, stores the new entry
    there with its defaults, is found again by [watch_list_get_item]
    under that index, and leaves the lookup of every other parameter as
    it was. *)
Theorem add_then_get wlm id w pg pos :
  watch_list_ok wlm ->
  snd (watch_list_add wlm id w pg pos) <> -1 ->
  snd (watch_list_add wlm id w pg pos) = item_count wlm /\
  item_count (fst (watch_list_add wlm id w pg pos)) = item_count wlm + 1 /\
  items (fst (watch_list_add wlm id w pg pos)) !! Z.to_nat (item_count wlm)
  = Some (new_item id w pg pos) /\
  watch_list_get_item (fst (watch_list_add wlm id w pg pos)) id
  = Some (Z.to_nat (item_count wlm)) /\
  forall id', id' <> id ->
    watch_list_get_item (fst (watch_list_add wlm id w pg pos)) id'
    = watch_list_get_item wlm id'.
Proof.
  intros Hok Hres.
  destruct (add_cases wlm id w pg pos Hok)
    as [[Hadd _] | (Hinit & Hroom & Hpg & Hnew & Hadd & Hcounted)];
    [rewrite Hadd in Hres; contradiction |].
  destruct Hok as (Hlen & Hcount & _).
  assert (Hinit' : wl_initialized (fst (watch_list_add wlm id w pg pos)) = true)
    by (rewrite Hadd; exact Hinit).
  unfold watch_list_get_item. rewrite Hinit', Hinit. cbn [negb].
  split; [rewrite Hadd; reflexivity |].
  split; [rewrite Hadd; reflexivity |].
  split.
  { rewrite Hadd. cbn [fst set_items items].
    apply list_lookup_insert_eq. unfold WATCH_LIST_MAX_ITEMS in *. lia. }
  split.
  - apply find_item_Some. exists (new_item id w pg pos). rewrite Hcounted.
    assert (Hn : length (counted wlm) = Z.to_nat (item_count wlm)).
    { unfold counted. rewrite length_take.
      unfold WATCH_LIST_MAX_ITEMS in *. lia. }
    split; [rewrite <- Hn; apply list_lookup_middle; reflexivity |].
    split; [reflexivity |].
    intros j y Hy Hlt Hid. rewrite lookup_app_l in Hy by lia.
    apply Hnew. apply list_elem_of_fmap. exists y.
    split; [congruence | eapply list_elem_of_lookup_2; exact Hy].
  - intros id' Hother.
    apply (find_item_app wlm _ (new_item id w pg pos));
      [exact Hcounted | cbn [new_item param_id]; congruence].
Qed.

Lemma add_then_get_witness :
  watch_list_get_item
    (fst (watch_list_add (watch_list_init true) PARAM_COOLANT_TEMP
            WIDGET_NUMERIC 2 0)) PARAM_COOLANT_TEMP = Some 0%nat.
Proof.
  apply (add_then_get (watch_list_init true) PARAM_COOLANT_TEMP
           WIDGET_NUMERIC 2 0).
  - unfold watch_list_ok. vm_compute.
    split; [reflexivity |]. split; [split; discriminate |].
    split; [reflexivity |]. split; constructor.
  - vm_compute. discriminate.
Defined.

(** On a well-formed list, removing a watched parameter found at index
    [i] returns true, lowers the count by one, leaves exactly the other
    counted entries in their old order, and the parameter is no longer
    found afterwards. *)
Theorem remove_deletes wlm id i :
  watch_list_ok wlm ->
  watch_list_get_item wlm id = Some i ->
  snd (watch_list_remove wlm id) = true /\
  item_count (fst (watch_list_remove wlm id)) = item_count wlm - 1 /\
  counted (fst (watch_list_remove wlm id)) = delete i (counted wlm) /\
  watch_list_get_item (fst (watch_list_remove wlm id)) id = None.
Proof.
  intros Hok Hget. unfold watch_list_get_item in Hget.
  destruct (remove_cases wlm id Hok)
    as [[_ [Hinit | Hnot]]
       | (k & Hinit & Hfind & Hres & Hcount' & _ & _ & Hinit' & Hcounted)].
  - rewrite Hinit in Hget. discriminate.
  - apply find_item_None in Hnot.
    destruct (wl_initialized wlm); cbn [negb] in Hget; congruence.
  - rewrite Hinit in Hget. cbn [negb] in Hget.
    assert (k = i) by congruence. subst k.
    split; [exact Hres |]. split; [exact Hcount' |]. split; [exact Hcounted |].
    unfold watch_list_get_item. rewrite Hinit'. cbn [negb].
    apply find_item_None. rewrite Hcounted, list_fmap_delete.
    apply find_item_Some in Hfind as (it & Hit & Hid & _).
    destruct Hok as (_ & _ & _ & Hnodup & _).
    apply NoDup_delete_lookup; [exact Hnodup |].
    rewrite list_lookup_fmap, Hit. cbn. congruence.
Qed.

Lemma remove_deletes_witness :
  counted (fst (watch_list_remove demo_watch_list PARAM_COOLANT_TEMP))
  = delete 0%nat (counted demo_watch_list).
Proof.
  apply (remove_deletes demo_watch_list PARAM_COOLANT_TEMP 0).
  - unfold watch_list_ok. vm_compute.
    split; [reflexivity |]. split; [split; discriminate |].
    split; [reflexivity |]. split.
    + apply NoDup_cons. split; [| apply NoDup_singleton].
      intros Hin. apply list_elem_of_singleton in Hin. discriminate.
    + repeat constructor.
  - reflexivity.
Defined.

(** *** Alert summary *)

Lemma highest_loop_spec (its : list watch_item_t) : forall h,
  alert_rank h <= alert_rank (highest_loop its h) /\
  (forall it, it ∈ its -> enabled it = true ->
              alert_rank (current_alert it) <= alert_rank (highest_loop its h)) /\
  (highest_loop its h = h \/
   exists it, it ∈ its /\ enabled it = true /\
              current_alert it = highest_loop its h).
Proof.
  induction its as [| x rest IH]; intros h; cbn [highest_loop].
  - split; [lia |]. split; [| left; reflexivity].
    intros it Hin. apply elem_of_nil in Hin. contradiction.
  - destruct (enabled x) eqn:Hen; cbn [andb].
    + destruct (Z.gtb_spec (alert_rank (current_alert x)) (alert_rank h))
        as [Hgt | Hle].
      * destruct (IH (current_alert x)) as (Hmono & Hbound & Hattained).
        split; [lia |]. split.
        -- intros it Hin Hit. apply elem_of_cons in Hin as [-> | Hin];
             [exact Hmono | exact (Hbound it Hin Hit)].
        -- right. destruct Hattained as [Hsame | (it & Hin & Hit & Hcur)].
           ++ exists x. split; [left |]. split; [exact Hen | congruence].
           ++ exists it. split; [right; exact Hin |]. split; assumption.
      * destruct (IH h) as (Hmono & Hbound & Hattained).
        split; [exact Hmono |]. split.
        -- intros it Hin Hit. apply elem_of_cons in Hin as [-> | Hin];
             [lia | exact (Hbound it Hin Hit)].
        -- destruct Hattained as [Hsame | (it & Hin & Hit & Hcur)];
             [left; exact Hsame |].
           right. exists it. split; [right; exact Hin |]. split; assumption.
    + destruct (IH h) as (Hmono & Hbound & Hattained).
      split; [exact Hmono |]. split.
      * intros it Hin Hit. apply elem_of_cons in Hin as [-> | Hin];
          [congruence | exact (Hbound it Hin Hit)].
      * destruct Hattained as [Hsame | (it & Hin & Hit & Hcur)];
          [left; exact Hsame |].
        right. exists it. split; [right; exact Hin |]. split; assumption.
Qed.

(** For an initialised list, [watch_list_get_highest_alert] is the
    greatest last severity among the enabled counted entries: no enabled
    entry lies above it, and it is NONE or the severity of an enabled
    entry. Disabled entries do not count. *)
Theorem highest_alert_is_max wlm :
  wl_initialized wlm = true ->
  (forall it, it ∈ counted wlm -> enabled it = true ->
     alert_rank (current_alert it)
     <= alert_rank (watch_list_get_highest_alert wlm)) /\
  (watch_list_get_highest_alert wlm = ALERT_NONE \/
   exists it, it ∈ counted wlm /\ enabled it = true /\
              current_alert it = watch_list_get_highest_alert wlm).
Proof.
  intros Hinit. unfold watch_list_get_highest_alert. rewrite Hinit. cbn [negb].
  destruct (highest_loop_spec (counted wlm) ALERT_NONE) as (_ & Hbound & Hatt).
  split; [exact Hbound | exact Hatt].
Qed.

Lemma highest_alert_is_max_witness :
  watch_list_get_highest_alert demo_watch_list = ALERT_NONE \/
  exists it, it ∈ counted demo_watch_list /\ enabled it = true /\
             current_alert it = watch_list_get_highest_alert demo_watch_list.
Proof.
  apply (highest_alert_is_max demo_watch_list). reflexivity.
Defined.

Lemma alert_count_loop_spec level (its : list watch_item_t) : forall c,
  0 <= c -> c + Z.of_nat (length its) <= 255 ->
  alert_count_loop its level c
  = c + Z.of_nat (length (filter (alerting level) its)).
Proof.
  induction its as [| x rest IH]; intros c Hc Hroom; cbn [alert_count_loop].
  - rewrite filter_nil. cbn [length]. lia.
  - cbn [length] in Hroom.
    destruct (enabled x) eqn:Hen; cbn [andb].
    + destruct (Z.geb_spec (alert_rank (current_alert x)) (alert_rank level))
        as [Hge | Hlt].
      * rewrite filter_cons_True by (split; [exact Hen | lia]).
        rewrite u8_id by (unfold is_u8; lia).
        rewrite IH by lia. cbn [length]. lia.
      * rewrite filter_cons_False by (intros [_ Hle]; lia).
        apply IH; lia.
    + rewrite filter_cons_False by (intros [Hen' _]; congruence).
      apply IH; lia.
Qed.

(** On a well-formed initialised list, [watch_list_get_alert_count] is
    the number of enabled counted entries whose last severity is the
    given level or above; for a level above NONE it is positive exactly
    when [watch_list_get_highest_alert] reaches that level. *)
Theorem alert_count_counts wlm level :
  watch_list_ok wlm -> wl_initialized wlm = true ->
  watch_list_get_alert_count wlm level
  = Z.of_nat (length (filter (alerting level) (counted wlm))) /\
  (0 < alert_rank level ->
   (0 < watch_list_get_alert_count wlm level <->
    alert_rank level <= alert_rank (watch_list_get_highest_alert wlm))).
Proof.
  intros (Hlen & Hcount & _) Hinit.
  assert (Hn : watch_list_get_alert_count wlm level
               = Z.of_nat (length (filter (alerting level) (counted wlm)))).
  { unfold watch_list_get_alert_count. rewrite Hinit. cbn [negb].
    fold (counted wlm). rewrite alert_count_loop_spec; [lia | lia |].
    unfold counted. rewrite length_take.
    unfold WATCH_LIST_MAX_ITEMS in *. lia. }
  split; [exact Hn |]. intros Hlevel. rewrite Hn.
  unfold watch_list_get_highest_alert. rewrite Hinit. cbn [negb].
  fold (counted wlm).
  destruct (highest_loop_spec (counted wlm) ALERT_NONE) as (_ & Hbound & Hatt).
  split.
  - intros Hpos.
    destruct (filter (alerting level) (counted wlm)) as [| it rest] eqn:Hf;
      [cbn [length] in Hpos; lia |].
    assert (Hin : it ∈ filter (alerting level) (counted wlm))
      by (rewrite Hf; left).
    apply list_elem_of_filter in Hin as [[Hen Hle] Hin].
    pose proof (Hbound it Hin Hen). lia.
  - intros Hreach.
    destruct Hatt as [Hnone | (it & Hin & Hen & Hcur)];
      [rewrite Hnone in Hreach; cbn [alert_rank] in Hreach; lia |].
    assert (Hin' : it ∈ filter (alerting level) (counted wlm)).
    { apply list_elem_of_filter. split; [| exact Hin].
      split; [exact Hen | rewrite Hcur; exact Hreach]. }
    destruct (filter (alerting level) (counted wlm));
      [apply elem_of_nil in Hin'; contradiction | cbn [length]; lia].
Qed.

Lemma alert_count_counts_witness :
  watch_list_get_alert_count demo_watch_list ALERT_WARNING
  = Z.of_nat (length (filter (alerting ALERT_WARNING) (counted demo_watch_list))).
Proof.
  apply (alert_count_counts demo_watch_list ALERT_WARNING).
  - unfold watch_list_ok. vm_compute.
    split; [reflexivity |]. split; [split; discriminate |].
    split; [reflexivity |]. split.
    + apply NoDup_cons. split; [| apply NoDup_singleton].
      intros Hin. apply list_elem_of_singleton in Hin. discriminate.
    + repeat constructor.
  - reflexivity.
Defined.

(** *** Page contents *)

Lemma page_items_loop_spec wlm pg max_items fuel : forall i found,
  0 <= i <= item_count wlm -> item_count wlm <= 255 ->
  item_count wlm - i <= Z.of_nat fuel ->
  (length found <= Z.to_nat max_items)%nat ->
  page_items_loop fuel (items wlm) (item_count wlm) pg max_items i found
  = found
    ++ take (Z.to_nat max_items - length found)
         (List.filter (on_page wlm pg)
            (seq (Z.to_nat i) (Z.to_nat (item_count wlm - i)))).
Proof.
  induction fuel as [| fuel IH]; intros i found Hi Hmax Hfuel Hfound.
  - cbn [page_items_loop].
    replace (Z.to_nat (item_count wlm - i)) with 0%nat by lia.
    cbn [seq List.filter]. rewrite take_nil, app_nil_r. reflexivity.
  - cbn [page_items_loop].
    destruct (Z.ltb_spec i (item_count wlm)) as [Hmore | Hend]; cbn [andb].
    + destruct (Z.ltb_spec (Z.of_nat (length found)) max_items)
        as [Hroom | Hfull].
      * replace (Z.to_nat (item_count wlm - i))
          with (S (Z.to_nat (item_count wlm - (i + 1)))) by lia.
        cbn [seq List.filter]. rewrite u8_id by (unfold is_u8; lia).
        replace (S (Z.to_nat i)) with (Z.to_nat (i + 1)) by lia.
        unfold on_page at 1.
        destruct (items wlm !! Z.to_nat i) as [it |];
          [destruct ((page it =? pg) && enabled it) |].
        -- rewrite IH by (rewrite ?length_app; cbn [length]; lia).
           rewrite length_app. cbn [length].
           replace (Z.to_nat max_items - length found)%nat
             with (S (Z.to_nat max_items - (length found + 1))) by lia.
           cbn [take]. rewrite <- app_assoc. reflexivity.
        -- apply IH; lia.
        -- apply IH; lia.
      * replace (Z.to_nat max_items - length found)%nat with 0%nat by lia.
        rewrite take_0, app_nil_r. reflexivity.
    + replace (Z.to_nat (item_count wlm - i)) with 0%nat by lia.
      cbn [seq List.filter]. rewrite take_nil, app_nil_r. reflexivity.
Qed.

(** On a well-formed initialised list, [watch_list_get_page_items] hands
    out, in index order, the first [max_items] of the counted entries
    that are enabled and on the asked page; entries beyond the count and
    disabled entries never appear. *)
Theorem page_items_first_matches wlm pg max_items :
  watch_list_ok wlm -> wl_initialized wlm = true ->
  watch_list_get_page_items wlm pg true max_items
  = take (Z.to_nat max_items)
      (List.filter (on_page wlm pg) (seq 0 (Z.to_nat (item_count wlm)))).
Proof.
  intros (_ & Hcount & _) Hinit. unfold watch_list_get_page_items.
  rewrite Hinit. cbn [negb orb]. unfold WATCH_LIST_MAX_ITEMS in *.
  rewrite page_items_loop_spec by (cbn [length]; lia).
  cbn [app length]. rewrite Nat.sub_0_r, Z.sub_0_r. reflexivity.
Qed.

Lemma page_items_first_matches_witness :
  watch_list_get_page_items demo_watch_list 0 true 4
  = take (Z.to_nat 4)
      (List.filter (on_page demo_watch_list 0)
         (seq 0 (Z.to_nat (item_count demo_watch_list)))).
Proof.
  apply (page_items_first_matches demo_watch_list 0 4).
  - unfold watch_list_ok. vm_compute.
    split; [reflexivity |]. split; [split; discriminate |].
    split; [reflexivity |]. split.
    + apply NoDup_cons. split; [| apply NoDup_singleton].
      intros Hin. apply list_elem_of_singleton in Hin. discriminate.
    + repeat constructor.
  - reflexivity.
Defined.

End WatchList_more_props.
(** ** Persistent storage: save and reboot, active-fault summary *)

Module Nvs_more_props.
Import Nvs.

(** *** What a save leaves in the flash *)

Lemma save_trip_other fl name t other :
  name <> other -> save_trip fl name t !! other = fl !! other.
Proof.
  intros Hne. unfold save_trip. cbv zeta.
  rewrite !Nvs_boot_props.put_other by exact Hne. reflexivity.
Qed.

Lemma save_lifetime_other fl l other :
  "lifetime" <> other -> save_lifetime fl l !! other = fl !! other.
Proof.
  intros Hne. unfold save_lifetime. cbv zeta.
  rewrite !Nvs_boot_props.put_other by exact Hne. reflexivity.
Qed.

Lemma save_settings_other fl s other :
  "settings" <> other -> save_settings fl s !! other = fl !! other.
Proof.
  intros Hne. unfold save_settings. cbv zeta.
  rewrite !Nvs_boot_props.put_other by exact Hne. reflexivity.
Qed.

Lemma save_dtc_other fl hist count other :
  "fault_log" <> other -> save_dtc fl hist count !! other = fl !! other.
Proof.
  intros Hne. unfold save_dtc. cbv zeta.
  destruct (0 <? count); rewrite !Nvs_boot_props.put_other by exact Hne;
    reflexivity.
Qed.

(** The five conditional writes of [nvs_storage_save_all], one by one. *)
Lemma save_all_flash storage (fl : flash) :
  initialized storage = true ->
  snd (fst (nvs_storage_save_all storage fl))
  = (fun fl4 : flash =>
       if dtc_dirty storage
       then save_dtc fl4 (dtc_history storage) (dtc_count storage) else fl4)
      ((fun fl3 : flash =>
          if settings_dirty storage
          then save_settings fl3 (settings storage) else fl3)
         ((fun fl2 : flash =>
             if lifetime_dirty storage
             then save_lifetime fl2 (lifetime storage) else fl2)
            ((fun fl1 : flash =>
                if trip_b_dirty storage
                then save_trip fl1 "trip_b" (trip_b storage) else fl1)
               (if trip_a_dirty storage
                then save_trip fl "trip_a" (trip_a storage) else fl)))).
Proof.
  intros Hinit. unfold nvs_storage_save_all. rewrite Hinit. reflexivity.
Qed.

Ltac later_sections :=
  repeat match goal with
         | |- context [if ?flag then _ else _] => destruct flag
         end;
  rewrite ?save_dtc_other, ?save_settings_other, ?save_lifetime_other,
    ?save_trip_other by discriminate;
  reflexivity.

Lemma saved_trip_a storage (fl : flash) :
  initialized storage = true -> trip_a_dirty storage = true ->
  snd (fst (nvs_storage_save_all storage fl)) !! "trip_a"
  = save_trip fl "trip_a" (trip_a storage) !! "trip_a".
Proof.
  intros Hinit Hdirty. rewrite save_all_flash by exact Hinit.
  rewrite Hdirty. cbv beta. later_sections.
Qed.

Lemma saved_trip_b storage (fl : flash) :
  initialized storage = true -> trip_b_dirty storage = true ->
  exists fl1 : flash,
    snd (fst (nvs_storage_save_all storage fl)) !! "trip_b"
    = save_trip fl1 "trip_b" (trip_b storage) !! "trip_b".
Proof.
  intros Hinit Hdirty. rewrite save_all_flash by exact Hinit.
  rewrite Hdirty. cbv beta.
  exists (if trip_a_dirty storage
          then save_trip fl "trip_a" (trip_a storage) else fl).
  generalize (if trip_a_dirty storage
              then save_trip fl "trip_a" (trip_a storage) else fl).
  intros fl1. later_sections.
Qed.

Lemma saved_lifetime storage (fl : flash) :
  initialized storage = true -> lifetime_dirty storage = true ->
  exists fl2 : flash,
    snd (fst (nvs_storage_save_all storage fl)) !! "lifetime"
    = save_lifetime fl2 (lifetime storage) !! "lifetime".
Proof.
  intros Hinit Hdirty. rewrite save_all_flash by exact Hinit.
  rewrite Hdirty. cbv beta.
  match goal with
  | |- context [save_lifetime ?f (lifetime storage)] => exists f; generalize f
  end.
  intros fl2. later_sections.
Qed.

Lemma saved_settings storage (fl : flash) :
  initialized storage = true -> settings_dirty storage = true ->
  exists fl3 : flash,
    snd (fst (nvs_storage_save_all storage fl)) !! "settings"
    = save_settings fl3 (settings storage) !! "settings".
Proof.
  intros Hinit Hdirty. rewrite save_all_flash by exact Hinit.
  rewrite Hdirty. cbv beta.
  match goal with
  | |- context [save_settings ?f (settings storage)] => exists f; generalize f
  end.
  intros fl3. later_sections.
Qed.

Lemma saved_dtc storage (fl : flash) :
  initialized storage = true -> dtc_dirty storage = true ->
  exists fl4 : flash,
    snd (fst (nvs_storage_save_all storage fl)) !! "fault_log"
    = save_dtc fl4 (dtc_history storage) (dtc_count storage) !! "fault_log".
Proof.
  intros Hinit Hdirty. rewrite save_all_flash by exact Hinit.
  rewrite Hdirty. cbv beta. eexists. reflexivity.
Qed.

(** *** What a load reads back *)

Ltac read_keys :=
  unfold getBool, getUChar, getUShort, getUInt, getFloat;
  repeat first [rewrite lookup_insert_eq
               | rewrite lookup_insert_ne by discriminate].

Lemma load_saved_trip (fl' fl : flash) name t t0 :
  fl' !! name = save_trip fl name t !! name ->
  load_trip fl' name t0
  = {| distance_km := distance_km t; fuel_used_liters := fuel_used_liters t;
       start_time := start_time t; duration_seconds := duration_seconds t;
       avg_speed_kmh := avg_speed_kmh t;
       avg_fuel_economy := avg_fuel_economy t0;
       trip_is_active := trip_is_active t |}.
Proof.
  intros Hns. unfold load_trip. rewrite Hns. unfold save_trip. cbv zeta.
  rewrite !Nvs_boot_props.put_same. cbn [default from_option Datatypes.id].
  read_keys. reflexivity.
Qed.

Lemma load_saved_lifetime (fl' fl : flash) l l0 :
  fl' !! "lifetime" = save_lifetime fl l !! "lifetime" ->
  load_lifetime fl' l0 = l.
Proof.
  intros Hns. unfold load_lifetime. rewrite Hns. unfold save_lifetime.
  cbv zeta.
  rewrite !Nvs_boot_props.put_same. cbn [default from_option Datatypes.id].
  read_keys. destruct l. reflexivity.
Qed.

Lemma load_saved_settings (fl' fl : flash) s s0 :
  fl' !! "settings" = save_settings fl s !! "settings" ->
  load_settings fl' s0 = s.
Proof.
  intros Hns. unfold load_settings. rewrite Hns. unfold save_settings.
  cbv zeta.
  rewrite !Nvs_boot_props.put_same. cbn [default from_option Datatypes.id].
  read_keys. destruct s. reflexivity.
Qed.

Lemma load_saved_dtc (fl' fl : flash) hist count hist0 count0 :
  length hist = Z.to_nat NVS_MAX_DTC_HISTORY ->
  0 <= count <= NVS_MAX_DTC_HISTORY ->
  fl' !! "fault_log" = save_dtc fl hist count !! "fault_log" ->
  snd (load_dtc fl' hist0 count0) = count /\
  take (Z.to_nat count) (fst (load_dtc fl' hist0 count0))
  = take (Z.to_nat count) hist.
Proof.
  intros Hlen Hcount Hns. unfold load_dtc. rewrite Hns. unfold save_dtc.
  cbv zeta. unfold NVS_MAX_DTC_HISTORY in *.
  destruct (Z.ltb_spec 0 count) as [Hpos | Hzero].
  - rewrite !Nvs_boot_props.put_same. cbn [default from_option Datatypes.id].
    unfold getBytes. read_keys.
    destruct (Z.ltb_spec 0 count) as [_ | ?]; [| lia].
    destruct (Z.leb_spec count 20) as [_ | ?]; [| lia].
    cbn [andb fst snd]. split; [reflexivity |].
    assert (Hn : length (take (Z.to_nat count) hist) = Z.to_nat count)
      by (rewrite length_take; lia).
    rewrite Hn.
    destruct (Z.leb_spec (Z.of_nat (Z.to_nat count)) count) as [_ | ?]; [| lia].
    rewrite take_app_length' by (rewrite length_take; lia). reflexivity.
  - rewrite !Nvs_boot_props.put_same. cbn [default from_option Datatypes.id].
    read_keys.
    destruct (Z.ltb_spec 0 count) as [? | _]; [lia |].
    cbn [andb fst snd]. split; [reflexivity |].
    replace (Z.to_nat count) with 0%nat by lia. rewrite !take_0. reflexivity.
Qed.

(** A save followed by a boot on the flash it leaves: every section
    whose dirty flag was set comes back as it was saved, the fault table
    in its counted entries. The one exception is a trip's average fuel
    economy, which has no key in the flash and is zero after the boot. *)
Theorem saved_sections_survive_reboot storage (fl : flash) :
  initialized storage = true -> well_formed storage ->
  (trip_a_dirty storage = true ->
   trip_a (storage_after_init (snd (fst (nvs_storage_save_all storage fl))))
   = persisted (trip_a storage)) /\
  (trip_b_dirty storage = true ->
   trip_b (storage_after_init (snd (fst (nvs_storage_save_all storage fl))))
   = persisted (trip_b storage)) /\
  (lifetime_dirty storage = true ->
   lifetime (storage_after_init (snd (fst (nvs_storage_save_all storage fl))))
   = lifetime storage) /\
  (settings_dirty storage = true ->
   settings (storage_after_init (snd (fst (nvs_storage_save_all storage fl))))
   = settings storage) /\
  (dtc_dirty storage = true ->
   stored_faults
     (storage_after_init (snd (fst (nvs_storage_save_all storage fl))))
   = stored_faults storage).
Proof.
  intros Hinit [Hlen Hcount].
  set (fl' := snd (fst (nvs_storage_save_all storage fl))).
  split; [| split; [| split; [| split]]]; intros Hdirty.
  - change (load_trip fl' "trip_a" init_trip_defaults
            = persisted (trip_a storage)).
    apply (load_saved_trip fl' fl). apply saved_trip_a; assumption.
  - destruct (saved_trip_b storage fl Hinit Hdirty) as [fl1 Hns].
    change (load_trip fl' "trip_b" init_trip_defaults
            = persisted (trip_b storage)).
    apply (load_saved_trip fl' fl1). exact Hns.
  - destruct (saved_lifetime storage fl Hinit Hdirty) as [fl2 Hns].
    change (load_lifetime fl' init_lifetime_defaults = lifetime storage).
    apply (load_saved_lifetime fl' fl2). exact Hns.
  - destruct (saved_settings storage fl Hinit Hdirty) as [fl3 Hns].
    change (load_settings fl' default_settings = settings storage).
    apply (load_saved_settings fl' fl3). exact Hns.
  - destruct (saved_dtc storage fl Hinit Hdirty) as [fl4 Hns].
    destruct (load_saved_dtc fl' fl4 (dtc_history storage) (dtc_count storage)
                (replicate (Z.to_nat NVS_MAX_DTC_HISTORY) dtc_zero) 0
                Hlen Hcount Hns) as [Hc Hh].
    unfold stored_faults.
    change (take (Z.to_nat (snd (load_dtc fl'
                    (replicate (Z.to_nat NVS_MAX_DTC_HISTORY) dtc_zero) 0)))
              (fst (load_dtc fl'
                    (replicate (Z.to_nat NVS_MAX_DTC_HISTORY) dtc_zero) 0))
            = take (Z.to_nat (dtc_count storage)) (dtc_history storage)).
    rewrite Hc. exact Hh.
Qed.

Lemma saved_sections_survive_reboot_witness :
  settings
    (storage_after_init
       (snd (fst (nvs_storage_save_all
                    (nvs_settings_set (storage_after_init ∅)
                       (Some {| units := 0; brightness := 40;
                                default_page := 2; temp_unit := 0;
                                pressure_unit := 0; fuel_unit := 0;
                                fuel_tank_1_size := 380;
                                fuel_tank_2_size := 0 |}))
                    (flash_after_init ∅)))))
  = {| units := 0; brightness := 40; default_page := 2; temp_unit := 0;
       pressure_unit := 0; fuel_unit := 0; fuel_tank_1_size := 380;
       fuel_tank_2_size := 0 |}.
Proof.
  refine (proj1 (proj2 (proj2 (proj2
            (saved_sections_survive_reboot
               (nvs_settings_set (storage_after_init ∅)
                  (Some {| units := 0; brightness := 40;
                           default_page := 2; temp_unit := 0;
                           pressure_unit := 0; fuel_unit := 0;
                           fuel_tank_1_size := 380;
                           fuel_tank_2_size := 0 |}))
               (flash_after_init ∅) _ _)))) _).
  - reflexivity.
  - split; [reflexivity | split; discriminate].
  - reflexivity.
Defined.

(** *** Active faults *)












End Nvs_more_props.
(** ** Simulator frames as the parser reads them *)

Module Simulator_props.
Import J1939 Simulator.

(** The priority handed to [j1939_build_can_id] counts in its low three
    bits only. *)
Lemma build_can_id_priority pgn sa prio :
  j1939_build_can_id pgn sa prio = j1939_build_can_id pgn sa (prio mod 2 ^ 3).
Proof.
  unfold j1939_build_can_id. change 0x07 with (2 ^ 3 - 1).
  rewrite !land_mask by lia. rewrite Z.mod_mod by lia. reflexivity.
Qed.

(** Every frame the simulator sends is read by [j1939_parse_frame], as
    [sim_can_callback] calls it, as PGN 0 addressed to destination 6: the
    low byte of the PGN asked for comes back as the source address, and
    the low three bits of the source address as the priority. *)
Theorem simulated_frame_loses_pgn pgn sa (data : list Z) ts msg0 :
  is_u8 sa ->
  exists id msg,
    send_can_frame true pgn sa data = Some (id, data, 8) /\
    j1939_parse_frame id (Some data) 8 ts msg0 = (true, msg) /\
    msg_pgn msg = 0 /\ msg_destination msg = 6 /\
    msg_source_address msg = pgn mod 2 ^ 8 /\
    msg_priority msg = sa mod 2 ^ 3.
Proof.
  intros Hsa. unfold send_can_frame, j1939_parse_frame. cbn [negb].
  eexists. eexists. split; [reflexivity |]. split; [reflexivity |].
  cbn [msg_pgn msg_destination msg_source_address msg_priority].
  rewrite build_can_id_priority.
  assert (Hq : 0 <= pgn mod 2 ^ 8 < 2 ^ 8) by (apply Z.mod_pos_bound; lia).
  assert (Hp : 0 <= sa mod 2 ^ 3 < 2 ^ 3) by (apply Z.mod_pos_bound; lia).
  unfold u8.
  rewrite J1939_id_props.build_can_id_value by (unfold is_u8; lia).
  set (q := pgn mod 2 ^ 8) in *. set (p := sa mod 2 ^ 3) in *.
  clearbody p q.
  assert (Hid : 0 <= p * 2 ^ 26 + 6 * 2 ^ 8 + q < 2 ^ 29) by lia.
  rewrite J1939_frame_props.extract_pgn_value by exact Hid.
  rewrite J1939_frame_props.extract_destination_value.
  rewrite J1939_frame_props.extract_source_address_value.
  rewrite J1939_frame_props.extract_priority_value.
  assert (Hpf : ((p * 2 ^ 26 + 6 * 2 ^ 8 + q) / 2 ^ 16) mod 2 ^ 8 = 0)
    by (Z.div_mod_to_equations; lia).
  assert (Hps : ((p * 2 ^ 26 + 6 * 2 ^ 8 + q) / 2 ^ 8) mod 2 ^ 8 = 6)
    by (Z.div_mod_to_equations; lia).
  assert (Hdp : ((p * 2 ^ 26 + 6 * 2 ^ 8 + q) / 2 ^ 24) mod 2 ^ 2 = 0)
    by (Z.div_mod_to_equations; lia).
  rewrite Hpf, Hps, Hdp. cbn [Z.ltb Z.compare].
  repeat split; try reflexivity; Z.div_mod_to_equations; lia.
Qed.

Lemma simulated_frame_loses_pgn_witness :
  exists id msg,
    send_can_frame true 61444 0 [0; 125; 125; 0x20; 0x4E; 0; 0; 0]
    = Some (id, [0; 125; 125; 0x20; 0x4E; 0; 0; 0], 8) /\
    j1939_parse_frame id (Some [0; 125; 125; 0x20; 0x4E; 0; 0; 0]) 8 1000
      {| msg_pgn := 0; msg_source_address := 0; msg_destination := 0;
         msg_priority := 0; msg_data := replicate 8 0; msg_data_length := 0;
         msg_timestamp_ms := 0 |} = (true, msg) /\
    msg_pgn msg = 0 /\ msg_destination msg = 6 /\
    msg_source_address msg = 61444 mod 2 ^ 8 /\
    msg_priority msg = 0 mod 2 ^ 3.
Proof.
  apply (simulated_frame_loses_pgn 61444 0). unfold is_u8. lia.
Defined.

(** The one record of an eight-byte DM1 frame, as [j1939_parse_dm1]
    reads it. *)
Lemma parse_dm1_single a0 a1 b0 b1 b2 b3 c0 c1 lamps d0
  (arr : list j1939_dtc_t) max_dtcs :
  0 < max_dtcs ->
  j1939_parse_dm1 (Some [a0; a1; b0; b1; b2; b3; c0; c1]) 8 (Some lamps)
    (Some (d0 :: arr)) max_dtcs
  = let spn := u32 (Z.lor (Z.lor b0 (Z.shiftl b1 8))
                          (Z.shiftl (Z.land b2 0xE0) 11)) in
    let fmi := u8 (Z.land b2 0x1F) in
    let oc := u8 (Z.land b3 0x7F) in
    let found := negb (spn =? 0) || negb (fmi =? 0) in
    (if found then 1 else 0,
     Some {| protect_lamp := negb (Z.land a0 0x04 =? 0);
             amber_warning_lamp := negb (Z.land a0 0x10 =? 0);
             red_stop_lamp := negb (Z.land a1 0x04 =? 0);
             malfunction_lamp := negb (Z.land a1 0x10 =? 0) |},
     Some (if found
           then {| dtc_spn := spn; dtc_fmi := fmi; dtc_oc := oc;
                   dtc_source_address := dtc_source_address d0;
                   dtc_is_active := true |} :: arr
           else d0 :: arr)).
Proof.
  intros Hmax. unfold j1939_parse_dm1.
  change (8 <? 2) with false. cbv iota.
  destruct (Z.eqb_spec max_dtcs 0) as [? | _]; [lia |].
  change (Z.to_nat 8) with 8%nat.
  cbn [dm1_loop].
  change (2 + 4 <=? 8) with true.
  destruct (Z.ltb_spec 0 max_dtcs) as [_ | ?]; [| lia].
  cbn [andb].
  change (byte_at [a0; a1; b0; b1; b2; b3; c0; c1] 2) with b0.
  change (byte_at [a0; a1; b0; b1; b2; b3; c0; c1] (2 + 1)) with b1.
  change (byte_at [a0; a1; b0; b1; b2; b3; c0; c1] (2 + 2)) with b2.
  change (byte_at [a0; a1; b0; b1; b2; b3; c0; c1] (2 + 3)) with b3.
  change (byte_at [a0; a1; b0; b1; b2; b3; c0; c1] 0) with a0.
  change (byte_at [a0; a1; b0; b1; b2; b3; c0; c1] 1) with a1.
  change (u16 (2 + 4)) with 6. change (6 + 4 <=? 8) with false.
  cbn [andb]. cbv zeta.
  destruct (negb _ || negb _); reflexivity.
Qed.

(** The mask 0xE0 keeps bits 7..5 of a byte. *)
Lemma land_high3 x : 0 <= x < 2 ^ 8 -> Z.land x 0xE0 = x / 2 ^ 5 * 2 ^ 5.
Proof.
  intros Hx. replace x with (Z.of_nat (Z.to_nat x)) by lia.
  assert (Hn : (Z.to_nat x < 256)%nat) by lia.
  generalize dependent (Z.to_nat x). intros n Hn. clear Hx x.
  do 256 (destruct n as [| n]; [vm_compute; reflexivity |]). lia.
Qed.

(** The fields [j1939_parse_dm1] computes from the bytes the simulator
    lays out for the fault ([spn], [fmi]). *)
Lemma simulated_fault_fields spn fmi :
  let b0 := u8 (Z.land spn 0xFF) in
  let b1 := u8 (Z.land (Z.shiftr spn 8) 0xFF) in
  let b2 := u8 (Z.lor (u8 (Z.land (Z.shiftr spn 16) 0x07))
                      (Z.shiftl (Z.land fmi 0x1F) 3)) in
  u32 (Z.lor (Z.lor b0 (Z.shiftl b1 8)) (Z.shiftl (Z.land b2 0xE0) 11))
  = spn mod 2 ^ 16 + fmi mod 2 ^ 5 / 2 ^ 2 * 2 ^ 16 /\
  u8 (Z.land b2 0x1F) = (spn / 2 ^ 16) mod 2 ^ 3 + fmi mod 2 ^ 2 * 2 ^ 3.
Proof.
  cbv zeta.
  change 0xFF with (2 ^ 8 - 1). change 0x07 with (2 ^ 3 - 1).
  change 0x1F with (2 ^ 5 - 1).
  rewrite !land_mask, !Z.shiftr_div_pow2 by lia.
  set (q := fmi mod 2 ^ 5). set (p := (spn / 2 ^ 16) mod 2 ^ 3).
  set (lo := spn mod 2 ^ 8). set (mid := (spn / 2 ^ 8) mod 2 ^ 8).
  assert (Hq : 0 <= q < 2 ^ 5) by (apply Z.mod_pos_bound; lia).
  assert (Hp : 0 <= p < 2 ^ 3) by (apply Z.mod_pos_bound; lia).
  assert (Hlo : 0 <= lo < 2 ^ 8) by (apply Z.mod_pos_bound; lia).
  assert (Hmid : 0 <= mid < 2 ^ 8) by (apply Z.mod_pos_bound; lia).
  rewrite (u8_id p), (u8_id lo), (u8_id mid) by (unfold is_u8; lia).
  rewrite (Z.lor_comm p), lor_shiftl_low by lia.
  rewrite (u8_id (q * 2 ^ 3 + p)) by (unfold is_u8; lia).
  rewrite land_high3 by lia.
  rewrite (Z.lor_comm lo), lor_shiftl_low by lia.
  assert (Hb2 : (q * 2 ^ 3 + p) / 2 ^ 5 = q / 2 ^ 2)
    by (clearbody p q; Z.div_mod_to_equations; lia).
  rewrite Hb2.
  replace (Z.shiftl (q / 2 ^ 2 * 2 ^ 5) 11) with (Z.shiftl (q / 2 ^ 2) 16)
    by (rewrite !Z.shiftl_mul_pow2 by lia; lia).
  assert (Hq4 : 0 <= q / 2 ^ 2 < 2 ^ 3)
    by (clearbody q; Z.div_mod_to_equations; lia).
  rewrite Z.lor_comm, lor_shiftl_low by lia.
  rewrite u32_id by (unfold is_u32; lia).
  assert (Hlow : mid * 2 ^ 8 + lo = spn mod 2 ^ 16)
    by (unfold mid, lo; Z.div_mod_to_equations; lia).
  assert (Hfmi : q mod 2 ^ 2 = fmi mod 2 ^ 2)
    by (unfold q; Z.div_mod_to_equations; lia).
  split; [lia |].
  assert (Hmod : (q * 2 ^ 3 + p) mod 2 ^ 5 = p + q mod 2 ^ 2 * 2 ^ 3)
    by (clearbody p q; Z.div_mod_to_equations; lia).
  rewrite Hmod, <- Hfmi.
  apply u8_id. unfold is_u8.
  pose proof (Z.mod_pos_bound q (2 ^ 2) ltac:(lia)). lia.
Qed.

(** What [j1939_parse_dm1] makes of the DM1 frame the simulator builds.
    For an active fault the first entry of the caller's array gets as SPN
    the fault's low 16 SPN bits with the fault's FMI bits 4..2 on top,
    and as FMI the SPN's bits 18..16 below the fault's FMI bits 1..0: the
    simulator lays the shared byte out the other way round than the
    parser reads it. The entry gets the occurrence count in 7 bits, is
    marked active and keeps its source address. For no fault the frame
    carries four 0xFF bytes, which the parser stores as one fault
    (SPN 0x7FFFF, FMI 31, count 127). *)
Theorem simulated_dm1_as_parsed st lamps d0 (arr : list j1939_dtc_t) max_dtcs :
  0 < max_dtcs ->
  j1939_parse_dm1 (Some (build_pgn_65226_dm1 st)) 8 (Some lamps)
    (Some (d0 :: arr)) max_dtcs
  = if has_active_fault st then
      let spn := fault_spn st mod 2 ^ 16
                 + fault_fmi st mod 2 ^ 5 / 2 ^ 2 * 2 ^ 16 in
      let fmi := (fault_spn st / 2 ^ 16) mod 2 ^ 3
                 + fault_fmi st mod 2 ^ 2 * 2 ^ 3 in
      let found := negb (spn =? 0) || negb (fmi =? 0) in
      (if found then 1 else 0,
       Some {| protect_lamp := true; amber_warning_lamp := true;
               red_stop_lamp := false; malfunction_lamp := false |},
       Some (if found
             then {| dtc_spn := spn; dtc_fmi := fmi;
                     dtc_oc := fault_occurrence st mod 2 ^ 7;
                     dtc_source_address := dtc_source_address d0;
                     dtc_is_active := true |} :: arr
             else d0 :: arr))
    else
      (1,
       Some {| protect_lamp := false; amber_warning_lamp := false;
               red_stop_lamp := false; malfunction_lamp := false |},
       Some ({| dtc_spn := 0x7FFFF; dtc_fmi := 31; dtc_oc := 127;
                dtc_source_address := dtc_source_address d0;
                dtc_is_active := true |} :: arr)).
Proof.
  intros Hmax. unfold build_pgn_65226_dm1.
  destruct (has_active_fault st).
  - cbv zeta. rewrite parse_dm1_single by exact Hmax. cbv zeta.
    destruct (simulated_fault_fields (fault_spn st) (fault_fmi st))
      as [Hspn Hfmi].
    cbv zeta in Hspn, Hfmi. rewrite Hspn, Hfmi.
    change 0x7F with (2 ^ 7 - 1). rewrite land_mask by lia.
    rewrite (u8_id (fault_occurrence st mod 2 ^ 7))
      by (unfold is_u8;
          pose proof (Z.mod_pos_bound (fault_occurrence st) (2 ^ 7)); lia).
    reflexivity.
  - rewrite parse_dm1_single by exact Hmax. reflexivity.
Qed.

Lemma simulated_dm1_as_parsed_witness :
  j1939_parse_dm1
    (Some (build_pgn_65226_dm1
             (sim_trigger_fault
                {| has_active_fault := false; fault_spn := 0; fault_fmi := 0;
                   fault_occurrence := 0 |} 110 3)))
    8 (Some {| protect_lamp := false; amber_warning_lamp := false;
               red_stop_lamp := false; malfunction_lamp := false |})
    (Some [dtc_zero]) 8
  = (1,
     Some {| protect_lamp := true; amber_warning_lamp := true;
             red_stop_lamp := false; malfunction_lamp := false |},
     Some [{| dtc_spn := 110; dtc_fmi := 24; dtc_oc := 1;
              dtc_source_address := 0; dtc_is_active := true |}]).
Proof.
  apply (simulated_dm1_as_parsed
           (sim_trigger_fault
              {| has_active_fault := false; fault_spn := 0; fault_fmi := 0;
                 fault_occurrence := 0 |} 110 3)).
  lia.
Defined.

End Simulator_props.
